(** * Vt102Emulation: tokenizer, dispatcher, modes, charsets and mouse encoder

    A shallow embedding of Konsole's [Vt102Emulation.cpp].  Every member
    function the properties below talk about is written as a function on an
    explicit emulation state; calls on the two [Screen] objects, emitted Qt
    signals and bytes sent to the child are appended to an output log in the
    order the C++ code performs them. *)

From Stdlib Require Import ZArith List Bool Ascii String Lia.
From stdpp Require Import base list gmap.
Import ListNotations.
Local Open Scope Z_scope.

(** ** Machine integers, characters and C arrays *)

(** Code of a C character literal. *)
Definition chr (a : ascii) : Z := Z.of_N (N_of_ascii a).
Arguments chr a%_char.

(** Codes of a C string literal (without the terminating NUL). *)
Definition codes (s : string) : list Z := map chr (list_ascii_of_string s).
Arguments codes s%_string.

(** [int] is 32-bit two's complement, [uint] is 32-bit unsigned. *)
Definition to_int (z : Z) : Z := (z + 2 ^ 31) mod 2 ^ 32 - 2 ^ 31.
Definition to_uint (z : Z) : Z := z mod 2 ^ 32.

(** A C array of integers that the code reads and writes by index, as the
    map from index to content.  What an uninitialised cell holds is whatever
    the initial map says. *)
Definition array : Type := Z -> Z.

(** [a[i]] *)
Definition rd (a : array) (i : Z) : Z := a i.

(** [a[i] = v] *)
Definition wr (a : array) (i : Z) (v : Z) : array :=
  fun j => if j =? i then v else a j.

(** [table[i]] on a constant table. *)
Definition lookup_table (table : list Z) (i : Z) : Z := nth (Z.to_nat i) table 0.

(** ** printf conversions used by the reports *)

Fixpoint decimal_digits (fuel : nat) (z : Z) (acc : list Z) : list Z :=
  match fuel with
  | O => acc
  | S fuel' =>
      let acc' := (chr "0" + z mod 10) :: acc in
      if z <? 10 then acc' else decimal_digits fuel' (z / 10) acc'
  end.

(** [%d] *)
Definition fmt_d (z : Z) : list Z :=
  if z <? 0
  then chr "-" :: decimal_digits (S (Z.to_nat (Z.log2 (- z)))) (- z) []
  else decimal_digits (S (Z.to_nat (Z.log2 z))) z [].

Definition hex_digit (upper : bool) (d : Z) : Z :=
  if d <? 10 then chr "0" + d
  else (if upper then chr "A" else chr "a") + (d - 10).

Fixpoint hex_digits (upper : bool) (fuel : nat) (z : Z) (acc : list Z) : list Z :=
  match fuel with
  | O => acc
  | S fuel' =>
      let acc' := hex_digit upper (z mod 16) :: acc in
      if z <? 16 then acc' else hex_digits upper fuel' (z / 16) acc'
  end.

(** [%04X] and [%04x] of an unsigned value. *)
Definition fmt_04x (upper : bool) (z : Z) : list Z :=
  let ds := hex_digits upper (S (Z.to_nat (Z.log2 z))) z [] in
  replicate (4 - length ds)%nat (chr "0") ++ ds.

(** [%c]: the argument converted to [unsigned char]. *)
Definition fmt_c (z : Z) : Z := z mod 256.

(** The bytes a C string holds: everything before the first NUL. *)
Fixpoint c_str (bs : list Z) : list Z :=
  match bs with
  | [] => []
  | b :: bs' => if b =? 0 then [] else b :: c_str bs'
  end.

(** [snprintf(buf, size, ...)] followed by reading [buf] as a C string:
    at most [size - 1] bytes are kept. *)
Definition snprintf (size : nat) (formatted : list Z) : list Z :=
  c_str (firstn (size - 1)%nat formatted).

(** UTF-8 encoding of a code unit below 0x800 ([QString::toUtf8] on the two
    coordinates of the 1005 mouse protocol, which are at most 2047). *)
Definition utf8_of_qchar (c : Z) : list Z :=
  if c <? 128 then [c]
  else [Z.lor 192 (Z.shiftr c 6); Z.lor 128 (Z.land c 63)].

(** ** Constants *)

Definition MAX_ARGUMENT : Z := 40960.

(** Modelled from the spec: [MAXARGS] and [MAX_TOKEN_LENGTH] are declared in
    Vt102Emulation.h, which is not part of the sources; the specification
    gives 15 arguments and a token buffer of 80 KiB of code points. *)
Definition MAXARGS : Z := 15.
Definition MAX_TOKEN_LENGTH : Z := 80 * 1024.

Definition ESC : Z := 27.
Definition DEL : Z := 127.
Definition SP : Z := 32.
Definition backslash : Z := 92.
Definition CNTL (c : Z) : Z := c - chr "@".

(** Character class flags used while decoding. *)
Definition CTL : Z := 1.
Definition CHR : Z := 2.
Definition CPN : Z := 4.
Definition DIG : Z := 8.
Definition SCS : Z := 16.
Definition GRP : Z := 32.
Definition CPS : Z := 64.
Definition INT : Z := 128.

(** [unsigned short vt100_graphics[32]] *)
Definition vt100_graphics : list Z :=
  [ 0x0020; 0x25C6; 0x2592; 0x2409; 0x240c; 0x240d; 0x240a; 0x00b0;
    0x00b1; 0x2424; 0x240b; 0x2518; 0x2510; 0x250c; 0x2514; 0x253c;
    0xF800; 0xF801; 0x2500; 0xF803; 0xF804; 0x251c; 0x2524; 0x2534;
    0x252c; 0x2502; 0x2264; 0x2265; 0x03C0; 0x2260; 0x00A3; 0x00b7 ].

(** [enum XTERM_EXTENDED] *)
Definition URL_LINK : Z := chr "8".

(** Modelled from the spec: the colour spaces named by the dispatcher are
    macros of CharacterColor.h, which is not part of the sources.  They
    travel through [processToken]'s integer parameter [p]. *)
Definition COLOR_SPACE_UNDEFINED : Z := 0.
Definition COLOR_SPACE_DEFAULT : Z := 1.
Definition COLOR_SPACE_SYSTEM : Z := 2.
Definition COLOR_SPACE_256 : Z := 3.
Definition COLOR_SPACE_RGB : Z := 4.

(** Rendition flags (Character.h, kept symbolic). *)
Inductive Rendition : Type :=
  | RE_BOLD | RE_BLINK | RE_UNDERLINE | RE_REVERSE | RE_ITALIC | RE_FAINT
  | RE_STRIKEOUT | RE_CONCEAL | RE_OVERLINE.

(** Line properties (Character.h, kept symbolic). *)
Inductive LineProperty : Type :=
  | LINE_DOUBLEWIDTH | LINE_DOUBLEHEIGHT_TOP | LINE_DOUBLEHEIGHT_BOTTOM.

(** [Enum::CursorShapeEnum] (Enumeration.h, kept symbolic). *)
Inductive CursorShapeEnum : Type := BlockCursor | IBeamCursor | UnderlineCursor.

Inductive EmulationCodec : Type := LocaleCodec | Utf8Codec.

(** ** Modes *)

(** Modelled from the spec: the mode identifiers are macros of Screen.h and
    Vt102Emulation.h, which are not part of the sources.  The first five are
    the screen-scoped modes, followed by [MODE_NewLine] (5), [MODE_AppScreen]
    (6) and then the modes of the emulation itself. *)
Inductive Mode : Type :=
  | MODE_Origin | MODE_Wrap | MODE_Insert | MODE_Screen | MODE_Cursor
  | MODE_NewLine | MODE_AppScreen
  | MODE_AppCuKeys | MODE_AppKeyPad
  | MODE_Mouse1000 | MODE_Mouse1001 | MODE_Mouse1002 | MODE_Mouse1003
  | MODE_Mouse1005 | MODE_Mouse1006 | MODE_Mouse1007 | MODE_Mouse1015
  | MODE_Ansi | MODE_132Columns | MODE_Allow132Columns | MODE_BracketedPaste.

(** Modelled from the spec: the number behind each mode macro, following the
    comment in [resetMode] ("MODES_SCREEN is 7, MODE_AppScreen is 6 and
    MODE_NewLine is 5"). *)
Definition mode_number (m : Mode) : Z :=
  match m with
  | MODE_Origin => 0 | MODE_Wrap => 1 | MODE_Insert => 2 | MODE_Screen => 3
  | MODE_Cursor => 4 | MODE_NewLine => 5 | MODE_AppScreen => 6
  | MODE_AppCuKeys => 7 | MODE_AppKeyPad => 8
  | MODE_Mouse1000 => 9 | MODE_Mouse1001 => 10 | MODE_Mouse1002 => 11
  | MODE_Mouse1003 => 12 | MODE_Mouse1005 => 13 | MODE_Mouse1006 => 14
  | MODE_Mouse1007 => 15 | MODE_Mouse1015 => 16
  | MODE_Ansi => 17 | MODE_132Columns => 18 | MODE_Allow132Columns => 19
  | MODE_BracketedPaste => 20
  end.

Definition MODES_SCREEN : Z := 7.

(** [m == m'] on mode macros. *)
Definition mode_eqb (m m' : Mode) : bool := mode_number m =? mode_number m'.

(** [class TerminalState { bool mode[MODE_total]; }]: one boolean per
    mode. *)
Record TerminalState : Type := {
  mode_Origin : bool;
  mode_Wrap : bool;
  mode_Insert : bool;
  mode_Screen : bool;
  mode_Cursor : bool;
  mode_NewLine : bool;
  mode_AppScreen : bool;
  mode_AppCuKeys : bool;
  mode_AppKeyPad : bool;
  mode_Mouse1000 : bool;
  mode_Mouse1001 : bool;
  mode_Mouse1002 : bool;
  mode_Mouse1003 : bool;
  mode_Mouse1005 : bool;
  mode_Mouse1006 : bool;
  mode_Mouse1007 : bool;
  mode_Mouse1015 : bool;
  mode_Ansi : bool;
  mode_132Columns : bool;
  mode_Allow132Columns : bool;
  mode_BracketedPaste : bool
}.

(** [ts.mode[m]] *)
Definition mode_get (ts : TerminalState) (m : Mode) : bool :=
  match m with
  | MODE_Origin => mode_Origin ts
  | MODE_Wrap => mode_Wrap ts
  | MODE_Insert => mode_Insert ts
  | MODE_Screen => mode_Screen ts
  | MODE_Cursor => mode_Cursor ts
  | MODE_NewLine => mode_NewLine ts
  | MODE_AppScreen => mode_AppScreen ts
  | MODE_AppCuKeys => mode_AppCuKeys ts
  | MODE_AppKeyPad => mode_AppKeyPad ts
  | MODE_Mouse1000 => mode_Mouse1000 ts
  | MODE_Mouse1001 => mode_Mouse1001 ts
  | MODE_Mouse1002 => mode_Mouse1002 ts
  | MODE_Mouse1003 => mode_Mouse1003 ts
  | MODE_Mouse1005 => mode_Mouse1005 ts
  | MODE_Mouse1006 => mode_Mouse1006 ts
  | MODE_Mouse1007 => mode_Mouse1007 ts
  | MODE_Mouse1015 => mode_Mouse1015 ts
  | MODE_Ansi => mode_Ansi ts
  | MODE_132Columns => mode_132Columns ts
  | MODE_Allow132Columns => mode_Allow132Columns ts
  | MODE_BracketedPaste => mode_BracketedPaste ts
  end.

(** [ts.mode[m] = b] *)
Definition mode_put (ts : TerminalState) (m : Mode) (b : bool) : TerminalState :=
  {| mode_Origin := if mode_eqb m MODE_Origin then b else mode_Origin ts;
     mode_Wrap := if mode_eqb m MODE_Wrap then b else mode_Wrap ts;
     mode_Insert := if mode_eqb m MODE_Insert then b else mode_Insert ts;
     mode_Screen := if mode_eqb m MODE_Screen then b else mode_Screen ts;
     mode_Cursor := if mode_eqb m MODE_Cursor then b else mode_Cursor ts;
     mode_NewLine := if mode_eqb m MODE_NewLine then b else mode_NewLine ts;
     mode_AppScreen := if mode_eqb m MODE_AppScreen then b else mode_AppScreen ts;
     mode_AppCuKeys := if mode_eqb m MODE_AppCuKeys then b else mode_AppCuKeys ts;
     mode_AppKeyPad := if mode_eqb m MODE_AppKeyPad then b else mode_AppKeyPad ts;
     mode_Mouse1000 := if mode_eqb m MODE_Mouse1000 then b else mode_Mouse1000 ts;
     mode_Mouse1001 := if mode_eqb m MODE_Mouse1001 then b else mode_Mouse1001 ts;
     mode_Mouse1002 := if mode_eqb m MODE_Mouse1002 then b else mode_Mouse1002 ts;
     mode_Mouse1003 := if mode_eqb m MODE_Mouse1003 then b else mode_Mouse1003 ts;
     mode_Mouse1005 := if mode_eqb m MODE_Mouse1005 then b else mode_Mouse1005 ts;
     mode_Mouse1006 := if mode_eqb m MODE_Mouse1006 then b else mode_Mouse1006 ts;
     mode_Mouse1007 := if mode_eqb m MODE_Mouse1007 then b else mode_Mouse1007 ts;
     mode_Mouse1015 := if mode_eqb m MODE_Mouse1015 then b else mode_Mouse1015 ts;
     mode_Ansi := if mode_eqb m MODE_Ansi then b else mode_Ansi ts;
     mode_132Columns := if mode_eqb m MODE_132Columns then b else mode_132Columns ts;
     mode_Allow132Columns := if mode_eqb m MODE_Allow132Columns then b else mode_Allow132Columns ts;
     mode_BracketedPaste := if mode_eqb m MODE_BracketedPaste then b else mode_BracketedPaste ts |}.

(** Modelled from the spec: [TerminalState()] initialises all modes to
    false. *)
Definition TerminalState_new : TerminalState :=
  {| mode_Origin := false;
     mode_Wrap := false;
     mode_Insert := false;
     mode_Screen := false;
     mode_Cursor := false;
     mode_NewLine := false;
     mode_AppScreen := false;
     mode_AppCuKeys := false;
     mode_AppKeyPad := false;
     mode_Mouse1000 := false;
     mode_Mouse1001 := false;
     mode_Mouse1002 := false;
     mode_Mouse1003 := false;
     mode_Mouse1005 := false;
     mode_Mouse1006 := false;
     mode_Mouse1007 := false;
     mode_Mouse1015 := false;
     mode_Ansi := false;
     mode_132Columns := false;
     mode_Allow132Columns := false;
     mode_BracketedPaste := false |}.

(** ** The outside world: Screen calls, signals and queries *)

(** Operations the emulation invokes on a [Screen]. *)
Inductive ScreenCall : Type :=
  | displayCharacter (c : Z)
  | backspace | tab (n : Z) | backtab (n : Z) | newLine | toStartOfLine
  | index | reverseIndex | nextLine
  | changeTabStop (set : bool) | clearTabStops
  | setLineProperty (property : LineProperty) (enable : bool)
  | helpAlign
  | clearToEndOfLine | clearToBeginOfLine | clearEntireLine
  | clearToEndOfScreen | clearToBeginOfScreen | clearEntireScreen
  | Screen_setMode (m : Mode) | Screen_resetMode (m : Mode)
  | Screen_saveMode (m : Mode) | Screen_restoreMode (m : Mode)
  | setRendition (r : Rendition) | resetRendition (r : Rendition)
  | setDefaultRendition
  | setForeColor (space color : Z) | setBackColor (space color : Z)
  | insertChars (n : Z) | deleteChars (n : Z) | eraseChars (n : Z)
  | repeatChars (n : Z)
  | insertLines (n : Z) | deleteLines (n : Z)
  | cursorUp (n : Z) | cursorDown (n : Z) | cursorLeft (n : Z)
  | cursorRight (n : Z) | cursorNextLine (n : Z) | cursorPreviousLine (n : Z)
  | setCursorX (x : Z) | setCursorY (y : Z) | setCursorYX (y x : Z)
  | scrollUp (n : Z) | scrollDown (n : Z)
  | Screen_setMargins (top bottom : Z) | Screen_setDefaultMargins
  | Screen_saveCursor | Screen_restoreCursor
  | clearSelection | Screen_reset
  | toggleUrlInput | setUrl (url : list Z).

(** Everything observable from outside, in the order it happens.  A screen
    is named by its index in [_screen]: [false] is [_screen[0]], the primary
    screen, [true] is [_screen[1]], the alternate one. *)
Inductive Event : Type :=
  | OnScreen (scrno : bool) (call : ScreenCall)
  | sendData (bytes : list Z)
  | bell
  | imageResizeRequest (columns rows : Z)
  | Emulation_setImageSize (lines columns : Z)
  | setCursorStyleRequest (shape : CursorShapeEnum) (isBlinking : bool)
  | setCursorStyleRequest_cast (shape : Z)
  | resetCursorStyleRequest
  | programRequestsMouseTracking (on : bool)
  | programBracketedPasteModeChanged (on : bool)
  | enableAlternateScrolling (on : bool)
  | sessionAttributeRequest (attribute terminator : Z)
  | sessionAttributeChanged (attribute : Z) (value : list Z)
  | sessionAttributesUpdateTimer_start (msec : Z)
  | setCodec (c : EmulationCodec)
  | clearHistory
  | bufferedUpdate
  | reportDecodingError_called (undecodable : option (list Z)).

(** [struct Character], as far as the checksum reads it. *)
Record Character : Type := {
  character : Z;
  rendition : Rendition -> bool
}.

(** What the emulation reads from its collaborators.  A deterministic
    [Screen] answers as a function of the calls made so far, so each query
    takes the screen index and the output log.  [ENABLE_DECRQCRA] is the
    build option of the same name and [ProfileChange] the constant
    [Session::ProfileChange]. *)
Record World : Type := {
  getLines : bool -> list Event -> Z;
  getColumns : bool -> list Event -> Z;
  getCursorX : bool -> list Event -> Z;
  getCursorY : bool -> list Event -> Z;
  topMargin : bool -> list Event -> Z;
  Screen_getMode : bool -> list Event -> Mode -> bool;
  getImage : bool -> list Event -> Z -> Character;
  urlExtractor_reading : bool -> list Event -> bool;
  ENABLE_DECRQCRA : bool;
  ProfileChange : Z
}.

(** ** The emulation state *)

(** [struct CharCodes] *)
Record CharCodes : Type := {
  charset : array;
  cu_cs : Z;
  graphic : bool;
  pound : bool;
  sa_graphic : bool;
  sa_pound : bool
}.

Record Vt102Emulation : Type := {
  tokenBuffer : array;
  tokenBufferPos : Z;
  argc : Z;
  argv : array;
  _currentModes : TerminalState;
  _savedModes : TerminalState;
  _charset : CharCodes * CharCodes;
  _currentScreen : bool;
  _codec : option EmulationCodec;
  _pendingSessionAttributesUpdates : gmap Z (list Z);
  _reportFocusEvents : bool;
  world : World;
  out : list Event
}.

(** Field updates. *)
Definition set_tokenizer (buf : array) (pos : Z) (n : Z) (args : array) (st : Vt102Emulation) : Vt102Emulation :=
  {| tokenBuffer := buf;
     tokenBufferPos := pos;
     argc := n;
     argv := args;
     _currentModes := _currentModes st;
     _savedModes := _savedModes st;
     _charset := _charset st;
     _currentScreen := _currentScreen st;
     _codec := _codec st;
     _pendingSessionAttributesUpdates := _pendingSessionAttributesUpdates st;
     _reportFocusEvents := _reportFocusEvents st;
     world := world st;
     out := out st |}.

Definition set_currentModes (ts : TerminalState) (st : Vt102Emulation) : Vt102Emulation :=
  {| tokenBuffer := tokenBuffer st;
     tokenBufferPos := tokenBufferPos st;
     argc := argc st;
     argv := argv st;
     _currentModes := ts;
     _savedModes := _savedModes st;
     _charset := _charset st;
     _currentScreen := _currentScreen st;
     _codec := _codec st;
     _pendingSessionAttributesUpdates := _pendingSessionAttributesUpdates st;
     _reportFocusEvents := _reportFocusEvents st;
     world := world st;
     out := out st |}.

Definition set_savedModes (ts : TerminalState) (st : Vt102Emulation) : Vt102Emulation :=
  {| tokenBuffer := tokenBuffer st;
     tokenBufferPos := tokenBufferPos st;
     argc := argc st;
     argv := argv st;
     _currentModes := _currentModes st;
     _savedModes := ts;
     _charset := _charset st;
     _currentScreen := _currentScreen st;
     _codec := _codec st;
     _pendingSessionAttributesUpdates := _pendingSessionAttributesUpdates st;
     _reportFocusEvents := _reportFocusEvents st;
     world := world st;
     out := out st |}.

Definition set_charset (cs : CharCodes * CharCodes) (st : Vt102Emulation) : Vt102Emulation :=
  {| tokenBuffer := tokenBuffer st;
     tokenBufferPos := tokenBufferPos st;
     argc := argc st;
     argv := argv st;
     _currentModes := _currentModes st;
     _savedModes := _savedModes st;
     _charset := cs;
     _currentScreen := _currentScreen st;
     _codec := _codec st;
     _pendingSessionAttributesUpdates := _pendingSessionAttributesUpdates st;
     _reportFocusEvents := _reportFocusEvents st;
     world := world st;
     out := out st |}.

Definition set_currentScreen (scrno : bool) (st : Vt102Emulation) : Vt102Emulation :=
  {| tokenBuffer := tokenBuffer st;
     tokenBufferPos := tokenBufferPos st;
     argc := argc st;
     argv := argv st;
     _currentModes := _currentModes st;
     _savedModes := _savedModes st;
     _charset := _charset st;
     _currentScreen := scrno;
     _codec := _codec st;
     _pendingSessionAttributesUpdates := _pendingSessionAttributesUpdates st;
     _reportFocusEvents := _reportFocusEvents st;
     world := world st;
     out := out st |}.

Definition set_codec (c : option EmulationCodec) (st : Vt102Emulation) : Vt102Emulation :=
  {| tokenBuffer := tokenBuffer st;
     tokenBufferPos := tokenBufferPos st;
     argc := argc st;
     argv := argv st;
     _currentModes := _currentModes st;
     _savedModes := _savedModes st;
     _charset := _charset st;
     _currentScreen := _currentScreen st;
     _codec := c;
     _pendingSessionAttributesUpdates := _pendingSessionAttributesUpdates st;
     _reportFocusEvents := _reportFocusEvents st;
     world := world st;
     out := out st |}.

Definition set_pending (m : gmap Z (list Z)) (st : Vt102Emulation) : Vt102Emulation :=
  {| tokenBuffer := tokenBuffer st;
     tokenBufferPos := tokenBufferPos st;
     argc := argc st;
     argv := argv st;
     _currentModes := _currentModes st;
     _savedModes := _savedModes st;
     _charset := _charset st;
     _currentScreen := _currentScreen st;
     _codec := _codec st;
     _pendingSessionAttributesUpdates := m;
     _reportFocusEvents := _reportFocusEvents st;
     world := world st;
     out := out st |}.

Definition set_reportFocusEvents (b : bool) (st : Vt102Emulation) : Vt102Emulation :=
  {| tokenBuffer := tokenBuffer st;
     tokenBufferPos := tokenBufferPos st;
     argc := argc st;
     argv := argv st;
     _currentModes := _currentModes st;
     _savedModes := _savedModes st;
     _charset := _charset st;
     _currentScreen := _currentScreen st;
     _codec := _codec st;
     _pendingSessionAttributesUpdates := _pendingSessionAttributesUpdates st;
     _reportFocusEvents := b;
     world := world st;
     out := out st |}.

(** Append one observable event to the log. *)
Definition emit (e : Event) (st : Vt102Emulation) : Vt102Emulation :=
  {| tokenBuffer := tokenBuffer st;
     tokenBufferPos := tokenBufferPos st;
     argc := argc st;
     argv := argv st;
     _currentModes := _currentModes st;
     _savedModes := _savedModes st;
     _charset := _charset st;
     _currentScreen := _currentScreen st;
     _codec := _codec st;
     _pendingSessionAttributesUpdates := _pendingSessionAttributesUpdates st;
     _reportFocusEvents := _reportFocusEvents st;
     world := world st;
     out := out st ++ [e] |}.

(** A call on [_screen[scrno]], and on [_currentScreen]. *)
Definition on_screen (scrno : bool) (call : ScreenCall) : Vt102Emulation -> Vt102Emulation :=
  emit (OnScreen scrno call).

Definition on_current (call : ScreenCall) (st : Vt102Emulation) : Vt102Emulation :=
  on_screen (_currentScreen st) call st.

(** [emit sendData(s)] *)
Definition sendString (s : list Z) : Vt102Emulation -> Vt102Emulation :=
  emit (sendData s).

(** ** Tokenizer state *)

Definition resetTokenizer (st : Vt102Emulation) : Vt102Emulation :=
  set_tokenizer (tokenBuffer st) 0 0 (wr (wr (argv st) 0 0) 1 0) st.

Definition addDigit (digit : Z) (st : Vt102Emulation) : Vt102Emulation :=
  set_tokenizer (tokenBuffer st) (tokenBufferPos st) (argc st)
    (wr (argv st) (argc st)
        (Z.min (to_int (10 * rd (argv st) (argc st) + digit)) MAX_ARGUMENT))
    st.

Definition addArgument (st : Vt102Emulation) : Vt102Emulation :=
  let argc' := Z.min (argc st + 1) (MAXARGS - 1) in
  set_tokenizer (tokenBuffer st) (tokenBufferPos st) argc'
    (wr (argv st) argc' 0) st.

Definition addToCurrentToken (cc : Z) (st : Vt102Emulation) : Vt102Emulation :=
  let pos := Z.min (tokenBufferPos st) (MAX_TOKEN_LENGTH - 1) in
  set_tokenizer (wr (tokenBuffer st) pos cc) (pos + 1) (argc st) (argv st) st.

(** [charClass[c] |= flag] for every [c] of [cs]. *)
Definition mark (flag : Z) (cs : list Z) (tbl : list Z) : list Z :=
  fold_left (fun t c => <[Z.to_nat c := Z.lor (lookup_table t c) flag]> t) cs tbl.

(** The table [initTokenizer] fills, loop by loop. *)
Definition initTokenizer_charClass : list Z :=
  let t := replicate 256 0 in
  let t := mark CTL (seqZ 0 32) t in
  let t := mark CHR (seqZ 32 (256 - 32)) t in
  let t := mark INT (seqZ 0x20 (0x30 - 0x20)) t in
  let t := mark CPN (codes "@ABCDEFGHILMPSTXZbcdfry") t in
  let t := mark CPS (codes "t") t in
  let t := mark DIG (codes "0123456789") t in
  let t := mark SCS (codes "()+*%") t in
  mark GRP (codes "()+*#[]%") t.

(** [charClass[c]]; the array has 256 entries and every read the tokenizer
    makes on its current character is guarded by [cc < 256].  An index past
    the table reads as 0 here. *)
Definition charClass_table : list Z :=
  Eval vm_compute in initTokenizer_charClass.

Definition charClass (c : Z) : Z := lookup_table charClass_table c.

(** [(charClass[c] & C) == C] *)
Definition has_class (c : Z) (C : Z) : bool := Z.land (charClass c) C =? C.

(** ** Screens and character sets *)

(** Modelled from the spec: [Emulation::setScreen] lives in the base class,
    which is not part of the sources; it makes [_screen[n & 1]] the current
    screen. *)
Definition setScreen (n : Z) (st : Vt102Emulation) : Vt102Emulation :=
  set_currentScreen (Z.land n 1 =? 1) st.

(** Modelled from the spec: [Emulation::setCodec] (base class) installs the
    codec; the choice is recorded and logged. *)
Definition Emulation_setCodec (c : EmulationCodec) (st : Vt102Emulation) : Vt102Emulation :=
  emit (setCodec c) (set_codec (Some c) st).

(** [Vt102Emulation::clearEntireScreen] (the name without the underscore is
    the Screen operation it forwards to). *)
Definition clearEntireScreen_ (st : Vt102Emulation) : Vt102Emulation :=
  emit bufferedUpdate (on_current clearEntireScreen st).

Definition setDefaultMargins (st : Vt102Emulation) : Vt102Emulation :=
  on_screen true Screen_setDefaultMargins (on_screen false Screen_setDefaultMargins st).

Definition setMargins (t b : Z) (st : Vt102Emulation) : Vt102Emulation :=
  on_screen true (Screen_setMargins t b) (on_screen false (Screen_setMargins t b) st).

Definition clearScreenAndSetColumns (columnCount : Z) (st : Vt102Emulation) : Vt102Emulation :=
  let st := emit (Emulation_setImageSize
                    (getLines (world st) (_currentScreen st) (out st)) columnCount) st in
  let st := clearEntireScreen_ st in
  let st := setDefaultMargins st in
  on_current (setCursorYX 0 0) st.

(** [(char) cs], with [char] signed. *)
Definition to_char (cs : Z) : Z := (cs + 128) mod 256 - 128.

Definition CharCodes_use (n : Z) (c : CharCodes) : CharCodes :=
  {| charset := charset c;
     cu_cs := Z.land n 3;
     graphic := rd (charset c) (Z.land n 3) =? chr "0";
     pound := rd (charset c) (Z.land n 3) =? chr "A";
     sa_graphic := sa_graphic c;
     sa_pound := sa_pound c |}.

Definition CharCodes_designate (n cs : Z) (c : CharCodes) : CharCodes :=
  {| charset := wr (charset c) (Z.land n 3) (to_char cs);
     cu_cs := cu_cs c;
     graphic := graphic c;
     pound := pound c;
     sa_graphic := sa_graphic c;
     sa_pound := sa_pound c |}.

(** [_charset[scrno]] *)
Definition charset_of (scrno : bool) (st : Vt102Emulation) : CharCodes :=
  if scrno then snd (_charset st) else fst (_charset st).

(** [_charset[scrno]] replaced by [f (_charset[scrno])]. *)
Definition update_charset (scrno : bool) (f : CharCodes -> CharCodes)
    (st : Vt102Emulation) : Vt102Emulation :=
  set_charset (if scrno then (fst (_charset st), f (snd (_charset st)))
               else (f (fst (_charset st)), snd (_charset st))) st.

(** [#define CHARSET _charset[_currentScreen == _screen[1]]] *)
Definition CHARSET (st : Vt102Emulation) : CharCodes := charset_of (_currentScreen st) st.

Definition update_CHARSET (f : CharCodes -> CharCodes) (st : Vt102Emulation) : Vt102Emulation :=
  update_charset (_currentScreen st) f st.

Definition applyCharset (c : Z) (st : Vt102Emulation) : Z :=
  if graphic (CHARSET st) && (0x5f <=? c) && (c <=? 0x7e)
  then lookup_table vt100_graphics (c - 0x5f)
  else if pound (CHARSET st) && (c =? chr "#") then 0xa3
  else c.

(** [qstrncpy(dst, "BBBB", 4)] copies three characters and terminates the
    destination with NUL. *)
Definition resetCharset (scrno : bool) (st : Vt102Emulation) : Vt102Emulation :=
  update_charset scrno (fun c =>
    {| charset := wr (wr (wr (wr (charset c) 0 (chr "B")) 1 (chr "B")) 2 (chr "B")) 3 0;
       cu_cs := 0;
       graphic := false; pound := false;
       sa_graphic := false; sa_pound := false |}) st.

Definition useCharset (n : Z) (st : Vt102Emulation) : Vt102Emulation :=
  update_CHARSET (CharCodes_use n) st.

Definition setCharset (n cs : Z) (st : Vt102Emulation) : Vt102Emulation :=
  let st := update_charset false (CharCodes_designate n cs) st in
  let st := useCharset (cu_cs (charset_of false st)) st in
  let st := update_charset true (CharCodes_designate n cs) st in
  useCharset (cu_cs (charset_of true st)) st.

Definition setAndUseCharset (n cs : Z) (st : Vt102Emulation) : Vt102Emulation :=
  let st := update_CHARSET (CharCodes_designate n cs) st in
  useCharset (Z.land n 3) st.

Definition saveCursor (st : Vt102Emulation) : Vt102Emulation :=
  let st := update_CHARSET (fun c =>
    {| charset := charset c; cu_cs := cu_cs c;
       graphic := graphic c; pound := pound c;
       sa_graphic := graphic c; sa_pound := pound c |}) st in
  on_current Screen_saveCursor st.

Definition restoreCursor (st : Vt102Emulation) : Vt102Emulation :=
  let st := update_CHARSET (fun c =>
    {| charset := charset c; cu_cs := cu_cs c;
       graphic := sa_graphic c; pound := sa_pound c;
       sa_graphic := sa_graphic c; sa_pound := sa_pound c |}) st in
  on_current Screen_restoreCursor st.

(** ** Mode operations *)

Definition getMode (m : Mode) (st : Vt102Emulation) : bool := mode_get (_currentModes st) m.

(** [_currentModes.mode[m] = b] *)
Definition put_mode (m : Mode) (b : bool) (st : Vt102Emulation) : Vt102Emulation :=
  set_currentModes (mode_put (_currentModes st) m b) st.

(** [m < MODES_SCREEN || m == MODE_NewLine] *)
Definition is_screen_mode (m : Mode) : bool :=
  (mode_number m <? MODES_SCREEN) || mode_eqb m MODE_NewLine.

Definition clear_mouse_tracking (st : Vt102Emulation) : Vt102Emulation :=
  put_mode MODE_Mouse1003 false
    (put_mode MODE_Mouse1002 false
       (put_mode MODE_Mouse1001 false
          (put_mode MODE_Mouse1000 false st))).

Definition setMode (m : Mode) (st : Vt102Emulation) : Vt102Emulation :=
  let st := put_mode m true st in
  let st :=
    match m with
    | MODE_132Columns =>
        if getMode MODE_Allow132Columns st then clearScreenAndSetColumns 132 st
        else put_mode m false st
    | MODE_Mouse1000 | MODE_Mouse1001 | MODE_Mouse1002 | MODE_Mouse1003 =>
        emit (programRequestsMouseTracking true)
          (put_mode m true (clear_mouse_tracking st))
    | MODE_Mouse1007 => emit (enableAlternateScrolling true) st
    | MODE_Mouse1005 | MODE_Mouse1006 | MODE_Mouse1015 =>
        put_mode m true
          (put_mode MODE_Mouse1015 false
             (put_mode MODE_Mouse1006 false
                (put_mode MODE_Mouse1005 false st)))
    | MODE_BracketedPaste => emit (programBracketedPasteModeChanged true) st
    | MODE_AppScreen =>
        setScreen 1 (on_screen true clearSelection
                       (on_screen true setDefaultRendition st))
    | _ => st
    end in
  if is_screen_mode m
  then on_screen true (Screen_setMode m) (on_screen false (Screen_setMode m) st)
  else st.

Definition resetMode (m : Mode) (st : Vt102Emulation) : Vt102Emulation :=
  let st := put_mode m false st in
  let st :=
    match m with
    | MODE_132Columns =>
        if getMode MODE_Allow132Columns st then clearScreenAndSetColumns 80 st
        else st
    | MODE_Mouse1000 | MODE_Mouse1001 | MODE_Mouse1002 | MODE_Mouse1003 =>
        emit (programRequestsMouseTracking false) (clear_mouse_tracking st)
    | MODE_Mouse1007 => emit (enableAlternateScrolling false) st
    | MODE_BracketedPaste => emit (programBracketedPasteModeChanged false) st
    | MODE_AppScreen => setScreen 0 (on_screen false clearSelection st)
    | _ => st
    end in
  if is_screen_mode m
  then on_screen true (Screen_resetMode m) (on_screen false (Screen_resetMode m) st)
  else st.

Definition saveMode (m : Mode) (st : Vt102Emulation) : Vt102Emulation :=
  set_savedModes (mode_put (_savedModes st) m (mode_get (_currentModes st) m)) st.

Definition restoreMode (m : Mode) (st : Vt102Emulation) : Vt102Emulation :=
  if mode_get (_savedModes st) m then setMode m st else resetMode m st.

Definition resetModes (st : Vt102Emulation) : Vt102Emulation :=
  let st := saveMode MODE_132Columns (resetMode MODE_132Columns st) in
  let st := saveMode MODE_Mouse1000 (resetMode MODE_Mouse1000 st) in
  let st := saveMode MODE_Mouse1001 (resetMode MODE_Mouse1001 st) in
  let st := saveMode MODE_Mouse1002 (resetMode MODE_Mouse1002 st) in
  let st := saveMode MODE_Mouse1003 (resetMode MODE_Mouse1003 st) in
  let st := saveMode MODE_Mouse1005 (resetMode MODE_Mouse1005 st) in
  let st := saveMode MODE_Mouse1006 (resetMode MODE_Mouse1006 st) in
  let st := saveMode MODE_Mouse1015 (resetMode MODE_Mouse1015 st) in
  let st := saveMode MODE_BracketedPaste (resetMode MODE_BracketedPaste st) in
  let st := saveMode MODE_AppScreen (resetMode MODE_AppScreen st) in
  let st := saveMode MODE_AppCuKeys (resetMode MODE_AppCuKeys st) in
  let st := saveMode MODE_AppKeyPad (resetMode MODE_AppKeyPad st) in
  let st := resetMode MODE_NewLine st in
  setMode MODE_Ansi st.

Definition reset (st : Vt102Emulation) : Vt102Emulation :=
  let currentCodec := _codec st in
  let st := resetTokenizer st in
  let st := resetModes st in
  let st := resetCharset false st in
  let st := on_screen false Screen_reset st in
  let st := resetCharset true st in
  let st := on_screen true Screen_reset st in
  let st := match currentCodec with
            | Some c => Emulation_setCodec c st
            | None => Emulation_setCodec LocaleCodec st
            end in
  let st := emit resetCursorStyleRequest st in
  emit bufferedUpdate st.

(** ** Device reports *)

Definition reportCursorPosition (st : Vt102Emulation) : Vt102Emulation :=
  let cur := _currentScreen st in
  let y := getCursorY (world st) cur (out st) + 1 in
  let x := getCursorX (world st) cur (out st) + 1 in
  let y := if Screen_getMode (world st) cur (out st) MODE_Origin
           then y - topMargin (world st) cur (out st) else y in
  sendString (snprintf 30 ([ESC; chr "["] ++ fmt_d y ++ [chr ";"] ++ fmt_d x ++ [chr "R"])) st.

Definition reportSize (st : Vt102Emulation) : Vt102Emulation :=
  let cur := _currentScreen st in
  sendString (snprintf 30 ([ESC] ++ codes "[8;" ++ fmt_d (getLines (world st) cur (out st))
                           ++ [chr ";"] ++ fmt_d (getColumns (world st) cur (out st))
                           ++ [chr "t"])) st.

Definition reportTerminalType (st : Vt102Emulation) : Vt102Emulation :=
  if getMode MODE_Ansi st
  then sendString ([ESC] ++ codes "[?1;2c") st
  else sendString ([ESC] ++ codes "/Z") st.

Definition reportTertiaryAttributes (st : Vt102Emulation) : Vt102Emulation :=
  sendString ([ESC] ++ codes "P!|7E4B4445" ++ [ESC; backslash]) st.

Definition reportSecondaryAttributes (st : Vt102Emulation) : Vt102Emulation :=
  if getMode MODE_Ansi st
  then sendString ([ESC] ++ codes "[>0;115;0c") st
  else sendString ([ESC] ++ codes "/Z") st.

Definition reportTerminalParms (p : Z) (st : Vt102Emulation) : Vt102Emulation :=
  sendString (snprintf 100 ([ESC; chr "["] ++ fmt_d p ++ codes ";1;1;112;112;1;0x")) st.

Definition reportStatus (st : Vt102Emulation) : Vt102Emulation :=
  sendString ([ESC] ++ codes "[0n") st.

Definition reportAnswerBack (st : Vt102Emulation) : Vt102Emulation :=
  sendString [] st.

(** [qBound(lo, v, hi)] *)
Definition qBound (lo v hi : Z) : Z := Z.max lo (Z.min hi v).

(** What one cell adds to the DECRQCRA checksum. *)
Definition checksum_cell (c : Character) : Z :=
  (if rendition c RE_CONCEAL then 0x20 else character c)
  + (if rendition c RE_BOLD then 0x80 else 0)
  + (if rendition c RE_BLINK then 0x40 else 0)
  + (if rendition c RE_REVERSE then 0x20 else 0)
  + (if rendition c RE_UNDERLINE then 0x10 else 0).

(** [processChecksumRequest(argc, argv)]; the allocation of the image copy
    is taken to succeed. *)
Definition processChecksumRequest (st : Vt102Emulation) : Vt102Emulation :=
  let a := rd (argv st) in
  let cur := _currentScreen st in
  let lines := getLines (world st) cur (out st) in
  let columns := getColumns (world st) cur (out st) in
  let reply (checksum : Z) :=
    sendString (snprintf 30 ([ESC; chr "P"] ++ fmt_d (a 0) ++ codes "!~"
                             ++ fmt_04x true (Z.land (to_int (- checksum)) 0xffff)
                             ++ [ESC; backslash])) st in
  if ENABLE_DECRQCRA (world st) then
    let n := if a 1 =? 0 then 1 else argc st in
    let top := if 2 <=? n then a 2 else 1 in
    let left := if 3 <=? n then a 3 else 1 in
    let bottom := if 4 <=? n then a 4 else lines in
    let right := if 5 <=? n then a 5 else columns in
    if (bottom <? top) || (right <? left) then st
    else
      let origin := Screen_getMode (world st) cur (out st) MODE_Origin in
      let top := if origin then top + topMargin (world st) cur (out st) else top in
      let bottom := if origin then bottom + topMargin (world st) cur (out st) else bottom in
      let top := qBound 1 top lines in
      let bottom := qBound 1 bottom lines in
      let cell y x := checksum_cell (getImage (world st) cur (out st) (y * columns + x)) in
      let row sum y :=
        fold_left (fun sum x => to_int (sum + cell y x)) (seqZ (left - 1) (right - left + 1)) sum in
      reply (fold_left row (seqZ (top - 1) (bottom - top + 1)) 0)
  else reply 0.

(** ** Decoding errors *)

(** [hexdump2]: the printable rendering of the scan buffer. *)
Definition hexdump2 (s : array) (len : Z) : list Z :=
  flat_map (fun c =>
    if c =? backslash then [backslash; backslash]
    else if (32 <? c) && (c <? 127) then [fmt_c c]
    else if c =? 0x1b then codes "ESC"
    else [backslash] ++ fmt_04x false c ++ codes "(hex)")
    (map (rd s) (seqZ 0 len)).

(** Every call is logged; the log entry carries the message the function
    builds, or [None] when it returns before building one. *)
Definition reportDecodingError (st : Vt102Emulation) : Vt102Emulation :=
  if (tokenBufferPos st =? 0)
     || ((tokenBufferPos st =? 1) && (32 <=? Z.land (rd (tokenBuffer st) 0) 0xff))
  then emit (reportDecodingError_called None) st
  else emit (reportDecodingError_called
               (Some (codes "Undecodable sequence: "
                      ++ hexdump2 (tokenBuffer st) (tokenBufferPos st)))) st.

(** ** Session attributes (OSC) *)

(** The loop that reads the decimal attribute number, starting at index
    [i]; returns the index it stops at and the number read. *)
Fixpoint scan_attribute (fuel : nat) (buf : array) (tokenSize i attribute : Z) : Z * Z :=
  match fuel with
  | O => (i, attribute)
  | S fuel' =>
      if (i <? tokenSize) && (chr "0" <=? rd buf i) && (rd buf i <=? chr "9")
      then scan_attribute fuel' buf tokenSize (i + 1)
             (to_int (10 * attribute + (rd buf i - chr "0")))
      else (i, attribute)
  end.

(** Index of the first [c] in [l], or -1. *)
Fixpoint indexOf (c : Z) (l : list Z) : Z :=
  match l with
  | [] => -1
  | x :: l' => if x =? c then 0
               else let r := indexOf c l' in if r <? 0 then -1 else r + 1
  end.

Fixpoint startsWith (prefix l : list Z) : bool :=
  match prefix, l with
  | [], _ => true
  | a :: prefix', b :: l' => (a =? b) && startsWith prefix' l'
  | _ :: _, [] => false
  end.

(** [value.right(1).toInt()] *)
Definition last_digit_toInt (value : list Z) : Z :=
  let c := List.last value 0 in
  if (chr "0" <=? c) && (c <=? chr "9") then c - chr "0" else 0.

Definition processSessionAttributeRequest (tokenSize : Z) (st : Vt102Emulation) : Vt102Emulation :=
  let buf := tokenBuffer st in
  let tokenSize := tokenSize - 1 in
  let '(i, attribute) := scan_attribute (Z.to_nat tokenSize) buf tokenSize 2 0 in
  if negb (rd buf i =? chr ";") then reportDecodingError st
  else
    let i := i + 1 in
    let value := map (rd buf) (seqZ i (tokenSize - i)) in
    if urlExtractor_reading (world st) (_currentScreen st) (out st) then
      on_current (setUrl (skipn (Z.to_nat (indexOf (chr ";") value + 1)) value)) st
    else if bool_decide (value = [chr "?"]) then
      emit (sessionAttributeRequest attribute (rd buf tokenSize)) st
    else if (attribute =? ProfileChange (world st)) && startsWith (codes "CursorShape=") value then
      emit (setCursorStyleRequest_cast (last_digit_toInt value)) st
    else
      emit (sessionAttributesUpdateTimer_start 20)
        (set_pending (<[attribute := value]> (_pendingSessionAttributesUpdates st)) st).

(** ** Tokens *)

Definition token_construct (t a n : Z) : Z :=
  to_int (Z.lor (Z.lor (Z.shiftl (Z.land n 0xffff) 16) (Z.shiftl (Z.land a 0xff) 8))
                (Z.land t 0xff)).
Definition token_chr : Z := token_construct 0 0 0.
Definition token_ctl (a : Z) : Z := token_construct 1 a 0.
Definition token_esc (a : Z) : Z := token_construct 2 a 0.
Definition token_esc_cs (a b : Z) : Z := token_construct 3 a b.
Definition token_esc_de (a : Z) : Z := token_construct 4 a 0.
Definition token_csi_ps (a n : Z) : Z := token_construct 5 a n.
Definition token_csi_pn (a : Z) : Z := token_construct 6 a 0.
Definition token_csi_pr (a n : Z) : Z := token_construct 7 a n.
Definition token_vt52 (a : Z) : Z := token_construct 8 a 0.
Definition token_csi_pg (a : Z) : Z := token_construct 9 a 0.
Definition token_csi_pe (a : Z) : Z := token_construct 10 a 0.
Definition token_csi_sp (a : Z) : Z := token_construct 11 a 0.
Definition token_csi_psp (a n : Z) : Z := token_construct 12 a n.
Definition token_csi_pq (a : Z) : Z := token_construct 13 a 0.

(** ** Interpreting tokens *)

(** What a [case] of [processToken] does with the parameters [p] and [q]. *)
Definition Action : Type := Z -> Z -> Vt102Emulation -> Vt102Emulation.

(** A [case] that is only a comment. *)
Definition skip (st : Vt102Emulation) : Vt102Emulation := st.

(** Two statements in sequence. *)
Definition and_then (f g : Vt102Emulation -> Vt102Emulation) : Vt102Emulation -> Vt102Emulation :=
  fun st => g (f st).
Infix ">>>" := and_then (at level 61, left associativity).

(** The [case] labels of [processToken] with their statements, in source
    order. *)
Definition cases_chr : list (Z * Action) :=
  [ (token_chr, fun p q => on_current (displayCharacter p)) ].

Definition cases_ctl : list (Z * Action) :=
  [ (token_ctl (chr "@"), fun p q => skip);
    (token_ctl (chr "A"), fun p q => skip);
    (token_ctl (chr "B"), fun p q => skip);
    (token_ctl (chr "C"), fun p q => skip);
    (token_ctl (chr "D"), fun p q => skip);
    (token_ctl (chr "E"), fun p q => reportAnswerBack);
    (token_ctl (chr "F"), fun p q => skip);
    (token_ctl (chr "G"), fun p q => emit bell);
    (token_ctl (chr "H"), fun p q => on_current backspace);
    (token_ctl (chr "I"), fun p q => on_current (tab 1));
    (token_ctl (chr "J"), fun p q => on_current newLine);
    (token_ctl (chr "K"), fun p q => on_current newLine);
    (token_ctl (chr "L"), fun p q => on_current newLine);
    (token_ctl (chr "M"), fun p q => on_current toStartOfLine);
    (token_ctl (chr "N"), fun p q => useCharset 1);
    (token_ctl (chr "O"), fun p q => useCharset 0);
    (token_ctl (chr "P"), fun p q => skip);
    (token_ctl (chr "Q"), fun p q => skip);
    (token_ctl (chr "R"), fun p q => skip);
    (token_ctl (chr "S"), fun p q => skip);
    (token_ctl (chr "T"), fun p q => skip);
    (token_ctl (chr "U"), fun p q => skip);
    (token_ctl (chr "V"), fun p q => skip);
    (token_ctl (chr "W"), fun p q => skip);
    (token_ctl (chr "X"), fun p q => on_current (displayCharacter 0x2592));
    (token_ctl (chr "Y"), fun p q => skip);
    (token_ctl (chr "Z"), fun p q => on_current (displayCharacter 0x2592));
    (token_ctl (chr "["), fun p q => skip);
    (token_ctl backslash, fun p q => skip);
    (token_ctl (chr "]"), fun p q => skip);
    (token_ctl (chr "^"), fun p q => skip);
    (token_ctl (chr "_"), fun p q => skip) ].

Definition cases_esc : list (Z * Action) :=
  [ (token_esc (chr "D"), fun p q => on_current index);
    (token_esc (chr "E"), fun p q => on_current nextLine);
    (token_esc (chr "H"), fun p q => on_current (changeTabStop true));
    (token_esc (chr "M"), fun p q => on_current reverseIndex);
    (token_esc (chr "Z"), fun p q => reportTerminalType);
    (token_esc (chr "c"), fun p q => reset);
    (token_esc (chr "n"), fun p q => useCharset 2);
    (token_esc (chr "o"), fun p q => useCharset 3);
    (token_esc (chr "7"), fun p q => saveCursor);
    (token_esc (chr "8"), fun p q => restoreCursor);
    (token_esc (chr "="), fun p q => setMode MODE_AppKeyPad);
    (token_esc (chr ">"), fun p q => resetMode MODE_AppKeyPad);
    (token_esc (chr "<"), fun p q => setMode MODE_Ansi) ].

Definition cases_esc_cs : list (Z * Action) :=
  [ (token_esc_cs (chr "(") (chr "0"), fun p q => setCharset 0 (chr "0"));
    (token_esc_cs (chr "(") (chr "A"), fun p q => setCharset 0 (chr "A"));
    (token_esc_cs (chr "(") (chr "B"), fun p q => setCharset 0 (chr "B"));
    (token_esc_cs (chr ")") (chr "0"), fun p q => setCharset 1 (chr "0"));
    (token_esc_cs (chr ")") (chr "A"), fun p q => setCharset 1 (chr "A"));
    (token_esc_cs (chr ")") (chr "B"), fun p q => setCharset 1 (chr "B"));
    (token_esc_cs (chr "*") (chr "0"), fun p q => setCharset 2 (chr "0"));
    (token_esc_cs (chr "*") (chr "A"), fun p q => setCharset 2 (chr "A"));
    (token_esc_cs (chr "*") (chr "B"), fun p q => setCharset 2 (chr "B"));
    (token_esc_cs (chr "+") (chr "0"), fun p q => setCharset 3 (chr "0"));
    (token_esc_cs (chr "+") (chr "A"), fun p q => setCharset 3 (chr "A"));
    (token_esc_cs (chr "+") (chr "B"), fun p q => setCharset 3 (chr "B"));
    (token_esc_cs (chr "%") (chr "G"), fun p q => Emulation_setCodec Utf8Codec);
    (token_esc_cs (chr "%") (chr "@"), fun p q => Emulation_setCodec LocaleCodec) ].

Definition cases_esc_de : list (Z * Action) :=
  [ (token_esc_de (chr "3"), fun p q =>
        on_current (setLineProperty LINE_DOUBLEWIDTH true)
        >>> on_current (setLineProperty LINE_DOUBLEHEIGHT_TOP true)
        >>> on_current (setLineProperty LINE_DOUBLEHEIGHT_BOTTOM false));
    (token_esc_de (chr "4"), fun p q =>
        on_current (setLineProperty LINE_DOUBLEWIDTH true)
        >>> on_current (setLineProperty LINE_DOUBLEHEIGHT_TOP false)
        >>> on_current (setLineProperty LINE_DOUBLEHEIGHT_BOTTOM true));
    (token_esc_de (chr "5"), fun p q =>
        on_current (setLineProperty LINE_DOUBLEWIDTH false)
        >>> on_current (setLineProperty LINE_DOUBLEHEIGHT_TOP false)
        >>> on_current (setLineProperty LINE_DOUBLEHEIGHT_BOTTOM false));
    (token_esc_de (chr "6"), fun p q =>
        on_current (setLineProperty LINE_DOUBLEWIDTH true)
        >>> on_current (setLineProperty LINE_DOUBLEHEIGHT_TOP false)
        >>> on_current (setLineProperty LINE_DOUBLEHEIGHT_BOTTOM false));
    (token_esc_de (chr "8"), fun p q => on_current helpAlign) ].

Definition cases_csi_ps : list (Z * Action) :=
  [ (token_csi_ps (chr "t") 8, fun p q =>
        emit (Emulation_setImageSize p q)
        >>> emit (imageResizeRequest q p));
    (token_csi_ps (chr "t") 18, fun p q => reportSize);
    (token_csi_ps (chr "t") 28, fun p q => skip);
    (token_csi_ps (chr "t") 22, fun p q => skip);
    (token_csi_ps (chr "t") 23, fun p q => skip);
    (token_csi_ps (chr "K") 0, fun p q => on_current clearToEndOfLine);
    (token_csi_ps (chr "K") 1, fun p q => on_current clearToBeginOfLine);
    (token_csi_ps (chr "K") 2, fun p q => on_current clearEntireLine);
    (token_csi_ps (chr "J") 0, fun p q => on_current clearToEndOfScreen);
    (token_csi_ps (chr "J") 1, fun p q => on_current clearToBeginOfScreen);
    (token_csi_ps (chr "J") 2, fun p q => on_current clearEntireScreen);
    (token_csi_ps (chr "J") 3, fun p q => emit clearHistory);
    (token_csi_ps (chr "g") 0, fun p q => on_current (changeTabStop false));
    (token_csi_ps (chr "g") 3, fun p q => on_current clearTabStops);
    (token_csi_ps (chr "h") 4, fun p q => on_current (Screen_setMode MODE_Insert));
    (token_csi_ps (chr "h") 20, fun p q => setMode MODE_NewLine);
    (token_csi_ps (chr "i") 0, fun p q => skip);
    (token_csi_ps (chr "l") 4, fun p q => on_current (Screen_resetMode MODE_Insert));
    (token_csi_ps (chr "l") 20, fun p q => resetMode MODE_NewLine);
    (token_csi_ps (chr "s") 0, fun p q => saveCursor);
    (token_csi_ps (chr "u") 0, fun p q => restoreCursor);
    (token_csi_ps (chr "m") 0, fun p q => on_current setDefaultRendition);
    (token_csi_ps (chr "m") 1, fun p q => on_current (setRendition RE_BOLD));
    (token_csi_ps (chr "m") 2, fun p q => on_current (setRendition RE_FAINT));
    (token_csi_ps (chr "m") 3, fun p q => on_current (setRendition RE_ITALIC));
    (token_csi_ps (chr "m") 4, fun p q => on_current (setRendition RE_UNDERLINE));
    (token_csi_ps (chr "m") 5, fun p q => on_current (setRendition RE_BLINK));
    (token_csi_ps (chr "m") 7, fun p q => on_current (setRendition RE_REVERSE));
    (token_csi_ps (chr "m") 8, fun p q => on_current (setRendition RE_CONCEAL));
    (token_csi_ps (chr "m") 9, fun p q => on_current (setRendition RE_STRIKEOUT));
    (token_csi_ps (chr "m") 53, fun p q => on_current (setRendition RE_OVERLINE));
    (token_csi_ps (chr "m") 10, fun p q => skip);
    (token_csi_ps (chr "m") 11, fun p q => skip);
    (token_csi_ps (chr "m") 12, fun p q => skip);
    (token_csi_ps (chr "m") 21, fun p q => on_current (resetRendition RE_BOLD));
    (token_csi_ps (chr "m") 22, fun p q =>
        on_current (resetRendition RE_BOLD)
        >>> on_current (resetRendition RE_FAINT));
    (token_csi_ps (chr "m") 23, fun p q => on_current (resetRendition RE_ITALIC));
    (token_csi_ps (chr "m") 24, fun p q => on_current (resetRendition RE_UNDERLINE));
    (token_csi_ps (chr "m") 25, fun p q => on_current (resetRendition RE_BLINK));
    (token_csi_ps (chr "m") 27, fun p q => on_current (resetRendition RE_REVERSE));
    (token_csi_ps (chr "m") 28, fun p q => on_current (resetRendition RE_CONCEAL));
    (token_csi_ps (chr "m") 29, fun p q => on_current (resetRendition RE_STRIKEOUT));
    (token_csi_ps (chr "m") 55, fun p q => on_current (resetRendition RE_OVERLINE));
    (token_csi_ps (chr "m") 30, fun p q => on_current (setForeColor COLOR_SPACE_SYSTEM 0));
    (token_csi_ps (chr "m") 31, fun p q => on_current (setForeColor COLOR_SPACE_SYSTEM 1));
    (token_csi_ps (chr "m") 32, fun p q => on_current (setForeColor COLOR_SPACE_SYSTEM 2));
    (token_csi_ps (chr "m") 33, fun p q => on_current (setForeColor COLOR_SPACE_SYSTEM 3));
    (token_csi_ps (chr "m") 34, fun p q => on_current (setForeColor COLOR_SPACE_SYSTEM 4));
    (token_csi_ps (chr "m") 35, fun p q => on_current (setForeColor COLOR_SPACE_SYSTEM 5));
    (token_csi_ps (chr "m") 36, fun p q => on_current (setForeColor COLOR_SPACE_SYSTEM 6));
    (token_csi_ps (chr "m") 37, fun p q => on_current (setForeColor COLOR_SPACE_SYSTEM 7));
    (token_csi_ps (chr "m") 38, fun p q => on_current (setForeColor p q));
    (token_csi_ps (chr "m") 39, fun p q => on_current (setForeColor COLOR_SPACE_DEFAULT 0));
    (token_csi_ps (chr "m") 40, fun p q => on_current (setBackColor COLOR_SPACE_SYSTEM 0));
    (token_csi_ps (chr "m") 41, fun p q => on_current (setBackColor COLOR_SPACE_SYSTEM 1));
    (token_csi_ps (chr "m") 42, fun p q => on_current (setBackColor COLOR_SPACE_SYSTEM 2));
    (token_csi_ps (chr "m") 43, fun p q => on_current (setBackColor COLOR_SPACE_SYSTEM 3));
    (token_csi_ps (chr "m") 44, fun p q => on_current (setBackColor COLOR_SPACE_SYSTEM 4));
    (token_csi_ps (chr "m") 45, fun p q => on_current (setBackColor COLOR_SPACE_SYSTEM 5));
    (token_csi_ps (chr "m") 46, fun p q => on_current (setBackColor COLOR_SPACE_SYSTEM 6)) ].

Definition cases_csi_ps_2 : list (Z * Action) :=
  [ (token_csi_ps (chr "m") 47, fun p q => on_current (setBackColor COLOR_SPACE_SYSTEM 7));
    (token_csi_ps (chr "m") 48, fun p q => on_current (setBackColor p q));
    (token_csi_ps (chr "m") 49, fun p q => on_current (setBackColor COLOR_SPACE_DEFAULT 1));
    (token_csi_ps (chr "m") 90, fun p q => on_current (setForeColor COLOR_SPACE_SYSTEM 8));
    (token_csi_ps (chr "m") 91, fun p q => on_current (setForeColor COLOR_SPACE_SYSTEM 9));
    (token_csi_ps (chr "m") 92, fun p q => on_current (setForeColor COLOR_SPACE_SYSTEM 10));
    (token_csi_ps (chr "m") 93, fun p q => on_current (setForeColor COLOR_SPACE_SYSTEM 11));
    (token_csi_ps (chr "m") 94, fun p q => on_current (setForeColor COLOR_SPACE_SYSTEM 12));
    (token_csi_ps (chr "m") 95, fun p q => on_current (setForeColor COLOR_SPACE_SYSTEM 13));
    (token_csi_ps (chr "m") 96, fun p q => on_current (setForeColor COLOR_SPACE_SYSTEM 14));
    (token_csi_ps (chr "m") 97, fun p q => on_current (setForeColor COLOR_SPACE_SYSTEM 15));
    (token_csi_ps (chr "m") 100, fun p q => on_current (setBackColor COLOR_SPACE_SYSTEM 8));
    (token_csi_ps (chr "m") 101, fun p q => on_current (setBackColor COLOR_SPACE_SYSTEM 9));
    (token_csi_ps (chr "m") 102, fun p q => on_current (setBackColor COLOR_SPACE_SYSTEM 10));
    (token_csi_ps (chr "m") 103, fun p q => on_current (setBackColor COLOR_SPACE_SYSTEM 11));
    (token_csi_ps (chr "m") 104, fun p q => on_current (setBackColor COLOR_SPACE_SYSTEM 12));
    (token_csi_ps (chr "m") 105, fun p q => on_current (setBackColor COLOR_SPACE_SYSTEM 13));
    (token_csi_ps (chr "m") 106, fun p q => on_current (setBackColor COLOR_SPACE_SYSTEM 14));
    (token_csi_ps (chr "m") 107, fun p q => on_current (setBackColor COLOR_SPACE_SYSTEM 15));
    (token_csi_ps (chr "n") 5, fun p q => reportStatus);
    (token_csi_ps (chr "n") 6, fun p q => reportCursorPosition);
    (token_csi_ps (chr "q") 0, fun p q => skip);
    (token_csi_ps (chr "q") 1, fun p q => skip);
    (token_csi_ps (chr "q") 2, fun p q => skip);
    (token_csi_ps (chr "q") 3, fun p q => skip);
    (token_csi_ps (chr "q") 4, fun p q => skip);
    (token_csi_ps (chr "x") 0, fun p q => reportTerminalParms 2);
    (token_csi_ps (chr "x") 1, fun p q => reportTerminalParms 3) ].

Definition cases_csi_pn : list (Z * Action) :=
  [ (token_csi_pn (chr "@"), fun p q => on_current (insertChars p));
    (token_csi_pn (chr "A"), fun p q => on_current (cursorUp p));
    (token_csi_pn (chr "B"), fun p q => on_current (cursorDown p));
    (token_csi_pn (chr "C"), fun p q => on_current (cursorRight p));
    (token_csi_pn (chr "D"), fun p q => on_current (cursorLeft p));
    (token_csi_pn (chr "E"), fun p q => on_current (cursorNextLine p));
    (token_csi_pn (chr "F"), fun p q => on_current (cursorPreviousLine p));
    (token_csi_pn (chr "G"), fun p q => on_current (setCursorX p));
    (token_csi_pn (chr "H"), fun p q => on_current (setCursorYX p q));
    (token_csi_pn (chr "I"), fun p q => on_current (tab p));
    (token_csi_pn (chr "L"), fun p q => on_current (insertLines p));
    (token_csi_pn (chr "M"), fun p q => on_current (deleteLines p));
    (token_csi_pn (chr "P"), fun p q => on_current (deleteChars p));
    (token_csi_pn (chr "S"), fun p q => on_current (scrollUp p));
    (token_csi_pn (chr "T"), fun p q => on_current (scrollDown p));
    (token_csi_pn (chr "X"), fun p q => on_current (eraseChars p));
    (token_csi_pn (chr "Z"), fun p q => on_current (backtab p));
    (token_csi_pn (chr "b"), fun p q => on_current (repeatChars p));
    (token_csi_pn (chr "c"), fun p q => reportTerminalType);
    (token_csi_pn (chr "d"), fun p q => on_current (setCursorY p));
    (token_csi_pn (chr "f"), fun p q => on_current (setCursorYX p q));
    (token_csi_pn (chr "r"), fun p q => setMargins p q);
    (token_csi_pn (chr "y"), fun p q => skip) ].

Definition cases_csi_pr : list (Z * Action) :=
  [ (token_csi_pr (chr "h") 1, fun p q => setMode MODE_AppCuKeys);
    (token_csi_pr (chr "l") 1, fun p q => resetMode MODE_AppCuKeys);
    (token_csi_pr (chr "s") 1, fun p q => saveMode MODE_AppCuKeys);
    (token_csi_pr (chr "r") 1, fun p q => restoreMode MODE_AppCuKeys);
    (token_csi_pr (chr "l") 2, fun p q => resetMode MODE_Ansi);
    (token_csi_pr (chr "h") 3, fun p q => setMode MODE_132Columns);
    (token_csi_pr (chr "l") 3, fun p q => resetMode MODE_132Columns);
    (token_csi_pr (chr "h") 4, fun p q => skip);
    (token_csi_pr (chr "l") 4, fun p q => skip);
    (token_csi_pr (chr "h") 5, fun p q => on_current (Screen_setMode MODE_Screen));
    (token_csi_pr (chr "l") 5, fun p q => on_current (Screen_resetMode MODE_Screen));
    (token_csi_pr (chr "h") 6, fun p q => on_current (Screen_setMode MODE_Origin));
    (token_csi_pr (chr "l") 6, fun p q => on_current (Screen_resetMode MODE_Origin));
    (token_csi_pr (chr "s") 6, fun p q => on_current (Screen_saveMode MODE_Origin));
    (token_csi_pr (chr "r") 6, fun p q => on_current (Screen_restoreMode MODE_Origin));
    (token_csi_pr (chr "h") 7, fun p q => on_current (Screen_setMode MODE_Wrap));
    (token_csi_pr (chr "l") 7, fun p q => on_current (Screen_resetMode MODE_Wrap));
    (token_csi_pr (chr "s") 7, fun p q => on_current (Screen_saveMode MODE_Wrap));
    (token_csi_pr (chr "r") 7, fun p q => on_current (Screen_restoreMode MODE_Wrap));
    (token_csi_pr (chr "h") 8, fun p q => skip);
    (token_csi_pr (chr "l") 8, fun p q => skip);
    (token_csi_pr (chr "s") 8, fun p q => skip);
    (token_csi_pr (chr "r") 8, fun p q => skip);
    (token_csi_pr (chr "h") 9, fun p q => skip);
    (token_csi_pr (chr "l") 9, fun p q => skip);
    (token_csi_pr (chr "s") 9, fun p q => skip);
    (token_csi_pr (chr "r") 9, fun p q => skip);
    (token_csi_pr (chr "h") 12, fun p q => skip);
    (token_csi_pr (chr "l") 12, fun p q => skip);
    (token_csi_pr (chr "s") 12, fun p q => skip);
    (token_csi_pr (chr "r") 12, fun p q => skip);
    (token_csi_pr (chr "h") 25, fun p q => setMode MODE_Cursor);
    (token_csi_pr (chr "l") 25, fun p q => resetMode MODE_Cursor);
    (token_csi_pr (chr "s") 25, fun p q => saveMode MODE_Cursor);
    (token_csi_pr (chr "r") 25, fun p q => restoreMode MODE_Cursor);
    (token_csi_pr (chr "h") 40, fun p q => setMode MODE_Allow132Columns);
    (token_csi_pr (chr "l") 40, fun p q => resetMode MODE_Allow132Columns);
    (token_csi_pr (chr "h") 41, fun p q => skip);
    (token_csi_pr (chr "l") 41, fun p q => skip);
    (token_csi_pr (chr "s") 41, fun p q => skip);
    (token_csi_pr (chr "r") 41, fun p q => skip);
    (token_csi_pr (chr "h") 47, fun p q => setMode MODE_AppScreen);
    (token_csi_pr (chr "l") 47, fun p q => resetMode MODE_AppScreen);
    (token_csi_pr (chr "s") 47, fun p q => saveMode MODE_AppScreen);
    (token_csi_pr (chr "r") 47, fun p q => restoreMode MODE_AppScreen);
    (token_csi_pr (chr "h") 67, fun p q => skip);
    (token_csi_pr (chr "l") 67, fun p q => skip);
    (token_csi_pr (chr "s") 67, fun p q => skip);
    (token_csi_pr (chr "r") 67, fun p q => skip);
    (token_csi_pr (chr "h") 1000, fun p q => setMode MODE_Mouse1000);
    (token_csi_pr (chr "l") 1000, fun p q => resetMode MODE_Mouse1000);
    (token_csi_pr (chr "s") 1000, fun p q => saveMode MODE_Mouse1000);
    (token_csi_pr (chr "r") 1000, fun p q => restoreMode MODE_Mouse1000);
    (token_csi_pr (chr "h") 1001, fun p q => skip);
    (token_csi_pr (chr "l") 1001, fun p q => resetMode MODE_Mouse1001);
    (token_csi_pr (chr "s") 1001, fun p q => skip);
    (token_csi_pr (chr "r") 1001, fun p q => skip);
    (token_csi_pr (chr "h") 1002, fun p q => setMode MODE_Mouse1002);
    (token_csi_pr (chr "l") 1002, fun p q => resetMode MODE_Mouse1002);
    (token_csi_pr (chr "s") 1002, fun p q => saveMode MODE_Mouse1002) ].

Definition cases_csi_pr_2 : list (Z * Action) :=
  [ (token_csi_pr (chr "r") 1002, fun p q => restoreMode MODE_Mouse1002);
    (token_csi_pr (chr "h") 1003, fun p q => setMode MODE_Mouse1003);
    (token_csi_pr (chr "l") 1003, fun p q => resetMode MODE_Mouse1003);
    (token_csi_pr (chr "s") 1003, fun p q => saveMode MODE_Mouse1003);
    (token_csi_pr (chr "r") 1003, fun p q => restoreMode MODE_Mouse1003);
    (token_csi_pr (chr "h") 1004, fun p q => set_reportFocusEvents true);
    (token_csi_pr (chr "l") 1004, fun p q => set_reportFocusEvents false);
    (token_csi_pr (chr "h") 1005, fun p q => setMode MODE_Mouse1005);
    (token_csi_pr (chr "l") 1005, fun p q => resetMode MODE_Mouse1005);
    (token_csi_pr (chr "s") 1005, fun p q => saveMode MODE_Mouse1005);
    (token_csi_pr (chr "r") 1005, fun p q => restoreMode MODE_Mouse1005);
    (token_csi_pr (chr "h") 1006, fun p q => setMode MODE_Mouse1006);
    (token_csi_pr (chr "l") 1006, fun p q => resetMode MODE_Mouse1006);
    (token_csi_pr (chr "s") 1006, fun p q => saveMode MODE_Mouse1006);
    (token_csi_pr (chr "r") 1006, fun p q => restoreMode MODE_Mouse1006);
    (token_csi_pr (chr "h") 1007, fun p q => setMode MODE_Mouse1007);
    (token_csi_pr (chr "l") 1007, fun p q => resetMode MODE_Mouse1007);
    (token_csi_pr (chr "s") 1007, fun p q => saveMode MODE_Mouse1007);
    (token_csi_pr (chr "r") 1007, fun p q => restoreMode MODE_Mouse1007);
    (token_csi_pr (chr "h") 1015, fun p q => setMode MODE_Mouse1015);
    (token_csi_pr (chr "l") 1015, fun p q => resetMode MODE_Mouse1015);
    (token_csi_pr (chr "s") 1015, fun p q => saveMode MODE_Mouse1015);
    (token_csi_pr (chr "r") 1015, fun p q => restoreMode MODE_Mouse1015);
    (token_csi_pr (chr "h") 1034, fun p q => skip);
    (token_csi_pr (chr "h") 1047, fun p q => setMode MODE_AppScreen);
    (token_csi_pr (chr "l") 1047, fun p q =>
        on_screen true clearEntireScreen
        >>> resetMode MODE_AppScreen);
    (token_csi_pr (chr "s") 1047, fun p q => saveMode MODE_AppScreen);
    (token_csi_pr (chr "r") 1047, fun p q => restoreMode MODE_AppScreen);
    (token_csi_pr (chr "h") 1048, fun p q => saveCursor);
    (token_csi_pr (chr "l") 1048, fun p q => restoreCursor);
    (token_csi_pr (chr "s") 1048, fun p q => saveCursor);
    (token_csi_pr (chr "r") 1048, fun p q => restoreCursor);
    (token_csi_pr (chr "h") 1049, fun p q =>
        saveCursor
        >>> on_screen true clearEntireScreen
        >>> setMode MODE_AppScreen);
    (token_csi_pr (chr "l") 1049, fun p q => resetMode MODE_AppScreen >>> restoreCursor);
    (token_csi_pr (chr "h") 2004, fun p q => setMode MODE_BracketedPaste);
    (token_csi_pr (chr "l") 2004, fun p q => resetMode MODE_BracketedPaste);
    (token_csi_pr (chr "s") 2004, fun p q => saveMode MODE_BracketedPaste);
    (token_csi_pr (chr "r") 2004, fun p q => restoreMode MODE_BracketedPaste) ].

Definition cases_csi_sp : list (Z * Action) :=
  [ (token_csi_sp (chr "q"), fun p q => emit (setCursorStyleRequest BlockCursor true)) ].

Definition cases_csi_psp : list (Z * Action) :=
  [ (token_csi_psp (chr "q") 0, fun p q => emit resetCursorStyleRequest);
    (token_csi_psp (chr "q") 1, fun p q => emit (setCursorStyleRequest BlockCursor true));
    (token_csi_psp (chr "q") 2, fun p q => emit (setCursorStyleRequest BlockCursor false));
    (token_csi_psp (chr "q") 3, fun p q => emit (setCursorStyleRequest UnderlineCursor true));
    (token_csi_psp (chr "q") 4, fun p q => emit (setCursorStyleRequest UnderlineCursor false));
    (token_csi_psp (chr "q") 5, fun p q => emit (setCursorStyleRequest IBeamCursor true));
    (token_csi_psp (chr "q") 6, fun p q => emit (setCursorStyleRequest IBeamCursor false)) ].

Definition cases_csi_pe : list (Z * Action) :=
  [ (token_csi_pe (chr "p"), fun p q => skip) ].

Definition cases_vt52 : list (Z * Action) :=
  [ (token_vt52 (chr "A"), fun p q => on_current (cursorUp 1));
    (token_vt52 (chr "B"), fun p q => on_current (cursorDown 1));
    (token_vt52 (chr "C"), fun p q => on_current (cursorRight 1));
    (token_vt52 (chr "D"), fun p q => on_current (cursorLeft 1));
    (token_vt52 (chr "F"), fun p q => setAndUseCharset 0 (chr "0"));
    (token_vt52 (chr "G"), fun p q => setAndUseCharset 0 (chr "B"));
    (token_vt52 (chr "H"), fun p q => on_current (setCursorYX 1 1));
    (token_vt52 (chr "I"), fun p q => on_current reverseIndex);
    (token_vt52 (chr "J"), fun p q => on_current clearToEndOfScreen);
    (token_vt52 (chr "K"), fun p q => on_current clearToEndOfLine);
    (token_vt52 (chr "Y"), fun p q => on_current (setCursorYX (to_int (p - 31)) (to_int (q - 31))));
    (token_vt52 (chr "Z"), fun p q => reportTerminalType);
    (token_vt52 (chr "<"), fun p q => setMode MODE_Ansi);
    (token_vt52 (chr "="), fun p q => setMode MODE_AppKeyPad);
    (token_vt52 (chr ">"), fun p q => resetMode MODE_AppKeyPad) ].

Definition cases_csi_pq : list (Z * Action) :=
  [ (token_csi_pq (chr "c"), fun p q => reportTertiaryAttributes) ].

Definition cases_csi_pg : list (Z * Action) :=
  [ (token_csi_pg (chr "c"), fun p q => reportSecondaryAttributes) ].

Definition processToken_cases : list (Z * Action) :=
  cases_chr
  ++ cases_ctl
  ++ cases_esc
  ++ cases_esc_cs
  ++ cases_esc_de
  ++ cases_csi_ps
  ++ cases_csi_ps_2
  ++ cases_csi_pn
  ++ cases_csi_pr
  ++ cases_csi_pr_2
  ++ cases_csi_sp
  ++ cases_csi_psp
  ++ cases_csi_pe
  ++ cases_vt52
  ++ cases_csi_pq
  ++ cases_csi_pg.

(** [switch (token)]: the labels are pairwise distinct, so the [case] taken
    is the first (and only) entry with the token's value. *)
Definition processToken (token p q : Z) (st : Vt102Emulation) : Vt102Emulation :=
  match find (fun c => fst c =? token) processToken_cases with
  | Some c => snd c p q st
  | None => reportDecodingError st
  end.

(** ** The tokenizer *)

(** The scanning decisions ([p] is the length of the token scanned so far,
    [s] the token buffer, [cc] the current character). *)
Definition lec (p : Z) (s : array) (P L C : Z) : bool := (p =? P) && (rd s L =? C).
Definition lun (p cc : Z) : bool := (p =? 1) && (32 <=? cc).
Definition les (p : Z) (s : array) (P L C : Z) : bool :=
  (p =? P) && (rd s L <? 256) && has_class (rd s L) C.
Definition eec (p cc C : Z) : bool := (3 <=? p) && (cc =? C).
Definition ees (p cc C : Z) : bool := (3 <=? p) && (cc <? 256) && has_class cc C.
Definition eps (p : Z) (s : array) (cc C : Z) : bool :=
  (3 <=? p) && negb (rd s 2 =? chr "?") && negb (rd s 2 =? chr "!")
  && negb (rd s 2 =? chr "=") && negb (rd s 2 =? chr ">")
  && (cc <? 256) && has_class cc C && negb (has_class (rd s (p - 2)) INT).
Definition epp (p : Z) (s : array) : bool := (3 <=? p) && (rd s 2 =? chr "?").
Definition epe (p : Z) (s : array) : bool := (3 <=? p) && (rd s 2 =? chr "!").
Definition eeq (p : Z) (s : array) : bool := (3 <=? p) && (rd s 2 =? chr "=").
Definition egt (p : Z) (s : array) : bool := (3 <=? p) && (rd s 2 =? chr ">").
Definition esp (p : Z) (s : array) : bool := (4 <=? p) && (rd s 2 =? SP).
Definition epsp (p : Z) (s : array) : bool := (5 <=? p) && (rd s 3 =? SP).
Definition osc (st : Vt102Emulation) : bool :=
  (2 <=? tokenBufferPos st) && (rd (tokenBuffer st) 1 =? chr "]").
Definition ces (cc C : Z) : bool := (cc <? 256) && has_class cc C.
Definition dcs (p : Z) (s : array) : bool :=
  (2 <=? p) && (rd s 0 =? ESC) && (rd s 1 =? chr "P").

(** The loop [for (int i = 0; i <= argc; i++)] that ends a CSI sequence,
    from index [i] on.  Every round advances [i], so [argc + 1] rounds
    always reach the end of the loop. *)
Fixpoint dispatch_parameters (rounds : nat) (p cc i : Z) (st : Vt102Emulation) : Vt102Emulation :=
  match rounds with
  | O => st
  | S rounds' =>
      if i <=? argc st then
        let s := tokenBuffer st in
        let a := rd (argv st) in
        if epp p s then
          dispatch_parameters rounds' p cc (i + 1) (processToken (token_csi_pr cc (a i)) 0 0 st)
        else if eeq p s then
          dispatch_parameters rounds' p cc (i + 1) (processToken (token_csi_pq cc) 0 0 st)
        else if egt p s then
          dispatch_parameters rounds' p cc (i + 1) (processToken (token_csi_pg cc) 0 0 st)
        else if (cc =? chr "m") && (4 <=? argc st - i)
                && ((a i =? 38) || (a i =? 48)) && (a (i + 1) =? 2) then
          let i := i + 2 in
          let st := processToken (token_csi_ps cc (a (i - 2))) COLOR_SPACE_RGB
                      (to_int (Z.lor (Z.lor (Z.shiftl (a i) 16) (Z.shiftl (a (i + 1)) 8))
                                     (a (i + 2)))) st in
          let i := i + 2 in
          dispatch_parameters rounds' p cc (i + 1) st
        else if (cc =? chr "m") && (2 <=? argc st - i)
                && ((a i =? 38) || (a i =? 48)) && (a (i + 1) =? 5) then
          let i := i + 2 in
          let st := processToken (token_csi_ps cc (a (i - 2))) COLOR_SPACE_256 (a i) st in
          dispatch_parameters rounds' p cc (i + 1) st
        else if (p <? 2) || negb (has_class (rd s (p - 2)) INT) then
          dispatch_parameters rounds' p cc (i + 1) (processToken (token_csi_ps cc (a i)) 0 0 st)
        else dispatch_parameters rounds' p cc (i + 1) st
      else st
  end.

(** ANSI mode, after the OSC terminators have been looked for. *)
Definition scan_ansi (p cc : Z) (st : Vt102Emulation) : Vt102Emulation :=
  let s := tokenBuffer st in
  let a := rd (argv st) in
  if osc st then st
  else if lec p s 3 2 (chr "?") then st
  else if lec p s 3 2 (chr "=") then st
  else if lec p s 3 2 (chr ">") then st
  else if lec p s 3 2 (chr "!") then st
  else if lec p s 3 2 SP then st
  else if lec p s 4 3 SP then st
  else if lun p cc then
    resetTokenizer (processToken token_chr (to_int (applyCharset cc st)) 0 st)
  else if dcs p s then st
  else if lec p s 2 0 ESC then
    resetTokenizer (processToken (token_esc (rd s 1)) 0 0 st)
  else if les p s 3 1 SCS then
    resetTokenizer (processToken (token_esc_cs (rd s 1) (rd s 2)) 0 0 st)
  else if lec p s 3 1 (chr "#") then
    resetTokenizer (processToken (token_esc_de (rd s 2)) 0 0 st)
  else if eps p s cc CPN then
    resetTokenizer (processToken (token_csi_pn cc) (a 0) (a 1) st)
  else if eps p s cc CPS then
    resetTokenizer (processToken (token_csi_ps cc (a 0)) (a 1) (a 2) st)
  else if epe p s then resetTokenizer (processToken (token_csi_pe cc) 0 0 st)
  else if esp p s then resetTokenizer (processToken (token_csi_sp cc) 0 0 st)
  else if epsp p s then resetTokenizer (processToken (token_csi_psp cc (a 0)) 0 0 st)
  else if ees p cc DIG then addDigit (to_int (to_uint (cc - chr "0"))) st
  else if eec p cc (chr ";") then addArgument st
  else if ees p cc INT then st
  else if (3 <=? p) && (cc =? chr "y") && (rd s (p - 2) =? chr "*") then
    resetTokenizer (processChecksumRequest st)
  else resetTokenizer (dispatch_parameters (Z.to_nat (argc st + 1)) p cc 0 st).

(** VT52 mode. *)
Definition scan_vt52 (p : Z) (st : Vt102Emulation) : Vt102Emulation :=
  let s := tokenBuffer st in
  if lec p s 1 0 ESC then st
  else if les p s 1 0 CHR then
    resetTokenizer (processToken token_chr (to_int (rd s 0)) 0 st)
  else if lec p s 2 1 (chr "Y") then st
  else if lec p s 3 1 (chr "Y") then st
  else if p <? 4 then resetTokenizer (processToken (token_vt52 (rd s 1)) 0 0 st)
  else resetTokenizer (processToken (token_vt52 (rd s 1)) (to_int (rd s 2)) (to_int (rd s 3)) st).

(** "Advance the state": append [cc] to the token and decide.  [again] is
    [receiveChars] itself, for the two places that feed a character back. *)
Definition advance (again : Vt102Emulation -> list Z -> option Vt102Emulation)
    (cc : Z) (st : Vt102Emulation) : option Vt102Emulation :=
  let st := addToCurrentToken cc st in
  let s := tokenBuffer st in
  let p := tokenBufferPos st in
  if getMode MODE_Ansi st then
    if lec p s 1 0 ESC then Some st
    else if lec p s 1 0 (ESC + 128) then
      again (set_tokenizer (wr s 0 ESC) p (argc st) (argv st) st) [chr "["]
    else if les p s 2 1 GRP then Some st
    else if (2 <? p) && (rd s 1 =? chr "]")
            && (rd s (p - 2) =? ESC) && (rd s (p - 1) =? backslash) then
      let st := if rd s 2 =? URL_LINK then on_current toggleUrlInput st else st in
      Some (resetTokenizer (processSessionAttributeRequest (p - 1) st))
    else if (2 <? p) && (rd s 1 =? chr "]") && (rd s (p - 2) =? ESC) then
      again (resetTokenizer (processSessionAttributeRequest (p - 1) st)) [cc]
    else if (2 <? p) && (rd s 1 =? chr "]") && (rd s (p - 1) =? 0x07) then
      Some (resetTokenizer (processSessionAttributeRequest p st))
    else Some (scan_ansi p cc st)
  else Some (scan_vt52 p st).

(** One round of the loop over the incoming characters. *)
Definition receiveChar (again : Vt102Emulation -> list Z -> option Vt102Emulation)
    (st : Vt102Emulation) (cc : Z) : option Vt102Emulation :=
  if cc =? DEL then Some st
  else if ces cc CTL then
    if osc st && negb (cc =? 0x1b) && negb (cc =? 0x07) then Some st
    else if negb (osc st) then
      let st := if (cc =? CNTL (chr "X")) || (cc =? CNTL (chr "Z")) || (cc =? ESC)
                then resetTokenizer st else st in
      if negb (cc =? ESC)
      then Some (processToken (token_ctl (to_uint (cc + chr "@"))) 0 0 st)
      else advance again cc st
    else advance again cc st
  else advance again cc st.

(** The loop itself. *)
Fixpoint feed (step : Vt102Emulation -> Z -> option Vt102Emulation)
    (st : Vt102Emulation) (chars : list Z) : option Vt102Emulation :=
  match chars with
  | [] => Some st
  | cc :: chars' =>
      match step st cc with
      | Some st' => feed step st' chars'
      | None => None
      end
  end.

(** [receiveChars] calls itself on a one-character vector in two places;
    [depth] bounds the nesting of these calls and [None] means the bound was
    too small. *)
Fixpoint receiveChars (depth : nat) (st : Vt102Emulation) (chars : list Z)
    : option Vt102Emulation :=
  match depth with
  | O => None
  | S depth' => feed (receiveChar (receiveChars depth')) st chars
  end.

(** A nesting depth that is always enough (see [receiveChars_total]). *)
Definition receiveChars_depth : nat := 3.

(** ** Mouse and focus reports *)

Definition sendMouseEvent (cb cx cy eventType : Z) (st : Vt102Emulation) : Vt102Emulation :=
  if (cx <? 1) || (cy <? 1) then st
  else if (eventType =? 1) && getMode MODE_Mouse1000 st then st
  else if (cb =? 3) && getMode MODE_Mouse1002 st then st
  else
    let cb := if (eventType =? 2) && negb (getMode MODE_Mouse1006 st) then 3 else cb in
    let cb := if 4 <=? cb then to_int (cb + 0x3c) else cb in
    let cb := if (getMode MODE_Mouse1002 st || getMode MODE_Mouse1003 st) && (eventType =? 1)
              then to_int (cb + 0x20) else cb in
    let command :=
      if getMode MODE_Mouse1006 st then
        snprintf 40 ([ESC] ++ codes "[<" ++ fmt_d cb ++ [chr ";"] ++ fmt_d cx ++ [chr ";"]
                     ++ fmt_d cy ++ [if eventType =? 2 then chr "m" else chr "M"])
      else if getMode MODE_Mouse1015 st then
        snprintf 40 ([ESC; chr "["] ++ fmt_d (to_int (cb + 0x20)) ++ [chr ";"] ++ fmt_d cx
                     ++ [chr ";"] ++ fmt_d cy ++ [chr "M"])
      else if getMode MODE_Mouse1005 st then
        if (cx <=? 2015) && (cy <=? 2015) then
          snprintf 40 ([ESC] ++ codes "[M" ++ [fmt_c (cb + 0x20)]
                       ++ c_str (utf8_of_qchar (cx + 0x20) ++ utf8_of_qchar (cy + 0x20)))
        else []
      else if (cx <=? 223) && (cy <=? 223) then
        snprintf 40 ([ESC] ++ codes "[M" ++ [fmt_c (cb + 0x20); fmt_c (cx + 0x20); fmt_c (cy + 0x20)])
      else [] in
    sendString command st.

Definition focusChanged (focused : bool) (st : Vt102Emulation) : Vt102Emulation :=
  if _reportFocusEvents st
  then sendString (if focused then [ESC] ++ codes "[I" else [ESC] ++ codes "[O") st
  else st.

(** ** Construction *)

(** The constructor: both mode sets cleared, no pending attribute, focus
    reports off, primary screen current, no codec yet, tokenizer reset.
    [argv] beyond its first two cells, the token buffer and [_charset] are
    left uninitialised by the constructor; their content is a parameter
    here. *)
Definition Vt102Emulation_new (w : World) (uninit_tokenBuffer uninit_argv : array)
    (uninit_charset : CharCodes * CharCodes) : Vt102Emulation :=
  resetTokenizer
    {| tokenBuffer := uninit_tokenBuffer;
       tokenBufferPos := 0;
       argc := 0;
       argv := uninit_argv;
       _currentModes := TerminalState_new;
       _savedModes := TerminalState_new;
       _charset := uninit_charset;
       _currentScreen := false;
       _codec := None;
       _pendingSessionAttributesUpdates := ∅;
       _reportFocusEvents := false;
       world := w;
       out := [] |}.

(** ** Properties kept by every operation *)

(** [f] keeps the state property [P]. *)
Definition preserves (P : Vt102Emulation -> Prop)
    (f : Vt102Emulation -> Vt102Emulation) : Prop :=
  forall st, P st -> P (f st).

(** Every [case] of a list keeps [P]. *)
Definition cases_preserve (P : Vt102Emulation -> Prop)
    (cases : list (Z * Action)) : Prop :=
  Forall (fun c => forall p q, preserves P (snd c p q)) cases.

(** [P] holds after a nested call of [receiveChars] whenever it held
    before. *)
Definition again_preserves (P : Vt102Emulation -> Prop)
    (again : Vt102Emulation -> list Z -> option Vt102Emulation) : Prop :=
  forall st chars st', again st chars = Some st' -> P st -> P st'.

(** ** State properties *)

(** Number of [true] entries. *)
Fixpoint count_true (l : list bool) : nat :=
  match l with
  | [] => 0
  | b :: l' => (if b then 1 else 0) + count_true l'
  end.

(** The mouse-tracking modes and the mouse-encoding modes. *)
Definition mouse_tracking_modes : list Mode :=
  [MODE_Mouse1000; MODE_Mouse1001; MODE_Mouse1002; MODE_Mouse1003].
Definition mouse_encoding_modes : list Mode :=
  [MODE_Mouse1005; MODE_Mouse1006; MODE_Mouse1015].

(** At most one mode of each group is true in the current mode set. *)
Definition mouse_modes_exclusive (st : Vt102Emulation) : Prop :=
  (count_true (map (fun m => getMode m st) mouse_tracking_modes) <= 1)%nat
  /\ (count_true (map (fun m => getMode m st) mouse_encoding_modes) <= 1)%nat.

(** The bounds of the tokenizer state: the token length, the argument count
    and every argument accumulated so far ([argv[0..argc]]). *)
Definition tokenizer_bounds (st : Vt102Emulation) : Prop :=
  0 <= tokenBufferPos st <= MAX_TOKEN_LENGTH
  /\ 0 <= argc st <= MAXARGS - 1
  /\ forall i, 0 <= i <= argc st -> 0 <= rd (argv st) i <= MAX_ARGUMENT.

(** States the emulation can be in: the constructed state and whatever the
    public operations make of it. *)
Inductive reachable (st0 : Vt102Emulation) : Vt102Emulation -> Prop :=
  | reachable_start : reachable st0 st0
  | reachable_setMode st m :
      reachable st0 st -> reachable st0 (setMode m st)
  | reachable_resetMode st m :
      reachable st0 st -> reachable st0 (resetMode m st)
  | reachable_saveMode st m :
      reachable st0 st -> reachable st0 (saveMode m st)
  | reachable_restoreMode st m :
      reachable st0 st -> reachable st0 (restoreMode m st)
  | reachable_receiveChars st chars st' :
      reachable st0 st ->
      receiveChars receiveChars_depth st chars = Some st' ->
      reachable st0 st'
  | reachable_reset st :
      reachable st0 st -> reachable st0 (reset st)
  | reachable_sendMouseEvent st cb cx cy eventType :
      reachable st0 st -> reachable st0 (sendMouseEvent cb cx cy eventType st)
  | reachable_focusChanged st focused :
      reachable st0 st -> reachable st0 (focusChanged focused st).

(** ** Sequences of operations used in the statements *)


(** The non-screen modes that [resetModes] clears. *)
Definition modes_cleared_by_reset : list Mode :=
  [MODE_132Columns; MODE_Mouse1000; MODE_Mouse1001; MODE_Mouse1002;
   MODE_Mouse1003; MODE_Mouse1005; MODE_Mouse1006; MODE_Mouse1015;
   MODE_BracketedPaste; MODE_AppScreen; MODE_AppCuKeys; MODE_AppKeyPad;
   MODE_NewLine].

(** The calls to [reportDecodingError] in a log. *)
Definition decoding_error_calls (log : list Event) : nat :=
  length (List.filter (fun e => match e with
                                | reportDecodingError_called _ => true
                                | _ => false
                                end) log).

(** The bytes handed to [sendData] in a log, one entry per call. *)
Definition sent (log : list Event) : list (list Z) :=
  flat_map (fun e => match e with sendData bytes => [bytes] | _ => [] end) log.

(** ** A concrete emulation for the worked examples *)

(** A 24x80 screen with the cursor at home, no margins, no URL being read,
    checksum requests disabled as in the default build. *)
Definition example_world : World :=
  {| getLines := fun _ _ => 24;
     getColumns := fun _ _ => 80;
     getCursorX := fun _ _ => 0;
     getCursorY := fun _ _ => 0;
     topMargin := fun _ _ => 0;
     Screen_getMode := fun _ _ _ => false;
     getImage := fun _ _ _ => {| character := 32; rendition := fun _ => false |};
     urlExtractor_reading := fun _ _ => false;
     ENABLE_DECRQCRA := false;
     ProfileChange := 50 |}.

Definition example_CharCodes : CharCodes :=
  {| charset := fun _ => 0; cu_cs := 0; graphic := false; pound := false;
     sa_graphic := false; sa_pound := false |}.

(** The freshly constructed emulation. *)
Definition example_new : Vt102Emulation :=
  Vt102Emulation_new example_world (fun _ => 0) (fun _ => 0)
    (example_CharCodes, example_CharCodes).

(** The emulation after [reset()]: ANSI mode, US-ASCII in every slot. *)
Definition example_start : Vt102Emulation := reset example_new.

(** The state [receiveChars] leaves, for the examples (the input is always
    consumed, see [receiveChars_total]). *)
Definition after_receiving (st : Vt102Emulation) (chars : list Z) : Vt102Emulation :=
  match receiveChars receiveChars_depth st chars with
  | Some st' => st'
  | None => st
  end.

(** The button code after release encoding, in the words of the
    specification: a release event without Mouse1006 has its [cb] replaced
    by 3. *)
Definition cb_after_release_encoding (cb eventType : Z) (st : Vt102Emulation) : Z :=
  if (eventType =? 2) && negb (getMode MODE_Mouse1006 st) then 3 else cb.

(** The designator in the active slot of the current screen's character
    set state. *)
Definition active_charset (st : Vt102Emulation) : Z :=
  rd (charset (CHARSET st)) (cu_cs (CHARSET st)).

(** The device attribute replies of the emulation, as input. *)
Definition DA1_reply : list Z := [ESC] ++ codes "[?1;2c".
Definition DA2_reply : list Z := [ESC] ++ codes "[>0;115;0c".
Definition DA3_reply : list Z := [ESC] ++ codes "P!|7E4B4445" ++ [ESC; backslash].

(** A state in the middle of the parameters of a control sequence: ANSI
    mode, [ESC \[] at the start of the token, room left in the buffer, and
    no '!' or space where they would select another kind of sequence. *)
Definition in_parameters (st : Vt102Emulation) : Prop :=
  getMode MODE_Ansi st = true
  /\ 2 <= tokenBufferPos st < MAX_TOKEN_LENGTH
  /\ rd (tokenBuffer st) 0 = ESC
  /\ rd (tokenBuffer st) 1 = chr "["
  /\ (3 <= tokenBufferPos st ->
      rd (tokenBuffer st) 2 <> chr "!" /\ rd (tokenBuffer st) 2 <> SP)
  /\ (4 <= tokenBufferPos st -> rd (tokenBuffer st) 3 <> SP).

(** ** Notions used in the further properties *)

(** Both modes belong to [group]. *)
Definition same_group (group : list Mode) (m m' : Mode) : bool :=
  existsb (mode_eqb m) group && existsb (mode_eqb m') group.

(** The screen in use is the alternate one exactly when [MODE_AppScreen] is
    set. *)
Definition screen_follows_mode (st : Vt102Emulation) : Prop :=
  _currentScreen st = getMode MODE_AppScreen st.

(** Two arrays with the same content. *)
Definition same_array (a a' : array) : Prop := forall k, rd a k = rd a' k.

Definition same_CharCodes (c c' : CharCodes) : Prop :=
  same_array (charset c) (charset c')
  /\ cu_cs c = cu_cs c' /\ graphic c = graphic c' /\ pound c = pound c'
  /\ sa_graphic c = sa_graphic c' /\ sa_pound c = sa_pound c'.

(** Two states that agree on every member variable (arrays cell by cell);
    the logs may differ. *)
Definition same_state (st st' : Vt102Emulation) : Prop :=
  same_array (tokenBuffer st) (tokenBuffer st')
  /\ tokenBufferPos st = tokenBufferPos st'
  /\ argc st = argc st'
  /\ same_array (argv st) (argv st')
  /\ _currentModes st = _currentModes st'
  /\ _savedModes st = _savedModes st'
  /\ same_CharCodes (charset_of false st) (charset_of false st')
  /\ same_CharCodes (charset_of true st) (charset_of true st')
  /\ _currentScreen st = _currentScreen st'
  /\ _codec st = _codec st'
  /\ _pendingSessionAttributesUpdates st = _pendingSessionAttributesUpdates st'
  /\ _reportFocusEvents st = _reportFocusEvents st'.

(** A charset operation of the dispatcher: [useCharset(n)],
    [setCharset(n, cs)] or [setAndUseCharset(n, cs)]. *)
Inductive CharsetOp : Type :=
  | UseCharset (n : Z)
  | SetCharset (n cs : Z)
  | SetAndUseCharset (n cs : Z).

Definition run_CharsetOp (op : CharsetOp) : Vt102Emulation -> Vt102Emulation :=
  match op with
  | UseCharset n => useCharset n
  | SetCharset n cs => setCharset n cs
  | SetAndUseCharset n cs => setAndUseCharset n cs
  end.

Definition run_CharsetOps (ops : list CharsetOp) (st : Vt102Emulation) : Vt102Emulation :=
  fold_left (fun st op => run_CharsetOp op st) ops st.

(** A decimal digit. *)
Definition digit (c : Z) : Prop := chr "0" <= c <= chr "9".

(** The number a string of decimal digits denotes. *)
Definition decimal_value (ds : list Z) : Z :=
  fold_left (fun v c => 10 * v + (c - chr "0")) ds 0.

(** Parameter strings, each after the first preceded by ';'. *)
Definition parameter_string (first : list Z) (others : list (list Z)) : list Z :=
  first ++ flat_map (fun ds => chr ";" :: ds) others.

(** [st'] differs from [st] in the tokenizer's variables only. *)
Definition only_tokenizer_differs (st st' : Vt102Emulation) : Prop :=
  st' = set_tokenizer (tokenBuffer st') (tokenBufferPos st') (argc st') (argv st') st.

(** In the parameters of a control sequence that so far holds digits and
    ';' only. *)
Definition in_numeric_parameters (st : Vt102Emulation) : Prop :=
  in_parameters st
  /\ forall j, 2 <= j < tokenBufferPos st ->
       digit (rd (tokenBuffer st) j) \/ rd (tokenBuffer st) j = chr ";".

(** The SGR parameter that selects an extended colour, and the Screen call
    it leads to. *)
Definition colour_selector (background : bool) : list Z :=
  if background then codes "48" else codes "38".

Definition set_colour (background : bool) (space colour : Z) : ScreenCall :=
  if background then setBackColor space colour else setForeColor space colour.

(** A character the tokenizer neither ignores nor treats as a control. *)
Definition printable (c : Z) : Prop := 32 <= c /\ c <> DEL.

(** The token buffer holds exactly the characters [l]. *)
Definition holds (st : Vt102Emulation) (l : list Z) : Prop :=
  tokenBufferPos st = Z.of_nat (length l)
  /\ forall j c, l !! j = Some c -> rd (tokenBuffer st) (Z.of_nat j) = c.

(** Inside an operating system command whose text so far is [body]. *)
Definition in_OSC (st : Vt102Emulation) (body : list Z) : Prop :=
  getMode MODE_Ansi st = true
  /\ holds st (ESC :: chr "]" :: body)
  /\ Forall printable body
  /\ tokenBufferPos st + 1 < MAX_TOKEN_LENGTH.

(** [updateSessionAttributes()], the slot of the 20 ms timer.  [keys] is
    what [_pendingSessionAttributesUpdates.keys()] returns: the keys of the
    hash in the order the container lists them.  [operator[]] on a key
    that is absent yields an empty string. *)
Definition updateSessionAttributes (keys : list Z) (st : Vt102Emulation) : Vt102Emulation :=
  let st :=
    fold_left (fun st arg =>
                 emit (sessionAttributeChanged arg
                         (default [] (_pendingSessionAttributesUpdates st !! arg))) st)
      keys st in
  set_pending ∅ st.

(** The value the tokenizer stores for a parameter written as the digits
    [ds]. *)
Definition capped (ds : list Z) : Z := Z.min (decimal_value ds) MAX_ARGUMENT.

(** The arguments left in [argv] by a list of parameters: all of them when
    they fit the array, else the first [MAXARGS - 1] and the last one, which
    every parameter from the [MAXARGS]-th on overwrites. *)
Definition kept_arguments (parameters : list (list Z)) : list Z :=
  if (length parameters <=? Z.to_nat MAXARGS)%nat then map capped parameters
  else map capped (take (Z.to_nat (MAXARGS - 1)) parameters)
       ++ [capped (List.last parameters [])].

(** One token per value, in order, as the loop that ends a control sequence
    dispatches them. *)
Definition dispatch_each (tok : Z -> Z) (values : list Z) (st : Vt102Emulation)
    : Vt102Emulation :=
  fold_left (fun st v => processToken (tok v) 0 0 st) values st.

(** Tokens of the types CSI_PS and CSI_PR, which carry a parameter. *)
Definition parameter_token (t : Z) : bool :=
  (Z.land t 0xff =? 5) || (Z.land t 0xff =? 7).

(** Inside a device control string: [ESC P] at the start of the token. *)
Definition in_DCS (st : Vt102Emulation) : Prop :=
  getMode MODE_Ansi st = true
  /\ 2 <= tokenBufferPos st
  /\ rd (tokenBuffer st) 0 = ESC
  /\ rd (tokenBuffer st) 1 = chr "P".

(** * Proofs *)

(** ** Character classes *)

Lemma class_of_digit cc :
  cc < 256 -> has_class cc DIG = true -> chr "0" <= cc <= chr "9".
Proof.
  intros Hlt Hc.
  destruct (Z.ltb_spec cc 0) as [Hneg|Hpos].
  - unfold has_class, charClass, lookup_table in Hc.
    replace (Z.to_nat cc) with O in Hc by lia. discriminate Hc.
  - assert (Hall : forallb (fun c => implb (has_class c DIG)
                                       ((chr "0" <=? c) && (c <=? chr "9")))
                     (seqZ 0 256) = true) by (vm_compute; reflexivity).
    rewrite forallb_forall in Hall.
    specialize (Hall cc). rewrite Hc in Hall. cbn [implb] in Hall.
    assert (Hin : In cc (seqZ 0 256)).
    { apply list_elem_of_In, elem_of_seqZ. lia. }
    apply Hall in Hin. apply andb_true_iff in Hin as [H1 H2]. lia.
Qed.

Lemma digit_of_class cc :
  cc < 256 -> has_class cc DIG = true ->
  0 <= to_int (to_uint (cc - chr "0")) <= 9.
Proof.
  intros Hlt Hc. pose proof (class_of_digit cc Hlt Hc) as Hd.
  change (chr "0") with 48 in *. change (chr "9") with 57 in *.
  unfold to_int, to_uint.
  rewrite (Z.mod_small (cc - 48)) by lia.
  rewrite Z.mod_small by lia. lia.
Qed.

(** ** Every operation keeps what its parts keep *)

Create HintDb pres.

Section Preservation.
Variable P : Vt102Emulation -> Prop.

(** What [P] must survive: the log, the fields the dispatcher writes
    directly, the tokenizer's own writes and the three mode writers. *)
Hypothesis P_emit : forall e, preserves P (emit e).
Hypothesis P_set_charset : forall cs, preserves P (set_charset cs).
Hypothesis P_set_currentScreen : forall b, preserves P (set_currentScreen b).
Hypothesis P_set_codec : forall c, preserves P (set_codec c).
Hypothesis P_set_pending : forall m, preserves P (set_pending m).
Hypothesis P_set_reportFocusEvents : forall b, preserves P (set_reportFocusEvents b).
Hypothesis P_resetTokenizer : preserves P resetTokenizer.
Hypothesis P_addDigit : forall d, 0 <= d <= 9 -> preserves P (addDigit d).
Hypothesis P_addArgument : preserves P addArgument.
Hypothesis P_addToCurrentToken : forall cc, preserves P (addToCurrentToken cc).
Hypothesis P_rewrite_first : forall v,
  preserves P (fun st => set_tokenizer (wr (tokenBuffer st) 0 v)
                           (tokenBufferPos st) (argc st) (argv st) st).
Hypothesis P_setMode : forall m, preserves P (setMode m).
Hypothesis P_resetMode : forall m, preserves P (resetMode m).
Hypothesis P_saveMode : forall m, preserves P (saveMode m).

Lemma preserves_skip : preserves P skip.
Proof. intros st H; exact H. Qed.

Lemma preserves_and_then f g :
  preserves P f -> preserves P g -> preserves P (f >>> g).
Proof. intros Hf Hg st H. apply Hg, Hf, H. Qed.

Lemma preserves_on_screen scrno call : preserves P (on_screen scrno call).
Proof. apply P_emit. Qed.

Lemma preserves_on_current call : preserves P (on_current call).
Proof. intros st H. apply P_emit, H. Qed.

Lemma preserves_sendString s : preserves P (sendString s).
Proof. apply P_emit. Qed.

Lemma preserves_setScreen n : preserves P (setScreen n).
Proof. apply P_set_currentScreen. Qed.

Lemma preserves_Emulation_setCodec c : preserves P (Emulation_setCodec c).
Proof. intros st H. apply P_emit, P_set_codec, H. Qed.

Lemma preserves_update_charset scrno f : preserves P (update_charset scrno f).
Proof. intros st H. apply P_set_charset, H. Qed.

Lemma preserves_update_CHARSET f : preserves P (update_CHARSET f).
Proof. intros st H. apply P_set_charset, H. Qed.

Hint Resolve preserves_skip preserves_and_then preserves_on_screen
  preserves_on_current preserves_sendString preserves_setScreen
  preserves_Emulation_setCodec preserves_update_charset
  preserves_update_CHARSET P_emit P_set_reportFocusEvents P_resetTokenizer
  P_addArgument P_addToCurrentToken P_setMode P_resetMode P_saveMode : pres.

(** Unfold one operation and keep [P] through each of its statements. *)
Ltac through :=
  repeat first
    [ assumption
    | match goal with
      | |- P (if ?c then _ else _) => destruct c
      | |- P (match ?c with Some _ => _ | None => _ end) => destruct c
      | |- P (let '(_, _) := ?c in _) => destruct c
      | |- P (?f ?st) =>
          let H := fresh in
          assert (H : preserves P f) by auto with pres; apply H; clear H
      | |- P (?f _ ?st) =>
          let H := fresh in
          assert (H : preserves P (f _)) by auto with pres; apply H; clear H
      end ].

Lemma preserves_useCharset n : preserves P (useCharset n).
Proof. apply preserves_update_CHARSET. Qed.

Lemma preserves_resetCharset scrno : preserves P (resetCharset scrno).
Proof. apply preserves_update_charset. Qed.
Hint Resolve preserves_useCharset preserves_resetCharset : pres.

Lemma preserves_setCharset n cs : preserves P (setCharset n cs).
Proof. intros st H. unfold setCharset. cbv zeta. through. Qed.

Lemma preserves_setAndUseCharset n cs : preserves P (setAndUseCharset n cs).
Proof. intros st H. unfold setAndUseCharset. cbv zeta. through. Qed.

Lemma preserves_saveCursor : preserves P saveCursor.
Proof. intros st H. unfold saveCursor. cbv zeta. through. Qed.

Lemma preserves_restoreCursor : preserves P restoreCursor.
Proof. intros st H. unfold restoreCursor. cbv zeta. through. Qed.

Lemma preserves_clearEntireScreen_ : preserves P clearEntireScreen_.
Proof. intros st H. unfold clearEntireScreen_. through. Qed.

Lemma preserves_setDefaultMargins : preserves P setDefaultMargins.
Proof. intros st H. unfold setDefaultMargins. through. Qed.

Lemma preserves_setMargins t b : preserves P (setMargins t b).
Proof. intros st H. unfold setMargins. through. Qed.
Hint Resolve preserves_setCharset preserves_setAndUseCharset
  preserves_saveCursor preserves_restoreCursor preserves_clearEntireScreen_
  preserves_setDefaultMargins preserves_setMargins : pres.

Lemma preserves_restoreMode m : preserves P (restoreMode m).
Proof. intros st H. unfold restoreMode. through. Qed.
Hint Resolve preserves_restoreMode : pres.

Lemma preserves_resetModes : preserves P resetModes.
Proof. intros st H. unfold resetModes. cbv zeta. through. Qed.
Hint Resolve preserves_resetModes : pres.

Lemma preserves_reset : preserves P reset.
Proof. intros st H. unfold reset. cbv zeta. through. Qed.

Lemma preserves_reportCursorPosition : preserves P reportCursorPosition.
Proof. intros st H. unfold reportCursorPosition. cbv zeta. through. Qed.

Lemma preserves_reportSize : preserves P reportSize.
Proof. intros st H. unfold reportSize. cbv zeta. through. Qed.

Lemma preserves_reportTerminalType : preserves P reportTerminalType.
Proof. intros st H. unfold reportTerminalType. through. Qed.

Lemma preserves_reportTertiaryAttributes : preserves P reportTertiaryAttributes.
Proof. intros st H. unfold reportTertiaryAttributes. through. Qed.

Lemma preserves_reportSecondaryAttributes : preserves P reportSecondaryAttributes.
Proof. intros st H. unfold reportSecondaryAttributes. through. Qed.

Lemma preserves_reportTerminalParms p : preserves P (reportTerminalParms p).
Proof. intros st H. unfold reportTerminalParms. through. Qed.

Lemma preserves_reportStatus : preserves P reportStatus.
Proof. intros st H. unfold reportStatus. through. Qed.

Lemma preserves_reportAnswerBack : preserves P reportAnswerBack.
Proof. intros st H. unfold reportAnswerBack. through. Qed.

Lemma preserves_processChecksumRequest : preserves P processChecksumRequest.
Proof. intros st H. unfold processChecksumRequest. cbv zeta. through. Qed.

Lemma preserves_reportDecodingError : preserves P reportDecodingError.
Proof. intros st H. unfold reportDecodingError. through. Qed.
Hint Resolve preserves_reset preserves_reportCursorPosition
  preserves_reportSize preserves_reportTerminalType
  preserves_reportTertiaryAttributes preserves_reportSecondaryAttributes
  preserves_reportTerminalParms preserves_reportStatus
  preserves_reportAnswerBack preserves_processChecksumRequest
  preserves_reportDecodingError : pres.

Lemma preserves_processSessionAttributeRequest tokenSize :
  preserves P (processSessionAttributeRequest tokenSize).
Proof.
  intros st H. unfold processSessionAttributeRequest. cbv zeta. through.
Qed.
Hint Resolve preserves_processSessionAttributeRequest : pres.

Ltac each_case :=
  unfold cases_preserve;
  match goal with |- Forall _ ?cases => unfold cases end;
  repeat constructor; intros p q; cbn [snd]; auto 6 with pres.

Lemma cases_chr_preserve : cases_preserve P cases_chr.
Proof. each_case. Qed.
Lemma cases_ctl_preserve : cases_preserve P cases_ctl.
Proof. each_case. Qed.
Lemma cases_esc_preserve : cases_preserve P cases_esc.
Proof. each_case. Qed.
Lemma cases_esc_cs_preserve : cases_preserve P cases_esc_cs.
Proof. each_case. Qed.
Lemma cases_esc_de_preserve : cases_preserve P cases_esc_de.
Proof. each_case. Qed.
Lemma cases_csi_ps_preserve : cases_preserve P cases_csi_ps.
Proof. each_case. Qed.
Lemma cases_csi_ps_2_preserve : cases_preserve P cases_csi_ps_2.
Proof. each_case. Qed.
Lemma cases_csi_pn_preserve : cases_preserve P cases_csi_pn.
Proof. each_case. Qed.
Lemma cases_csi_pr_preserve : cases_preserve P cases_csi_pr.
Proof. each_case. Qed.
Lemma cases_csi_pr_2_preserve : cases_preserve P cases_csi_pr_2.
Proof. each_case. Qed.
Lemma cases_csi_sp_preserve : cases_preserve P cases_csi_sp.
Proof. each_case. Qed.
Lemma cases_csi_psp_preserve : cases_preserve P cases_csi_psp.
Proof. each_case. Qed.
Lemma cases_csi_pe_preserve : cases_preserve P cases_csi_pe.
Proof. each_case. Qed.
Lemma cases_vt52_preserve : cases_preserve P cases_vt52.
Proof. each_case. Qed.
Lemma cases_csi_pq_preserve : cases_preserve P cases_csi_pq.
Proof. each_case. Qed.
Lemma cases_csi_pg_preserve : cases_preserve P cases_csi_pg.
Proof. each_case. Qed.

Lemma processToken_cases_preserve : cases_preserve P processToken_cases.
Proof.
  unfold processToken_cases, cases_preserve.
  rewrite !Forall_app.
  repeat split;
    first [ exact cases_chr_preserve | exact cases_ctl_preserve
          | exact cases_esc_preserve | exact cases_esc_cs_preserve
          | exact cases_esc_de_preserve | exact cases_csi_ps_preserve
          | exact cases_csi_ps_2_preserve | exact cases_csi_pn_preserve
          | exact cases_csi_pr_preserve | exact cases_csi_pr_2_preserve
          | exact cases_csi_sp_preserve | exact cases_csi_psp_preserve
          | exact cases_csi_pe_preserve | exact cases_vt52_preserve
          | exact cases_csi_pq_preserve | exact cases_csi_pg_preserve ].
Qed.

Lemma preserves_processToken token p q : preserves P (processToken token p q).
Proof.
  intros st H. unfold processToken.
  destruct (find _ processToken_cases) as [c|] eqn:E.
  - apply find_some in E as [Hin _].
    pose proof processToken_cases_preserve as Hall.
    unfold cases_preserve in Hall. rewrite List.Forall_forall in Hall.
    apply (Hall c Hin p q st H).
  - apply preserves_reportDecodingError, H.
Qed.
Hint Resolve preserves_processToken : pres.

Lemma preserves_dispatch_parameters rounds p cc i :
  preserves P (dispatch_parameters rounds p cc i).
Proof.
  revert i. induction rounds as [|rounds IH]; intros i st H; cbn [dispatch_parameters].
  - exact H.
  - cbv zeta.
    repeat match goal with
           | |- P (if ?c then _ else _) => destruct c
           end;
      try apply IH; try apply preserves_processToken; exact H.
Qed.
Hint Resolve preserves_dispatch_parameters : pres.

Lemma preserves_scan_ansi p cc : preserves P (scan_ansi p cc).
Proof.
  intros st H. unfold scan_ansi. cbv zeta.
  repeat match goal with
         | |- P (if ?c then _ else _) => destruct c eqn:?
         end;
    try exact H;
    try (apply P_addArgument; exact H);
    try (apply P_resetTokenizer;
         first [ apply preserves_processToken
               | apply preserves_processChecksumRequest
               | apply preserves_dispatch_parameters ];
         exact H).
  apply P_addDigit; [|exact H].
  match goal with
  | E : ees _ _ DIG = true |- _ =>
      unfold ees in E; apply andb_true_iff in E as [E Hd];
      apply andb_true_iff in E as [_ Hlt]
  end.
  apply digit_of_class; [lia | exact Hd].
Qed.

Lemma preserves_scan_vt52 p : preserves P (scan_vt52 p).
Proof.
  intros st H. unfold scan_vt52. cbv zeta.
  repeat match goal with
         | |- P (if ?c then _ else _) => destruct c
         end;
    try exact H; apply P_resetTokenizer, preserves_processToken, H.
Qed.

Lemma advance_preserves again cc st st' :
  again_preserves P again ->
  advance again cc st = Some st' -> P st -> P st'.
Proof.
  intros Hagain Hrun H. unfold advance in Hrun. cbv zeta in Hrun.
  apply (P_addToCurrentToken cc) in H.
  set (st1 := addToCurrentToken cc st) in *. clearbody st1.
  repeat match type of Hrun with
         | (if ?c then _ else _) = _ => destruct c
         end;
    try (injection Hrun as <-);
    try exact H;
    try match goal with
        | |- context [if ?c then on_current _ _ else _] => destruct c
        end;
    try (apply P_resetTokenizer, preserves_processSessionAttributeRequest;
         try apply preserves_on_current; exact H);
    try (apply preserves_scan_ansi; exact H);
    try (apply preserves_scan_vt52; exact H).
  - eapply Hagain; [exact Hrun|]. apply (P_rewrite_first ESC st1 H).
  - eapply Hagain; [exact Hrun|].
    apply P_resetTokenizer, preserves_processSessionAttributeRequest, H.
Qed.

Lemma receiveChar_preserves again st cc st' :
  again_preserves P again ->
  receiveChar again st cc = Some st' -> P st -> P st'.
Proof.
  intros Hagain Hrun H. unfold receiveChar in Hrun. cbv zeta in Hrun.
  repeat match type of Hrun with
         | context [if ?c then _ else _] => destruct c
         end;
    try (injection Hrun as <-);
    try exact H;
    try (apply preserves_processToken; try apply P_resetTokenizer; exact H);
    try (eapply advance_preserves; [exact Hagain | exact Hrun | ];
         try apply P_resetTokenizer; exact H).
Qed.

Lemma feed_preserves step st chars st' :
  (forall st cc st', step st cc = Some st' -> P st -> P st') ->
  feed step st chars = Some st' -> P st -> P st'.
Proof.
  intros Hstep. revert st. induction chars as [|cc chars IH]; intros st Hrun H.
  - injection Hrun as <-. exact H.
  - cbn [feed] in Hrun. destruct (step st cc) as [st1|] eqn:E; [|discriminate].
    eapply IH; [exact Hrun|]. eapply Hstep; eauto.
Qed.

Lemma receiveChars_preserves depth : again_preserves P (receiveChars depth).
Proof.
  induction depth as [|depth IH]; intros st chars st' Hrun H.
  - discriminate Hrun.
  - cbn [receiveChars] in Hrun.
    eapply feed_preserves; [|exact Hrun|exact H].
    intros st1 cc st2. apply receiveChar_preserves, IH.
Qed.

Lemma preserves_sendMouseEvent cb cx cy eventType :
  preserves P (sendMouseEvent cb cx cy eventType).
Proof.
  intros st H. unfold sendMouseEvent. cbv zeta.
  repeat match goal with
         | |- P (if ?c then _ else _) => destruct c
         end;
    try exact H; apply preserves_sendString, H.
Qed.

Lemma preserves_focusChanged focused : preserves P (focusChanged focused).
Proof.
  intros st H. unfold focusChanged.
  destruct (_reportFocusEvents st); [apply preserves_sendString|]; exact H.
Qed.
End Preservation.

(** ** [receiveChars] returns *)

Lemma feed_single step st cc : feed step st [cc] = step st cc.
Proof. cbn [feed]. destruct (step st cc); reflexivity. Qed.

Lemma receiveChars_S depth st chars :
  receiveChars (S depth) st chars = feed (receiveChar (receiveChars depth)) st chars.
Proof. reflexivity. Qed.

(** After [ESC], the character '[' is stored without any nested call. *)
Lemma receiveChar_bracket again st :
  tokenBufferPos st = 1 -> getMode MODE_Ansi st = true ->
  exists st', receiveChar again st (chr "[") = Some st'.
Proof.
  destruct st as [buf pos ac av cm sm cs cur cod pend rf w o].
  destruct cm. unfold getMode. cbn. intros -> ->.
  eexists. vm_compute. reflexivity.
Qed.

Lemma receiveChars_bracket depth st :
  tokenBufferPos st = 1 -> getMode MODE_Ansi st = true ->
  exists st', receiveChars (S depth) st [chr "["] = Some st'.
Proof.
  intros Hp Ha. rewrite receiveChars_S, feed_single.
  apply receiveChar_bracket; assumption.
Qed.

(** With an empty token, one nested call at most is needed. *)
Lemma receiveChar_fresh again st cc :
  tokenBufferPos st = 0 ->
  (forall st1, tokenBufferPos st1 = 1 -> getMode MODE_Ansi st1 = true ->
               exists st', again st1 [chr "["] = Some st') ->
  exists st', receiveChar again st cc = Some st'.
Proof.
  intros Hp Hagain. unfold receiveChar. cbv zeta.
  assert (Hadv : forall st0, tokenBufferPos st0 = 0 ->
                   exists st', advance again cc st0 = Some st').
  { clear st Hp. intros st Hp. unfold advance. cbv zeta.
    assert (Hp1 : tokenBufferPos (addToCurrentToken cc st) = 1).
    { unfold addToCurrentToken. cbn. rewrite Hp. reflexivity. }
    set (st1 := addToCurrentToken cc st) in *. clearbody st1.
    rewrite Hp1.
    destruct (getMode MODE_Ansi st1) eqn:Ha; [|eauto].
    destruct (lec 1 _ 1 0 ESC); [eauto|].
    destruct (lec 1 _ 1 0 (ESC + 128)).
    { apply Hagain; [reflexivity | exact Ha]. }
    destruct (les 1 _ 2 1 GRP); [eauto|].
    cbn. eauto. }
  repeat match goal with
         | |- context [if ?c then _ else _] => destruct c
         end; eauto.
Qed.

Lemma receiveChar_total st cc :
  exists st', receiveChar (receiveChars 2) st cc = Some st'.
Proof.
  assert (Hfresh : forall st0 c, tokenBufferPos st0 = 0 ->
                     exists st', receiveChars 2 st0 [c] = Some st').
  { intros st0 c Hp. rewrite receiveChars_S, feed_single.
    apply receiveChar_fresh; [exact Hp|].
    intros st1 Hp1 Ha. apply (receiveChars_bracket 0); assumption. }
  assert (Hadv : forall st0, exists st', advance (receiveChars 2) cc st0 = Some st').
  { clear st. intros st. unfold advance. cbv zeta.
    set (st1 := addToCurrentToken cc st). clearbody st1.
    destruct (getMode MODE_Ansi st1) eqn:Ha; [|eauto].
    destruct (lec _ _ 1 0 ESC); [eauto|].
    destruct (lec _ _ 1 0 (ESC + 128)) eqn:E.
    { apply (receiveChars_bracket 1); [|exact Ha].
      unfold lec in E. apply andb_true_iff in E as [E _]. cbn. lia. }
    destruct (les _ _ 2 1 GRP); [eauto|].
    repeat match goal with
           | |- context [if ?c then _ else _] => destruct c
           end; eauto.
    all: apply Hfresh; reflexivity. }
  unfold receiveChar. cbv zeta.
  repeat match goal with
         | |- context [if ?c then _ else _] => destruct c
         end; eauto.
Qed.

(** Nesting depth 3 is always enough: [receiveChars] returns a state for
    every input and every state. *)
Lemma receiveChars_total st chars :
  exists st', receiveChars receiveChars_depth st chars = Some st'.
Proof.
  unfold receiveChars_depth. rewrite (receiveChars_S 2).
  revert st. induction chars as [|cc chars IH]; intros st.
  - eexists. reflexivity.
  - cbn [feed]. destruct (receiveChar_total st cc) as [st1 ->]. apply IH.
Qed.

(** ** The mouse modes stay exclusive *)

(** Closes a goal [mouse_modes_exclusive st'] once the modes of [st'] are
    explicit: each group is either untouched or has exactly one mode set. *)
Ltac exclusive_by H :=
  unfold mouse_modes_exclusive, getMode in *; cbn in H |- *;
  repeat match goal with
         | |- context [if ?c then clearScreenAndSetColumns _ _ else _] =>
             destruct c; cbn
         end;
  destruct H as [H1 H2];
  split; first [exact H1 | exact H2 | cbn; lia].

Lemma setMode_exclusive m : preserves mouse_modes_exclusive (setMode m).
Proof.
  intros [buf pos ac av cm sm cs cur cod pend rf w o] H.
  destruct cm. destruct m; unfold setMode; exclusive_by H.
Qed.

Lemma resetMode_exclusive m : preserves mouse_modes_exclusive (resetMode m).
Proof.
  intros [buf pos ac av cm sm cs cur cod pend rf w o] H.
  destruct cm. destruct m; unfold resetMode; exclusive_by H.
Qed.

Lemma receiveChars_exclusive depth st chars st' :
  receiveChars depth st chars = Some st' ->
  mouse_modes_exclusive st -> mouse_modes_exclusive st'.
Proof.
  apply receiveChars_preserves;
    first [ apply setMode_exclusive | apply resetMode_exclusive
          | intros; intros s Hs; exact Hs ].
Qed.

(** ** The tokenizer stays within its bounds *)

Lemma to_int_small z : - 2 ^ 31 <= z < 2 ^ 31 -> to_int z = z.
Proof. intros H. unfold to_int. rewrite Z.mod_small; lia. Qed.

Lemma resetTokenizer_establishes_bounds st : tokenizer_bounds (resetTokenizer st).
Proof.
  unfold tokenizer_bounds, resetTokenizer, rd, wr. cbn.
  unfold MAX_TOKEN_LENGTH, MAXARGS, MAX_ARGUMENT.
  repeat split; try lia; replace i with 0 by lia; cbn; lia.
Qed.

Lemma resetTokenizer_bounds : preserves tokenizer_bounds resetTokenizer.
Proof. intros st _. apply resetTokenizer_establishes_bounds. Qed.

Lemma addDigit_bounds d : 0 <= d <= 9 -> preserves tokenizer_bounds (addDigit d).
Proof.
  intros Hd st (Hp & Hc & Ha).
  unfold tokenizer_bounds, addDigit, rd, wr in *. cbn.
  repeat split; try lia; destruct (Z.eqb_spec i (argc st)) as [->|Hne];
    try (apply Ha; lia);
    specialize (Ha (argc st) ltac:(lia)); unfold MAX_ARGUMENT in *;
    rewrite to_int_small by lia; lia.
Qed.

Lemma addArgument_bounds : preserves tokenizer_bounds addArgument.
Proof.
  intros st (Hp & Hc & Ha).
  unfold tokenizer_bounds, addArgument, rd, wr in *. cbn.
  unfold MAXARGS, MAX_ARGUMENT in *.
  repeat split; try lia;
    destruct (Z.eqb_spec i (Z.min (argc st + 1) (15 - 1))) as [->|Hne];
    try lia; apply Ha; lia.
Qed.

Lemma addToCurrentToken_bounds cc : preserves tokenizer_bounds (addToCurrentToken cc).
Proof.
  intros st (Hp & Hc & Ha).
  unfold tokenizer_bounds, addToCurrentToken in *. cbn.
  unfold MAX_TOKEN_LENGTH in *. repeat split; try lia; apply Ha; lia.
Qed.

Lemma setMode_bounds m : preserves tokenizer_bounds (setMode m).
Proof.
  intros st H. unfold tokenizer_bounds in *.
  destruct m; unfold setMode; cbn;
    repeat match goal with
           | |- context [if ?c then _ else _] => destruct c; cbn
           end; exact H.
Qed.

Lemma resetMode_bounds m : preserves tokenizer_bounds (resetMode m).
Proof.
  intros st H. unfold tokenizer_bounds in *.
  destruct m; unfold resetMode; cbn;
    repeat match goal with
           | |- context [if ?c then _ else _] => destruct c; cbn
           end; exact H.
Qed.

Lemma receiveChars_bounds depth st chars st' :
  receiveChars depth st chars = Some st' ->
  tokenizer_bounds st -> tokenizer_bounds st'.
Proof.
  apply receiveChars_preserves;
    first [ apply setMode_bounds | apply resetMode_bounds
          | exact resetTokenizer_bounds | exact addDigit_bounds
          | exact addArgument_bounds | exact addToCurrentToken_bounds
          | intros; intros s Hs; exact Hs ].
Qed.

Lemma reset_bounds : preserves tokenizer_bounds reset.
Proof.
  apply preserves_reset;
    first [ apply setMode_bounds | apply resetMode_bounds
          | exact resetTokenizer_bounds
          | intros; intros s Hs; exact Hs ].
Qed.

Lemma Vt102Emulation_new_bounds w buf args cs :
  tokenizer_bounds (Vt102Emulation_new w buf args cs).
Proof. apply resetTokenizer_establishes_bounds. Qed.

(** ** The loop over the parameters runs to its end *)

Lemma setMode_tokenizer m st :
  tokenBuffer (setMode m st) = tokenBuffer st
  /\ tokenBufferPos (setMode m st) = tokenBufferPos st
  /\ argc (setMode m st) = argc st
  /\ argv (setMode m st) = argv st.
Proof.
  destruct m; unfold setMode; cbn;
    repeat match goal with
           | |- context [if ?c then _ else _] => destruct c; cbn
           end; repeat split; reflexivity.
Qed.

Lemma resetMode_tokenizer m st :
  tokenBuffer (resetMode m st) = tokenBuffer st
  /\ tokenBufferPos (resetMode m st) = tokenBufferPos st
  /\ argc (resetMode m st) = argc st
  /\ argv (resetMode m st) = argv st.
Proof.
  destruct m; unfold resetMode; cbn;
    repeat match goal with
           | |- context [if ?c then _ else _] => destruct c; cbn
           end; repeat split; reflexivity.
Qed.

(** No token makes the argument count grow. *)
Lemma processToken_argc K token p q st :
  0 <= K -> argc st <= K -> argc (processToken token p q st) <= K.
Proof.
  intros HK.
  apply (preserves_processToken (fun s => argc s <= K));
    try (intros; intros s Hs; exact Hs).
  - intros s _. exact HK.
  - intros m s Hs. rewrite (proj1 (proj2 (proj2 (setMode_tokenizer m s)))). exact Hs.
  - intros m s Hs. rewrite (proj1 (proj2 (proj2 (resetMode_tokenizer m s)))). exact Hs.
Qed.

(** Once the rounds cover the indices left, more rounds change nothing:
    the [argc + 1] rounds [scan_ansi] allows are the whole loop. *)
Lemma dispatch_parameters_rounds K n1 n2 p cc i st :
  0 <= K -> argc st <= K ->
  (Z.to_nat (K + 1 - i) <= n1)%nat -> (Z.to_nat (K + 1 - i) <= n2)%nat ->
  dispatch_parameters n1 p cc i st = dispatch_parameters n2 p cc i st.
Proof.
  intros HK. revert n2 i st.
  induction n1 as [|n1 IH]; intros n2 i st Hc H1 H2.
  - destruct n2 as [|n2]; [reflexivity|].
    cbn [dispatch_parameters].
    rewrite (proj2 (Z.leb_gt i (argc st))) by lia. reflexivity.
  - destruct n2 as [|n2].
    + cbn [dispatch_parameters].
      rewrite (proj2 (Z.leb_gt i (argc st))) by lia. reflexivity.
    + cbn [dispatch_parameters]. cbv zeta.
      destruct (i <=? argc st) eqn:Ei; [|reflexivity].
      apply Z.leb_le in Ei.
      repeat match goal with
             | |- (if ?c then _ else _) = (if ?c then _ else _) => destruct c
             end;
        apply IH; try apply processToken_argc; try assumption; lia.
Qed.

(** Outside an OSC string, [ESC] abandons the token scanned so far and
    starts a new one. *)
Lemma receiveChar_ESC again st :
  osc st = false ->
  receiveChar again st ESC = advance again ESC (resetTokenizer st).
Proof.
  intros Hosc. unfold receiveChar. rewrite Hosc. reflexivity.
Qed.

Lemma receiveChars_ESC st chars :
  osc st = false ->
  getMode MODE_Ansi st = true ->
  receiveChars receiveChars_depth st (ESC :: chars)
  = receiveChars receiveChars_depth (addToCurrentToken ESC (resetTokenizer st)) chars.
Proof.
  intros Hosc Ha. unfold receiveChars_depth. rewrite !(receiveChars_S 2).
  cbn [feed]. rewrite receiveChar_ESC by exact Hosc.
  unfold advance. cbv zeta.
  change (getMode MODE_Ansi (addToCurrentToken ESC (resetTokenizer st)))
    with (getMode MODE_Ansi st).
  rewrite Ha. reflexivity.
Qed.

(** ** Parameters of a control sequence *)

Lemma charClass_digit cc :
  chr "0" <= cc <= chr "9" -> charClass cc = Z.lor CHR DIG.
Proof.
  change (chr "0") with 48. change (chr "9") with 57. intros H.
  assert (Hc : cc = 48 \/ cc = 49 \/ cc = 50 \/ cc = 51 \/ cc = 52 \/ cc = 53
               \/ cc = 54 \/ cc = 55 \/ cc = 56 \/ cc = 57) by lia.
  repeat destruct Hc as [->|Hc]; try subst cc; reflexivity.
Qed.

Lemma if_true (A : Type) (a b : A) : (if true then a else b) = a.
Proof. reflexivity. Qed.

Lemma if_false (A : Type) (a b : A) : (if false then a else b) = b.
Proof. reflexivity. Qed.

(** Decides the comparisons of the goal that linear arithmetic settles and
    simplifies the conditionals they guard. *)
Ltac settle_comparisons :=
  repeat first
    [ rewrite andb_false_r
    | rewrite andb_false_l
    | rewrite andb_true_l
    | rewrite if_false
    | rewrite if_true
    | match goal with
      | |- context [?a =? ?b] =>
          first [ rewrite (proj2 (Z.eqb_neq a b)) by lia
                | rewrite (proj2 (Z.eqb_eq a b)) by lia ]
      | |- context [?a <=? ?b] =>
          first [ rewrite (proj2 (Z.leb_le a b)) by lia
                | rewrite (proj2 (Z.leb_gt a b)) by lia ]
      | |- context [?a <? ?b] =>
          first [ rewrite (proj2 (Z.ltb_lt a b)) by lia
                | rewrite (proj2 (Z.ltb_ge a b)) by lia ]
      end ].

Lemma scan_ansi_digit st cc :
  3 <= tokenBufferPos st ->
  rd (tokenBuffer st) 1 = chr "[" ->
  rd (tokenBuffer st) (tokenBufferPos st - 1) = cc ->
  rd (tokenBuffer st) 2 <> chr "!" ->
  (4 <= tokenBufferPos st -> rd (tokenBuffer st) 2 <> SP) ->
  (5 <= tokenBufferPos st -> rd (tokenBuffer st) 3 <> SP) ->
  chr "0" <= cc <= chr "9" ->
  scan_ansi (tokenBufferPos st) cc st = addDigit (cc - chr "0") st.
Proof.
  intros Hp H1 Hlast H2 H2' H3 Hd.
  pose proof (charClass_digit cc Hd) as Hclass.
  unfold scan_ansi, osc, lec, lun, les, eec, ees, eps, epp, epe, eeq, egt,
    esp, epsp, dcs, has_class.
  cbv zeta. rewrite Hclass.
  unfold rd in *.
  change (chr "0") with 48 in *. change (chr "9") with 57 in *.
  change (chr "[") with 91 in *. change (chr "!") with 33 in *.
  change (chr "]") with 93. change (chr "?") with 63. change (chr "=") with 61.
  change (chr ">") with 62. change (chr "#") with 35. change (chr "P") with 80.
  change (chr ";") with 59.
  unfold ESC, SP, CHR, CPN, DIG, SCS, GRP, CPS, INT in *.
  change (Z.lor 2 8) with 10.
  change (Z.land 10 4) with 0. change (Z.land 10 64) with 0.
  change (Z.land 10 8) with 8.
  remember (tokenBufferPos st) as p eqn:Ep.
  remember (tokenBuffer st) as s eqn:Es.
  rewrite !H1. change (Z.land (charClass 91) 16 =? 16) with false.
  assert (Hcase : p = 3 \/ p = 4 \/ 5 <= p) by lia.
  destruct Hcase as [E|[E|E]].
  - subst p. rewrite E in *. replace (3 - 1) with 2 in Hlast by lia.
    settle_comparisons.
    unfold to_int, to_uint. rewrite (Z.mod_small (cc - 48)) by lia.
    rewrite Z.mod_small by lia. f_equal. lia.
  - subst p. rewrite E in *. replace (4 - 1) with 3 in Hlast by lia.
    specialize (H2' ltac:(lia)).
    settle_comparisons.
    unfold to_int, to_uint. rewrite (Z.mod_small (cc - 48)) by lia.
    rewrite Z.mod_small by lia. f_equal. lia.
  - specialize (H2' ltac:(lia)). specialize (H3 ltac:(lia)).
    settle_comparisons.
    unfold to_int, to_uint. rewrite (Z.mod_small (cc - 48)) by lia.
    rewrite Z.mod_small by lia. f_equal. lia.
Qed.

Lemma charClass_semicolon : charClass (chr ";") = CHR.
Proof. reflexivity. Qed.

Lemma scan_ansi_semicolon st :
  3 <= tokenBufferPos st ->
  rd (tokenBuffer st) 1 = chr "[" ->
  rd (tokenBuffer st) (tokenBufferPos st - 1) = chr ";" ->
  rd (tokenBuffer st) 2 <> chr "!" ->
  (4 <= tokenBufferPos st -> rd (tokenBuffer st) 2 <> SP) ->
  (5 <= tokenBufferPos st -> rd (tokenBuffer st) 3 <> SP) ->
  scan_ansi (tokenBufferPos st) (chr ";") st = addArgument st.
Proof.
  intros Hp H1 Hlast H2 H2' H3.
  unfold scan_ansi, osc, lec, lun, les, eec, ees, eps, epp, epe, eeq, egt,
    esp, epsp, dcs, has_class.
  cbv zeta. rewrite charClass_semicolon.
  unfold rd in *.
  change (chr "[") with 91 in *. change (chr "!") with 33 in *.
  change (chr "]") with 93. change (chr "?") with 63. change (chr "=") with 61.
  change (chr ">") with 62. change (chr "#") with 35. change (chr "P") with 80.
  change (chr ";") with 59 in *.
  unfold ESC, SP, CHR, CPN, DIG, SCS, GRP, CPS, INT in *.
  change (Z.land 2 4) with 0. change (Z.land 2 64) with 0.
  change (Z.land 2 8) with 0.
  remember (tokenBufferPos st) as p eqn:Ep.
  remember (tokenBuffer st) as s eqn:Es.
  rewrite !H1. change (Z.land (charClass 91) 16 =? 16) with false.
  assert (Hcase : p = 3 \/ p = 4 \/ 5 <= p) by lia.
  destruct Hcase as [E|[E|E]].
  - subst p. rewrite E in *. replace (3 - 1) with 2 in Hlast by lia.
    settle_comparisons. reflexivity.
  - subst p. rewrite E in *. replace (4 - 1) with 3 in Hlast by lia.
    specialize (H2' ltac:(lia)).
    settle_comparisons. reflexivity.
  - specialize (H2' ltac:(lia)). specialize (H3 ltac:(lia)).
    settle_comparisons. reflexivity.
Qed.

(** Inside the parameters, a character that is neither a control character
    nor an OSC terminator goes to [scan_ansi]. *)
Lemma receiveChar_in_parameters again st cc :
  in_parameters st -> cc <> DEL -> ces cc CTL = false ->
  receiveChar again st cc
  = Some (scan_ansi (tokenBufferPos st + 1) cc (addToCurrentToken cc st)).
Proof.
  intros (Ha & Hp & H0 & H1 & H2 & H3) Hdel Hctl.
  unfold receiveChar. rewrite Hctl.
  rewrite (proj2 (Z.eqb_neq cc DEL)) by exact Hdel.
  unfold advance. cbv zeta.
  change (getMode MODE_Ansi (addToCurrentToken cc st)) with (getMode MODE_Ansi st).
  rewrite Ha.
  change (tokenBufferPos (addToCurrentToken cc st))
    with (Z.min (tokenBufferPos st) (MAX_TOKEN_LENGTH - 1) + 1).
  change (tokenBuffer (addToCurrentToken cc st))
    with (wr (tokenBuffer st) (Z.min (tokenBufferPos st) (MAX_TOKEN_LENGTH - 1)) cc).
  rewrite Z.min_l by lia.
  unfold lec, les, rd, wr in *.
  change (chr "[") with 91 in *. change (chr "]") with 93.
  unfold ESC in *.
  settle_comparisons. reflexivity.
Qed.

Lemma addToCurrentToken_in_parameters st cc :
  in_parameters st -> tokenBufferPos st + 1 < MAX_TOKEN_LENGTH ->
  cc <> chr "!" -> cc <> SP ->
  in_parameters (addToCurrentToken cc st).
Proof.
  intros (Ha & Hp & H0 & H1 & H2 & H3) Hroom Hc1 Hc2.
  unfold in_parameters, addToCurrentToken, rd, wr in *.
  cbn [tokenBuffer tokenBufferPos set_tokenizer].
  change (getMode MODE_Ansi (set_tokenizer _ _ _ _ st)) with (getMode MODE_Ansi st).
  rewrite Z.min_l by lia.
  refine (conj Ha (conj _ (conj _ (conj _ (conj _ _))))).
  - lia.
  - settle_comparisons. exact H0.
  - settle_comparisons. exact H1.
  - intros Hge. destruct (Z.eqb_spec 2 (tokenBufferPos st)).
    + split; assumption.
    + apply H2. lia.
  - intros Hge. destruct (Z.eqb_spec 3 (tokenBufferPos st)).
    + exact Hc2.
    + apply H3. lia.
Qed.

Lemma receiveChar_digit again st cc :
  in_parameters st -> chr "0" <= cc <= chr "9" ->
  receiveChar again st cc
  = Some (addDigit (cc - chr "0") (addToCurrentToken cc st)).
Proof.
  intros Hin Hd.
  rewrite receiveChar_in_parameters; try assumption.
  - f_equal.
    destruct Hin as (Ha & Hp & H0 & H1 & H2 & H3).
    assert (Hpos : tokenBufferPos (addToCurrentToken cc st) = tokenBufferPos st + 1).
    { unfold addToCurrentToken. cbn [tokenBufferPos set_tokenizer].
      rewrite Z.min_l by lia. reflexivity. }
    rewrite <- Hpos. change (chr "0") with 48 in *. change (chr "9") with 57 in *.
    apply scan_ansi_digit; rewrite ?Hpos;
      unfold addToCurrentToken, rd, wr in *;
      cbn [tokenBuffer tokenBufferPos set_tokenizer];
      rewrite ?Z.min_l by lia;
      change (chr "[") with 91 in *; change (chr "!") with 33 in *;
      change (chr "0") with 48; change (chr "9") with 57;
      unfold SP in *; try lia.
    + settle_comparisons. exact H1.
    + settle_comparisons. reflexivity.
    + destruct (Z.eqb_spec 2 (tokenBufferPos st)); [lia | apply H2; lia].
    + intros Hge. settle_comparisons. apply H2. lia.
    + intros Hge. settle_comparisons. apply H3. lia.
  - unfold DEL. change (chr "0") with 48 in *. change (chr "9") with 57 in *. lia.
  - unfold ces, has_class. rewrite charClass_digit by exact Hd.
    apply andb_false_r.
Qed.

Lemma receiveChar_semicolon again st :
  in_parameters st ->
  receiveChar again st (chr ";")
  = Some (addArgument (addToCurrentToken (chr ";") st)).
Proof.
  intros Hin.
  rewrite receiveChar_in_parameters; try assumption.
  - f_equal.
    destruct Hin as (Ha & Hp & H0 & H1 & H2 & H3).
    assert (Hpos : tokenBufferPos (addToCurrentToken (chr ";") st)
                   = tokenBufferPos st + 1).
    { unfold addToCurrentToken. cbn [tokenBufferPos set_tokenizer].
      rewrite Z.min_l by lia. reflexivity. }
    rewrite <- Hpos.
    apply scan_ansi_semicolon; rewrite ?Hpos;
      unfold addToCurrentToken, rd, wr in *;
      cbn [tokenBuffer tokenBufferPos set_tokenizer];
      rewrite ?Z.min_l by lia;
      change (chr "[") with 91 in *; change (chr "!") with 33 in *;
      change (chr ";") with 59 in *;
      unfold SP in *; try lia.
    + settle_comparisons. exact H1.
    + settle_comparisons. reflexivity.
    + destruct (Z.eqb_spec 2 (tokenBufferPos st)); [lia | apply H2; lia].
    + intros Hge. settle_comparisons. apply H2. lia.
    + intros Hge. settle_comparisons. apply H3. lia.
  - discriminate.
  - reflexivity.
Qed.

Lemma if_true_eqb (z v w : Z) : (if z =? z then v else w) = v.
Proof. rewrite Z.eqb_refl. reflexivity. Qed.

(** ** Symbolic runs *)

(** Splits a state into its fields and its current modes into booleans, so
    that a run on a concrete input can be evaluated. *)
Ltac open_state st :=
  let cm := fresh "cm" in
  destruct st as [?buf ?pos ?ac ?av cm ?sm [?c0 ?c1] ?cur ?cod ?pend ?rf ?w ?o];
  destruct cm as [?mOrigin ?mWrap ?mInsert ?mScreen ?mCursor ?mNewLine ?mAppScreen
                  ?mAppCuKeys ?mAppKeyPad ?m1000 ?m1001 ?m1002 ?m1003 ?m1005
                  ?m1006 ?m1007 ?m1015 ?mAnsi ?m132 ?mAllow132 ?mBracketedPaste];
  destruct c0 as [?cs0 ?cu0 ?g0 ?p0 ?sg0 ?sp0];
  destruct c1 as [?cs1 ?cu1 ?g1 ?p1 ?sg1 ?sp1].

(** The [case] labels of [processToken] are pairwise distinct, as the
    [switch] requires. *)
Lemma processToken_cases_distinct : NoDup (map fst processToken_cases).
Proof. apply (bool_decide_unpack _). vm_compute. exact I. Qed.

(** [ESC \[] opens the parameters of a control sequence. *)
Lemma in_parameters_after_CSI st :
  getMode MODE_Ansi st = true -> osc st = false ->
  exists st',
    receiveChars receiveChars_depth st [ESC; chr "["] = Some st'
    /\ in_parameters st'.
Proof.
  intros Ha Hosc. rewrite receiveChars_ESC by assumption.
  exists (addToCurrentToken (chr "[") (addToCurrentToken ESC (resetTokenizer st))).
  split.
  - clear Hosc. open_state st. unfold getMode in Ha. cbn in Ha. subst.
    vm_compute. reflexivity.
  - unfold in_parameters.
    change (getMode MODE_Ansi
              (addToCurrentToken (chr "[") (addToCurrentToken ESC (resetTokenizer st))))
      with (getMode MODE_Ansi st).
    split; [exact Ha|].
    change (tokenBufferPos
              (addToCurrentToken (chr "[") (addToCurrentToken ESC (resetTokenizer st))))
      with 2.
    unfold MAX_TOKEN_LENGTH.
    repeat split; try lia; try reflexivity.
Qed.

Lemma land_3_idempotent z : Z.land (Z.land z 3) 3 = Z.land z 3.
Proof. rewrite <- Z.land_assoc. reflexivity. Qed.

(** What [setCharset] does: slot [n & 3] is written on both screens, the
    other screen's active slot is left alone, and the current screen's
    active slot becomes the other screen's. *)
Lemma setCharset_effect n cs st :
  (forall scrno k,
     rd (charset (charset_of scrno (setCharset n cs st))) k
     = if k =? Z.land n 3 then to_char cs
       else rd (charset (charset_of scrno st)) k)
  /\ cu_cs (charset_of (negb (_currentScreen st)) (setCharset n cs st))
     = cu_cs (charset_of (negb (_currentScreen st)) st)
  /\ cu_cs (CHARSET (setCharset n cs st))
     = Z.land (cu_cs (charset_of (negb (_currentScreen st)) st)) 3.
Proof.
  open_state st. destruct cur; cbn.
  - split; [intros [|] k; reflexivity|]. split; [reflexivity|].
    apply land_3_idempotent.
  - split; [intros [|] k; reflexivity|]. split; reflexivity.
Qed.

(** ** Mode registry *)

(** C1: starting from the constructed emulation, whatever sequence of
    setMode, resetMode, saveMode, restoreMode, receiveChars (hence every
    mode change a CSI ? h/l/s/r token triggers), reset, mouse and focus
    reports is performed, at most one of Mouse1000, Mouse1001, Mouse1002,
    Mouse1003 and at most one of Mouse1005, Mouse1006, Mouse1015 is set in
    the current modes. *)
Theorem mouse_modes_exclusive_reachable w buf args cs st :
  reachable (Vt102Emulation_new w buf args cs) st -> mouse_modes_exclusive st.
Proof.
  assert (Hframe : forall f : Vt102Emulation -> Vt102Emulation,
             (forall s, _currentModes (f s) = _currentModes s) ->
             preserves mouse_modes_exclusive f).
  { intros f Hf s Hs. unfold mouse_modes_exclusive, getMode in *.
    rewrite Hf. exact Hs. }
  induction 1 as [|st m _ IH|st m _ IH|st m _ IH|st m _ IH
                  |st chars st' _ IH Hrun|st _ IH|st cb cx cy ev _ IH|st f _ IH].
  - unfold mouse_modes_exclusive. cbn. lia.
  - apply setMode_exclusive, IH.
  - apply resetMode_exclusive, IH.
  - exact IH.
  - unfold restoreMode. destruct (mode_get _ m);
      [apply setMode_exclusive | apply resetMode_exclusive]; exact IH.
  - eapply receiveChars_exclusive; eassumption.
  - revert IH. apply preserves_reset;
      first [ apply setMode_exclusive | apply resetMode_exclusive
            | intros; apply Hframe; reflexivity ].
  - revert IH. apply preserves_sendMouseEvent. intros; apply Hframe; reflexivity.
  - revert IH. apply preserves_focusChanged. intros; apply Hframe; reflexivity.
Qed.

Lemma mouse_modes_exclusive_reachable_witness :
  reachable example_new
    (restoreMode MODE_Mouse1000
       (setMode MODE_Mouse1006 (setMode MODE_Mouse1005
          (setMode MODE_Mouse1002 (saveMode MODE_Mouse1000
             (setMode MODE_Mouse1000 (reset example_new)))))))
  /\ mouse_modes_exclusive
       (restoreMode MODE_Mouse1000
          (setMode MODE_Mouse1006 (setMode MODE_Mouse1005
             (setMode MODE_Mouse1002 (saveMode MODE_Mouse1000
                (setMode MODE_Mouse1000 (reset example_new))))))).
Proof.
  assert (Hr : reachable example_new
    (restoreMode MODE_Mouse1000
       (setMode MODE_Mouse1006 (setMode MODE_Mouse1005
          (setMode MODE_Mouse1002 (saveMode MODE_Mouse1000
             (setMode MODE_Mouse1000 (reset example_new)))))))).
  { apply reachable_restoreMode, reachable_setMode, reachable_setMode,
      reachable_setMode, reachable_saveMode, reachable_setMode,
      reachable_reset, reachable_start. }
  split; [exact Hr|].
  exact (mouse_modes_exclusive_reachable _ _ _ _ _ Hr).
Defined.

(** What [reset] does to the modes. *)
Lemma reset_modes st :
  getMode MODE_Ansi (reset st) = true
  /\ getMode MODE_Allow132Columns (reset st) = getMode MODE_Allow132Columns st
  /\ getMode MODE_Mouse1007 (reset st) = getMode MODE_Mouse1007 st
  /\ Forall (fun m => getMode m (reset st) = false) modes_cleared_by_reset.
Proof.
  destruct st as [buf pos ac av cm sm cs cur cod pend rf w o].
  destruct cm as [mOrigin mWrap mInsert mScreen mCursor mNewLine mAppScreen mAppCuKeys mAppKeyPad
                  m1000 m1001 m1002 m1003 m1005 m1006 m1007 m1015 mAnsi m132
                  mAllow132 mBracketedPaste].
  unfold modes_cleared_by_reset.
  destruct mAllow132; destruct cod;
    repeat first [split | apply Forall_cons | apply Forall_nil];
    vm_compute; reflexivity.
Qed.

(** C2: after a core reset - the [reset()] operation, or [ESC c] arriving
    in ANSI mode outside an OSC string - mode Ansi is set, Allow132Columns
    and Mouse1007 have the value they had before, and 132Columns, the seven
    mouse tracking and encoding modes, BracketedPaste, AppScreen, AppCuKeys,
    AppKeyPad and NewLine are false. *)
Theorem reset_restores_default_modes :
  (forall st,
     getMode MODE_Ansi (reset st) = true
     /\ getMode MODE_Allow132Columns (reset st) = getMode MODE_Allow132Columns st
     /\ getMode MODE_Mouse1007 (reset st) = getMode MODE_Mouse1007 st
     /\ Forall (fun m => getMode m (reset st) = false) modes_cleared_by_reset)
  /\ (forall st,
        getMode MODE_Ansi st = true -> osc st = false ->
        exists st',
          receiveChars receiveChars_depth st [ESC; chr "c"] = Some st'
          /\ getMode MODE_Ansi st' = true
          /\ getMode MODE_Allow132Columns st' = getMode MODE_Allow132Columns st
          /\ getMode MODE_Mouse1007 st' = getMode MODE_Mouse1007 st
          /\ Forall (fun m => getMode m st' = false) modes_cleared_by_reset).
Proof.
  split; [exact reset_modes|].
  intros st Ha Hosc.
  exists (resetTokenizer (reset (addToCurrentToken (chr "c")
                                    (addToCurrentToken ESC (resetTokenizer st))))).
  split.
  - rewrite receiveChars_ESC by assumption.
    destruct st as [buf pos ac av cm sm cs cur cod pend rf w o].
    destruct cm as [mOrigin mWrap mInsert mScreen mCursor mNewLine mAppScreen mAppCuKeys mAppKeyPad
                  m1000 m1001 m1002 m1003 m1005 m1006 m1007 m1015 mAnsi m132
                  mAllow132 mBracketedPaste].
    unfold getMode in Ha. cbn in Ha. subst.
    destruct mAllow132; destruct cod; vm_compute; reflexivity.
  - exact (reset_modes (addToCurrentToken (chr "c")
                          (addToCurrentToken ESC (resetTokenizer st)))).
Qed.

Lemma reset_restores_default_modes_witness :
  getMode MODE_Ansi (setMode MODE_Mouse1007 (setMode MODE_Mouse1002 example_start)) = true
  /\ osc (setMode MODE_Mouse1007 (setMode MODE_Mouse1002 example_start)) = false
  /\ exists st',
       receiveChars receiveChars_depth
         (setMode MODE_Mouse1007 (setMode MODE_Mouse1002 example_start))
         [ESC; chr "c"] = Some st'
       /\ getMode MODE_Ansi st' = true
       /\ getMode MODE_Mouse1007 st' = true
       /\ getMode MODE_Mouse1002 st' = false.
Proof.
  split; [reflexivity|]. split; [reflexivity|].
  destruct (proj2 reset_restores_default_modes
              (setMode MODE_Mouse1007 (setMode MODE_Mouse1002 example_start))
              eq_refl eq_refl)
    as (st' & Hrun & Hansi & _ & H1007 & Hcleared).
  exists st'. split; [exact Hrun|]. split; [exact Hansi|].
  split; [exact H1007|].
  unfold modes_cleared_by_reset in Hcleared.
  rewrite List.Forall_forall in Hcleared. apply Hcleared. cbn. tauto.
Defined.

(** C3: the tokenizer keeps its bounds on every input.  The constructed
    emulation satisfies them whatever its uninitialised arrays hold; from a
    state that satisfies them, [receiveChars] consumes any input and leaves
    [argc <= MAXARGS - 1], every accumulated argument [argv[0..argc]] at most
    [MAX_ARGUMENT] and [tokenBufferPos <= MAX_TOKEN_LENGTH].  Inside the
    parameters of a control sequence a digit makes
    [argv[argc] = min(10 * argv[argc] + digit, MAX_ARGUMENT)] and a ';'
    makes [argc = min(argc + 1, MAXARGS - 1)] with the new slot zeroed. *)
Theorem tokenizer_stays_within_bounds :
  (forall w buf args cs, tokenizer_bounds (Vt102Emulation_new w buf args cs))
  /\ (forall st chars,
        tokenizer_bounds st ->
        exists st',
          receiveChars receiveChars_depth st chars = Some st'
          /\ tokenizer_bounds st')
  /\ (forall st cc,
        in_parameters st -> tokenizer_bounds st -> chr "0" <= cc <= chr "9" ->
        exists st',
          receiveChars receiveChars_depth st [cc] = Some st'
          /\ argc st' = argc st
          /\ rd (argv st') (argc st)
             = Z.min (10 * rd (argv st) (argc st) + (cc - chr "0")) MAX_ARGUMENT)
  /\ (forall st,
        in_parameters st ->
        exists st',
          receiveChars receiveChars_depth st [chr ";"] = Some st'
          /\ argc st' = Z.min (argc st + 1) (MAXARGS - 1)
          /\ rd (argv st') (argc st') = 0).
Proof.
  split; [exact Vt102Emulation_new_bounds|]. split; [|split].
  - intros st chars Hb.
    destruct (receiveChars_total st chars) as [st' Hrun].
    exists st'. split; [exact Hrun|].
    exact (receiveChars_bounds _ _ _ _ Hrun Hb).
  - intros st cc Hin (_ & Hc & Ha) Hd.
    exists (addDigit (cc - chr "0") (addToCurrentToken cc st)).
    unfold receiveChars_depth. rewrite receiveChars_S, feed_single.
    split; [apply receiveChar_digit; assumption|].
    split; [reflexivity|].
    unfold addDigit, addToCurrentToken, rd, wr. cbn [argv argc set_tokenizer].
    rewrite Z.eqb_refl.
    specialize (Ha (argc st) ltac:(lia)). unfold rd, MAX_ARGUMENT in Ha.
    change (chr "0") with 48 in *. change (chr "9") with 57 in *.
    rewrite to_int_small by lia. reflexivity.
  - intros st Hin.
    exists (addArgument (addToCurrentToken (chr ";") st)).
    unfold receiveChars_depth. rewrite receiveChars_S, feed_single.
    split; [apply receiveChar_semicolon; assumption|].
    split; [reflexivity|].
    unfold addArgument, addToCurrentToken, rd, wr.
    cbn [argv argc set_tokenizer]. apply if_true_eqb.
Qed.

Lemma tokenizer_stays_within_bounds_witness :
  tokenizer_bounds example_start
  /\ (exists st',
        receiveChars receiveChars_depth example_start
          ([ESC] ++ codes "[123456789;1;2;3;4;5;6;7;8;9;10;11;12;13;14;15;16;17")
        = Some st'
        /\ tokenizer_bounds st')
  /\ in_parameters (after_receiving example_start ([ESC] ++ codes "[12"))
  /\ tokenizer_bounds (after_receiving example_start ([ESC] ++ codes "[12"))
  /\ chr "0" <= chr "7" <= chr "9"
  /\ exists st',
       receiveChars receiveChars_depth
         (after_receiving example_start ([ESC] ++ codes "[12")) [chr "7"] = Some st'
       /\ rd (argv st') 0 = 127.
Proof.
  assert (Hb : tokenizer_bounds example_start).
  { apply reset_bounds, Vt102Emulation_new_bounds. }
  assert (Hrun : receiveChars receiveChars_depth example_start ([ESC] ++ codes "[12")
                 = Some (after_receiving example_start ([ESC] ++ codes "[12"))).
  { unfold after_receiving.
    destruct (receiveChars_total example_start ([ESC] ++ codes "[12")) as [st' ->].
    reflexivity. }
  assert (Hb' : tokenizer_bounds (after_receiving example_start ([ESC] ++ codes "[12"))).
  { exact (receiveChars_bounds _ _ _ _ Hrun Hb). }
  assert (Hin : in_parameters (after_receiving example_start ([ESC] ++ codes "[12"))).
  { unfold in_parameters.
    split; [vm_compute; reflexivity|].
    split; [split; [vm_compute; discriminate | vm_compute; reflexivity]|].
    split; [vm_compute; reflexivity|].
    split; [vm_compute; reflexivity|].
    split; [intros _; split; intros H; vm_compute in H; discriminate H|].
    intros _ H. vm_compute in H. discriminate H. }
  assert (Hd : chr "0" <= chr "7" <= chr "9").
  { change (chr "0") with 48. change (chr "7") with 55. change (chr "9") with 57. lia. }
  split; [exact Hb|].
  split; [exact (proj1 (proj2 tokenizer_stays_within_bounds) example_start _ Hb)|].
  split; [exact Hin|]. split; [exact Hb'|]. split; [exact Hd|].
  destruct (proj1 (proj2 (proj2 tokenizer_stays_within_bounds)) _ _ Hin Hb' Hd)
    as (st' & Hrun' & Hargc & Hargv).
  exists st'. split; [exact Hrun'|].
  replace (argc (after_receiving example_start ([ESC] ++ codes "[12"))) with 0 in Hargv
    by (vm_compute; reflexivity).
  rewrite Hargv. vm_compute. reflexivity.
Defined.

(** ** Dispatch order *)

(** C4: in ANSI mode, with an empty token and the plain character set
    active, the input ESC \[ 3 1 m A ESC \[ 0 m B makes exactly four calls
    on the current screen, in stream order: setForeColor(COLOR_SPACE_SYSTEM,
    1), displayCharacter('A'), setDefaultRendition(), displayCharacter('B');
    nothing else is logged. *)
Theorem sgr_and_characters_in_stream_order st :
  getMode MODE_Ansi st = true ->
  tokenBufferPos st = 0 ->
  graphic (CHARSET st) = false ->
  pound (CHARSET st) = false ->
  exists st',
    receiveChars receiveChars_depth st
      ([ESC] ++ codes "[31mA" ++ [ESC] ++ codes "[0mB") = Some st'
    /\ out st' = out st ++ [ OnScreen (_currentScreen st) (setForeColor COLOR_SPACE_SYSTEM 1);
                             OnScreen (_currentScreen st) (displayCharacter (chr "A"));
                             OnScreen (_currentScreen st) setDefaultRendition;
                             OnScreen (_currentScreen st) (displayCharacter (chr "B")) ].
Proof.
  open_state st. destruct cur; unfold getMode, CHARSET, charset_of; cbn.
  all: intros -> -> -> ->.
  all: eexists; split; [vm_compute; reflexivity|].
  all: cbn [out]; fold (@app Event); rewrite <- !app_assoc; reflexivity.
Qed.

Lemma sgr_and_characters_in_stream_order_witness :
  getMode MODE_Ansi example_start = true
  /\ tokenBufferPos example_start = 0
  /\ graphic (CHARSET example_start) = false
  /\ pound (CHARSET example_start) = false
  /\ exists st',
       receiveChars receiveChars_depth example_start
         ([ESC] ++ codes "[31mA" ++ [ESC] ++ codes "[0mB") = Some st'
       /\ out st' = out example_start
                    ++ [ OnScreen false (setForeColor COLOR_SPACE_SYSTEM 1);
                         OnScreen false (displayCharacter (chr "A"));
                         OnScreen false setDefaultRendition;
                         OnScreen false (displayCharacter (chr "B")) ].
Proof.
  repeat (split; [reflexivity|]).
  exact (sgr_and_characters_in_stream_order example_start
           eq_refl eq_refl eq_refl eq_refl).
Defined.

(** ** Saving and restoring a mode *)








(** ** Character sets *)

Lemma run_CharsetOp_saved op st :
  _currentScreen (run_CharsetOp op st) = _currentScreen st
  /\ sa_graphic (CHARSET (run_CharsetOp op st)) = sa_graphic (CHARSET st)
  /\ sa_pound (CHARSET (run_CharsetOp op st)) = sa_pound (CHARSET st).
Proof.
  open_state st. destruct op, cur; repeat split.
Qed.

Lemma run_CharsetOps_saved ops st :
  _currentScreen (run_CharsetOps ops st) = _currentScreen st
  /\ sa_graphic (CHARSET (run_CharsetOps ops st)) = sa_graphic (CHARSET st)
  /\ sa_pound (CHARSET (run_CharsetOps ops st)) = sa_pound (CHARSET st).
Proof.
  revert st. induction ops as [|op ops IH]; intros st.
  - repeat split.
  - unfold run_CharsetOps. cbn [fold_left]. fold (run_CharsetOps ops (run_CharsetOp op st)).
    destruct (IH (run_CharsetOp op st)) as [H1 [H2 H3]].
    destruct (run_CharsetOp_saved op st) as [K1 [K2 K3]].
    rewrite H1, H2, H3, K1, K2, K3. repeat split.
Qed.

Lemma flags_after_restoreCursor st :
  graphic (CHARSET (restoreCursor st)) = sa_graphic (CHARSET st)
  /\ pound (CHARSET (restoreCursor st)) = sa_pound (CHARSET st)
  /\ active_charset (restoreCursor st) = active_charset st.
Proof. open_state st. destruct cur; repeat split. Qed.

Lemma flags_after_saveCursor st :
  sa_graphic (CHARSET (saveCursor st)) = graphic (CHARSET st)
  /\ sa_pound (CHARSET (saveCursor st)) = pound (CHARSET st).
Proof. open_state st. destruct cur; repeat split. Qed.

(** C6 as stated fails: the translation follows the [graphic] flag, and
    [restoreCursor] puts back the flag saved by [saveCursor] whatever the
    active slot holds by then.  After ESC 7, ESC ( 0, ESC 8 the active slot
    is the DEC graphics set, yet 'a' is not translated. *)
Lemma applyCharset_ignores_active_slot :
  active_charset (after_receiving example_start
                    [ESC; chr "7"; ESC; chr "("; chr "0"; ESC; chr "8"]) = chr "0"
  /\ applyCharset (chr "a")
       (after_receiving example_start
          [ESC; chr "7"; ESC; chr "("; chr "0"; ESC; chr "8"]) = chr "a"
  /\ ~ (forall st c,
          active_charset st = chr "0" -> 0x5f <= c <= 0x7e ->
          applyCharset c st = lookup_table vt100_graphics (c - 0x5f)).
Proof.
  split; [vm_compute; reflexivity|]. split; [vm_compute; reflexivity|].
  intros H.
  specialize (H (after_receiving example_start
                   [ESC; chr "7"; ESC; chr "("; chr "0"; ESC; chr "8"])
                (chr "a") ltac:(vm_compute; reflexivity)
                ltac:(change (chr "a") with 97; lia)).
  vm_compute in H. discriminate H.
Qed.

(** C6, amended: [applyCharset(c)] returns [vt100_graphics[c - 0x5F]]
    whenever the [graphic] flag of the current screen's character set state
    is set and 0x5F <= c <= 0x7E (0x60 gives U+25C6, 0x71 U+2500, 0x78
    U+2502); it returns U+00A3 when the [pound] flag is set and c is '#';
    it returns c in every other case.  [useCharset] sets the [graphic] flag
    exactly when the slot it activates holds '0', and with G0 active on both
    screens the input ESC ( 0 a displays U+2592.  [restoreCursor] reinstates
    the flags that [saveCursor] saved, whatever the active slot holds by
    then: it copies the saved flags and leaves the slots alone, so after any
    [useCharset], [setCharset] and [setAndUseCharset] in between the flags
    are those of the time of [saveCursor]. *)
Theorem applyCharset_follows_flags :
  (forall st c,
     graphic (CHARSET st) = true -> 0x5f <= c <= 0x7e ->
     applyCharset c st = lookup_table vt100_graphics (c - 0x5f))
  /\ (forall st, pound (CHARSET st) = true -> applyCharset (chr "#") st = 0xa3)
  /\ (forall st c,
        graphic (CHARSET st) = false \/ c < 0x5f \/ 0x7e < c ->
        pound (CHARSET st) = false \/ c <> chr "#" ->
        applyCharset c st = c)
  /\ lookup_table vt100_graphics (0x60 - 0x5f) = 0x25C6
  /\ lookup_table vt100_graphics (0x71 - 0x5f) = 0x2500
  /\ lookup_table vt100_graphics (0x78 - 0x5f) = 0x2502
  /\ (forall st n,
        graphic (CHARSET (useCharset n st))
        = (rd (charset (CHARSET st)) (Z.land n 3) =? chr "0")
        /\ active_charset (useCharset n st) = rd (charset (CHARSET st)) (Z.land n 3))
  /\ (forall st,
        getMode MODE_Ansi st = true -> tokenBufferPos st = 0 ->
        cu_cs (charset_of false st) = 0 -> cu_cs (charset_of true st) = 0 ->
        exists st',
          receiveChars receiveChars_depth st [ESC; chr "("; chr "0"; chr "a"] = Some st'
          /\ out st' = out st ++ [OnScreen (_currentScreen st) (displayCharacter 0x2592)])
  /\ (forall st,
        sa_graphic (CHARSET (saveCursor st)) = graphic (CHARSET st)
        /\ sa_pound (CHARSET (saveCursor st)) = pound (CHARSET st))
  /\ (forall st,
        graphic (CHARSET (restoreCursor st)) = sa_graphic (CHARSET st)
        /\ pound (CHARSET (restoreCursor st)) = sa_pound (CHARSET st)
        /\ active_charset (restoreCursor st) = active_charset st)
  /\ (forall ops st,
        graphic (CHARSET (restoreCursor (run_CharsetOps ops (saveCursor st))))
        = graphic (CHARSET st)
        /\ pound (CHARSET (restoreCursor (run_CharsetOps ops (saveCursor st))))
           = pound (CHARSET st)).
Proof.
  split; [|split; [|split; [|split; [|split; [|split; [|split;
    [|split; [|split; [|split]]]]]]]]].
  - intros st c Hg Hc. unfold applyCharset. rewrite Hg.
    rewrite (proj2 (Z.leb_le 0x5f c)), (proj2 (Z.leb_le c 0x7e)) by lia.
    reflexivity.
  - intros st Hp. unfold applyCharset. rewrite Hp.
    rewrite andb_false_r. reflexivity.
  - intros st c Hg Hp. unfold applyCharset.
    assert (E1 : graphic (CHARSET st) && (0x5f <=? c) && (c <=? 0x7e) = false).
    { destruct Hg as [->|[Hc|Hc]]; [reflexivity| |].
      - rewrite (proj2 (Z.leb_gt 0x5f c)) by lia.
        rewrite andb_false_r. reflexivity.
      - rewrite (proj2 (Z.leb_gt c 0x7e)) by lia. apply andb_false_r. }
    rewrite E1.
    assert (E2 : pound (CHARSET st) && (c =? chr "#") = false).
    { destruct Hp as [->|Hc]; [reflexivity|].
      rewrite (proj2 (Z.eqb_neq c (chr "#"))) by exact Hc. apply andb_false_r. }
    rewrite E2. reflexivity.
  - reflexivity.
  - reflexivity.
  - reflexivity.
  - intros st n. open_state st. destruct cur; split; reflexivity.
  - intros st. open_state st. destruct cur; unfold getMode, charset_of; cbn.
    all: intros -> -> -> ->.
    all: eexists; split; [vm_compute; reflexivity|].
    all: cbn [out]; reflexivity.
  - exact flags_after_saveCursor.
  - exact flags_after_restoreCursor.
  - intros ops st.
    destruct (run_CharsetOps_saved ops (saveCursor st)) as (_ & H2 & H3).
    destruct (flags_after_restoreCursor (run_CharsetOps ops (saveCursor st)))
      as (Hg & Hp & _).
    destruct (flags_after_saveCursor st) as (Sg & Sp).
    rewrite Hg, Hp, H2, H3, Sg, Sp. split; reflexivity.
Qed.

Lemma applyCharset_follows_flags_witness :
  graphic (CHARSET (after_receiving example_start [ESC; chr "("; chr "0"])) = true
  /\ applyCharset (chr "a") (after_receiving example_start [ESC; chr "("; chr "0"])
     = 0x2592.
Proof.
  split; [vm_compute; reflexivity|].
  exact (proj1 applyCharset_follows_flags
           (after_receiving example_start [ESC; chr "("; chr "0"]) (chr "a")
           ltac:(vm_compute; reflexivity) ltac:(change (chr "a") with 97; lia)).
Defined.

(** ** Mouse reports *)

(** C7 as stated fails: the test [cb == 3] comes before the release
    encoding, so a button release under Mouse1002, whose code becomes 3, is
    reported (here as ESC \[ M # ! !). *)
Lemma release_is_reported_under_Mouse1002 :
  getMode MODE_Mouse1002 (setMode MODE_Mouse1002 example_start) = true
  /\ cb_after_release_encoding 0 2 (setMode MODE_Mouse1002 example_start) = 3
  /\ sent (out (sendMouseEvent 0 1 1 2 (setMode MODE_Mouse1002 example_start)))
     = [[ESC; chr "["; chr "M"; chr "#"; chr "!"; chr "!"]]
  /\ ~ (forall st cb cx cy eventType,
          getMode MODE_Mouse1002 st = true ->
          cb_after_release_encoding cb eventType st = 3 ->
          out (sendMouseEvent cb cx cy eventType st) = out st).
Proof.
  split; [vm_compute; reflexivity|]. split; [vm_compute; reflexivity|].
  split; [vm_compute; reflexivity|].
  intros H.
  specialize (H (setMode MODE_Mouse1002 example_start) 0 1 1 2
                ltac:(vm_compute; reflexivity) ltac:(vm_compute; reflexivity)).
  apply (f_equal (@length Event)) in H. vm_compute in H. discriminate H.
Qed.

(** C7, amended: while Mouse1002 is active, an event whose button code
    [cb] is 3 when it arrives (motion with no button held) is dropped
    whatever its type: nothing is sent and the state is unchanged.  A
    release event with another button code is not dropped: [sendData] is
    called once.  When Mouse1006 is off its button code is replaced by 3,
    and the report sent is the one the encoding in force builds for button
    3; when Mouse1006 is on the code is kept and the report ends in 'm'. *)
Theorem sendMouseEvent_drops_buttonless_motion :
  (forall st cx cy eventType,
     getMode MODE_Mouse1002 st = true ->
     sendMouseEvent 3 cx cy eventType st = st)
  /\ (forall st cb cx cy,
        getMode MODE_Mouse1002 st = true -> cb <> 3 -> 1 <= cx -> 1 <= cy ->
        exists bytes,
          out (sendMouseEvent cb cx cy 2 st) = out st ++ [sendData bytes])
  /\ (forall st cb cx cy,
        getMode MODE_Mouse1002 st = true -> cb <> 3 -> 1 <= cx -> 1 <= cy ->
        getMode MODE_Mouse1006 st = false ->
        cb_after_release_encoding cb 2 st = 3
        /\ out (sendMouseEvent cb cx cy 2 st)
           = out st
             ++ [sendData
                   (if getMode MODE_Mouse1015 st then
                      snprintf 40 ([ESC; chr "["] ++ fmt_d (to_int (3 + 0x20)) ++ [chr ";"]
                                   ++ fmt_d cx ++ [chr ";"] ++ fmt_d cy ++ [chr "M"])
                    else if getMode MODE_Mouse1005 st then
                      if (cx <=? 2015) && (cy <=? 2015) then
                        snprintf 40 ([ESC] ++ codes "[M" ++ [fmt_c (3 + 0x20)]
                                     ++ c_str (utf8_of_qchar (cx + 0x20)
                                               ++ utf8_of_qchar (cy + 0x20)))
                      else []
                    else if (cx <=? 223) && (cy <=? 223) then
                      snprintf 40 ([ESC] ++ codes "[M"
                                   ++ [fmt_c (3 + 0x20); fmt_c (cx + 0x20); fmt_c (cy + 0x20)])
                    else [])])
  /\ (forall st cb cx cy,
        getMode MODE_Mouse1002 st = true -> cb <> 3 -> 1 <= cx -> 1 <= cy ->
        getMode MODE_Mouse1006 st = true ->
        cb_after_release_encoding cb 2 st = cb
        /\ out (sendMouseEvent cb cx cy 2 st)
           = out st
             ++ [sendData
                   (snprintf 40 ([ESC] ++ codes "[<"
                                 ++ fmt_d (if 4 <=? cb then to_int (cb + 0x3c) else cb)
                                 ++ [chr ";"] ++ fmt_d cx ++ [chr ";"] ++ fmt_d cy
                                 ++ [chr "m"]))]).
Proof.
  split; [|split; [|split]].
  - intros st cx cy eventType H. unfold sendMouseEvent. rewrite H.
    destruct ((cx <? 1) || (cy <? 1)); [reflexivity|].
    destruct ((eventType =? 1) && getMode MODE_Mouse1000 st); reflexivity.
  - intros st cb cx cy H Hcb Hx Hy. unfold sendMouseEvent. cbv zeta.
    rewrite (proj2 (Z.ltb_ge cx 1)), (proj2 (Z.ltb_ge cy 1)) by lia.
    rewrite (proj2 (Z.eqb_neq cb 3)) by exact Hcb.
    change (2 =? 1) with false. cbn [orb andb].
    eexists. reflexivity.
  - intros st cb cx cy H Hcb Hx Hy H6.
    unfold cb_after_release_encoding, sendMouseEvent. cbv zeta.
    rewrite (proj2 (Z.ltb_ge cx 1)), (proj2 (Z.ltb_ge cy 1)) by lia.
    rewrite (proj2 (Z.eqb_neq cb 3)) by exact Hcb.
    rewrite H, H6.
    change (2 =? 1) with false. change (2 =? 2) with true.
    change (4 <=? 3) with false. cbn [orb andb negb].
    split; reflexivity.
  - intros st cb cx cy H Hcb Hx Hy H6.
    unfold cb_after_release_encoding, sendMouseEvent. cbv zeta.
    rewrite (proj2 (Z.ltb_ge cx 1)), (proj2 (Z.ltb_ge cy 1)) by lia.
    rewrite (proj2 (Z.eqb_neq cb 3)) by exact Hcb.
    rewrite H, H6.
    change (2 =? 1) with false. change (2 =? 2) with true.
    cbn [orb andb negb]. rewrite ?andb_false_r.
    split; reflexivity.
Qed.

Lemma sendMouseEvent_drops_buttonless_motion_witness :
  getMode MODE_Mouse1002 (setMode MODE_Mouse1002 example_start) = true
  /\ getMode MODE_Mouse1006 (setMode MODE_Mouse1002 example_start) = false
  /\ sendMouseEvent 3 7 9 1 (setMode MODE_Mouse1002 example_start)
     = setMode MODE_Mouse1002 example_start
  /\ cb_after_release_encoding 0 2 (setMode MODE_Mouse1002 example_start) = 3
  /\ out (sendMouseEvent 0 1 1 2 (setMode MODE_Mouse1002 example_start))
     = out (setMode MODE_Mouse1002 example_start)
       ++ [sendData [ESC; chr "["; chr "M"; chr "#"; chr "!"; chr "!"]].
Proof.
  split; [vm_compute; reflexivity|]. split; [vm_compute; reflexivity|].
  split.
  - exact (proj1 sendMouseEvent_drops_buttonless_motion
             (setMode MODE_Mouse1002 example_start) 7 9 1
             ltac:(vm_compute; reflexivity)).
  - exact (proj1 (proj2 (proj2 sendMouseEvent_drops_buttonless_motion))
             (setMode MODE_Mouse1002 example_start) 0 1 1
             ltac:(vm_compute; reflexivity) ltac:(discriminate)
             ltac:(lia) ltac:(lia) ltac:(vm_compute; reflexivity)).
Defined.

(** ** Designating a character set *)

(** C8: the code does not keep the active slot.  After SO has made G1 the
    active slot of the primary screen, [setCharset(0, 'B')] - the token
    ESC ( B - puts the alternate screen's index, 0, into the primary
    screen's [cu_cs]; the slots themselves are written on both screens. *)
Theorem setCharset_overwrites_active_slot :
  cu_cs (charset_of false (after_receiving example_start [CNTL (chr "N")])) = 1
  /\ cu_cs (charset_of true (after_receiving example_start [CNTL (chr "N")])) = 0
  /\ cu_cs (charset_of false
              (setCharset 0 (chr "B") (after_receiving example_start [CNTL (chr "N")])))
     = 0
  /\ cu_cs (charset_of false
              (after_receiving example_start [CNTL (chr "N"); ESC; chr "("; chr "B"]))
     = 0.
Proof. repeat split; vm_compute; reflexivity. Qed.

(** ** Device attribute replies as input *)

(** C9 as stated fails: fed back in ANSI mode, the DA1 reply ends in two
    calls to [reportDecodingError] (no [case] for CSI ? 1 c and CSI ? 2 c)
    and the DA3 reply in one (no [case] for ESC \). *)
Lemma DA1_and_DA3_replies_report_decoding_errors :
  decoding_error_calls (out (after_receiving example_start DA1_reply))
  = (decoding_error_calls (out example_start) + 2)%nat
  /\ decoding_error_calls (out (after_receiving example_start DA3_reply))
     = (decoding_error_calls (out example_start) + 1)%nat
  /\ ~ (forall reply,
          In reply [DA1_reply; DA2_reply; DA3_reply] ->
          decoding_error_calls (out (after_receiving example_start reply))
          = decoding_error_calls (out example_start)).
Proof.
  split; [vm_compute; reflexivity|]. split; [vm_compute; reflexivity|].
  intros H. specialize (H DA1_reply ltac:(left; reflexivity)).
  vm_compute in H. discriminate H.
Qed.

(** C9, amended: in ANSI mode and outside an OSC string, the DA2 reply
    ESC \[ > 0 ; 115 ; 0 c tokenizes without any call to
    [reportDecodingError] (it is answered three times, once per parameter);
    the DA1 reply ESC \[ ? 1 ; 2 c makes two such calls and the DA3 reply
    ESC P ! | 7E4B4445 ESC \ one; neither sends anything. *)
Theorem device_attribute_replies_as_input st :
  getMode MODE_Ansi st = true ->
  osc st = false ->
  (exists st',
     receiveChars receiveChars_depth st DA2_reply = Some st'
     /\ out st' = out st ++ [sendData DA2_reply; sendData DA2_reply; sendData DA2_reply])
  /\ (exists st' new,
        receiveChars receiveChars_depth st DA1_reply = Some st'
        /\ out st' = out st ++ new
        /\ length new = 2%nat /\ decoding_error_calls new = 2%nat)
  /\ (exists st' new,
        receiveChars receiveChars_depth st DA3_reply = Some st'
        /\ out st' = out st ++ new
        /\ length new = 1%nat /\ decoding_error_calls new = 1%nat).
Proof.
  intros Ha Hosc.
  unfold DA1_reply, DA2_reply, DA3_reply. cbn [app].
  rewrite !receiveChars_ESC by assumption. clear Hosc.
  open_state st. unfold getMode in Ha. cbn in Ha. subst.
  split; [|split].
  - eexists. split; [vm_compute; reflexivity|].
    cbn [out]. fold (@app Event). rewrite <- !app_assoc. reflexivity.
  - eexists. eexists. split; [vm_compute; reflexivity|].
    cbn [out]. fold (@app Event). rewrite <- !app_assoc.
    split; [reflexivity|]. split; reflexivity.
  - eexists. eexists. split; [vm_compute; reflexivity|].
    cbn [out]. split; [reflexivity|]. split; reflexivity.
Qed.

Lemma device_attribute_replies_as_input_witness :
  getMode MODE_Ansi example_start = true
  /\ osc example_start = false
  /\ exists st',
       receiveChars receiveChars_depth example_start DA2_reply = Some st'
       /\ out st' = out example_start
                    ++ [sendData DA2_reply; sendData DA2_reply; sendData DA2_reply].
Proof.
  split; [vm_compute; reflexivity|]. split; [vm_compute; reflexivity|].
  exact (proj1 (device_attribute_replies_as_input example_start
                  ltac:(vm_compute; reflexivity) ltac:(vm_compute; reflexivity))).
Defined.

(** ** CAN and SUB *)

Lemma feed_app step st chars chars' :
  feed step st (chars ++ chars')
  = match feed step st chars with
    | Some st' => feed step st' chars'
    | None => None
    end.
Proof.
  revert st. induction chars as [|cc chars IH]; intros st; cbn [feed app].
  - reflexivity.
  - destruct (step st cc); [apply IH | reflexivity].
Qed.

Lemma receiveChar_CAN_SUB again st cc :
  cc = CNTL (chr "X") \/ cc = CNTL (chr "Z") ->
  osc st = false ->
  receiveChar again st cc
  = Some (on_current (displayCharacter 0x2592) (resetTokenizer st)).
Proof.
  intros Hcc Hosc. unfold receiveChar. rewrite Hosc.
  destruct Hcc as [->| ->]; vm_compute; reflexivity.
Qed.

(** C10: wherever it arrives in the input, outside an OSC string, CAN
    (0x18) or SUB (0x1A) resets the tokenizer - the token scanned so far is
    dropped, the argument count and the first two arguments are zeroed -
    and makes one call, [displayCharacter(0x2592)], on the current
    screen. *)
Theorem CAN_and_SUB_reset_and_display st0 chars st cc :
  cc = 0x18 \/ cc = 0x1A ->
  receiveChars receiveChars_depth st0 chars = Some st ->
  osc st = false ->
  receiveChars receiveChars_depth st0 (chars ++ [cc])
  = Some (on_current (displayCharacter 0x2592) (resetTokenizer st))
  /\ tokenBufferPos (on_current (displayCharacter 0x2592) (resetTokenizer st)) = 0
  /\ argc (on_current (displayCharacter 0x2592) (resetTokenizer st)) = 0
  /\ rd (argv (on_current (displayCharacter 0x2592) (resetTokenizer st))) 0 = 0
  /\ rd (argv (on_current (displayCharacter 0x2592) (resetTokenizer st))) 1 = 0
  /\ out (on_current (displayCharacter 0x2592) (resetTokenizer st))
     = out st ++ [OnScreen (_currentScreen st) (displayCharacter 0x2592)].
Proof.
  intros Hcc Hrun Hosc.
  split; [|repeat split].
  unfold receiveChars_depth in *. rewrite receiveChars_S in *.
  rewrite feed_app, Hrun, feed_single.
  apply receiveChar_CAN_SUB; assumption.
Qed.

Lemma CAN_and_SUB_reset_and_display_witness :
  receiveChars receiveChars_depth example_start ([ESC] ++ codes "[12;3")
  = Some (after_receiving example_start ([ESC] ++ codes "[12;3"))
  /\ osc (after_receiving example_start ([ESC] ++ codes "[12;3")) = false
  /\ receiveChars receiveChars_depth example_start (([ESC] ++ codes "[12;3") ++ [0x18])
     = Some (on_current (displayCharacter 0x2592)
               (resetTokenizer (after_receiving example_start ([ESC] ++ codes "[12;3")))).
Proof.
  assert (Hrun : receiveChars receiveChars_depth example_start ([ESC] ++ codes "[12;3")
                 = Some (after_receiving example_start ([ESC] ++ codes "[12;3"))).
  { unfold after_receiving.
    destruct (receiveChars_total example_start ([ESC] ++ codes "[12;3")) as [st' ->].
    reflexivity. }
  split; [exact Hrun|]. split; [vm_compute; reflexivity|].
  exact (proj1 (CAN_and_SUB_reset_and_display example_start _ _ 0x18
                  (or_introl eq_refl) Hrun ltac:(vm_compute; reflexivity))).
Defined.

(** * Further properties *)

(** ** The character stream *)

Lemma ces_control cc : 0 <= cc < 32 -> ces cc CTL = true.
Proof.
  intros H.
  assert (Hall : forallb (fun c => ces c CTL) (seqZ 0 32) = true)
    by (vm_compute; reflexivity).
  rewrite forallb_forall in Hall. apply Hall.
  apply list_elem_of_In, elem_of_seqZ. lia.
Qed.

Lemma ces_printable cc : 32 <= cc -> ces cc CTL = false.
Proof.
  intros H. unfold ces.
  destruct (Z.ltb_spec cc 256) as [Hlt|Hge]; [|reflexivity].
  assert (Hall : forallb (fun c => negb (has_class c CTL)) (seqZ 32 224) = true)
    by (vm_compute; reflexivity).
  rewrite forallb_forall in Hall.
  specialize (Hall cc). rewrite negb_true_iff in Hall. rewrite Hall; [reflexivity|].
  apply list_elem_of_In, elem_of_seqZ. lia.
Qed.

(** X2: the character DEL (0x7F) is ignored wherever it occurs: a stream and the
    same stream with all DEL characters removed leave the same state. *)
Theorem DEL_is_ignored_everywhere st chars :
  receiveChars receiveChars_depth st chars
  = receiveChars receiveChars_depth st (List.filter (fun cc => negb (cc =? DEL)) chars).
Proof.
  unfold receiveChars_depth. rewrite !receiveChars_S.
  revert st. induction chars as [|cc chars IH]; intros st; [reflexivity|].
  cbn [List.filter].
  destruct (Z.eqb_spec cc DEL) as [->|Hne]; cbn [negb feed].
  - change (receiveChar (receiveChars 2) st DEL) with (Some st). apply IH.
  - destruct (receiveChar (receiveChars 2) st cc); [apply IH | reflexivity].
Qed.

(** X3: inside an operating system command ([ESC \]] at the start of the token)
    a control character other than ESC and BEL changes nothing: neither the
    token nor any other part of the state, and nothing is output. *)
Theorem controls_inside_OSC_are_dropped st cc :
  osc st = true -> 0 <= cc < 32 -> cc <> ESC -> cc <> 0x07 ->
  receiveChars receiveChars_depth st [cc] = Some st.
Proof.
  intros Hosc Hc Hesc Hbel.
  unfold receiveChars_depth. rewrite receiveChars_S, feed_single.
  unfold receiveChar. rewrite (ces_control cc Hc), Hosc.
  unfold ESC, DEL in *. settle_comparisons. reflexivity.
Qed.

Lemma controls_inside_OSC_are_dropped_witness :
  osc (after_receiving example_start ([ESC] ++ codes "]0;a")) = true
  /\ receiveChars receiveChars_depth
       (after_receiving example_start ([ESC] ++ codes "]0;a")) [0x0A]
     = Some (after_receiving example_start ([ESC] ++ codes "]0;a")).
Proof.
  split; [vm_compute; reflexivity|].
  apply controls_inside_OSC_are_dropped;
    [vm_compute; reflexivity | lia | discriminate | discriminate].
Defined.

Lemma receiveChar_control again st cc :
  osc st = false -> 0 <= cc < 32 ->
  cc <> ESC -> cc <> CNTL (chr "X") -> cc <> CNTL (chr "Z") ->
  receiveChar again st cc = Some (processToken (token_ctl (cc + chr "@")) 0 0 st).
Proof.
  intros Hosc Hc Hesc HX HZ.
  unfold receiveChar. rewrite (ces_control cc Hc), Hosc.
  change (CNTL (chr "X")) with 24 in *. change (CNTL (chr "Z")) with 26 in *.
  unfold ESC, DEL in *. settle_comparisons. cbn [negb orb andb].
  unfold to_uint. change (chr "@") with 64. rewrite Z.mod_small by lia. reflexivity.
Qed.

Lemma below (P : Z -> Prop) (n : nat) :
  (forall k, (k < n)%nat -> P (Z.of_nat k)) -> forall z, 0 <= z < Z.of_nat n -> P z.
Proof.
  intros H z Hz. rewrite <- (Z2Nat.id z) by lia. apply H. lia.
Qed.

Lemma control_token_keeps_tokenizer cc st :
  0 <= cc < 32 ->
  tokenBuffer (processToken (token_ctl (cc + chr "@")) 0 0 st) = tokenBuffer st
  /\ tokenBufferPos (processToken (token_ctl (cc + chr "@")) 0 0 st) = tokenBufferPos st
  /\ argc (processToken (token_ctl (cc + chr "@")) 0 0 st) = argc st
  /\ argv (processToken (token_ctl (cc + chr "@")) 0 0 st) = argv st
  /\ _currentModes (processToken (token_ctl (cc + chr "@")) 0 0 st) = _currentModes st.
Proof.
  revert cc. apply (below _ 32). intros k Hk.
  do 32 (destruct k as [|k];
         [ unfold processToken;
           match goal with
           | |- context [find ?f ?l] =>
               let x := eval vm_compute in (find f l) in change (find f l) with x
           end; cbn; repeat split; reflexivity | ]).
  lia.
Qed.

(** X4: outside an operating system command, a control character other than
    ESC, CAN and SUB is interpreted immediately as its own token and leaves
    the token being scanned (buffer, length, argument count and arguments)
    and the modes untouched, so the interrupted sequence continues after
    it. *)
Theorem controls_inside_sequences_act_at_once st cc :
  osc st = false -> 0 <= cc < 32 ->
  cc <> ESC -> cc <> CNTL (chr "X") -> cc <> CNTL (chr "Z") ->
  exists st',
    receiveChars receiveChars_depth st [cc] = Some st'
    /\ st' = processToken (token_ctl (cc + chr "@")) 0 0 st
    /\ tokenBuffer st' = tokenBuffer st
    /\ tokenBufferPos st' = tokenBufferPos st
    /\ argc st' = argc st
    /\ argv st' = argv st
    /\ _currentModes st' = _currentModes st.
Proof.
  intros Hosc Hc Hesc HX HZ. eexists. split; [|split; [reflexivity|]].
  - unfold receiveChars_depth. rewrite receiveChars_S, feed_single.
    apply receiveChar_control; assumption.
  - apply control_token_keeps_tokenizer, Hc.
Qed.

Lemma controls_inside_sequences_act_at_once_witness :
  osc (after_receiving example_start ([ESC] ++ codes "[3")) = false
  /\ exists st',
       receiveChars receiveChars_depth
         (after_receiving example_start ([ESC] ++ codes "[3")) [0x0A] = Some st'
       /\ tokenBufferPos st' = 3
       /\ rd (argv st') 0 = 3.
Proof.
  split; [vm_compute; reflexivity|].
  destruct (controls_inside_sequences_act_at_once
              (after_receiving example_start ([ESC] ++ codes "[3")) 0x0A
              ltac:(vm_compute; reflexivity) ltac:(lia) ltac:(discriminate)
              ltac:(discriminate) ltac:(discriminate))
    as (st' & Hrun & _ & _ & Hpos & _ & Hargv & _).
  exists st'. split; [exact Hrun|]. split.
  - rewrite Hpos. vm_compute. reflexivity.
  - rewrite Hargv. vm_compute. reflexivity.
Defined.

Lemma applyCharset_range c st :
  0 <= c < 2 ^ 31 -> 0 <= applyCharset c st < 2 ^ 31.
Proof.
  intros Hc. unfold applyCharset.
  destruct (graphic (CHARSET st) && (0x5f <=? c) && (c <=? 0x7e)) eqn:E.
  - apply andb_true_iff in E as [E H2]. apply andb_true_iff in E as [_ H1].
    assert (Hall : forallb (fun k => (0 <=? lookup_table vt100_graphics k)
                                     && (lookup_table vt100_graphics k <? 2 ^ 31))
                     (seqZ 0 32) = true) by (vm_compute; reflexivity).
    rewrite forallb_forall in Hall. specialize (Hall (c - 0x5f)).
    rewrite andb_true_iff in Hall.
    destruct Hall as [Ha Hb]; [apply list_elem_of_In, elem_of_seqZ; lia|]. lia.
  - destruct (pound (CHARSET st) && (c =? chr "#")); lia.
Qed.

Lemma receiveChar_printable again st cc :
  getMode MODE_Ansi st = true -> tokenBufferPos st = 0 ->
  32 <= cc < 2 ^ 31 -> cc <> DEL -> cc <> ESC + 128 ->
  receiveChar again st cc
  = Some (resetTokenizer
            (on_current (displayCharacter (applyCharset cc st))
               (addToCurrentToken cc st))).
Proof.
  intros Ha Hp Hc Hdel Hcsi.
  unfold receiveChar. rewrite (ces_printable cc) by lia.
  unfold DEL, ESC in *. settle_comparisons.
  unfold advance. cbv zeta.
  assert (Hmode : getMode MODE_Ansi (addToCurrentToken cc st) = true) by exact Ha.
  assert (Hpos : tokenBufferPos (addToCurrentToken cc st) = 1).
  { unfold addToCurrentToken. cbn. rewrite Hp. reflexivity. }
  assert (Hbuf : rd (tokenBuffer (addToCurrentToken cc st)) 0 = cc).
  { unfold addToCurrentToken. cbn. rewrite Hp. cbn. unfold rd, wr. reflexivity. }
  assert (Hcs : applyCharset cc (addToCurrentToken cc st) = applyCharset cc st)
    by reflexivity.
  remember (addToCurrentToken cc st) as st1 eqn:E. clear E.
  rewrite Hmode, Hpos. unfold lec, les. rewrite Hbuf.
  unfold ESC. settle_comparisons. cbn [andb].
  unfold scan_ansi. cbv zeta. unfold osc, lec, lun. rewrite Hpos.
  settle_comparisons. cbn [andb].
  rewrite Hcs. rewrite to_int_small by (pose proof (applyCharset_range cc st); lia).
  reflexivity.
Qed.

(** X5: in ANSI mode with an empty token, a run of printable characters (at
    least 32, neither DEL nor 0x9B) is displayed character by character in
    stream order on the current screen, each translated by [applyCharset];
    nothing else is output, and modes, character sets and screen are
    unchanged. *)
Theorem plain_text_is_displayed_in_order st chars :
  getMode MODE_Ansi st = true -> tokenBufferPos st = 0 ->
  Forall (fun cc => 32 <= cc < 2 ^ 31 /\ cc <> DEL /\ cc <> ESC + 128) chars ->
  exists st',
    receiveChars receiveChars_depth st chars = Some st'
    /\ out st' = out st
                 ++ map (fun cc => OnScreen (_currentScreen st)
                                     (displayCharacter (applyCharset cc st))) chars
    /\ tokenBufferPos st' = 0
    /\ _currentModes st' = _currentModes st
    /\ _charset st' = _charset st
    /\ _currentScreen st' = _currentScreen st.
Proof.
  intros Ha Hp Hall. unfold receiveChars_depth. rewrite receiveChars_S.
  revert st Ha Hp. induction Hall as [|cc chars [Hc [Hdel Hcsi]] _ IH]; intros st Ha Hp.
  - exists st. cbn. rewrite app_nil_r. repeat split; try reflexivity. exact Hp.
  - cbn [feed]. rewrite (receiveChar_printable _ st cc Ha Hp Hc Hdel Hcsi).
    set (st1 := resetTokenizer _).
    destruct (IH st1) as [st' [Hrun [Hout [Hpos [Hm [Hcs Hcur]]]]]];
      [exact Ha | reflexivity |].
    exists st'. split; [exact Hrun|]. rewrite Hout, Hpos, Hm, Hcs, Hcur.
    repeat split. cbn [map]. unfold st1. cbn. rewrite <- app_assoc. reflexivity.
Qed.

Lemma plain_text_is_displayed_in_order_witness :
  getMode MODE_Ansi example_start = true
  /\ tokenBufferPos example_start = 0
  /\ exists st',
       receiveChars receiveChars_depth example_start (codes "hi") = Some st'
       /\ out st' = out example_start
                    ++ map (fun cc => OnScreen (_currentScreen example_start)
                                        (displayCharacter (applyCharset cc example_start)))
                         (codes "hi").
Proof.
  split; [vm_compute; reflexivity|]. split; [vm_compute; reflexivity|].
  destruct (plain_text_is_displayed_in_order example_start (codes "hi")
              ltac:(vm_compute; reflexivity) ltac:(vm_compute; reflexivity))
    as (st' & Hrun & Hout & _).
  - repeat (apply List.Forall_cons;
            [split; [split; [apply Z.leb_le | apply Z.ltb_lt]; vm_compute; reflexivity
                    |split; discriminate]|]).
    apply List.Forall_nil.
  - exists st'. split; [exact Hrun | exact Hout].
Defined.

(** ** Modes and screens *)

(** X6: [setMode(m)] and [resetMode(m)] leave every other mode [m'] as it was,
    unless both are mouse-tracking modes or, for [setMode], both are
    mouse-encoding modes. *)
Theorem mode_changes_stay_in_their_group m m' st :
  m' <> m ->
  same_group mouse_tracking_modes m m' = false ->
  (same_group mouse_encoding_modes m m' = false ->
   getMode m' (setMode m st) = getMode m' st)
  /\ getMode m' (resetMode m st) = getMode m' st.
Proof.
  intros Hne Htrack. open_state st.
  destruct m, m'; try congruence; try discriminate Htrack;
    (split; [intros Henc; try discriminate Henc|]);
    unfold getMode; cbn;
    repeat match goal with
           | |- context [if ?c then clearScreenAndSetColumns _ _ else _] => destruct c; cbn
           end; reflexivity.
Qed.

Lemma mode_changes_stay_in_their_group_witness :
  MODE_Mouse1002 <> MODE_BracketedPaste
  /\ same_group mouse_tracking_modes MODE_BracketedPaste MODE_Mouse1002 = false
  /\ same_group mouse_encoding_modes MODE_BracketedPaste MODE_Mouse1002 = false
  /\ getMode MODE_Mouse1002
       (setMode MODE_BracketedPaste (setMode MODE_Mouse1002 example_start))
     = getMode MODE_Mouse1002 (setMode MODE_Mouse1002 example_start).
Proof.
  split; [discriminate|]. split; [reflexivity|]. split; [reflexivity|].
  apply (proj1 (mode_changes_stay_in_their_group MODE_BracketedPaste MODE_Mouse1002
                  (setMode MODE_Mouse1002 example_start)
                  ltac:(discriminate) ltac:(reflexivity))).
  reflexivity.
Defined.

(** X7: [resetMode] on any of the four mouse-tracking modes clears all four of
    them, also one that was set through a different mode of the group. *)
Theorem disabling_one_tracking_mode_disables_all m st :
  In m mouse_tracking_modes ->
  Forall (fun m' => getMode m' (resetMode m st) = false) mouse_tracking_modes.
Proof.
  intros Hin. open_state st.
  cbn in Hin. destruct Hin as [<-|[<-|[<-|[<-|[]]]]];
    repeat constructor.
Qed.

Lemma disabling_one_tracking_mode_disables_all_witness :
  In MODE_Mouse1000 mouse_tracking_modes
  /\ Forall (fun m' => getMode m' (resetMode MODE_Mouse1000
                                     (setMode MODE_Mouse1002 example_start)) = false)
       mouse_tracking_modes.
Proof.
  split; [left; reflexivity|].
  apply disabling_one_tracking_mode_disables_all. left. reflexivity.
Defined.

Lemma setMode_screen m : preserves screen_follows_mode (setMode m).
Proof.
  intros st H. unfold screen_follows_mode in *. open_state st.
  unfold getMode in *. cbn in H.
  destruct m; cbn;
    repeat match goal with
           | |- context [if ?c then clearScreenAndSetColumns _ _ else _] => destruct c; cbn
           end; first [exact H | reflexivity].
Qed.

Lemma resetMode_screen m : preserves screen_follows_mode (resetMode m).
Proof.
  intros st H. unfold screen_follows_mode in *. open_state st.
  unfold getMode in *. cbn in H.
  destruct m; cbn;
    repeat match goal with
           | |- context [if ?c then clearScreenAndSetColumns _ _ else _] => destruct c; cbn
           end; first [exact H | reflexivity].
Qed.

Lemma receiveChars_screen depth st chars st' :
  receiveChars depth st chars = Some st' ->
  screen_follows_mode st -> screen_follows_mode st'.
Proof.
  apply (receiveChars_preserves screen_follows_mode);
    try (intros; intros s Hs; exact Hs).
  - exact setMode_screen.
  - exact resetMode_screen.
Qed.

(** X8: in every state reachable from the constructed emulation, the current
    screen is the alternate screen exactly when [MODE_AppScreen] is set. *)
Theorem alternate_screen_follows_AppScreen_mode w buf args cs st :
  reachable (Vt102Emulation_new w buf args cs) st ->
  _currentScreen st = getMode MODE_AppScreen st.
Proof.
  intros Hr. change (screen_follows_mode st).
  induction Hr as [|st m _ IH|st m _ IH|st m _ IH|st m _ IH
                   |st chars st' _ IH Hrun|st _ IH
                   |st cb cx cy ev _ IH|st focused _ IH].
  - reflexivity.
  - apply setMode_screen, IH.
  - apply resetMode_screen, IH.
  - exact IH.
  - unfold restoreMode. destruct (mode_get _ _);
      [apply setMode_screen | apply resetMode_screen]; exact IH.
  - eapply receiveChars_screen; eassumption.
  - apply (preserves_reset screen_follows_mode);
      try (intros; intros s Hs; exact Hs);
      [exact setMode_screen | exact resetMode_screen | exact IH].
  - apply (preserves_sendMouseEvent screen_follows_mode);
      [intros; intros s Hs; exact Hs | exact IH].
  - apply (preserves_focusChanged screen_follows_mode);
      [intros; intros s Hs; exact Hs | exact IH].
Qed.

Lemma alternate_screen_follows_AppScreen_mode_witness :
  reachable example_new (setMode MODE_AppScreen (reset example_new))
  /\ _currentScreen (setMode MODE_AppScreen (reset example_new))
     = getMode MODE_AppScreen (setMode MODE_AppScreen (reset example_new)).
Proof.
  assert (Hr : reachable example_new (setMode MODE_AppScreen (reset example_new))).
  { apply reachable_setMode, reachable_reset, reachable_start. }
  split; [exact Hr|].
  exact (alternate_screen_follows_AppScreen_mode _ _ _ _ _ Hr).
Defined.

Ltac same_cells :=
  intros k; vm_compute;
  repeat match goal with
         | |- context [match ?x with _ => _ end] => is_var x; destruct x
         end; reflexivity.

(** X9: [reset()] is idempotent on the emulation's own state: a second reset
    right after the first leaves every member variable as the first left it
    (only the output log grows). *)
Theorem reset_is_idempotent st : same_state (reset (reset st)) (reset st).
Proof.
  open_state st. destruct cod as [cod|], mAllow132;
    unfold same_state, same_CharCodes;
    repeat match goal with |- _ /\ _ => split end;
    first [same_cells | vm_compute; reflexivity].
Qed.

(** X10: after [reset()], on both screens G0 is active, slots G0, G1 and G2 hold
    'B', slot G3 holds NUL (the four-byte copy keeps three characters), and no
    graphic or pound flag is set or saved; so [applyCharset] returns every
    character unchanged, on the primary and on the alternate screen. *)
Theorem reset_selects_ASCII_on_both_screens st :
  (forall scrno,
     Forall (fun k => rd (charset (charset_of scrno (reset st))) k = chr "B") [0; 1; 2]
     /\ rd (charset (charset_of scrno (reset st))) 3 = 0
     /\ cu_cs (charset_of scrno (reset st)) = 0
     /\ graphic (charset_of scrno (reset st)) = false
     /\ pound (charset_of scrno (reset st)) = false
     /\ sa_graphic (charset_of scrno (reset st)) = false
     /\ sa_pound (charset_of scrno (reset st)) = false)
  /\ (forall c, applyCharset c (reset st) = c)
  /\ (forall c, applyCharset c (setMode MODE_AppScreen (reset st)) = c).
Proof.
  open_state st. destruct cod as [cod|], mAllow132;
    (split; [intros [|]; repeat match goal with |- _ /\ _ => split end;
                         repeat constructor; vm_compute; reflexivity|]);
    split; intros c; reflexivity.
Qed.


(** ** Character sets *)

(** X11: whatever charset operations ([useCharset], [setCharset],
    [setAndUseCharset]) happen between [saveCursor] and [restoreCursor], the
    graphic and pound flags of the current screen, and with them the result
    of [applyCharset], are afterwards what they were at [saveCursor]. *)
Theorem restoreCursor_restores_translation ops st :
  graphic (CHARSET (restoreCursor (run_CharsetOps ops (saveCursor st))))
  = graphic (CHARSET st)
  /\ pound (CHARSET (restoreCursor (run_CharsetOps ops (saveCursor st))))
     = pound (CHARSET st)
  /\ forall c, applyCharset c (restoreCursor (run_CharsetOps ops (saveCursor st)))
               = applyCharset c st.
Proof.
  destruct (run_CharsetOps_saved ops (saveCursor st)) as [H1 [H2 H3]].
  set (st1 := run_CharsetOps ops (saveCursor st)) in *. clearbody st1.
  assert (Hg : graphic (CHARSET (restoreCursor st1)) = graphic (CHARSET st)).
  { transitivity (sa_graphic (CHARSET st1)).
    - open_state st1. destruct cur; reflexivity.
    - rewrite H2. open_state st. destruct cur; reflexivity. }
  assert (Hp : pound (CHARSET (restoreCursor st1)) = pound (CHARSET st)).
  { transitivity (sa_pound (CHARSET st1)).
    - open_state st1. destruct cur; reflexivity.
    - rewrite H3. open_state st. destruct cur; reflexivity. }
  split; [exact Hg|]. split; [exact Hp|].
  intros c. unfold applyCharset. rewrite Hg, Hp. reflexivity.
Qed.

(** ** Decimal conversions *)

Lemma decimal_digits_spec fuel z acc :
  (1 <= fuel)%nat -> 0 <= z < 2 ^ Z.of_nat fuel ->
  exists ds k,
    decimal_digits fuel z acc = ds ++ acc
    /\ Forall (fun c => chr "0" <= c <= chr "9") ds
    /\ length ds = k /\ (1 <= k)%nat /\ z < 10 ^ Z.of_nat k
    /\ (10 ^ Z.of_nat (k - 1) <= z \/ k = 1%nat)
    /\ forall v, fold_left (fun v c => 10 * v + (c - chr "0")) ds v
                 = v * 10 ^ Z.of_nat k + z.
Proof.
  revert z acc. induction fuel as [|fuel IH]; intros z acc Hfuel Hz.
  - lia.
  - cbn [decimal_digits]. cbv zeta.
    destruct (Z.ltb_spec z 10) as [Hlt|Hge].
    + exists [chr "0" + z mod 10], 1%nat.
      rewrite Z.mod_small by lia. change (chr "0") with 48. change (chr "9") with 57.
      change (10 ^ Z.of_nat 1) with 10.
      split; [reflexivity|]. split; [repeat constructor; lia|].
      split; [reflexivity|]. split; [lia|]. split; [lia|].
      split; [right; reflexivity|].
      intros v. cbn [fold_left]. lia.
    + assert (Hq : 0 <= z / 10 < 2 ^ Z.of_nat fuel).
      { split; [apply Z.div_pos; lia|].
        rewrite Nat2Z.inj_succ, Z.pow_succ_r in Hz by lia.
        apply Z.div_lt_upper_bound; lia. }
      assert (Hf : (1 <= fuel)%nat).
      { destruct fuel; [|lia]. change (2 ^ Z.of_nat 1) with 2 in Hz. lia. }
      destruct (IH (z / 10) ((chr "0" + z mod 10) :: acc) Hf Hq)
        as [ds [k [Heq [Hds [Hlen [Hk [Hub [Hlb Hval]]]]]]]].
      exists (ds ++ [chr "0" + z mod 10]), (S k).
      pose proof (Z.mod_pos_bound z 10 ltac:(lia)) as Hm.
      pose proof (Z.div_mod z 10 ltac:(lia)) as Hdm.
      repeat match goal with |- _ /\ _ => split end.
      * rewrite Heq, <- app_assoc. reflexivity.
      * rewrite Forall_app. split; [exact Hds|].
        change (chr "0") with 48. change (chr "9") with 57.
        repeat constructor; lia.
      * rewrite length_app, Hlen. cbn. lia.
      * lia.
      * rewrite Nat2Z.inj_succ, Z.pow_succ_r by lia. lia.
      * left. replace (S k - 1)%nat with (S (k - 1)) by lia.
        rewrite Nat2Z.inj_succ, Z.pow_succ_r by lia.
        destruct Hlb as [Hlb| ->]; [lia|]. change (10 ^ Z.of_nat (1 - 1)) with 1. lia.
      * intros v. rewrite fold_left_app, Hval. cbn [fold_left].
        rewrite Nat2Z.inj_succ, Z.pow_succ_r by lia.
        replace (chr "0" + z mod 10 - chr "0") with (z mod 10) by lia. lia.
Qed.

Lemma log2_fuel z : 0 <= z -> 0 <= z < 2 ^ Z.of_nat (S (Z.to_nat (Z.log2 z))).
Proof.
  intros Hz. split; [exact Hz|].
  rewrite Nat2Z.inj_succ, Z2Nat.id by apply Z.log2_nonneg.
  destruct (Z.eq_dec z 0) as [->|Hne]; [reflexivity|].
  apply Z.log2_spec. lia.
Qed.

(** [%d] of a non-negative [int]: between one and ten decimal digits that
    read back as the number. *)
Lemma fmt_d_nonneg z :
  0 <= z < 2 ^ 31 ->
  Forall (fun c => chr "0" <= c <= chr "9") (fmt_d z)
  /\ (1 <= length (fmt_d z) <= 10)%nat
  /\ fold_left (fun v c => 10 * v + (c - chr "0")) (fmt_d z) 0 = z.
Proof.
  intros Hz. unfold fmt_d.
  rewrite (proj2 (Z.ltb_ge z 0)) by lia.
  destruct (decimal_digits_spec (S (Z.to_nat (Z.log2 z))) z [] ltac:(lia)
              (log2_fuel z ltac:(lia)))
    as [ds [k [Heq [Hds [Hlen [Hk [Hub [Hlb Hval]]]]]]]].
  rewrite Heq, app_nil_r. split; [exact Hds|]. split; [|rewrite Hval; lia].
  rewrite Hlen. split; [exact Hk|].
  destruct Hlb as [Hlb|]; [|lia].
  destruct (le_lt_dec k 10) as [|Hgt]; [assumption|exfalso].
  assert (10 ^ 10 <= 10 ^ Z.of_nat (k - 1)) by (apply Z.pow_le_mono_r; lia).
  lia.
Qed.

Lemma c_str_no_NUL l : Forall (fun c => c <> 0) l -> c_str l = l.
Proof.
  induction 1 as [|c l Hc _ IH]; [reflexivity|].
  cbn [c_str]. rewrite (proj2 (Z.eqb_neq c 0)) by exact Hc. rewrite IH. reflexivity.
Qed.

(** A formatted string shorter than the buffer and free of NUL arrives
    complete. *)
Lemma snprintf_complete size l :
  (length l < size)%nat -> Forall (fun c => c <> 0) l -> snprintf size l = l.
Proof.
  intros Hlen Hnz. unfold snprintf.
  rewrite firstn_all2 by lia. apply c_str_no_NUL, Hnz.
Qed.

Lemma digits_no_NUL l :
  Forall (fun c => chr "0" <= c <= chr "9") l -> Forall (fun c => c <> 0) l.
Proof.
  intros H. eapply List.Forall_impl; [|exact H].
  intros c. cbv beta. change (chr "0") with 48. lia.
Qed.

(** [%d] of any [int]: at most eleven characters, none of them NUL. *)
Lemma fmt_d_int z :
  - 2 ^ 31 <= z < 2 ^ 31 ->
  (length (fmt_d z) <= 11)%nat /\ Forall (fun c => c <> 0) (fmt_d z).
Proof.
  intros Hz. unfold fmt_d.
  destruct (Z.ltb_spec z 0) as [Hneg|Hpos].
  - destruct (decimal_digits_spec (S (Z.to_nat (Z.log2 (- z)))) (- z) [] ltac:(lia)
                (log2_fuel (- z) ltac:(lia)))
      as [ds [k [Heq [Hds [Hlen [Hk [Hub [Hlb Hval]]]]]]]].
    rewrite Heq, app_nil_r. split.
    + cbn [length]. rewrite Hlen.
      destruct Hlb as [Hlb|]; [|lia].
      destruct (le_lt_dec k 10) as [|Hgt]; [lia|exfalso].
      assert (10 ^ 10 <= 10 ^ Z.of_nat (k - 1)) by (apply Z.pow_le_mono_r; lia).
      lia.
    + apply List.Forall_cons; [discriminate|]. apply digits_no_NUL, Hds.
  - destruct (fmt_d_nonneg z ltac:(lia)) as (Hds & Hlen & _).
    unfold fmt_d in Hds, Hlen. rewrite (proj2 (Z.ltb_ge z 0)) in Hds, Hlen by lia.
    split; [lia|]. apply digits_no_NUL, Hds.
Qed.

Lemma hex_digits_spec upper fuel z acc :
  (1 <= fuel)%nat -> 0 <= z < 2 ^ Z.of_nat fuel ->
  exists ds k,
    hex_digits upper fuel z acc = ds ++ acc
    /\ Forall (fun c => c <> 0) ds
    /\ length ds = k /\ (1 <= k)%nat
    /\ (16 ^ Z.of_nat (k - 1) <= z \/ k = 1%nat).
Proof.
  revert z acc. induction fuel as [|fuel IH]; intros z acc Hfuel Hz.
  - lia.
  - cbn [hex_digits]. cbv zeta.
    pose proof (Z.mod_pos_bound z 16 ltac:(lia)) as Hm.
    assert (Hd : hex_digit upper (z mod 16) <> 0).
    { unfold hex_digit. destruct (z mod 16 <? 10), upper;
        change (chr "0") with 48; change (chr "A") with 65; change (chr "a") with 97;
        lia. }
    destruct (Z.ltb_spec z 16) as [Hlt|Hge].
    + exists [hex_digit upper (z mod 16)], 1%nat.
      split; [reflexivity|]. split; [repeat constructor; exact Hd|].
      split; [reflexivity|]. split; [lia|]. right; reflexivity.
    + assert (Hq : 0 <= z / 16 < 2 ^ Z.of_nat fuel).
      { split; [apply Z.div_pos; lia|].
        rewrite Nat2Z.inj_succ, Z.pow_succ_r in Hz by lia.
        apply Z.div_lt_upper_bound; lia. }
      assert (Hf : (1 <= fuel)%nat).
      { destruct fuel; [|lia]. change (2 ^ Z.of_nat 1) with 2 in Hz. lia. }
      destruct (IH (z / 16) (hex_digit upper (z mod 16) :: acc) Hf Hq)
        as [ds [k [Heq [Hds [Hlen [Hk Hlb]]]]]].
      exists (ds ++ [hex_digit upper (z mod 16)]), (S k).
      pose proof (Z.div_mod z 16 ltac:(lia)) as Hdm.
      split; [rewrite Heq, <- app_assoc; reflexivity|].
      split; [rewrite Forall_app; split; [exact Hds|repeat constructor; exact Hd]|].
      split; [rewrite length_app, Hlen; cbn; lia|].
      split; [lia|].
      left. replace (S k - 1)%nat with (S (k - 1)) by lia.
      rewrite Nat2Z.inj_succ, Z.pow_succ_r by lia.
      destruct Hlb as [Hlb| ->]; [lia|]. change (16 ^ Z.of_nat (1 - 1)) with 1. lia.
Qed.

Lemma fmt_04X_word z :
  0 <= z <= 0xffff ->
  length (fmt_04x true z) = 4%nat /\ Forall (fun c => c <> 0) (fmt_04x true z).
Proof.
  intros Hz. unfold fmt_04x. cbv zeta.
  destruct (hex_digits_spec true (S (Z.to_nat (Z.log2 z))) z [] ltac:(lia)
              (log2_fuel z ltac:(lia)))
    as [ds [k [Heq [Hds [Hlen [Hk Hlb]]]]]].
  rewrite Heq, app_nil_r.
  assert (k <= 4)%nat.
  { destruct Hlb as [Hlb|]; [|lia].
    destruct (le_lt_dec k 4) as [|Hgt]; [assumption|exfalso].
    assert (16 ^ 4 <= 16 ^ Z.of_nat (k - 1)) by (apply Z.pow_le_mono_r; lia).
    lia. }
  split.
  - rewrite length_app, length_replicate, Hlen. lia.
  - rewrite Forall_app. split; [|exact Hds].
    apply Forall_replicate. discriminate.
Qed.


(** ** Mouse and focus reports *)

(** X12: with Mouse1006 set, a press or a release of button 0, 1 or 2 at any
    position from 1 up to the largest [int] is reported in full,
    [ESC \[ < button ; column ; line] followed by 'M' for a press and 'm'
    for a release: the 40-byte buffer never truncates it and the release
    keeps the button number. *)
Theorem SGR_mouse_report_is_complete st cb cx cy eventType :
  getMode MODE_Mouse1006 st = true ->
  0 <= cb <= 2 -> 1 <= cx < 2 ^ 31 -> 1 <= cy < 2 ^ 31 ->
  eventType = 0 \/ eventType = 2 ->
  sendMouseEvent cb cx cy eventType st
  = sendString ([ESC; chr "["; chr "<"] ++ fmt_d cb ++ [chr ";"] ++ fmt_d cx
                ++ [chr ";"] ++ fmt_d cy
                ++ [if eventType =? 2 then chr "m" else chr "M"]) st.
Proof.
  intros H1006 Hcb Hcx Hcy Hev.
  destruct (fmt_d_nonneg cb ltac:(lia)) as [Db [Lb _]].
  destruct (fmt_d_nonneg cx ltac:(lia)) as [Dx [Lx _]].
  destruct (fmt_d_nonneg cy ltac:(lia)) as [Dy [Ly _]].
  unfold sendMouseEvent. rewrite H1006.
  assert (E : (eventType =? 1) = false) by (destruct Hev; subst; reflexivity).
  rewrite E. settle_comparisons. cbn [orb andb negb].
  f_equal. change (codes "[<") with [chr "["; chr "<"].
  apply snprintf_complete.
  - repeat rewrite length_app. cbn [length]. lia.
  - change ([ESC] ++ [chr "["; chr "<"] ++ fmt_d cb ++ [chr ";"] ++ fmt_d cx ++ [chr ";"]
            ++ fmt_d cy ++ [if eventType =? 2 then chr "m" else chr "M"])
      with ([ESC; chr "["; chr "<"] ++ fmt_d cb ++ [chr ";"] ++ fmt_d cx ++ [chr ";"]
            ++ fmt_d cy ++ [if eventType =? 2 then chr "m" else chr "M"]).
    rewrite !Forall_app.
    repeat match goal with |- _ /\ _ => split end;
      try (apply digits_no_NUL; assumption);
      repeat constructor; try discriminate.
    destruct (eventType =? 2); discriminate.
Qed.

Lemma SGR_mouse_report_is_complete_witness :
  getMode MODE_Mouse1006 (setMode MODE_Mouse1006 example_start) = true
  /\ sendMouseEvent 1 80 24 2 (setMode MODE_Mouse1006 example_start)
     = sendString ([ESC; chr "["; chr "<"] ++ fmt_d 1 ++ [chr ";"] ++ fmt_d 80
                   ++ [chr ";"] ++ fmt_d 24 ++ [chr "m"])
         (setMode MODE_Mouse1006 example_start).
Proof.
  split; [vm_compute; reflexivity|].
  apply (SGR_mouse_report_is_complete (setMode MODE_Mouse1006 example_start) 1 80 24 2);
    [vm_compute; reflexivity | lia | lia | lia | right; reflexivity].
Defined.

(** X13: without any of the encodings 1005, 1006 and 1015, a press of button 0, 1
    or 2 at a position up to 223 is reported as the six bytes
    [ESC \[ M] button+32, column+32, line+32; beyond column or line 223
    [sendData] is still called, with no bytes at all. *)
Theorem default_mouse_report_and_its_coordinate_limit :
  (forall st cb cx cy,
     getMode MODE_Mouse1005 st = false -> getMode MODE_Mouse1006 st = false ->
     getMode MODE_Mouse1015 st = false ->
     0 <= cb <= 2 -> 1 <= cx <= 223 -> 1 <= cy <= 223 ->
     sendMouseEvent cb cx cy 0 st
     = sendString [ESC; chr "["; chr "M"; cb + 0x20; cx + 0x20; cy + 0x20] st)
  /\ (forall st cb cx cy,
        getMode MODE_Mouse1005 st = false -> getMode MODE_Mouse1006 st = false ->
        getMode MODE_Mouse1015 st = false ->
        0 <= cb <= 2 -> 1 <= cx -> 1 <= cy -> 223 < cx \/ 223 < cy ->
        sendMouseEvent cb cx cy 0 st = sendString [] st).
Proof.
  split; intros st cb cx cy H5 H6 H15 Hcb Hcx Hcy.
  - unfold sendMouseEvent. rewrite H5, H6, H15. settle_comparisons.
    cbn [orb andb negb]. rewrite ?andb_false_r; settle_comparisons.
    f_equal. unfold fmt_c. rewrite !Z.mod_small by lia.
    change (codes "[M") with [chr "["; chr "M"]. cbn [app].
    apply snprintf_complete; [cbn; lia|].
    unfold ESC. repeat constructor; try discriminate; lia.
  - intros Hbig. unfold sendMouseEvent. rewrite H5, H6, H15. settle_comparisons.
    cbn [orb andb negb]. rewrite ?andb_false_r; settle_comparisons.
    destruct Hbig.
    + settle_comparisons. reflexivity.
    + rewrite (proj2 (Z.leb_gt cy 223)) by lia. rewrite andb_false_r. reflexivity.
Qed.

Lemma default_mouse_report_and_its_coordinate_limit_witness :
  getMode MODE_Mouse1005 example_start = false
  /\ getMode MODE_Mouse1006 example_start = false
  /\ getMode MODE_Mouse1015 example_start = false
  /\ sendMouseEvent 0 10 20 0 example_start
     = sendString [ESC; chr "["; chr "M"; 0 + 0x20; 10 + 0x20; 20 + 0x20] example_start
  /\ sendMouseEvent 0 300 20 0 example_start = sendString [] example_start.
Proof.
  split; [vm_compute; reflexivity|]. split; [vm_compute; reflexivity|].
  split; [vm_compute; reflexivity|]. split.
  - apply (proj1 default_mouse_report_and_its_coordinate_limit);
      first [vm_compute; reflexivity | lia].
  - apply (proj2 default_mouse_report_and_its_coordinate_limit);
      first [vm_compute; reflexivity | lia].
Defined.

(** X14: without Mouse1006 a release report is the same for every button: the
    button code is replaced by 3 (unless the event is dropped by the
    [cb == 3] test under Mouse1002, excluded here by the hypothesis). *)
Theorem release_report_does_not_name_the_button st cb cb' cx cy :
  getMode MODE_Mouse1006 st = false ->
  getMode MODE_Mouse1002 st = false \/ (cb <> 3 /\ cb' <> 3) ->
  sendMouseEvent cb cx cy 2 st = sendMouseEvent cb' cx cy 2 st.
Proof.
  intros H6 H. unfold sendMouseEvent. rewrite H6.
  assert (E : (cb =? 3) && getMode MODE_Mouse1002 st
              = (cb' =? 3) && getMode MODE_Mouse1002 st).
  { destruct H as [->|[H1 H2]]; [rewrite !andb_false_r; reflexivity|].
    rewrite (proj2 (Z.eqb_neq cb 3)), (proj2 (Z.eqb_neq cb' 3)) by assumption.
    reflexivity. }
  rewrite E. reflexivity.
Qed.

Lemma release_report_does_not_name_the_button_witness :
  getMode MODE_Mouse1006 example_start = false
  /\ getMode MODE_Mouse1002 example_start = false
  /\ sendMouseEvent 0 10 20 2 example_start = sendMouseEvent 2 10 20 2 example_start.
Proof.
  split; [vm_compute; reflexivity|]. split; [vm_compute; reflexivity|].
  apply release_report_does_not_name_the_button;
    [vm_compute; reflexivity | left; vm_compute; reflexivity].
Defined.

(** X15: after [CSI ? 1004 h] a focus change is reported ([ESC \[ I] on focus
    in, [ESC \[ O] on focus out); after [CSI ? 1004 l] it is not, the state
    is unchanged; and [reset()] leaves the setting as it is. *)
Theorem focus_reports_follow_mode_1004 :
  (forall st focused,
     getMode MODE_Ansi st = true -> osc st = false ->
     exists st',
       receiveChars receiveChars_depth st ([ESC] ++ codes "[?1004h") = Some st'
       /\ out st' = out st
       /\ focusChanged focused st'
          = sendString ([ESC; chr "["; if focused then chr "I" else chr "O"]) st')
  /\ (forall st focused,
        getMode MODE_Ansi st = true -> osc st = false ->
        exists st',
          receiveChars receiveChars_depth st ([ESC] ++ codes "[?1004l") = Some st'
          /\ out st' = out st
          /\ focusChanged focused st' = st')
  /\ (forall st, _reportFocusEvents (reset st) = _reportFocusEvents st).
Proof.
  split; [|split].
  - intros st focused Ha Hosc.
    change ([ESC] ++ codes "[?1004h") with (ESC :: codes "[?1004h").
    rewrite (receiveChars_ESC st _ Hosc Ha).
    open_state st. unfold getMode in Ha. cbn in Ha. subst mAnsi.
    eexists. split; [vm_compute; reflexivity|].
    split; [reflexivity|]. destruct focused; reflexivity.
  - intros st focused Ha Hosc.
    change ([ESC] ++ codes "[?1004l") with (ESC :: codes "[?1004l").
    rewrite (receiveChars_ESC st _ Hosc Ha).
    open_state st. unfold getMode in Ha. cbn in Ha. subst mAnsi.
    eexists. split; [vm_compute; reflexivity|].
    split; reflexivity.
  - intros st. open_state st. destruct cod, mAllow132; reflexivity.
Qed.

Lemma focus_reports_follow_mode_1004_witness :
  getMode MODE_Ansi example_start = true
  /\ osc example_start = false
  /\ (exists st',
        receiveChars receiveChars_depth example_start ([ESC] ++ codes "[?1004h") = Some st'
        /\ focusChanged true st' = sendString [ESC; chr "["; chr "I"] st')
  /\ (exists st',
        receiveChars receiveChars_depth example_start ([ESC] ++ codes "[?1004l") = Some st'
        /\ focusChanged true st' = st').
Proof.
  split; [vm_compute; reflexivity|]. split; [vm_compute; reflexivity|]. split.
  - destruct (proj1 focus_reports_follow_mode_1004 example_start true
                ltac:(vm_compute; reflexivity) ltac:(vm_compute; reflexivity))
      as (st' & Hrun & _ & Hfocus).
    exists st'. split; [exact Hrun | exact Hfocus].
  - destruct (proj1 (proj2 focus_reports_follow_mode_1004) example_start true
                ltac:(vm_compute; reflexivity) ltac:(vm_compute; reflexivity))
      as (st' & Hrun & _ & Hfocus).
    exists st'. split; [exact Hrun | exact Hfocus].
Defined.

(** ** VT52 mode *)

Lemma receiveChar_vt52 again st cc :
  getMode MODE_Ansi st = false -> 32 <= cc -> cc <> DEL ->
  receiveChar again st cc
  = Some (scan_vt52 (tokenBufferPos (addToCurrentToken cc st)) (addToCurrentToken cc st)).
Proof.
  intros Ha Hc Hdel. unfold receiveChar. rewrite (ces_printable cc Hc).
  unfold DEL in *. settle_comparisons. unfold advance. cbv zeta.
  change (getMode MODE_Ansi (addToCurrentToken cc st)) with (getMode MODE_Ansi st).
  rewrite Ha. reflexivity.
Qed.

(** X16: in VT52 mode, [ESC Y row column] positions the cursor on the current
    screen at line [row - 31] and column [column - 31], for any two
    printable characters, and ends the token. *)
Theorem VT52_direct_cursor_address st row column :
  getMode MODE_Ansi st = false -> osc st = false ->
  32 <= row < 2 ^ 31 -> row <> DEL -> 32 <= column < 2 ^ 31 -> column <> DEL ->
  exists st',
    receiveChars receiveChars_depth st [ESC; chr "Y"; row; column] = Some st'
    /\ out st' = out st ++ [OnScreen (_currentScreen st)
                              (setCursorYX (row - 31) (column - 31))]
    /\ tokenBufferPos st' = 0.
Proof.
  intros Ha Hosc Hr Hrd Hc Hcd.
  unfold receiveChars_depth. rewrite receiveChars_S. cbn [feed].
  rewrite (receiveChar_ESC _ st Hosc).
  open_state st. unfold getMode in Ha. cbn in Ha. subst mAnsi. clear Hosc.
  match goal with
  | |- context [advance ?a ESC ?s] =>
      let x := eval vm_compute in (advance a ESC s) in
      change (advance a ESC s) with x
  end.
  cbv iota beta.
  match goal with
  | |- context [receiveChar ?a ?s (chr "Y")] =>
      let x := eval vm_compute in (receiveChar a s (chr "Y")) in
      change (receiveChar a s (chr "Y")) with x
  end.
  cbv iota beta.
  rewrite receiveChar_vt52 by (first [reflexivity | lia | assumption]).
  match goal with
  | |- context [scan_vt52 ?p ?s] =>
      let p' := eval vm_compute in p in change p with p';
      replace (scan_vt52 p' s) with s
  end.
  2:{ unfold scan_vt52, lec, les. cbv zeta. cbn [Z.eqb Pos.eqb andb].
      match goal with
      | |- context [rd ?b 1 =? chr "Y"] =>
          change (rd b 1 =? chr "Y") with true
      end. reflexivity. }
  rewrite receiveChar_vt52 by (first [reflexivity | lia | assumption]).
  eexists. split; [reflexivity|].
  match goal with
  | |- context [scan_vt52 ?p ?s] =>
      let p' := eval vm_compute in p in change p with p'
  end.
  unfold scan_vt52, lec, les. cbv zeta. cbn [Z.eqb Pos.eqb andb Z.ltb Z.compare Pos.compare Pos.compare_cont].
  match goal with
  | |- context [processToken (token_vt52 ?a) (to_int ?p) (to_int ?q) ?s] =>
      change a with (chr "Y"); change p with row; change q with column;
      change (processToken (token_vt52 (chr "Y")) (to_int row) (to_int column) s)
        with (on_current (setCursorYX (to_int (to_int row - 31)) (to_int (to_int column - 31))) s)
  end.
  rewrite !(to_int_small row), !(to_int_small column) by lia.
  rewrite !to_int_small by lia.
  split; reflexivity.
Qed.

Lemma VT52_direct_cursor_address_witness :
  getMode MODE_Ansi (resetMode MODE_Ansi example_start) = false
  /\ osc (resetMode MODE_Ansi example_start) = false
  /\ exists st',
       receiveChars receiveChars_depth (resetMode MODE_Ansi example_start)
         [ESC; chr "Y"; chr "("; chr "0"] = Some st'
       /\ out st' = out (resetMode MODE_Ansi example_start)
                    ++ [OnScreen (_currentScreen (resetMode MODE_Ansi example_start))
                          (setCursorYX (chr "(" - 31) (chr "0" - 31))].
Proof.
  split; [vm_compute; reflexivity|]. split; [vm_compute; reflexivity|].
  destruct (VT52_direct_cursor_address (resetMode MODE_Ansi example_start)
              (chr "(") (chr "0")
              ltac:(vm_compute; reflexivity) ltac:(vm_compute; reflexivity)
              ltac:(change (chr "(") with 40; lia) ltac:(discriminate)
              ltac:(change (chr "0") with 48; lia) ltac:(discriminate))
    as (st' & Hrun & Hout & _).
  exists st'. split; [exact Hrun | exact Hout].
Defined.

Lemma receiveChars_ESC_any st chars :
  osc st = false ->
  receiveChars receiveChars_depth st (ESC :: chars)
  = match advance (receiveChars 2) ESC (resetTokenizer st) with
    | Some st' => receiveChars receiveChars_depth st' chars
    | None => None
    end.
Proof.
  intros Hosc. unfold receiveChars_depth. rewrite !receiveChars_S. cbn [feed].
  rewrite (receiveChar_ESC _ st Hosc). reflexivity.
Qed.

(** X17: [CSI ? 2 l] received in ANSI mode leaves the emulation in VT52 mode and
    [ESC <] received in VT52 mode brings it back to ANSI mode, both without
    output; in VT52 mode [ESC Z] is answered with [ESC / Z]. *)
Theorem VT52_mode_is_entered_and_left :
  (forall st,
     getMode MODE_Ansi st = true -> osc st = false ->
     exists st',
       receiveChars receiveChars_depth st ([ESC] ++ codes "[?2l") = Some st'
       /\ getMode MODE_Ansi st' = false
       /\ tokenBufferPos st' = 0
       /\ out st' = out st)
  /\ (forall st,
        getMode MODE_Ansi st = false -> osc st = false ->
        exists st',
          receiveChars receiveChars_depth st [ESC; chr "<"] = Some st'
          /\ getMode MODE_Ansi st' = true
          /\ tokenBufferPos st' = 0
          /\ out st' = out st)
  /\ (forall st,
        getMode MODE_Ansi st = false -> osc st = false ->
        exists st',
          receiveChars receiveChars_depth st [ESC; chr "Z"] = Some st'
          /\ out st' = out st ++ [sendData [ESC; chr "/"; chr "Z"]]).
Proof.
  split; [|split]; intros st Ha Hosc.
  - change ([ESC] ++ codes "[?2l") with (ESC :: codes "[?2l").
    rewrite (receiveChars_ESC_any st _ Hosc).
    open_state st. unfold getMode in Ha. cbn in Ha. subst mAnsi.
    eexists. split; [vm_compute; reflexivity|].
    split; [reflexivity|]. split; reflexivity.
  - rewrite (receiveChars_ESC_any st _ Hosc).
    open_state st. unfold getMode in Ha. cbn in Ha. subst mAnsi.
    eexists. split; [vm_compute; reflexivity|].
    split; [reflexivity|]. split; reflexivity.
  - rewrite (receiveChars_ESC_any st _ Hosc).
    open_state st. unfold getMode in Ha. cbn in Ha. subst mAnsi.
    eexists. split; [vm_compute; reflexivity|]. reflexivity.
Qed.

Lemma VT52_mode_is_entered_and_left_witness :
  getMode MODE_Ansi example_start = true
  /\ osc example_start = false
  /\ (exists st',
        receiveChars receiveChars_depth example_start ([ESC] ++ codes "[?2l") = Some st'
        /\ getMode MODE_Ansi st' = false)
  /\ getMode MODE_Ansi (resetMode MODE_Ansi example_start) = false
  /\ osc (resetMode MODE_Ansi example_start) = false
  /\ (exists st',
        receiveChars receiveChars_depth (resetMode MODE_Ansi example_start)
          [ESC; chr "<"] = Some st'
        /\ getMode MODE_Ansi st' = true)
  /\ (exists st',
        receiveChars receiveChars_depth (resetMode MODE_Ansi example_start)
          [ESC; chr "Z"] = Some st'
        /\ out st' = out (resetMode MODE_Ansi example_start)
                     ++ [sendData [ESC; chr "/"; chr "Z"]]).
Proof.
  split; [vm_compute; reflexivity|]. split; [vm_compute; reflexivity|]. split.
  { destruct (proj1 VT52_mode_is_entered_and_left example_start
                ltac:(vm_compute; reflexivity) ltac:(vm_compute; reflexivity))
      as (st' & Hrun & Hmode & _).
    exists st'. split; [exact Hrun | exact Hmode]. }
  split; [vm_compute; reflexivity|]. split; [vm_compute; reflexivity|]. split.
  { destruct (proj1 (proj2 VT52_mode_is_entered_and_left)
                (resetMode MODE_Ansi example_start)
                ltac:(vm_compute; reflexivity) ltac:(vm_compute; reflexivity))
      as (st' & Hrun & Hmode & _).
    exists st'. split; [exact Hrun | exact Hmode]. }
  destruct (proj2 (proj2 VT52_mode_is_entered_and_left)
              (resetMode MODE_Ansi example_start)
              ltac:(vm_compute; reflexivity) ltac:(vm_compute; reflexivity))
    as (st' & Hrun & Hout).
  exists st'. split; [exact Hrun | exact Hout].
Defined.

(** ** Tokens *)

Lemma land_shifted_low x y j k :
  0 <= k <= j -> 0 <= y < 2 ^ k -> Z.land (Z.shiftl x j) y = 0.
Proof.
  intros Hk Hy. apply Z.bits_inj'. intros i Hi.
  rewrite Z.land_spec, Z.bits_0.
  destruct (Z.ltb_spec i j) as [Hlt|Hge].
  - rewrite Z.shiftl_spec_low by lia. reflexivity.
  - rewrite (proj1 (Z.bounded_iff_bits_nonneg k y ltac:(lia) ltac:(lia)) ltac:(lia) i)
      by lia.
    apply andb_false_r.
Qed.

Lemma token_construct_sum t a n :
  token_construct t a n
  = to_int ((n mod 65536) * 65536 + (a mod 256) * 256 + t mod 256).
Proof.
  unfold token_construct. f_equal.
  change 0xffff with (Z.ones 16). change 0xff with (Z.ones 8).
  rewrite !Z.land_ones by lia.
  change (2 ^ 16) with 65536. change (2 ^ 8) with 256.
  pose proof (Z.mod_pos_bound n 65536 ltac:(lia)) as Hn.
  pose proof (Z.mod_pos_bound a 256 ltac:(lia)) as Ha.
  pose proof (Z.mod_pos_bound t 256 ltac:(lia)) as Ht.
  set (N := n mod 65536) in *. set (A := a mod 256) in *. set (T := t mod 256) in *.
  rewrite <- Z.add_nocarry_lor.
  - rewrite <- Z.add_nocarry_lor.
    + rewrite !Z.shiftl_mul_pow2 by lia. reflexivity.
    + rewrite Z.shiftl_mul_pow2 with (n := 8) by lia.
      apply (land_shifted_low N (A * 2 ^ 8) 16 16); [lia|].
      change (2 ^ 8) with 256. change (2 ^ 16) with 65536. lia.
  - rewrite <- Z.add_nocarry_lor.
    + rewrite !Z.shiftl_mul_pow2 by lia.
      replace (N * 2 ^ 16 + A * 2 ^ 8) with (Z.shiftl (N * 2 ^ 8 + A) 8)
        by (rewrite Z.shiftl_mul_pow2 by lia; change (2 ^ 16) with 65536;
            change (2 ^ 8) with 256; lia).
      apply (land_shifted_low _ T 8 8); [lia|]. change (2 ^ 8) with 256. lia.
    + rewrite Z.shiftl_mul_pow2 with (n := 8) by lia.
      apply (land_shifted_low N (A * 2 ^ 8) 16 16); [lia|].
      change (2 ^ 8) with 256. change (2 ^ 16) with 65536. lia.
Qed.

Lemma to_int_inj x y :
  0 <= x < 2 ^ 32 -> 0 <= y < 2 ^ 32 -> to_int x = to_int y -> x = y.
Proof.
  unfold to_int. intros Hx Hy H.
  assert (E : (x + 2 ^ 31) mod 2 ^ 32 = (y + 2 ^ 31) mod 2 ^ 32) by lia.
  destruct (Z.ltb_spec x (2 ^ 31)), (Z.ltb_spec y (2 ^ 31)).
  - rewrite !Z.mod_small in E by lia. lia.
  - rewrite (Z.mod_small (x + 2 ^ 31)) in E by lia.
    replace (y + 2 ^ 31) with (y - 2 ^ 31 + 1 * 2 ^ 32) in E by lia.
    rewrite Z.mod_add, Z.mod_small in E by lia. lia.
  - rewrite (Z.mod_small (y + 2 ^ 31)) in E by lia.
    replace (x + 2 ^ 31) with (x - 2 ^ 31 + 1 * 2 ^ 32) in E by lia.
    rewrite Z.mod_add, Z.mod_small in E by lia. lia.
  - replace (x + 2 ^ 31) with (x - 2 ^ 31 + 1 * 2 ^ 32) in E by lia.
    replace (y + 2 ^ 31) with (y - 2 ^ 31 + 1 * 2 ^ 32) in E by lia.
    rewrite !Z.mod_add, !Z.mod_small in E by lia. lia.
Qed.

Lemma token_construct_eq_iff t a n t' a' n' :
  token_construct t a n = token_construct t' a' n'
  <-> t mod 256 = t' mod 256 /\ a mod 256 = a' mod 256
      /\ n mod 65536 = n' mod 65536.
Proof.
  rewrite !token_construct_sum. split.
  - intros H.
    pose proof (Z.mod_pos_bound n 65536 ltac:(lia)).
    pose proof (Z.mod_pos_bound a 256 ltac:(lia)).
    pose proof (Z.mod_pos_bound t 256 ltac:(lia)).
    pose proof (Z.mod_pos_bound n' 65536 ltac:(lia)).
    pose proof (Z.mod_pos_bound a' 256 ltac:(lia)).
    pose proof (Z.mod_pos_bound t' 256 ltac:(lia)).
    apply to_int_inj in H; lia.
  - intros [-> [-> ->]]. reflexivity.
Qed.

Lemma token_esc_mod a : token_esc a = token_esc (a mod 256).
Proof.
  unfold token_esc. apply token_construct_eq_iff.
  repeat split. rewrite Z.mod_mod by lia. reflexivity.
Qed.

(** X18: two tokens are equal exactly when their types and characters agree
    modulo 256 and their parameters modulo 65536.  So parameters up to
    [MAX_ARGUMENT] never collide, while a character and the same character
    plus a multiple of 256 give the same token. *)
Theorem tokens_keep_low_bits_only :
  (forall t a n t' a' n',
     token_construct t a n = token_construct t' a' n'
     <-> t mod 256 = t' mod 256 /\ a mod 256 = a' mod 256
         /\ n mod 65536 = n' mod 65536)
  /\ (forall a n n',
        0 <= n <= MAX_ARGUMENT -> 0 <= n' <= MAX_ARGUMENT ->
        token_csi_ps a n = token_csi_ps a n' -> n = n')
  /\ (forall a k, token_esc (a + 256 * k) = token_esc a).
Proof.
  split; [exact token_construct_eq_iff|]. split.
  - intros a n n' Hn Hn' H. unfold token_csi_ps in H.
    apply token_construct_eq_iff in H as [_ [_ H]]. unfold MAX_ARGUMENT in *.
    rewrite !Z.mod_small in H by lia. exact H.
  - intros a k. unfold token_esc. apply token_construct_eq_iff.
    repeat split. rewrite Z.mul_comm, Z.mod_add by lia. reflexivity.
Qed.

Lemma tokens_keep_low_bits_only_witness :
  0 <= 38 <= MAX_ARGUMENT
  /\ token_csi_ps (chr "m") 38 = token_csi_ps (chr "m") 38
  /\ 38 = 38.
Proof.
  split; [unfold MAX_ARGUMENT; lia|]. split; [reflexivity|].
  apply (proj1 (proj2 tokens_keep_low_bits_only) (chr "m") 38 38);
    [unfold MAX_ARGUMENT; lia | unfold MAX_ARGUMENT; lia | reflexivity].
Defined.

(** X19: in ANSI mode, [ESC] followed by a code point of 256 or more is
    dispatched as the escape sequence of that code point modulo 256 (so
    ESC U+0163 acts as [ESC c]). *)
Theorem wide_character_after_ESC_is_truncated st cc :
  getMode MODE_Ansi st = true -> osc st = false -> 256 <= cc ->
  receiveChars receiveChars_depth st [ESC; cc]
  = Some (resetTokenizer
            (processToken (token_esc (cc mod 256)) 0 0
               (addToCurrentToken cc (addToCurrentToken ESC (resetTokenizer st))))).
Proof.
  intros Ha Hosc Hc.
  rewrite (receiveChars_ESC st _ Hosc Ha).
  unfold receiveChars_depth. rewrite receiveChars_S, feed_single.
  set (st1 := addToCurrentToken ESC (resetTokenizer st)).
  unfold receiveChar. unfold ces. unfold DEL. settle_comparisons. cbn [andb].
  unfold advance. cbv zeta.
  assert (Hmode : getMode MODE_Ansi (addToCurrentToken cc st1) = true) by exact Ha.
  assert (Hpos : tokenBufferPos (addToCurrentToken cc st1) = 2) by reflexivity.
  assert (Hb0 : rd (tokenBuffer (addToCurrentToken cc st1)) 0 = ESC) by reflexivity.
  assert (Hb1 : rd (tokenBuffer (addToCurrentToken cc st1)) 1 = cc) by reflexivity.
  remember (addToCurrentToken cc st1) as st2 eqn:E. clear E.
  rewrite Hmode, Hpos. unfold lec, les. rewrite Hb1.
  settle_comparisons. cbn [andb].
  unfold scan_ansi. cbv zeta. unfold osc, lec, lun, dcs. rewrite Hpos, Hb0, Hb1.
  change (chr "]") with 93. change (chr "P") with 80. unfold ESC.
  settle_comparisons. cbn [andb].
  rewrite (token_esc_mod cc). reflexivity.
Qed.

Lemma wide_character_after_ESC_is_truncated_witness :
  getMode MODE_Ansi example_start = true
  /\ osc example_start = false
  /\ 256 <= 0x163
  /\ 0x163 mod 256 = chr "c"
  /\ receiveChars receiveChars_depth example_start [ESC; 0x163]
     = Some (resetTokenizer
               (processToken (token_esc (0x163 mod 256)) 0 0
                  (addToCurrentToken 0x163
                     (addToCurrentToken ESC (resetTokenizer example_start))))).
Proof.
  split; [vm_compute; reflexivity|]. split; [vm_compute; reflexivity|].
  split; [lia|]. split; [reflexivity|].
  apply wide_character_after_ESC_is_truncated;
    [vm_compute; reflexivity | vm_compute; reflexivity | lia].
Defined.

(** X20: in ANSI mode with the tokenizer at rest, the single character 0x9B
    leaves the emulation in the same state as [ESC \[]: the same token,
    arguments and settings, no output, inside the parameters of a control
    sequence. *)
Theorem eight_bit_CSI_opens_a_control_sequence st :
  getMode MODE_Ansi st = true ->
  tokenBufferPos st = 0 -> argc st = 0 ->
  rd (argv st) 0 = 0 -> rd (argv st) 1 = 0 ->
  exists st1 st2,
    receiveChars receiveChars_depth st [ESC + 128] = Some st1
    /\ receiveChars receiveChars_depth st [ESC; chr "["] = Some st2
    /\ same_state st1 st2
    /\ out st1 = out st2
    /\ in_parameters st1.
Proof.
  intros Ha Hp Hc H0 H1. open_state st.
  unfold getMode in Ha. cbn in Ha, Hp, Hc, H0, H1. unfold rd in H0, H1. subst.
  eexists. eexists.
  split; [vm_compute; reflexivity|]. split; [vm_compute; reflexivity|].
  split.
  - unfold same_state, same_CharCodes.
    repeat match goal with |- _ /\ _ => split end;
      try reflexivity;
      intros k; vm_compute;
      repeat match goal with
             | |- context [match ?x with _ => _ end] => is_var x; destruct x
             end; first [reflexivity | assumption | symmetry; assumption].
  - split; [reflexivity|].
    unfold in_parameters. repeat match goal with |- _ /\ _ => split end;
      try reflexivity; try (vm_compute; congruence); try (cbn; lia).
Qed.

Lemma eight_bit_CSI_opens_a_control_sequence_witness :
  getMode MODE_Ansi example_start = true
  /\ tokenBufferPos example_start = 0
  /\ argc example_start = 0
  /\ rd (argv example_start) 0 = 0
  /\ rd (argv example_start) 1 = 0
  /\ exists st1 st2,
       receiveChars receiveChars_depth example_start [ESC + 128] = Some st1
       /\ receiveChars receiveChars_depth example_start [ESC; chr "["] = Some st2
       /\ same_state st1 st2.
Proof.
  repeat (split; [vm_compute; reflexivity|]).
  destruct (eight_bit_CSI_opens_a_control_sequence example_start
              ltac:(vm_compute; reflexivity) ltac:(vm_compute; reflexivity)
              ltac:(vm_compute; reflexivity) ltac:(vm_compute; reflexivity)
              ltac:(vm_compute; reflexivity))
    as (st1 & st2 & H1 & H2 & Hsame & _).
  exists st1, st2. split; [exact H1|]. split; [exact H2 | exact Hsame].
Defined.

(** ** Tokens that carry a parameter *)

Lemma token_construct_type t a n : Z.land (token_construct t a n) 0xff = t mod 256.
Proof.
  rewrite token_construct_sum.
  pose proof (Z.mod_pos_bound n 65536 ltac:(lia)) as Hn.
  pose proof (Z.mod_pos_bound a 256 ltac:(lia)) as Ha.
  pose proof (Z.mod_pos_bound t 256 ltac:(lia)) as Ht.
  set (N := n mod 65536) in *. set (A := a mod 256) in *. set (T := t mod 256) in *.
  change 0xff with (Z.ones 8). rewrite Z.land_ones by lia. change (2 ^ 8) with 256.
  unfold to_int. change (2 ^ 31) with 2147483648. change (2 ^ 32) with 4294967296.
  clearbody N A T.
  remember (N * 65536 + A * 256 + T) as W eqn:EW.
  assert (HW : 0 <= W < 4294967296) by lia.
  destruct (Z.ltb_spec W 2147483648).
  - rewrite (Z.mod_small (W + 2147483648)) by lia.
    replace (W + 2147483648 - 2147483648) with (T + (N * 256 + A) * 256) by lia.
    rewrite Z.mod_add by lia. apply Z.mod_small. lia.
  - replace (W + 2147483648) with (W - 2147483648 + 1 * 4294967296) by lia.
    rewrite Z.mod_add by lia. rewrite (Z.mod_small (W - 2147483648)) by lia.
    replace (W - 2147483648 - 2147483648) with (T + (N * 256 + A - 16777216) * 256)
      by lia.
    rewrite Z.mod_add by lia. apply Z.mod_small. lia.
Qed.

Lemma parameter_token_ps a n : parameter_token (token_csi_ps a n) = true.
Proof. unfold parameter_token, token_csi_ps. rewrite token_construct_type. reflexivity. Qed.

Lemma parameter_token_pr a n : parameter_token (token_csi_pr a n) = true.
Proof. unfold parameter_token, token_csi_pr. rewrite token_construct_type. reflexivity. Qed.

Lemma table_without_parameters (P : Vt102Emulation -> Prop) l :
  forallb (fun c : Z * Action => negb (parameter_token (fst c))) l = true ->
  Forall (fun c : Z * Action => parameter_token (fst c) = true ->
                  forall p q, preserves P (snd c p q)) l.
Proof.
  intros H. rewrite forallb_forall in H. apply List.Forall_forall. intros c Hc Ht.
  apply H in Hc. rewrite Ht in Hc. discriminate Hc.
Qed.

Lemma table_with_parameters (P : Vt102Emulation -> Prop) l :
  cases_preserve P l ->
  Forall (fun c : Z * Action => parameter_token (fst c) = true ->
                  forall p q, preserves P (snd c p q)) l.
Proof.
  unfold cases_preserve. intros H. eapply List.Forall_impl; [|exact H].
  cbv beta. intros c Hc _. exact Hc.
Qed.

(** A token with parameters (types CSI_PS and CSI_PR) leaves the tokenizer's
    variables as they are. *)
Lemma parameter_token_keeps_tokenizer t p q st :
  parameter_token t = true ->
  tokenBuffer (processToken t p q st) = tokenBuffer st
  /\ tokenBufferPos (processToken t p q st) = tokenBufferPos st
  /\ argc (processToken t p q st) = argc st
  /\ argv (processToken t p q st) = argv st.
Proof.
  intros Ht.
  set (P := fun s => tokenBuffer s = tokenBuffer st
                     /\ tokenBufferPos s = tokenBufferPos st
                     /\ argc s = argc st /\ argv s = argv st).
  assert (Pemit : forall e, preserves P (emit e)).
  { intros e s Hs. exact Hs. }
  assert (Pcs : forall cs, preserves P (set_charset cs)).
  { intros cs s Hs. exact Hs. }
  assert (Pfoc : forall b, preserves P (set_reportFocusEvents b)).
  { intros b s Hs. exact Hs. }
  assert (Pset : forall m, preserves P (setMode m)).
  { intros m s (H1 & H2 & H3 & H4).
    destruct (setMode_tokenizer m s) as (E1 & E2 & E3 & E4).
    unfold P. rewrite E1, E2, E3, E4. repeat split; assumption. }
  assert (Preset : forall m, preserves P (resetMode m)).
  { intros m s (H1 & H2 & H3 & H4).
    destruct (resetMode_tokenizer m s) as (E1 & E2 & E3 & E4).
    unfold P. rewrite E1, E2, E3, E4. repeat split; assumption. }
  assert (Psave : forall m, preserves P (saveMode m)).
  { intros m s Hs. exact Hs. }
  assert (Hall : Forall (fun c : Z * Action => parameter_token (fst c) = true ->
                                 forall p q, preserves P (snd c p q))
                   processToken_cases).
  { unfold processToken_cases.
    repeat (apply Forall_app; split);
      first [ apply table_without_parameters; vm_compute; reflexivity
            | apply table_with_parameters ].
    - apply cases_csi_ps_preserve; assumption.
    - apply cases_csi_ps_2_preserve; assumption.
    - apply cases_csi_pr_preserve; assumption.
    - apply cases_csi_pr_2_preserve; assumption. }
  assert (HP : P (processToken t p q st)).
  { unfold processToken.
    destruct (find _ _) as [c|] eqn:Hfind.
    - apply find_some in Hfind as [Hin Heq]. apply Z.eqb_eq in Heq.
      rewrite List.Forall_forall in Hall.
      apply (Hall c Hin); [rewrite Heq; exact Ht|].
      unfold P. repeat split.
    - apply (preserves_reportDecodingError P Pemit). unfold P. repeat split. }
  exact HP.
Qed.

(** ** Numeric parameters of control sequences *)

Lemma only_tokenizer_differs_refl st : only_tokenizer_differs st st.
Proof. destruct st; reflexivity. Qed.

Lemma only_tokenizer_differs_trans st1 st2 st3 :
  only_tokenizer_differs st1 st2 -> only_tokenizer_differs st2 st3 ->
  only_tokenizer_differs st1 st3.
Proof.
  unfold only_tokenizer_differs. intros H12 H23.
  rewrite H23 at 1. rewrite H12 at 1. reflexivity.
Qed.

Lemma accumulate_step v c :
  0 <= v <= MAX_ARGUMENT -> digit c ->
  0 <= Z.min (10 * v + (c - chr "0")) MAX_ARGUMENT <= MAX_ARGUMENT.
Proof.
  unfold digit, MAX_ARGUMENT. change (chr "0") with 48. change (chr "9") with 57. lia.
Qed.

Lemma decimal_fold_lower ds v :
  Forall digit ds -> 0 <= v ->
  v <= fold_left (fun v c => 10 * v + (c - chr "0")) ds v.
Proof.
  intros Hds. revert v. induction Hds as [|c ds Hc _ IH]; intros v Hv; cbn [fold_left].
  - lia.
  - unfold digit in Hc. change (chr "0") with 48 in *. change (chr "9") with 57 in *.
    specialize (IH (10 * v + (c - 48)) ltac:(lia)). lia.
Qed.

(** Accumulating with the cap after every digit gives the capped value. *)
Lemma accumulate_capped ds v :
  Forall digit ds -> 0 <= v ->
  fold_left (fun v c => Z.min (10 * v + (c - chr "0")) MAX_ARGUMENT) ds
    (Z.min v MAX_ARGUMENT)
  = Z.min (fold_left (fun v c => 10 * v + (c - chr "0")) ds v) MAX_ARGUMENT.
Proof.
  intros Hds. revert v. induction Hds as [|c ds Hc Hds IH]; intros v Hv; cbn [fold_left].
  - reflexivity.
  - unfold digit in Hc. change (chr "0") with 48 in *. change (chr "9") with 57 in *.
    rewrite <- (IH (10 * v + (c - 48))) by lia.
    destruct (Z.le_gt_cases v MAX_ARGUMENT) as [Hle|Hgt].
    + rewrite (Z.min_l v) by lia. reflexivity.
    + rewrite (Z.min_r v) by lia.
      unfold MAX_ARGUMENT in *.
      rewrite (Z.min_r (10 * 40960 + (c - 48))), (Z.min_r (10 * v + (c - 48))) by lia.
      reflexivity.
Qed.

Lemma accumulate_from_zero ds :
  Forall digit ds ->
  fold_left (fun v c => Z.min (10 * v + (c - chr "0")) MAX_ARGUMENT) ds 0
  = Z.min (decimal_value ds) MAX_ARGUMENT.
Proof.
  intros Hds. change 0 with (Z.min 0 MAX_ARGUMENT) at 1.
  apply accumulate_capped; [exact Hds | lia].
Qed.

Lemma digit_step again st cc :
  in_parameters st -> digit cc ->
  tokenBufferPos st + 1 < MAX_TOKEN_LENGTH ->
  0 <= rd (argv st) (argc st) <= MAX_ARGUMENT ->
  receiveChar again st cc
  = Some (set_tokenizer (wr (tokenBuffer st) (tokenBufferPos st) cc)
            (tokenBufferPos st + 1) (argc st)
            (wr (argv st) (argc st)
               (Z.min (10 * rd (argv st) (argc st) + (cc - chr "0")) MAX_ARGUMENT)) st)
  /\ in_parameters
       (set_tokenizer (wr (tokenBuffer st) (tokenBufferPos st) cc)
          (tokenBufferPos st + 1) (argc st)
          (wr (argv st) (argc st)
             (Z.min (10 * rd (argv st) (argc st) + (cc - chr "0")) MAX_ARGUMENT)) st).
Proof.
  intros Hin Hd Hroom Hv.
  assert (Hpos : 2 <= tokenBufferPos st < MAX_TOKEN_LENGTH) by apply Hin.
  assert (Hadd : addToCurrentToken cc st
                 = set_tokenizer (wr (tokenBuffer st) (tokenBufferPos st) cc)
                     (tokenBufferPos st + 1) (argc st) (argv st) st).
  { unfold addToCurrentToken. cbv zeta. rewrite Z.min_l by lia. reflexivity. }
  assert (Hin' : in_parameters (addToCurrentToken cc st)).
  { apply addToCurrentToken_in_parameters; try assumption;
      unfold digit, SP in *; change (chr "0") with 48 in *;
      change (chr "9") with 57 in *; change (chr "!") with 33; lia. }
  split.
  - rewrite (receiveChar_digit again st cc Hin Hd). rewrite Hadd.
    unfold addDigit. cbn [tokenBuffer tokenBufferPos argc argv set_tokenizer].
    unfold digit, MAX_ARGUMENT in *. change (chr "0") with 48 in *.
    change (chr "9") with 57 in *.
    rewrite to_int_small by lia. reflexivity.
  - rewrite Hadd in Hin'. exact Hin'.
Qed.

Lemma semicolon_step again st :
  in_parameters st ->
  tokenBufferPos st + 1 < MAX_TOKEN_LENGTH ->
  receiveChar again st (chr ";")
  = Some (set_tokenizer (wr (tokenBuffer st) (tokenBufferPos st) (chr ";"))
            (tokenBufferPos st + 1) (Z.min (argc st + 1) (MAXARGS - 1))
            (wr (argv st) (Z.min (argc st + 1) (MAXARGS - 1)) 0) st)
  /\ in_parameters
       (set_tokenizer (wr (tokenBuffer st) (tokenBufferPos st) (chr ";"))
          (tokenBufferPos st + 1) (Z.min (argc st + 1) (MAXARGS - 1))
          (wr (argv st) (Z.min (argc st + 1) (MAXARGS - 1)) 0) st).
Proof.
  intros Hin Hroom.
  assert (Hpos : 2 <= tokenBufferPos st < MAX_TOKEN_LENGTH) by apply Hin.
  assert (Hadd : addToCurrentToken (chr ";") st
                 = set_tokenizer (wr (tokenBuffer st) (tokenBufferPos st) (chr ";"))
                     (tokenBufferPos st + 1) (argc st) (argv st) st).
  { unfold addToCurrentToken. cbv zeta. rewrite Z.min_l by lia. reflexivity. }
  assert (Hin' : in_parameters (addToCurrentToken (chr ";") st)).
  { apply addToCurrentToken_in_parameters; try assumption; discriminate. }
  split.
  - rewrite (receiveChar_semicolon again st Hin). rewrite Hadd. reflexivity.
  - rewrite Hadd in Hin'. exact Hin'.
Qed.

Lemma only_tokenizer_differs_fields st st' :
  only_tokenizer_differs st st' ->
  out st' = out st /\ _currentScreen st' = _currentScreen st
  /\ _currentModes st' = _currentModes st /\ _charset st' = _charset st.
Proof.
  unfold only_tokenizer_differs. intros ->. repeat split.
Qed.

(** A string of digits: the argument being read accumulates them, and the
    token buffer grows by them. *)
Lemma feed_digits again ds : forall st,
  in_parameters st -> Forall digit ds ->
  tokenBufferPos st + Z.of_nat (length ds) < MAX_TOKEN_LENGTH ->
  0 <= rd (argv st) (argc st) <= MAX_ARGUMENT ->
  exists st',
    feed (receiveChar again) st ds = Some st'
    /\ in_parameters st'
    /\ only_tokenizer_differs st st'
    /\ tokenBufferPos st' = tokenBufferPos st + Z.of_nat (length ds)
    /\ argc st' = argc st
    /\ (forall i, rd (argv st') i
                  = if i =? argc st
                    then fold_left (fun v c => Z.min (10 * v + (c - chr "0")) MAX_ARGUMENT)
                           ds (rd (argv st) (argc st))
                    else rd (argv st) i)
    /\ (forall j, j < tokenBufferPos st ->
          rd (tokenBuffer st') j = rd (tokenBuffer st) j)
    /\ (forall j, tokenBufferPos st <= j < tokenBufferPos st' ->
          digit (rd (tokenBuffer st') j)).
Proof.
  induction ds as [|cc ds IH]; intros st Hin Hds Hroom Hv.
  - exists st. cbn [feed length fold_left].
    split; [reflexivity|]. split; [exact Hin|].
    split; [apply only_tokenizer_differs_refl|].
    split; [lia|]. split; [reflexivity|].
    split; [intros i; destruct (Z.eqb_spec i (argc st)) as [->|]; reflexivity|].
    split; [reflexivity|]. intros j Hj. lia.
  - apply Forall_cons in Hds as [Hd Hds]. cbn [length] in Hroom.
    destruct (digit_step again st cc Hin Hd ltac:(lia) Hv) as [Hstep Hin1].
    cbn [feed]. rewrite Hstep.
    set (st1 := set_tokenizer _ _ _ _ st) in *.
    assert (Hv1 : 0 <= rd (argv st1) (argc st1) <= MAX_ARGUMENT).
    { unfold st1. cbn [argv argc set_tokenizer]. unfold rd, wr.
      rewrite Z.eqb_refl. apply accumulate_step; assumption. }
    destruct (IH st1 Hin1 Hds)
      as (st' & Hrun & Hin' & Hfr & Hpos & Hargc & Hargv & Hold & Hnew);
      [unfold st1; cbn [tokenBufferPos set_tokenizer]; lia | exact Hv1 |].
    assert (Hp1 : tokenBufferPos st1 = tokenBufferPos st + 1) by reflexivity.
    assert (Hb1 : forall j, rd (tokenBuffer st1) j
                            = if j =? tokenBufferPos st then cc else rd (tokenBuffer st) j).
    { intros j. reflexivity. }
    exists st'. split; [exact Hrun|]. split; [exact Hin'|].
    split.
    { eapply only_tokenizer_differs_trans; [|exact Hfr]. reflexivity. }
    split; [rewrite Hpos, Hp1; cbn [length]; lia|].
    split; [rewrite Hargc; reflexivity|].
    split.
    { intros i. rewrite Hargv. unfold st1. cbn [argv argc set_tokenizer fold_left].
      unfold rd, wr. rewrite Z.eqb_refl.
      destruct (i =? argc st); reflexivity. }
    split.
    { intros j Hj. rewrite Hold by lia. rewrite Hb1.
      rewrite (proj2 (Z.eqb_neq j (tokenBufferPos st))) by lia. reflexivity. }
    intros j Hj.
    destruct (Z.eq_dec j (tokenBufferPos st)) as [->|Hne].
    + rewrite Hold by lia. rewrite Hb1, Z.eqb_refl. exact Hd.
    + apply Hnew. lia.
Qed.

Lemma last_cons_cons (A : Type) (x y : A) l d : List.last (x :: y :: l) d = List.last (y :: l) d.
Proof. reflexivity. Qed.

(** Any number of parameters: the first [MAXARGS - 1] go to their own
    cells, the last one read ends in the cell the argument count names. *)
Lemma feed_parameter_list again others : forall first st,
  in_parameters st ->
  Forall digit first -> Forall (Forall digit) others ->
  tokenBufferPos st + Z.of_nat (length (parameter_string first others))
    < MAX_TOKEN_LENGTH ->
  rd (argv st) (argc st) = 0 -> 0 <= argc st <= MAXARGS - 1 ->
  exists st',
    feed (receiveChar again) st (parameter_string first others) = Some st'
    /\ in_parameters st'
    /\ only_tokenizer_differs st st'
    /\ tokenBufferPos st'
       = tokenBufferPos st + Z.of_nat (length (parameter_string first others))
    /\ argc st' = Z.min (argc st + Z.of_nat (length others)) (MAXARGS - 1)
    /\ (forall k ds, (first :: others) !! k = Some ds ->
          argc st + Z.of_nat k < MAXARGS - 1 ->
          rd (argv st') (argc st + Z.of_nat k) = capped ds)
    /\ rd (argv st') (argc st') = capped (List.last (first :: others) [])
    /\ (forall i, i < argc st \/ argc st' < i -> rd (argv st') i = rd (argv st) i)
    /\ (forall j, j < tokenBufferPos st ->
          rd (tokenBuffer st') j = rd (tokenBuffer st) j)
    /\ (forall j, tokenBufferPos st <= j < tokenBufferPos st' ->
          digit (rd (tokenBuffer st') j) \/ rd (tokenBuffer st') j = chr ";").
Proof.
  induction others as [|ds1 others IH]; intros first st Hin Hf Ho Hroom Hz Hc.
  - unfold parameter_string in *. cbn [flat_map] in *. rewrite app_nil_r in *.
    destruct (feed_digits again first st Hin Hf Hroom ltac:(unfold MAX_ARGUMENT; lia))
      as (st' & Hrun & Hin' & Hfr & Hpos & Hargc & Hargv & Hold & Hnew).
    assert (Hval : rd (argv st') (argc st) = capped first).
    { rewrite Hargv, Z.eqb_refl, Hz. apply accumulate_from_zero, Hf. }
    exists st'. split; [exact Hrun|]. split; [exact Hin'|]. split; [exact Hfr|].
    split; [exact Hpos|]. split; [cbn [length]; lia|].
    split.
    { intros [|k] ds Hk Hlt; [|destruct k; discriminate Hk].
      injection Hk as <-.
      replace (argc st + Z.of_nat 0) with (argc st) by lia. exact Hval. }
    split; [rewrite Hargc; exact Hval|].
    split.
    { intros i Hi. rewrite Hargv. rewrite Hargc in Hi.
      rewrite (proj2 (Z.eqb_neq i (argc st))) by lia. reflexivity. }
    split; [exact Hold|]. intros j Hj. left. apply Hnew, Hj.
  - apply Forall_cons in Ho as [Hd1 Ho].
    unfold parameter_string in *. cbn [flat_map] in *.
    cbn [app] in *. rewrite ?length_app in Hroom. cbn [length] in Hroom.
    rewrite ?length_app in Hroom.
    destruct (feed_digits again first st Hin Hf ltac:(lia)
                ltac:(unfold MAX_ARGUMENT; lia))
      as (st1 & Hrun1 & Hin1 & Hfr1 & Hpos1 & Hargc1 & Hargv1 & Hold1 & Hnew1).
    destruct (semicolon_step again st1 Hin1 ltac:(lia)) as [Hstep Hin2].
    set (st2 := set_tokenizer _ _ _ _ st1) in *.
    assert (Hargc2 : argc st2 = Z.min (argc st + 1) (MAXARGS - 1)).
    { unfold st2. cbn [argc set_tokenizer]. rewrite Hargc1. reflexivity. }
    assert (Hpos2 : tokenBufferPos st2
                    = tokenBufferPos st + Z.of_nat (length first) + 1).
    { unfold st2. cbn [tokenBufferPos set_tokenizer]. lia. }
    assert (Hargv2 : forall i, rd (argv st2) i
                               = if i =? argc st2 then 0 else rd (argv st1) i).
    { intros i. reflexivity. }
    assert (Hb2 : forall j, rd (tokenBuffer st2) j
                            = if j =? tokenBufferPos st1 then chr ";"
                              else rd (tokenBuffer st1) j).
    { intros j. reflexivity. }
    destruct (IH ds1 st2 Hin2 Hd1 Ho) as
      (st' & Hrun & Hin' & Hfr & Hpos & Hargc & Hargv & Hlast & Hrest & Hold & Hnew).
    { rewrite Hpos2, length_app. lia. }
    { rewrite Hargv2, Z.eqb_refl. reflexivity. }
    { rewrite Hargc2. unfold MAXARGS in *. lia. }
    exists st'. split.
    { rewrite feed_app, Hrun1. cbn [feed]. rewrite Hstep. exact Hrun. }
    split; [exact Hin'|].
    split.
    { eapply only_tokenizer_differs_trans; [exact Hfr1|].
      eapply only_tokenizer_differs_trans; [|exact Hfr]. reflexivity. }
    split.
    { rewrite Hpos, Hpos2. rewrite ?length_app. cbn [length]. rewrite ?length_app. lia. }
    split; [rewrite Hargc, Hargc2; cbn [length]; unfold MAXARGS in *; lia|].
    assert (Hge : argc st2 <= argc st').
    { rewrite Hargc, Hargc2. unfold MAXARGS in *. lia. }
    split.
    { intros [|k] ds Hk Hlt.
      - injection Hk as <-. replace (argc st + Z.of_nat 0) with (argc st) in * by lia.
        rewrite Hrest by (rewrite Hargc2; unfold MAXARGS in *; lia).
        rewrite Hargv2.
        rewrite (proj2 (Z.eqb_neq (argc st) (argc st2)))
          by (rewrite Hargc2; unfold MAXARGS in *; lia).
        rewrite Hargv1, Z.eqb_refl, Hz. apply accumulate_from_zero, Hf.
      - replace (argc st + Z.of_nat (S k)) with (argc st2 + Z.of_nat k)
          by (rewrite Hargc2; unfold MAXARGS in *; lia).
        apply Hargv; [exact Hk|]. rewrite Hargc2. unfold MAXARGS in *. lia. }
    split; [rewrite last_cons_cons; exact Hlast|].
    split.
    { intros i Hi. cbn [length] in Hi.
      rewrite Hrest by lia. rewrite Hargv2.
      rewrite (proj2 (Z.eqb_neq i (argc st2)))
        by (rewrite Hargc2 in *; unfold MAXARGS in *; lia).
      rewrite Hargv1. rewrite (proj2 (Z.eqb_neq i (argc st)))
        by (rewrite Hargc2 in *; unfold MAXARGS in *; lia).
      reflexivity. }
    split.
    { intros j Hj. rewrite Hold by lia. rewrite Hb2.
      rewrite (proj2 (Z.eqb_neq j (tokenBufferPos st1))) by lia.
      apply Hold1. exact Hj. }
    intros j Hj.
    destruct (Z.ltb_spec j (tokenBufferPos st1)) as [Hlt|Hge1].
    + left. rewrite Hold by lia. rewrite Hb2.
      rewrite (proj2 (Z.eqb_neq j (tokenBufferPos st1))) by lia.
      apply Hnew1. lia.
    + destruct (Z.eq_dec j (tokenBufferPos st1)) as [->|Hne].
      * right. rewrite Hold by lia. rewrite Hb2, Z.eqb_refl. reflexivity.
      * apply Hnew. lia.
Qed.

(** The parameters of a sequence that fit the argument array. *)
Lemma feed_parameters again others first st :
  in_numeric_parameters st ->
  Forall digit first -> Forall (Forall digit) others ->
  tokenBufferPos st + Z.of_nat (length (parameter_string first others))
    < MAX_TOKEN_LENGTH ->
  rd (argv st) (argc st) = 0 -> 0 <= argc st ->
  argc st + Z.of_nat (length others) <= MAXARGS - 1 ->
  exists st',
    feed (receiveChar again) st (parameter_string first others) = Some st'
    /\ in_numeric_parameters st'
    /\ only_tokenizer_differs st st'
    /\ tokenBufferPos st'
       = tokenBufferPos st + Z.of_nat (length (parameter_string first others))
    /\ argc st' = argc st + Z.of_nat (length others)
    /\ (forall k ds, (first :: others) !! k = Some ds ->
          rd (argv st') (argc st + Z.of_nat k)
          = Z.min (decimal_value ds) MAX_ARGUMENT)
    /\ (forall i, i < argc st \/ argc st + Z.of_nat (length others) < i ->
          rd (argv st') i = rd (argv st) i).
Proof.
  intros [Hin Hcells] Hf Ho Hroom Hz Hc Hmax.
  destruct (feed_parameter_list again others first st Hin Hf Ho Hroom Hz ltac:(lia))
    as (st' & Hrun & Hin' & Hfr & Hpos & Hargc & Hargv & Hlast & Hrest & Hold & Hnew).
  rewrite Z.min_l in Hargc by lia.
  exists st'. split; [exact Hrun|].
  split.
  { split; [exact Hin'|]. intros j Hj.
    destruct (Z.ltb_spec j (tokenBufferPos st)) as [Hlt|Hge].
    - rewrite Hold by lia. apply Hcells. lia.
    - apply Hnew. lia. }
  split; [exact Hfr|]. split; [exact Hpos|]. split; [exact Hargc|].
  split.
  - intros k ds Hk.
    pose proof (lookup_lt_Some _ _ _ Hk) as Hlen. cbn [length] in Hlen.
    destruct (Z.ltb_spec (argc st + Z.of_nat k) (MAXARGS - 1)) as [Hlt|Hge].
    + apply Hargv; assumption.
    + assert (Ek : k = length others) by lia.
      replace (argc st + Z.of_nat k) with (argc st') by lia.
      rewrite Hlast. unfold capped. do 2 f_equal.
      subst k. clear -Hk. revert first Hk.
      induction others as [|o others IH]; intros first Hk.
      * injection Hk as <-. reflexivity.
      * rewrite last_cons_cons. apply (IH o). exact Hk.
  - intros i Hi. apply Hrest. lia.
Qed.

Lemma after_CSI st chars :
  getMode MODE_Ansi st = true -> osc st = false ->
  exists st1,
    receiveChars receiveChars_depth st (ESC :: chr "[" :: chars)
    = receiveChars receiveChars_depth st1 chars
    /\ in_numeric_parameters st1
    /\ only_tokenizer_differs st st1
    /\ tokenBufferPos st1 = 2
    /\ argc st1 = 0
    /\ rd (argv st1) 0 = 0
    /\ rd (argv st1) 1 = 0.
Proof.
  intros Ha Hosc.
  exists (addToCurrentToken (chr "[") (addToCurrentToken ESC (resetTokenizer st))).
  split.
  - rewrite (receiveChars_ESC st _ Hosc Ha).
    unfold receiveChars_depth. rewrite !receiveChars_S. cbn [feed].
    replace (receiveChar (receiveChars 2) (addToCurrentToken ESC (resetTokenizer st))
               (chr "["))
      with (Some (addToCurrentToken (chr "[")
                    (addToCurrentToken ESC (resetTokenizer st)))); [reflexivity|].
    clear Hosc. open_state st. unfold getMode in Ha. cbn in Ha. subst.
    vm_compute. reflexivity.
  - split.
    + split.
      * unfold in_parameters.
        change (getMode MODE_Ansi
                  (addToCurrentToken (chr "[") (addToCurrentToken ESC (resetTokenizer st))))
          with (getMode MODE_Ansi st).
        split; [exact Ha|].
        change (tokenBufferPos
                  (addToCurrentToken (chr "[") (addToCurrentToken ESC (resetTokenizer st))))
          with 2.
        unfold MAX_TOKEN_LENGTH.
        repeat match goal with |- _ /\ _ => split end; try lia; reflexivity.
      * change (tokenBufferPos
                  (addToCurrentToken (chr "[") (addToCurrentToken ESC (resetTokenizer st))))
          with 2. intros j Hj. lia.
    + split; [destruct st; reflexivity|].
      repeat match goal with |- _ /\ _ => split end; reflexivity.
Qed.

Lemma class_of_parameter_cell c :
  digit c \/ c = chr ";" ->
  c <> chr "?" /\ c <> chr "!" /\ c <> chr "=" /\ c <> chr ">" /\ c <> SP
  /\ has_class c INT = false.
Proof.
  intros [Hd| ->].
  - unfold has_class. rewrite (charClass_digit c Hd).
    unfold digit in Hd. change (chr "0") with 48 in *. change (chr "9") with 57 in *.
    change (chr "?") with 63. change (chr "!") with 33. change (chr "=") with 61.
    change (chr ">") with 62. unfold SP.
    repeat match goal with |- _ /\ _ => split end; try lia. reflexivity.
  - repeat match goal with |- _ /\ _ => split end; try discriminate. reflexivity.
Qed.

Lemma CPN_final cc :
  cc < 256 -> has_class cc CPN = true -> chr "@" <= cc <= chr "y".
Proof.
  intros Hlt Hc.
  destruct (Z.ltb_spec cc 0) as [Hneg|Hpos].
  - unfold has_class, charClass, lookup_table in Hc.
    replace (Z.to_nat cc) with O in Hc by lia. discriminate Hc.
  - assert (Hall : forallb (fun c => implb (has_class c CPN)
                                       ((chr "@" <=? c) && (c <=? chr "y")))
                     (seqZ 0 256) = true) by (vm_compute; reflexivity).
    rewrite forallb_forall in Hall.
    specialize (Hall cc). rewrite Hc in Hall. cbn [implb] in Hall.
    assert (Hin : In cc (seqZ 0 256)).
    { apply list_elem_of_In, elem_of_seqZ. lia. }
    apply Hall in Hin. apply andb_true_iff in Hin as [H1 H2]. lia.
Qed.

(** A final character of class CPN after numeric parameters: the token is
    dispatched with the first two arguments. *)
Lemma final_CPN again st cc :
  in_numeric_parameters st -> 3 <= tokenBufferPos st ->
  tokenBufferPos st + 1 < MAX_TOKEN_LENGTH ->
  cc < 256 -> has_class cc CPN = true ->
  receiveChar again st cc
  = Some (resetTokenizer
            (processToken (token_csi_pn cc) (rd (argv st) 0) (rd (argv st) 1)
               (addToCurrentToken cc st))).
Proof.
  intros [Hin Hcells] Hp Hroom Hlt Hclass.
  pose proof (CPN_final cc Hlt Hclass) as Hcc.
  change (chr "@") with 64 in Hcc. change (chr "y") with 121 in Hcc.
  rewrite (receiveChar_in_parameters again st cc Hin);
    [|unfold DEL; lia|apply ces_printable; lia].
  f_equal.
  destruct Hin as (Ha & Hpos & H0 & H1 & H2 & H3).
  destruct (class_of_parameter_cell _ (Hcells 2 ltac:(lia)))
    as (Hq & Hb & He & Hg & Hs & _).
  destruct (class_of_parameter_cell _ (Hcells (tokenBufferPos st - 1) ltac:(lia)))
    as (_ & _ & _ & _ & _ & Hint).
  unfold addToCurrentToken. cbv zeta. rewrite Z.min_l by lia.
  unfold scan_ansi, osc, lec, lun, les, dcs, eps. cbv zeta.
  cbn [tokenBuffer tokenBufferPos argv set_tokenizer].
  replace (tokenBufferPos st + 1 - 2) with (tokenBufferPos st - 1) by lia.
  rewrite Hclass.
  assert (R1 : rd (wr (tokenBuffer st) (tokenBufferPos st) cc) 1 = chr "[").
  { unfold rd, wr. rewrite (proj2 (Z.eqb_neq 1 (tokenBufferPos st))) by lia. exact H1. }
  assert (R2 : rd (wr (tokenBuffer st) (tokenBufferPos st) cc) 2
               = rd (tokenBuffer st) 2).
  { unfold rd, wr. rewrite (proj2 (Z.eqb_neq 2 (tokenBufferPos st))) by lia.
    reflexivity. }
  assert (R3 : rd (wr (tokenBuffer st) (tokenBufferPos st) cc) (tokenBufferPos st - 1)
               = rd (tokenBuffer st) (tokenBufferPos st - 1)).
  { unfold rd, wr.
    rewrite (proj2 (Z.eqb_neq (tokenBufferPos st - 1) (tokenBufferPos st))) by lia.
    reflexivity. }
  assert (R4 : tokenBufferPos st = 3 ->
               rd (wr (tokenBuffer st) (tokenBufferPos st) cc) 3 = cc).
  { intros E. unfold rd, wr. rewrite E. reflexivity. }
  rewrite R1, R2, R3, Hint.
  change (chr "[") with 91. change (chr "]") with 93. change (chr "P") with 80.
  change (chr "?") with 63 in *. change (chr "!") with 33 in *.
  change (chr "=") with 61 in *. change (chr ">") with 62 in *. unfold SP, ESC in *.
  destruct (Z.eq_dec (tokenBufferPos st) 3) as [E|E].
  - rewrite (R4 E), E. settle_comparisons. cbn [andb negb]. reflexivity.
  - settle_comparisons. cbn [andb negb]. reflexivity.
Qed.

(** X21: [CSI digits ; digits H] positions the cursor on the current screen at
    the line and column the two digit strings denote in decimal, each capped
    at [MAX_ARGUMENT] (40960); an empty string denotes 0.  Leading zeros and
    strings of any length that fits the token buffer are accepted. *)
Theorem cursor_position_parameters_are_decimal st ds1 ds2 :
  getMode MODE_Ansi st = true -> osc st = false ->
  Forall digit ds1 -> Forall digit ds2 ->
  Z.of_nat (length ds1 + length ds2) + 4 < MAX_TOKEN_LENGTH ->
  exists st',
    receiveChars receiveChars_depth st
      (ESC :: chr "[" :: ds1 ++ chr ";" :: ds2 ++ [chr "H"]) = Some st'
    /\ out st' = out st
                 ++ [OnScreen (_currentScreen st)
                       (setCursorYX (Z.min (decimal_value ds1) MAX_ARGUMENT)
                                    (Z.min (decimal_value ds2) MAX_ARGUMENT))]
    /\ tokenBufferPos st' = 0
    /\ _currentModes st' = _currentModes st.
Proof.
  intros Ha Hosc Hd1 Hd2 Hlen.
  destruct (after_CSI st (ds1 ++ chr ";" :: ds2 ++ [chr "H"]) Ha Hosc)
    as (st1 & Hrun1 & Hnum1 & Hfr1 & Hpos1 & Hargc1 & Hz0 & Hz1).
  rewrite Hrun1. clear Hrun1.
  replace (ds1 ++ chr ";" :: ds2 ++ [chr "H"])
    with (parameter_string ds1 [ds2] ++ [chr "H"])
    by (unfold parameter_string; cbn [flat_map]; rewrite app_nil_r, <- app_assoc;
        reflexivity).
  assert (Hplen : length (parameter_string ds1 [ds2]) = (length ds1 + S (length ds2))%nat).
  { unfold parameter_string. cbn [flat_map]. rewrite app_nil_r, length_app. reflexivity. }
  unfold receiveChars_depth. rewrite receiveChars_S, feed_app.
  destruct (feed_parameters (receiveChars 2) [ds2] ds1 st1 Hnum1 Hd1)
    as (st2 & Hrun2 & Hnum2 & Hfr2 & Hpos2 & Hargc2 & Hargv2 & _).
  { repeat constructor. exact Hd2. }
  { rewrite Hpos1, Hplen. lia. }
  { rewrite Hargc1. exact Hz0. }
  { lia. }
  { rewrite Hargc1. unfold MAXARGS. cbn [length]. lia. }
  rewrite Hrun2. cbn [feed].
  rewrite (final_CPN (receiveChars 2) st2 (chr "H") Hnum2);
    [|rewrite Hpos2, Hpos1, Hplen; lia|rewrite Hpos2, Hpos1, Hplen; lia
     |reflexivity|reflexivity].
  pose proof (Hargv2 0%nat ds1 eq_refl) as A0.
  pose proof (Hargv2 1%nat ds2 eq_refl) as A1.
  rewrite Hargc1 in A0, A1. change (0 + Z.of_nat 0) with 0 in A0.
  change (0 + Z.of_nat 1) with 1 in A1. rewrite A0, A1.
  eexists. split; [reflexivity|].
  destruct (only_tokenizer_differs_fields _ _ Hfr1) as (O1 & S1 & M1 & _).
  destruct (only_tokenizer_differs_fields _ _ Hfr2) as (O2 & S2 & M2 & _).
  match goal with
  | |- context [processToken ?t ?p ?q ?s] =>
      change (processToken t p q s) with (on_current (setCursorYX p q) s)
  end.
  cbn [out tokenBufferPos _currentModes _currentScreen resetTokenizer on_current
       on_screen emit addToCurrentToken set_tokenizer].
  rewrite O2, O1, S2, S1, M2, M1.
  repeat match goal with |- _ /\ _ => split end; reflexivity.
Qed.

Lemma cursor_position_parameters_are_decimal_witness :
  getMode MODE_Ansi example_start = true
  /\ osc example_start = false
  /\ Forall digit (codes "012")
  /\ Forall digit (codes "99999")
  /\ exists st',
       receiveChars receiveChars_depth example_start
         (ESC :: chr "[" :: codes "012" ++ chr ";" :: codes "99999" ++ [chr "H"])
       = Some st'
       /\ out st' = out example_start ++ [OnScreen false (setCursorYX 12 40960)].
Proof.
  assert (D1 : Forall digit (codes "012")).
  { repeat (apply List.Forall_cons; [split; apply Z.leb_le; reflexivity|]).
    apply List.Forall_nil. }
  assert (D2 : Forall digit (codes "99999")).
  { repeat (apply List.Forall_cons; [split; apply Z.leb_le; reflexivity|]).
    apply List.Forall_nil. }
  split; [vm_compute; reflexivity|]. split; [vm_compute; reflexivity|].
  split; [exact D1|]. split; [exact D2|].
  destruct (cursor_position_parameters_are_decimal example_start
              (codes "012") (codes "99999")
              ltac:(vm_compute; reflexivity) ltac:(vm_compute; reflexivity) D1 D2
              ltac:(vm_compute; reflexivity))
    as (st' & Hrun & Hout & _).
  exists st'. split; [exact Hrun | exact Hout].
Defined.

(** X27: [CSI digits ; digits r] sets the scrolling region, and does so on
    both screens, whichever one is in use; the two numbers are read in
    decimal and capped at [MAX_ARGUMENT]. *)
Theorem scrolling_region_is_set_on_both_screens st ds1 ds2 :
  getMode MODE_Ansi st = true -> osc st = false ->
  Forall digit ds1 -> Forall digit ds2 ->
  Z.of_nat (length ds1 + length ds2) + 4 < MAX_TOKEN_LENGTH ->
  exists st',
    receiveChars receiveChars_depth st
      (ESC :: chr "[" :: ds1 ++ chr ";" :: ds2 ++ [chr "r"]) = Some st'
    /\ out st' = out st
                 ++ [OnScreen false
                       (Screen_setMargins (Z.min (decimal_value ds1) MAX_ARGUMENT)
                                          (Z.min (decimal_value ds2) MAX_ARGUMENT));
                     OnScreen true
                       (Screen_setMargins (Z.min (decimal_value ds1) MAX_ARGUMENT)
                                          (Z.min (decimal_value ds2) MAX_ARGUMENT))]
    /\ tokenBufferPos st' = 0
    /\ _currentModes st' = _currentModes st
    /\ _currentScreen st' = _currentScreen st.
Proof.
  intros Ha Hosc Hd1 Hd2 Hlen.
  destruct (after_CSI st (ds1 ++ chr ";" :: ds2 ++ [chr "r"]) Ha Hosc)
    as (st1 & Hrun1 & Hnum1 & Hfr1 & Hpos1 & Hargc1 & Hz0 & Hz1).
  rewrite Hrun1. clear Hrun1.
  replace (ds1 ++ chr ";" :: ds2 ++ [chr "r"])
    with (parameter_string ds1 [ds2] ++ [chr "r"])
    by (unfold parameter_string; cbn [flat_map]; rewrite app_nil_r, <- app_assoc;
        reflexivity).
  assert (Hplen : length (parameter_string ds1 [ds2]) = (length ds1 + S (length ds2))%nat).
  { unfold parameter_string. cbn [flat_map]. rewrite app_nil_r, length_app. reflexivity. }
  unfold receiveChars_depth. rewrite receiveChars_S, feed_app.
  destruct (feed_parameters (receiveChars 2) [ds2] ds1 st1 Hnum1 Hd1)
    as (st2 & Hrun2 & Hnum2 & Hfr2 & Hpos2 & Hargc2 & Hargv2 & _).
  { repeat constructor. exact Hd2. }
  { rewrite Hpos1, Hplen. lia. }
  { rewrite Hargc1. exact Hz0. }
  { lia. }
  { rewrite Hargc1. unfold MAXARGS. cbn [length]. lia. }
  rewrite Hrun2. cbn [feed].
  rewrite (final_CPN (receiveChars 2) st2 (chr "r") Hnum2);
    [|rewrite Hpos2, Hpos1, Hplen; lia|rewrite Hpos2, Hpos1, Hplen; lia
     |reflexivity|reflexivity].
  pose proof (Hargv2 0%nat ds1 eq_refl) as A0.
  pose proof (Hargv2 1%nat ds2 eq_refl) as A1.
  rewrite Hargc1 in A0, A1. change (0 + Z.of_nat 0) with 0 in A0.
  change (0 + Z.of_nat 1) with 1 in A1. rewrite A0, A1.
  eexists. split; [reflexivity|].
  destruct (only_tokenizer_differs_fields _ _ Hfr1) as (O1 & S1 & M1 & _).
  destruct (only_tokenizer_differs_fields _ _ Hfr2) as (O2 & S2 & M2 & _).
  match goal with
  | |- context [processToken ?t ?p ?q ?s] =>
      change (processToken t p q s) with (setMargins p q s)
  end.
  cbn [out tokenBufferPos _currentModes _currentScreen resetTokenizer setMargins
       on_screen emit addToCurrentToken set_tokenizer].
  rewrite O2, O1, S2, S1, M2, M1. rewrite <- app_assoc.
  repeat match goal with |- _ /\ _ => split end; reflexivity.
Qed.

Lemma scrolling_region_is_set_on_both_screens_witness :
  getMode MODE_Ansi example_start = true
  /\ osc example_start = false
  /\ Forall digit (codes "5")
  /\ Forall digit (codes "20")
  /\ exists st',
       receiveChars receiveChars_depth example_start
         (ESC :: chr "[" :: codes "5" ++ chr ";" :: codes "20" ++ [chr "r"])
       = Some st'
       /\ out st' = out example_start
                    ++ [OnScreen false (Screen_setMargins 5 20);
                        OnScreen true (Screen_setMargins 5 20)].
Proof.
  assert (D1 : Forall digit (codes "5")).
  { repeat (apply List.Forall_cons; [split; apply Z.leb_le; reflexivity|]).
    apply List.Forall_nil. }
  assert (D2 : Forall digit (codes "20")).
  { repeat (apply List.Forall_cons; [split; apply Z.leb_le; reflexivity|]).
    apply List.Forall_nil. }
  split; [vm_compute; reflexivity|]. split; [vm_compute; reflexivity|].
  split; [exact D1|]. split; [exact D2|].
  destruct (scrolling_region_is_set_on_both_screens example_start
              (codes "5") (codes "20")
              ltac:(vm_compute; reflexivity) ltac:(vm_compute; reflexivity) D1 D2
              ltac:(vm_compute; reflexivity))
    as (st' & Hrun & Hout & _).
  exists st'. split; [exact Hrun | exact Hout].
Defined.

(** The final character 'm' after numeric parameters: one token per
    parameter, dispatched by the loop. *)
Lemma final_m again st :
  in_numeric_parameters st -> 4 <= tokenBufferPos st ->
  tokenBufferPos st + 1 < MAX_TOKEN_LENGTH ->
  receiveChar again st (chr "m")
  = Some (resetTokenizer
            (dispatch_parameters (Z.to_nat (argc st + 1)) (tokenBufferPos st + 1)
               (chr "m") 0 (addToCurrentToken (chr "m") st))).
Proof.
  intros [Hin Hcells] Hp Hroom.
  rewrite (receiveChar_in_parameters again st (chr "m") Hin);
    [|discriminate|reflexivity].
  f_equal.
  destruct Hin as (Ha & Hpos & H0 & H1 & H2 & H3).
  destruct (class_of_parameter_cell _ (Hcells 2 ltac:(lia)))
    as (Hq & Hb & He & Hg & Hs & _).
  specialize (H3 ltac:(lia)).
  unfold addToCurrentToken. cbv zeta. rewrite Z.min_l by lia.
  unfold scan_ansi, osc, lec, lun, les, dcs, eps, epe, esp, epsp, ees, eec. cbv zeta.
  cbn [tokenBuffer tokenBufferPos argv argc set_tokenizer].
  assert (R1 : rd (wr (tokenBuffer st) (tokenBufferPos st) (chr "m")) 1 = chr "[").
  { unfold rd, wr. rewrite (proj2 (Z.eqb_neq 1 (tokenBufferPos st))) by lia. exact H1. }
  assert (R2 : rd (wr (tokenBuffer st) (tokenBufferPos st) (chr "m")) 2
               = rd (tokenBuffer st) 2).
  { unfold rd, wr. rewrite (proj2 (Z.eqb_neq 2 (tokenBufferPos st))) by lia.
    reflexivity. }
  assert (R3 : rd (wr (tokenBuffer st) (tokenBufferPos st) (chr "m")) 3
               = rd (tokenBuffer st) 3).
  { unfold rd, wr. rewrite (proj2 (Z.eqb_neq 3 (tokenBufferPos st))) by lia.
    reflexivity. }
  rewrite R1, R2, R3.
  change (has_class (chr "m") CPN) with false.
  change (has_class (chr "m") CPS) with false.
  change (has_class (chr "m") DIG) with false.
  change (has_class (chr "m") INT) with false.
  change (chr "m" =? chr ";") with false. change (chr "m" =? chr "y") with false.
  change (chr "[") with 91. change (chr "]") with 93. change (chr "P") with 80.
  change (chr "?") with 63 in *. change (chr "!") with 33 in *.
  change (chr "=") with 61 in *. change (chr ">") with 62 in *. unfold SP, ESC in *.
  rewrite ?andb_false_r.
  settle_comparisons. cbn [andb negb]. rewrite ?andb_false_r. reflexivity.
Qed.

Lemma lor_fields N A T :
  0 <= A < 256 -> 0 <= T < 256 ->
  Z.lor (Z.lor (Z.shiftl N 16) (Z.shiftl A 8)) T = N * 65536 + A * 256 + T.
Proof.
  intros Ha Ht.
  assert (H1 : Z.land (Z.shiftl N 16) (Z.shiftl A 8) = 0).
  { rewrite Z.shiftl_mul_pow2 with (n := 8) by lia.
    apply (land_shifted_low N (A * 2 ^ 8) 16 16); [lia|].
    change (2 ^ 8) with 256. change (2 ^ 16) with 65536. lia. }
  rewrite <- (Z.add_nocarry_lor _ _ H1).
  rewrite <- Z.add_nocarry_lor.
  - rewrite !Z.shiftl_mul_pow2 by lia. reflexivity.
  - rewrite !Z.shiftl_mul_pow2 by lia.
    replace (N * 2 ^ 16 + A * 2 ^ 8) with (Z.shiftl (N * 2 ^ 8 + A) 8)
      by (rewrite Z.shiftl_mul_pow2 by lia; change (2 ^ 16) with 65536;
          change (2 ^ 8) with 256; lia).
    apply (land_shifted_low _ T 8 8); [lia|]. change (2 ^ 8) with 256. lia.
Qed.

Lemma dispatch_parameters_done rounds p cc i st :
  argc st < i -> dispatch_parameters rounds p cc i st = st.
Proof.
  intros H. destruct rounds; [reflexivity|].
  cbn [dispatch_parameters]. rewrite (proj2 (Z.leb_gt i (argc st))) by lia.
  reflexivity.
Qed.

Lemma dispatch_parameters_256 rounds p i st :
  i + 2 <= argc st ->
  rd (argv st) i = 38 \/ rd (argv st) i = 48 ->
  rd (argv st) (i + 1) = 5 ->
  3 <= p ->
  rd (tokenBuffer st) 2 <> chr "?" -> rd (tokenBuffer st) 2 <> chr "=" ->
  rd (tokenBuffer st) 2 <> chr ">" ->
  dispatch_parameters (S rounds) p (chr "m") i st
  = dispatch_parameters rounds p (chr "m") (i + 2 + 1)
      (processToken (token_csi_ps (chr "m") (rd (argv st) i)) COLOR_SPACE_256
         (rd (argv st) (i + 2)) st).
Proof.
  intros Hc A0 A1 Hp Hq He Hg.
  cbn [dispatch_parameters]. cbv zeta.
  unfold epp, eeq, egt. rewrite A1.
  change (chr "?") with 63 in *. change (chr "=") with 61 in *.
  change (chr ">") with 62 in *.
  replace (i + 2 - 2) with i by lia.
  assert (Hsel : (rd (argv st) i =? 38) || (rd (argv st) i =? 48) = true).
  { destruct A0 as [-> | ->]; reflexivity. }
  rewrite Hsel. settle_comparisons. cbn [andb]. reflexivity.
Qed.

Lemma dispatch_parameters_RGB rounds p i st :
  i + 4 <= argc st ->
  rd (argv st) i = 38 \/ rd (argv st) i = 48 ->
  rd (argv st) (i + 1) = 2 ->
  3 <= p ->
  rd (tokenBuffer st) 2 <> chr "?" -> rd (tokenBuffer st) 2 <> chr "=" ->
  rd (tokenBuffer st) 2 <> chr ">" ->
  dispatch_parameters (S rounds) p (chr "m") i st
  = dispatch_parameters rounds p (chr "m") (i + 2 + 2 + 1)
      (processToken (token_csi_ps (chr "m") (rd (argv st) i)) COLOR_SPACE_RGB
         (to_int (Z.lor (Z.lor (Z.shiftl (rd (argv st) (i + 2)) 16)
                               (Z.shiftl (rd (argv st) (i + 2 + 1)) 8))
                        (rd (argv st) (i + 2 + 2)))) st).
Proof.
  intros Hc A0 A1 Hp Hq He Hg.
  cbn [dispatch_parameters]. cbv zeta.
  unfold epp, eeq, egt. rewrite A1.
  change (chr "?") with 63 in *. change (chr "=") with 61 in *.
  change (chr ">") with 62 in *.
  replace (i + 2 - 2) with i by lia.
  assert (Hsel : (rd (argv st) i =? 38) || (rd (argv st) i =? 48) = true).
  { destruct A0 as [-> | ->]; reflexivity. }
  rewrite Hsel. settle_comparisons. cbn [andb]. reflexivity.
Qed.

Lemma processToken_colour (background : bool) space colour st :
  processToken (token_csi_ps (chr "m") (if background then 48 else 38)) space colour st
  = on_current (set_colour background space colour) st.
Proof. destruct background; reflexivity. Qed.

Lemma colour_selector_value background :
  Forall digit (colour_selector background)
  /\ Z.min (decimal_value (colour_selector background)) MAX_ARGUMENT
     = (if background then 48 else 38)
  /\ length (colour_selector background) = 2%nat.
Proof.
  destruct background; (split; [|split; reflexivity]);
    cbv [colour_selector codes list_ascii_of_string map];
    repeat (apply List.Forall_cons; [unfold digit; split; apply Z.leb_le; reflexivity|]); apply List.Forall_nil.
Qed.

(** X22: [CSI 38 ; 5 ; n m] sets the foreground to colour [n] of the 256-colour
    space ([n] capped at [MAX_ARGUMENT]) and [CSI 38 ; 2 ; r ; g ; b m], for
    components up to 255, to the RGB colour [r * 65536 + g * 256 + b]; with
    48 in place of 38 the same holds for the background.  Nothing else is
    output. *)
Theorem SGR_extended_colours :
  (forall st background ds,
     getMode MODE_Ansi st = true -> osc st = false ->
     Forall digit ds -> Z.of_nat (length ds) + 8 < MAX_TOKEN_LENGTH ->
     exists st',
       receiveChars receiveChars_depth st
         (ESC :: chr "[" :: colour_selector background ++ codes ";5;" ++ ds ++ [chr "m"])
       = Some st'
       /\ out st' = out st
                    ++ [OnScreen (_currentScreen st)
                          (set_colour background COLOR_SPACE_256
                             (Z.min (decimal_value ds) MAX_ARGUMENT))]
       /\ tokenBufferPos st' = 0)
  /\ (forall st background dr dg db,
        getMode MODE_Ansi st = true -> osc st = false ->
        Forall digit dr -> Forall digit dg -> Forall digit db ->
        decimal_value dr <= 255 -> decimal_value dg <= 255 ->
        decimal_value db <= 255 ->
        Z.of_nat (length dr + length dg + length db) + 10 < MAX_TOKEN_LENGTH ->
        exists st',
          receiveChars receiveChars_depth st
            (ESC :: chr "[" :: colour_selector background ++ codes ";2;" ++ dr
               ++ chr ";" :: dg ++ chr ";" :: db ++ [chr "m"])
          = Some st'
          /\ out st' = out st
                       ++ [OnScreen (_currentScreen st)
                             (set_colour background COLOR_SPACE_RGB
                                (decimal_value dr * 65536 + decimal_value dg * 256
                                 + decimal_value db))]
          /\ tokenBufferPos st' = 0).
Proof.
  split.
  - intros st background ds Ha Hosc Hds Hlen.
    destruct (colour_selector_value background) as (Hsd & Hsv & Hsl).
    destruct (after_CSI st (colour_selector background ++ codes ";5;" ++ ds ++ [chr "m"])
                Ha Hosc)
      as (st1 & Hrun1 & Hnum1 & Hfr1 & Hpos1 & Hargc1 & Hz0 & Hz1).
    rewrite Hrun1. clear Hrun1.
    replace (colour_selector background ++ codes ";5;" ++ ds ++ [chr "m"])
      with (parameter_string (colour_selector background) [codes "5"; ds] ++ [chr "m"])
      by (unfold parameter_string; cbn [flat_map]; rewrite app_nil_r, <- !app_assoc;
          reflexivity).
    assert (Hplen : length (parameter_string (colour_selector background) [codes "5"; ds])
                    = (5 + length ds)%nat).
    { unfold parameter_string. cbn [flat_map]. rewrite app_nil_r, !length_app, Hsl.
      reflexivity. }
    unfold receiveChars_depth. rewrite receiveChars_S, feed_app.
    destruct (feed_parameters (receiveChars 2) [codes "5"; ds]
                (colour_selector background) st1 Hnum1 Hsd)
      as (st2 & Hrun2 & Hnum2 & Hfr2 & Hpos2 & Hargc2 & Hargv2 & _).
    { apply List.Forall_cons;
        [cbv [codes list_ascii_of_string map];
         apply List.Forall_cons; [unfold digit; split; apply Z.leb_le; reflexivity | apply List.Forall_nil]|].
      apply List.Forall_cons; [exact Hds | apply List.Forall_nil]. }
    { rewrite Hpos1, Hplen. lia. }
    { rewrite Hargc1. exact Hz0. }
    { lia. }
    { rewrite Hargc1. unfold MAXARGS. cbn [length]. lia. }
    rewrite Hrun2. cbn [feed].
    rewrite Hpos1, Hplen in Hpos2. rewrite Hargc1 in Hargc2, Hargv2.
    cbn [length] in Hargc2. change (0 + Z.of_nat 2) with 2 in Hargc2.
    rewrite (final_m (receiveChars 2) st2 Hnum2) by lia.
    rewrite Hargc2. change (Z.to_nat (2 + 1)) with 3%nat.
    pose proof (Hargv2 0%nat _ eq_refl) as A0.
    pose proof (Hargv2 1%nat _ eq_refl) as A1.
    pose proof (Hargv2 2%nat _ eq_refl) as A2.
    change (0 + Z.of_nat 0) with 0 in A0. change (0 + Z.of_nat 1) with 1 in A1.
    change (0 + Z.of_nat 2) with 2 in A2. rewrite Hsv in A0.
    change (Z.min (decimal_value (codes "5")) MAX_ARGUMENT) with 5 in A1.
    destruct Hnum2 as [Hin2 Hcells2].
    destruct (class_of_parameter_cell _ (Hcells2 2 ltac:(lia)))
      as (Hq & _ & He & Hg & _ & _).
    set (st3 := addToCurrentToken (chr "m") st2).
    assert (B2 : rd (tokenBuffer st3) 2 = rd (tokenBuffer st2) 2).
    { unfold st3, addToCurrentToken. cbv zeta.
      cbn [tokenBuffer set_tokenizer]. unfold rd, wr.
      rewrite (proj2 (Z.eqb_neq 2 _)); [reflexivity|].
      unfold MAX_TOKEN_LENGTH in *. lia. }
    rewrite (dispatch_parameters_256 2 _ 0 st3);
      [ | change (argc st3) with (argc st2); lia
        | change (argv st3) with (argv st2); rewrite A0; destruct background; auto
        | change (argv st3) with (argv st2); exact A1
        | lia | rewrite B2; assumption | rewrite B2; assumption | rewrite B2; assumption ].
    change (argv st3) with (argv st2). rewrite A0. change (0 + 2) with 2. rewrite A2.
    rewrite processToken_colour.
    rewrite dispatch_parameters_done
      by (change (argc (on_current _ st3)) with (argc st2); lia).
    eexists. split; [reflexivity|].
    destruct (only_tokenizer_differs_fields _ _ Hfr1) as (O1 & S1 & _).
    destruct (only_tokenizer_differs_fields _ _ Hfr2) as (O2 & S2 & _).
    unfold st3.
    cbn [out tokenBufferPos _currentScreen resetTokenizer on_current
         on_screen emit addToCurrentToken set_tokenizer].
    rewrite O2, O1, S2, S1. split; reflexivity.
  - intros st background dr dg db Ha Hosc Hdr Hdg Hdb Hr Hg Hb Hlen.
    destruct (colour_selector_value background) as (Hsd & Hsv & Hsl).
    destruct (after_CSI st (colour_selector background ++ codes ";2;" ++ dr
                              ++ chr ";" :: dg ++ chr ";" :: db ++ [chr "m"]) Ha Hosc)
      as (st1 & Hrun1 & Hnum1 & Hfr1 & Hpos1 & Hargc1 & Hz0 & Hz1).
    rewrite Hrun1. clear Hrun1.
    replace (colour_selector background ++ codes ";2;" ++ dr
               ++ chr ";" :: dg ++ chr ";" :: db ++ [chr "m"])
      with (parameter_string (colour_selector background) [codes "2"; dr; dg; db]
            ++ [chr "m"])
      by (unfold parameter_string; cbn [flat_map]; rewrite app_nil_r;
          repeat (rewrite <- ?app_assoc; cbn [app]); reflexivity).
    assert (Hplen : length (parameter_string (colour_selector background)
                              [codes "2"; dr; dg; db])
                    = (7 + length dr + length dg + length db)%nat).
    { unfold parameter_string. cbn [flat_map]. rewrite app_nil_r.
      change (codes "2") with [chr "2"].
      repeat (rewrite ?length_app; cbn [length app]). rewrite Hsl. lia. }
    unfold receiveChars_depth. rewrite receiveChars_S, feed_app.
    destruct (feed_parameters (receiveChars 2) [codes "2"; dr; dg; db]
                (colour_selector background) st1 Hnum1 Hsd)
      as (st2 & Hrun2 & Hnum2 & Hfr2 & Hpos2 & Hargc2 & Hargv2 & _).
    { apply List.Forall_cons;
        [cbv [codes list_ascii_of_string map];
         apply List.Forall_cons; [unfold digit; split; apply Z.leb_le; reflexivity | apply List.Forall_nil]|].
      repeat (apply List.Forall_cons; [assumption|]). apply List.Forall_nil. }
    { rewrite Hpos1, Hplen. lia. }
    { rewrite Hargc1. exact Hz0. }
    { lia. }
    { rewrite Hargc1. unfold MAXARGS. cbn [length]. lia. }
    rewrite Hrun2. cbn [feed].
    rewrite Hpos1, Hplen in Hpos2. rewrite Hargc1 in Hargc2, Hargv2.
    cbn [length] in Hargc2. change (0 + Z.of_nat 4) with 4 in Hargc2.
    rewrite (final_m (receiveChars 2) st2 Hnum2) by lia.
    rewrite Hargc2. change (Z.to_nat (4 + 1)) with 5%nat.
    pose proof (Hargv2 0%nat _ eq_refl) as A0.
    pose proof (Hargv2 1%nat _ eq_refl) as A1.
    pose proof (Hargv2 2%nat _ eq_refl) as A2.
    pose proof (Hargv2 3%nat _ eq_refl) as A3.
    pose proof (Hargv2 4%nat _ eq_refl) as A4.
    change (0 + Z.of_nat 0) with 0 in A0. change (0 + Z.of_nat 1) with 1 in A1.
    change (0 + Z.of_nat 2) with 2 in A2. change (0 + Z.of_nat 3) with 3 in A3.
    change (0 + Z.of_nat 4) with 4 in A4. rewrite Hsv in A0.
    change (Z.min (decimal_value (codes "2")) MAX_ARGUMENT) with 2 in A1.
    pose proof (decimal_fold_lower dr 0 Hdr ltac:(lia)) as Lr.
    pose proof (decimal_fold_lower dg 0 Hdg ltac:(lia)) as Lg.
    pose proof (decimal_fold_lower db 0 Hdb ltac:(lia)) as Lb.
    fold (decimal_value dr) in Lr. fold (decimal_value dg) in Lg.
    fold (decimal_value db) in Lb.
    rewrite Z.min_l in A2, A3, A4 by (unfold MAX_ARGUMENT; lia).
    destruct Hnum2 as [Hin2 Hcells2].
    destruct (class_of_parameter_cell _ (Hcells2 2 ltac:(lia)))
      as (Hq & _ & He & Hgt & _ & _).
    set (st3 := addToCurrentToken (chr "m") st2).
    assert (B2 : rd (tokenBuffer st3) 2 = rd (tokenBuffer st2) 2).
    { unfold st3, addToCurrentToken. cbv zeta.
      cbn [tokenBuffer set_tokenizer]. unfold rd, wr.
      rewrite (proj2 (Z.eqb_neq 2 _)); [reflexivity|].
      unfold MAX_TOKEN_LENGTH in *. lia. }
    rewrite (dispatch_parameters_RGB 4 _ 0 st3);
      [ | change (argc st3) with (argc st2); lia
        | change (argv st3) with (argv st2); rewrite A0; destruct background; auto
        | change (argv st3) with (argv st2); exact A1
        | lia | rewrite B2; assumption | rewrite B2; assumption | rewrite B2; assumption ].
    change (argv st3) with (argv st2). rewrite A0.
    change (0 + 2 + 1) with 3. change (0 + 2 + 2) with 4. change (0 + 2) with 2.
    rewrite A2, A3, A4.
    rewrite lor_fields by lia. rewrite to_int_small by lia.
    rewrite processToken_colour.
    rewrite dispatch_parameters_done
      by (change (argc (on_current _ st3)) with (argc st2); lia).
    eexists. split; [reflexivity|].
    destruct (only_tokenizer_differs_fields _ _ Hfr1) as (O1 & S1 & _).
    destruct (only_tokenizer_differs_fields _ _ Hfr2) as (O2 & S2 & _).
    unfold st3.
    cbn [out tokenBufferPos _currentScreen resetTokenizer on_current
         on_screen emit addToCurrentToken set_tokenizer].
    rewrite O2, O1, S2, S1. split; reflexivity.
Qed.

Lemma SGR_extended_colours_witness :
  getMode MODE_Ansi example_start = true
  /\ osc example_start = false
  /\ Forall digit (codes "208") /\ Forall digit (codes "255")
  /\ Forall digit (codes "128") /\ Forall digit (codes "0")
  /\ (exists st',
        receiveChars receiveChars_depth example_start
          (ESC :: chr "[" :: colour_selector false ++ codes ";5;" ++ codes "208"
             ++ [chr "m"]) = Some st'
        /\ out st' = out example_start
                     ++ [OnScreen false (setForeColor COLOR_SPACE_256 208)])
  /\ (exists st',
        receiveChars receiveChars_depth example_start
          (ESC :: chr "[" :: colour_selector true ++ codes ";2;" ++ codes "255"
             ++ chr ";" :: codes "128" ++ chr ";" :: codes "0" ++ [chr "m"]) = Some st'
        /\ out st' = out example_start
                     ++ [OnScreen false (setBackColor COLOR_SPACE_RGB 0xFF8000)]).
Proof.
  assert (D : forall s, forallb (fun c => (chr "0" <=? c) && (c <=? chr "9")) (codes s) = true
                        -> Forall digit (codes s)).
  { intros s H. rewrite forallb_forall in H. apply List.Forall_forall.
    intros c Hc. apply H in Hc. apply andb_true_iff in Hc as [H1 H2].
    unfold digit. lia. }
  assert (D1 := D "208"%string eq_refl). assert (D2 := D "255"%string eq_refl).
  assert (D3 := D "128"%string eq_refl). assert (D4 := D "0"%string eq_refl).
  split; [vm_compute; reflexivity|]. split; [vm_compute; reflexivity|].
  split; [exact D1|]. split; [exact D2|]. split; [exact D3|]. split; [exact D4|].
  split.
  - destruct (proj1 SGR_extended_colours example_start false (codes "208")
                ltac:(vm_compute; reflexivity) ltac:(vm_compute; reflexivity) D1
                ltac:(vm_compute; reflexivity))
      as (st' & Hrun & Hout & _).
    exists st'. split; [exact Hrun | exact Hout].
  - destruct (proj2 SGR_extended_colours example_start true
                (codes "255") (codes "128") (codes "0")
                ltac:(vm_compute; reflexivity) ltac:(vm_compute; reflexivity) D2 D3 D4
                ltac:(vm_compute; discriminate) ltac:(vm_compute; discriminate)
                ltac:(vm_compute; discriminate) ltac:(vm_compute; reflexivity))
      as (st' & Hrun & Hout & _).
    exists st'. split; [exact Hrun | exact Hout].
Defined.

(** The final character 't' after numeric parameters. *)
Lemma final_t again st :
  in_numeric_parameters st -> 3 <= tokenBufferPos st ->
  tokenBufferPos st + 1 < MAX_TOKEN_LENGTH ->
  receiveChar again st (chr "t")
  = Some (resetTokenizer
            (processToken (token_csi_ps (chr "t") (rd (argv st) 0))
               (rd (argv st) 1) (rd (argv st) 2) (addToCurrentToken (chr "t") st))).
Proof.
  intros [Hin Hcells] Hp Hroom.
  rewrite (receiveChar_in_parameters again st (chr "t") Hin);
    [|discriminate|reflexivity].
  f_equal.
  destruct Hin as (Ha & Hpos & H0 & H1 & H2 & H3).
  destruct (class_of_parameter_cell _ (Hcells 2 ltac:(lia)))
    as (Hq & Hb & He & Hg & Hs & _).
  destruct (class_of_parameter_cell _ (Hcells (tokenBufferPos st - 1) ltac:(lia)))
    as (_ & _ & _ & _ & _ & Hint).
  unfold addToCurrentToken. cbv zeta. rewrite Z.min_l by lia.
  unfold scan_ansi, osc, lec, lun, les, dcs, eps. cbv zeta.
  cbn [tokenBuffer tokenBufferPos argv set_tokenizer].
  replace (tokenBufferPos st + 1 - 2) with (tokenBufferPos st - 1) by lia.
  change (has_class (chr "t") CPN) with false.
  change (has_class (chr "t") CPS) with true.
  assert (R1 : rd (wr (tokenBuffer st) (tokenBufferPos st) (chr "t")) 1 = chr "[").
  { unfold rd, wr. rewrite (proj2 (Z.eqb_neq 1 (tokenBufferPos st))) by lia. exact H1. }
  assert (R2 : rd (wr (tokenBuffer st) (tokenBufferPos st) (chr "t")) 2
               = rd (tokenBuffer st) 2).
  { unfold rd, wr. rewrite (proj2 (Z.eqb_neq 2 (tokenBufferPos st))) by lia.
    reflexivity. }
  assert (R3 : rd (wr (tokenBuffer st) (tokenBufferPos st) (chr "t"))
                 (tokenBufferPos st - 1)
               = rd (tokenBuffer st) (tokenBufferPos st - 1)).
  { unfold rd, wr.
    rewrite (proj2 (Z.eqb_neq (tokenBufferPos st - 1) (tokenBufferPos st))) by lia.
    reflexivity. }
  assert (R4 : tokenBufferPos st = 3 ->
               rd (wr (tokenBuffer st) (tokenBufferPos st) (chr "t")) 3 = chr "t").
  { intros E. unfold rd, wr. rewrite E. reflexivity. }
  rewrite R1, R2, R3, Hint.
  change (chr "[") with 91. change (chr "]") with 93. change (chr "P") with 80.
  change (chr "?") with 63 in *. change (chr "!") with 33 in *.
  change (chr "=") with 61 in *. change (chr ">") with 62 in *. unfold SP, ESC in *.
  destruct (Z.eq_dec (tokenBufferPos st) 3) as [E|E].
  - rewrite (R4 E), E. change (chr "t") with 116.
    settle_comparisons. cbn [andb negb]. rewrite ?andb_false_r. reflexivity.
  - change (chr "t" <? 256) with true.
    settle_comparisons. cbn [andb negb]. rewrite ?andb_false_r. reflexivity.
Qed.

(** X23: the size report of the emulation, [ESC \[ 8 ; lines ; columns t], read
    back as input is the request to resize to that many lines and columns,
    for sizes up to [MAX_ARGUMENT]: the decimal parameters are parsed back to
    the numbers that were printed. *)
Theorem size_report_read_back_requests_that_size st lines columns :
  getMode MODE_Ansi st = true -> osc st = false ->
  0 <= lines <= MAX_ARGUMENT -> 0 <= columns <= MAX_ARGUMENT ->
  exists st',
    receiveChars receiveChars_depth st
      ([ESC; chr "["; chr "8"; chr ";"] ++ fmt_d lines ++ [chr ";"]
       ++ fmt_d columns ++ [chr "t"]) = Some st'
    /\ out st' = out st ++ [Emulation_setImageSize lines columns;
                            imageResizeRequest columns lines]
    /\ tokenBufferPos st' = 0.
Proof.
  intros Ha Hosc Hl Hc. unfold MAX_ARGUMENT in *.
  destruct (fmt_d_nonneg lines ltac:(lia)) as (Dl & Ll & Vl).
  destruct (fmt_d_nonneg columns ltac:(lia)) as (Dc & Lc & Vc).
  change ([ESC; chr "["; chr "8"; chr ";"] ++ fmt_d lines ++ [chr ";"]
          ++ fmt_d columns ++ [chr "t"])
    with (ESC :: chr "[" :: [chr "8"] ++ chr ";" :: fmt_d lines ++ [chr ";"]
            ++ fmt_d columns ++ [chr "t"]).
  destruct (after_CSI st ([chr "8"] ++ chr ";" :: fmt_d lines ++ [chr ";"]
                            ++ fmt_d columns ++ [chr "t"]) Ha Hosc)
    as (st1 & Hrun1 & Hnum1 & Hfr1 & Hpos1 & Hargc1 & Hz0 & Hz1).
  rewrite Hrun1. clear Hrun1.
  replace ([chr "8"] ++ chr ";" :: fmt_d lines ++ [chr ";"] ++ fmt_d columns ++ [chr "t"])
    with (parameter_string [chr "8"] [fmt_d lines; fmt_d columns] ++ [chr "t"])
    by (unfold parameter_string; cbn [flat_map]; rewrite app_nil_r;
        repeat (rewrite <- ?app_assoc; cbn [app]); reflexivity).
  assert (Hplen : length (parameter_string [chr "8"] [fmt_d lines; fmt_d columns])
                  = (3 + length (fmt_d lines) + length (fmt_d columns))%nat).
  { unfold parameter_string. cbn [flat_map]. rewrite app_nil_r.
    repeat (rewrite ?length_app; cbn [length app]). lia. }
  unfold receiveChars_depth. rewrite receiveChars_S, feed_app.
  destruct (feed_parameters (receiveChars 2) [fmt_d lines; fmt_d columns]
              [chr "8"] st1 Hnum1)
    as (st2 & Hrun2 & Hnum2 & Hfr2 & Hpos2 & Hargc2 & Hargv2 & _).
  { apply List.Forall_cons; [|apply List.Forall_nil].
    unfold digit; split; apply Z.leb_le; reflexivity. }
  { repeat (apply List.Forall_cons; [assumption|]). apply List.Forall_nil. }
  { rewrite Hpos1, Hplen. unfold MAX_TOKEN_LENGTH. lia. }
  { rewrite Hargc1. exact Hz0. }
  { lia. }
  { rewrite Hargc1. unfold MAXARGS. cbn [length]. lia. }
  rewrite Hrun2. cbn [feed].
  rewrite Hpos1, Hplen in Hpos2. rewrite Hargc1 in Hargv2.
  rewrite (final_t (receiveChars 2) st2 Hnum2)
    by (unfold MAX_TOKEN_LENGTH; lia).
  pose proof (Hargv2 0%nat _ eq_refl) as A0.
  pose proof (Hargv2 1%nat _ eq_refl) as A1.
  pose proof (Hargv2 2%nat _ eq_refl) as A2.
  change (0 + Z.of_nat 0) with 0 in A0. change (0 + Z.of_nat 1) with 1 in A1.
  change (0 + Z.of_nat 2) with 2 in A2.
  change (Z.min (decimal_value [chr "8"]) MAX_ARGUMENT) with 8 in A0.
  unfold decimal_value in A1, A2. rewrite Vl in A1. rewrite Vc in A2.
  rewrite Z.min_l in A1, A2 by (unfold MAX_ARGUMENT; lia).
  rewrite A0, A1, A2.
  eexists. split; [reflexivity|].
  destruct (only_tokenizer_differs_fields _ _ Hfr1) as (O1 & _).
  destruct (only_tokenizer_differs_fields _ _ Hfr2) as (O2 & _).
  match goal with
  | |- context [processToken ?t ?p ?q ?s] =>
      change (processToken t p q s)
        with (emit (imageResizeRequest q p) (emit (Emulation_setImageSize p q) s))
  end.
  cbn [out tokenBufferPos resetTokenizer emit addToCurrentToken set_tokenizer].
  rewrite O2, O1, <- app_assoc. split; reflexivity.
Qed.

Lemma size_report_read_back_requests_that_size_witness :
  getMode MODE_Ansi example_start = true
  /\ osc example_start = false
  /\ sent (out (reportSize example_start))
     = [[ESC; chr "["; chr "8"; chr ";"] ++ fmt_d 24 ++ [chr ";"] ++ fmt_d 80 ++ [chr "t"]]
  /\ exists st',
       receiveChars receiveChars_depth example_start
         ([ESC; chr "["; chr "8"; chr ";"] ++ fmt_d 24 ++ [chr ";"] ++ fmt_d 80
          ++ [chr "t"]) = Some st'
       /\ out st' = out example_start ++ [Emulation_setImageSize 24 80;
                                           imageResizeRequest 80 24].
Proof.
  split; [vm_compute; reflexivity|]. split; [vm_compute; reflexivity|].
  split; [vm_compute; reflexivity|].
  destruct (size_report_read_back_requests_that_size example_start 24 80
              ltac:(vm_compute; reflexivity) ltac:(vm_compute; reflexivity)
              ltac:(unfold MAX_ARGUMENT; lia) ltac:(unfold MAX_ARGUMENT; lia))
    as (st' & Hrun & Hout & _).
  exists st'. split; [exact Hrun | exact Hout].
Defined.

(** ** Operating system commands *)

Lemma holds_add st l cc :
  holds st l -> Z.of_nat (length l) < MAX_TOKEN_LENGTH ->
  holds (addToCurrentToken cc st) (l ++ [cc]).
Proof.
  intros [Hpos Hcells] Hroom. unfold holds, addToCurrentToken. cbv zeta.
  cbn [tokenBuffer tokenBufferPos set_tokenizer].
  rewrite Z.min_l by lia. rewrite Hpos. split.
  - rewrite length_app. cbn [length]. lia.
  - intros j c Hj. unfold rd, wr.
    destruct (Z.eqb_spec (Z.of_nat j) (Z.of_nat (length l))) as [E|E].
    + apply Nat2Z.inj in E. subst j.
      rewrite lookup_app_r, Nat.sub_diag in Hj by lia. injection Hj as <-. reflexivity.
    + assert (j < length l)%nat.
      { apply lookup_lt_Some in Hj. rewrite length_app in Hj. cbn in Hj. lia. }
      rewrite lookup_app_l in Hj by assumption. apply Hcells, Hj.
Qed.

Lemma in_OSC_osc st body : in_OSC st body -> osc st = true.
Proof.
  intros (_ & [Hpos Hcells] & _ & _). unfold osc.
  rewrite Hpos. cbn [length].
  pose proof (Hcells 1%nat (chr "]") eq_refl) as H1.
  change (Z.of_nat 1) with 1 in H1. rewrite H1.
  rewrite (proj2 (Z.leb_le 2 _)) by lia. reflexivity.
Qed.

(** The character before the end of the token is not ESC. *)
Lemma in_OSC_last st body :
  in_OSC st body -> rd (tokenBuffer st) (tokenBufferPos st - 1) <> ESC.
Proof.
  intros (_ & [Hpos Hcells] & Hbody & _). rewrite Hpos. cbn [length].
  replace (Z.of_nat (S (S (length body))) - 1) with (Z.of_nat (S (length body))) by lia.
  destruct (lookup_lt_is_Some_2 (ESC :: chr "]" :: body) (S (length body)))
    as [c Hc]; [cbn; lia|].
  rewrite (Hcells _ _ Hc).
  destruct (length body) as [|n] eqn:E.
  - injection Hc as <-. discriminate.
  - cbn in Hc. apply list_elem_of_lookup_2 in Hc.
    rewrite List.Forall_forall in Hbody. apply list_elem_of_In, Hbody in Hc.
    unfold printable, ESC in *. lia.
Qed.

Lemma OSC_text_step again st body cc :
  in_OSC st body -> printable cc -> tokenBufferPos st + 2 < MAX_TOKEN_LENGTH ->
  receiveChar again st cc = Some (addToCurrentToken cc st)
  /\ in_OSC (addToCurrentToken cc st) (body ++ [cc]).
Proof.
  intros Hin [Hc Hdel] Hroom.
  pose proof (in_OSC_last st body Hin) as Hlast.
  destruct Hin as (Ha & Hholds & Hbody & _).
  pose proof Hholds as [Hpos Hcells].
  pose proof (Hcells 1%nat (chr "]") eq_refl) as H1. cbn [length] in Hpos.
  change (Z.of_nat 1) with 1 in H1.
  assert (Hp : 2 <= tokenBufferPos st) by lia.
  split.
  - unfold receiveChar. rewrite (ces_printable cc Hc).
    rewrite (proj2 (Z.eqb_neq cc DEL)) by exact Hdel.
    unfold advance. cbv zeta.
    change (getMode MODE_Ansi (addToCurrentToken cc st)) with (getMode MODE_Ansi st).
    rewrite Ha.
    change (tokenBufferPos (addToCurrentToken cc st))
      with (Z.min (tokenBufferPos st) (MAX_TOKEN_LENGTH - 1) + 1).
    change (tokenBuffer (addToCurrentToken cc st))
      with (wr (tokenBuffer st) (Z.min (tokenBufferPos st) (MAX_TOKEN_LENGTH - 1)) cc).
    rewrite Z.min_l by lia.
    unfold scan_ansi, osc, lec, les. cbv zeta.
    change (tokenBufferPos (addToCurrentToken cc st))
      with (Z.min (tokenBufferPos st) (MAX_TOKEN_LENGTH - 1) + 1).
    change (tokenBuffer (addToCurrentToken cc st))
      with (wr (tokenBuffer st) (Z.min (tokenBufferPos st) (MAX_TOKEN_LENGTH - 1)) cc).
    rewrite Z.min_l by lia.
    replace (tokenBufferPos st + 1 - 2) with (tokenBufferPos st - 1) by lia.
    replace (tokenBufferPos st + 1 - 1) with (tokenBufferPos st) by lia.
    assert (R1 : rd (wr (tokenBuffer st) (tokenBufferPos st) cc) 1 = chr "]").
    { unfold rd, wr. rewrite (proj2 (Z.eqb_neq 1 _)) by lia. exact H1. }
    assert (R2 : rd (wr (tokenBuffer st) (tokenBufferPos st) cc) (tokenBufferPos st - 1)
                 = rd (tokenBuffer st) (tokenBufferPos st - 1)).
    { unfold rd, wr. rewrite (proj2 (Z.eqb_neq (tokenBufferPos st - 1) _)) by lia.
      reflexivity. }
    assert (R3 : rd (wr (tokenBuffer st) (tokenBufferPos st) cc) (tokenBufferPos st) = cc).
    { unfold rd, wr. rewrite Z.eqb_refl. reflexivity. }
    rewrite R1, R2, R3.
    unfold ESC in *. settle_comparisons. cbn [andb]. reflexivity.
  - split; [exact Ha|]. split.
    + change (ESC :: chr "]" :: body ++ [cc]) with ((ESC :: chr "]" :: body) ++ [cc]).
      apply holds_add; [exact Hholds|]. cbn [length]. lia.
    + split.
      * rewrite Forall_app. split; [exact Hbody|]. repeat constructor; assumption.
      * unfold addToCurrentToken. cbv zeta. cbn [tokenBufferPos set_tokenizer].
        rewrite Z.min_l by lia. lia.
Qed.

Lemma feed_OSC_text again text : forall st body,
  in_OSC st body -> Forall printable text ->
  tokenBufferPos st + Z.of_nat (length text) + 1 < MAX_TOKEN_LENGTH ->
  exists st',
    feed (receiveChar again) st text = Some st'
    /\ in_OSC st' (body ++ text)
    /\ only_tokenizer_differs st st'.
Proof.
  induction text as [|cc text IH]; intros st body Hin Htext Hroom.
  - exists st. rewrite app_nil_r. split; [reflexivity|]. split; [exact Hin|].
    apply only_tokenizer_differs_refl.
  - apply Forall_cons in Htext as [Hc Htext]. cbn [length] in Hroom.
    destruct (OSC_text_step again st body cc Hin Hc ltac:(lia)) as [Hstep Hin1].
    cbn [feed]. rewrite Hstep.
    destruct (IH (addToCurrentToken cc st) (body ++ [cc]) Hin1 Htext)
      as (st' & Hrun & Hin' & Hfr).
    { destruct Hin as (_ & _ & _ & Hp).
      unfold addToCurrentToken. cbv zeta. cbn [tokenBufferPos set_tokenizer].
      rewrite Z.min_l by lia. lia. }
    exists st'. split; [exact Hrun|]. split.
    + rewrite <- app_assoc in Hin'. exact Hin'.
    + eapply only_tokenizer_differs_trans; [|exact Hfr].
      unfold only_tokenizer_differs. destruct st; reflexivity.
Qed.

Lemma after_OSC_introducer st chars :
  getMode MODE_Ansi st = true -> osc st = false ->
  exists st1,
    receiveChars receiveChars_depth st (ESC :: chr "]" :: chars)
    = receiveChars receiveChars_depth st1 chars
    /\ in_OSC st1 []
    /\ only_tokenizer_differs st st1.
Proof.
  intros Ha Hosc.
  exists (addToCurrentToken (chr "]") (addToCurrentToken ESC (resetTokenizer st))).
  split.
  - rewrite (receiveChars_ESC st _ Hosc Ha).
    unfold receiveChars_depth. rewrite !receiveChars_S. cbn [feed].
    replace (receiveChar (receiveChars 2) (addToCurrentToken ESC (resetTokenizer st))
               (chr "]"))
      with (Some (addToCurrentToken (chr "]")
                    (addToCurrentToken ESC (resetTokenizer st)))); [reflexivity|].
    clear Hosc. open_state st. unfold getMode in Ha. cbn in Ha. subst.
    vm_compute. reflexivity.
  - split.
    + split; [exact Ha|]. split.
      * split; [reflexivity|].
        intros [|[|j]] c Hj; try discriminate Hj; injection Hj as <-; reflexivity.
      * split; [constructor|]. unfold MAX_TOKEN_LENGTH. cbn. lia.
    + destruct st; reflexivity.
Qed.

Lemma OSC_BEL_step again st body :
  in_OSC st body ->
  receiveChar again st 0x07
  = Some (resetTokenizer
            (processSessionAttributeRequest (tokenBufferPos st + 1)
               (addToCurrentToken 0x07 st))).
Proof.
  intros Hin.
  pose proof (in_OSC_last st body Hin) as Hlast.
  pose proof (in_OSC_osc st body Hin) as Hosc.
  destruct Hin as (Ha & Hholds & Hbody & Hroom).
  pose proof Hholds as [Hpos Hcells].
  pose proof (Hcells 1%nat (chr "]") eq_refl) as H1. cbn [length] in Hpos.
  change (Z.of_nat 1) with 1 in H1.
  assert (Hp : 2 <= tokenBufferPos st) by lia.
  unfold receiveChar. rewrite Hosc.
  change (ces 7 CTL) with true. change (7 =? DEL) with false.
  change (7 =? 27) with false. change (7 =? 7) with true.
  cbn [negb andb].
  unfold advance. cbv zeta.
  change (getMode MODE_Ansi (addToCurrentToken 7 st)) with (getMode MODE_Ansi st).
  rewrite Ha.
  change (tokenBufferPos (addToCurrentToken 7 st))
    with (Z.min (tokenBufferPos st) (MAX_TOKEN_LENGTH - 1) + 1).
  change (tokenBuffer (addToCurrentToken 7 st))
    with (wr (tokenBuffer st) (Z.min (tokenBufferPos st) (MAX_TOKEN_LENGTH - 1)) 7).
  rewrite Z.min_l by lia.
  unfold lec, les.
  replace (tokenBufferPos st + 1 - 2) with (tokenBufferPos st - 1) by lia.
  replace (tokenBufferPos st + 1 - 1) with (tokenBufferPos st) by lia.
  assert (R1 : rd (wr (tokenBuffer st) (tokenBufferPos st) 7) 1 = chr "]").
  { unfold rd, wr. rewrite (proj2 (Z.eqb_neq 1 _)) by lia. exact H1. }
  assert (R2 : rd (wr (tokenBuffer st) (tokenBufferPos st) 7) (tokenBufferPos st - 1)
               = rd (tokenBuffer st) (tokenBufferPos st - 1)).
  { unfold rd, wr. rewrite (proj2 (Z.eqb_neq (tokenBufferPos st - 1) _)) by lia.
    reflexivity. }
  assert (R3 : rd (wr (tokenBuffer st) (tokenBufferPos st) 7) (tokenBufferPos st) = 7).
  { unfold rd, wr. rewrite Z.eqb_refl. reflexivity. }
  rewrite R1, R2, R3.
  unfold ESC in *. settle_comparisons. cbn [andb]. reflexivity.
Qed.

Lemma scan_attribute_digits ds : forall fuel buf tokenSize i att,
  Forall digit ds ->
  (forall k c, ds !! k = Some c -> rd buf (i + Z.of_nat k) = c) ->
  i + Z.of_nat (length ds) < tokenSize ->
  ~ digit (rd buf (i + Z.of_nat (length ds))) ->
  (length ds < fuel)%nat ->
  0 <= att ->
  fold_left (fun v c => 10 * v + (c - chr "0")) ds att < 2 ^ 31 ->
  scan_attribute fuel buf tokenSize i att
  = (i + Z.of_nat (length ds), fold_left (fun v c => 10 * v + (c - chr "0")) ds att).
Proof.
  induction ds as [|c ds IH]; intros fuel buf tokenSize i att Hds Hcells Hlt Hstop Hfuel Hatt Hmax.
  - destruct fuel as [|fuel]; [cbn in Hfuel; lia|].
    cbn [scan_attribute length fold_left] in *.
    replace (i + Z.of_nat 0) with i in * by lia.
    destruct ((i <? tokenSize) && (chr "0" <=? rd buf i) && (rd buf i <=? chr "9")) eqn:E;
      [|reflexivity].
    exfalso. apply Hstop. apply andb_true_iff in E as [E E2].
    apply andb_true_iff in E as [_ E1]. unfold digit. lia.
  - destruct fuel as [|fuel]; [cbn in Hfuel; lia|].
    apply Forall_cons in Hds as [Hc Hds].
    pose proof (Hcells 0%nat c eq_refl) as H0.
    replace (i + Z.of_nat 0) with i in H0 by lia.
    cbn [scan_attribute length fold_left] in *.
    rewrite H0.
    pose proof (decimal_fold_lower ds (10 * att + (c - chr "0")) Hds) as Hlow.
    unfold digit in Hc. change (chr "0") with 48 in *. change (chr "9") with 57 in *.
    specialize (Hlow ltac:(lia)).
    rewrite (proj2 (Z.ltb_lt i tokenSize)) by lia.
    rewrite (proj2 (Z.leb_le 48 c)), (proj2 (Z.leb_le c 57)) by lia.
    cbn [andb].
    rewrite to_int_small by lia.
    rewrite (IH fuel buf tokenSize (i + 1) (10 * att + (c - 48))); try assumption; try lia.
    + f_equal. lia.
    + intros k c' Hk. replace (i + 1 + Z.of_nat k) with (i + Z.of_nat (S k)) by lia.
      apply Hcells. exact Hk.
    + replace (i + 1 + Z.of_nat (length ds)) with (i + Z.of_nat (S (length ds))) by lia.
      exact Hstop.
Qed.

Lemma map_rd_seqZ buf text : forall a,
  (forall k c, text !! k = Some c -> rd buf (a + Z.of_nat k) = c) ->
  map (rd buf) (seqZ a (Z.of_nat (length text))) = text.
Proof.
  induction text as [|c text IH]; intros a Hcells; [reflexivity|].
  cbn [length]. rewrite seqZ_cons by lia. cbn [map].
  pose proof (Hcells 0%nat c eq_refl) as H0.
  replace (a + Z.of_nat 0) with a in H0 by lia. rewrite H0. f_equal.
  replace (Z.pred (Z.of_nat (S (length text)))) with (Z.of_nat (length text)) by lia.
  apply IH. intros k c' Hk.
  replace (Z.succ a + Z.of_nat k) with (a + Z.of_nat (S k)) by lia.
  apply Hcells. exact Hk.
Qed.

(** What the request handler reads in a token [ESC \] digits ; text
    terminator]. *)
Lemma read_session_attribute st ds text term :
  holds st (ESC :: chr "]" :: ds ++ chr ";" :: text ++ [term]) ->
  Forall digit ds -> decimal_value ds < 2 ^ 31 ->
  let tokenSize := tokenBufferPos st - 1 in
  scan_attribute (Z.to_nat tokenSize) (tokenBuffer st) tokenSize 2 0
  = (2 + Z.of_nat (length ds), decimal_value ds)
  /\ rd (tokenBuffer st) (2 + Z.of_nat (length ds)) = chr ";"
  /\ map (rd (tokenBuffer st))
       (seqZ (2 + Z.of_nat (length ds) + 1)
             (tokenSize - (2 + Z.of_nat (length ds) + 1))) = text
  /\ rd (tokenBuffer st) tokenSize = term.
Proof.
  intros [Hpos Hcells] Hds Hmax tokenSize.
  assert (Hlen : tokenBufferPos st
                 = 2 + Z.of_nat (length ds) + 1 + Z.of_nat (length text) + 1).
  { rewrite Hpos. cbn [length]. rewrite length_app. cbn [length].
    rewrite length_app. cbn [length]. lia. }
  assert (Hat : forall k c,
            (ds ++ chr ";" :: text ++ [term]) !! k = Some c ->
            rd (tokenBuffer st) (2 + Z.of_nat k) = c).
  { intros k c Hk. replace (2 + Z.of_nat k) with (Z.of_nat (S (S k))) by lia.
    apply Hcells. exact Hk. }
  assert (Hsemi : rd (tokenBuffer st) (2 + Z.of_nat (length ds)) = chr ";").
  { apply Hat. rewrite lookup_app_r, Nat.sub_diag by lia. reflexivity. }
  split; [|split; [exact Hsemi|split]].
  - apply scan_attribute_digits; try assumption; try (unfold tokenSize; lia).
    + intros k c Hk. apply Hat. rewrite lookup_app_l; [exact Hk|].
      apply lookup_lt_Some in Hk. exact Hk.
    + rewrite Hsemi. unfold digit. change (chr ";") with 59.
      change (chr "0") with 48. change (chr "9") with 57. lia.
  - replace (tokenSize - (2 + Z.of_nat (length ds) + 1)) with (Z.of_nat (length text))
      by (unfold tokenSize; lia).
    apply map_rd_seqZ. intros k c Hk.
    replace (2 + Z.of_nat (length ds) + 1 + Z.of_nat k)
      with (2 + Z.of_nat (length ds + S k)) by lia.
    apply Hat. rewrite lookup_app_r by lia.
    replace (length ds + S k - length ds)%nat with (S k) by lia.
    change ((chr ";" :: text ++ [term]) !! S k) with ((text ++ [term]) !! k).
    rewrite lookup_app_l; [exact Hk|].
    apply lookup_lt_Some in Hk. exact Hk.
  - replace tokenSize with (2 + Z.of_nat (length ds + S (length text)))
      by (unfold tokenSize; lia).
    apply Hat. rewrite lookup_app_r by lia.
    replace (length ds + S (length text) - length ds)%nat with (S (length text)) by lia.
    change ((chr ";" :: text ++ [term]) !! S (length text))
      with ((text ++ [term]) !! length text).
    rewrite lookup_app_r, Nat.sub_diag by lia. reflexivity.
Qed.

Lemma digit_printable c : digit c -> printable c.
Proof.
  unfold digit, printable, DEL. change (chr "0") with 48. change (chr "9") with 57. lia.
Qed.

(** The token is complete: [ESC \] digits ; text BEL] has been received. *)
Lemma OSC_request_received st ds text :
  getMode MODE_Ansi st = true -> osc st = false ->
  Forall digit ds -> Forall printable text ->
  Z.of_nat (length ds + length text) + 5 < MAX_TOKEN_LENGTH ->
  exists st3,
    receiveChars receiveChars_depth st
      (ESC :: chr "]" :: ds ++ chr ";" :: text ++ [0x07])
    = Some (resetTokenizer (processSessionAttributeRequest (tokenBufferPos st3) st3))
    /\ holds st3 (ESC :: chr "]" :: ds ++ chr ";" :: text ++ [0x07])
    /\ only_tokenizer_differs st st3.
Proof.
  intros Ha Hosc Hds Htext Hlen.
  destruct (after_OSC_introducer st (ds ++ chr ";" :: text ++ [0x07]) Ha Hosc)
    as (st1 & Hrun1 & Hin1 & Hfr1).
  rewrite Hrun1. clear Hrun1.
  replace (ds ++ chr ";" :: text ++ [0x07]) with ((ds ++ chr ";" :: text) ++ [0x07])
    by (rewrite <- app_assoc; reflexivity).
  unfold receiveChars_depth. rewrite receiveChars_S, feed_app.
  assert (Hbody : Forall printable (ds ++ chr ";" :: text)).
  { rewrite Forall_app. split.
    - eapply List.Forall_impl; [|exact Hds]. apply digit_printable.
    - apply List.Forall_cons; [|exact Htext]. unfold printable, DEL.
      change (chr ";") with 59. lia. }
  assert (Hpos1 : tokenBufferPos st1 = 2).
  { destruct Hin1 as (_ & [Hp _] & _). exact Hp. }
  destruct (feed_OSC_text (receiveChars 2) (ds ++ chr ";" :: text) st1 [] Hin1 Hbody)
    as (st2 & Hrun2 & Hin2 & Hfr2).
  { rewrite Hpos1, length_app. cbn [length]. lia. }
  rewrite Hrun2. cbn [feed app] in *.
  rewrite (OSC_BEL_step (receiveChars 2) st2 _ Hin2).
  destruct Hin2 as (_ & Hholds2 & _ & Hroom2).
  exists (addToCurrentToken 7 st2).
  assert (Hpos3 : tokenBufferPos (addToCurrentToken 7 st2) = tokenBufferPos st2 + 1).
  { unfold addToCurrentToken. cbv zeta. cbn [tokenBufferPos set_tokenizer].
    rewrite Z.min_l by lia. reflexivity. }
  split; [rewrite Hpos3; reflexivity|]. split.
  - change (ESC :: chr "]" :: (ds ++ chr ";" :: text) ++ [7])
      with ((ESC :: chr "]" :: ds ++ chr ";" :: text) ++ [7]).
    apply holds_add; [exact Hholds2|].
    destruct Hholds2 as [Hp _]. rewrite <- Hp. lia.
  - eapply only_tokenizer_differs_trans; [exact Hfr1|].
    eapply only_tokenizer_differs_trans; [exact Hfr2|].
    unfold only_tokenizer_differs. destruct st2; reflexivity.
Qed.

Lemma OSC_set_request st ds text :
  getMode MODE_Ansi st = true -> osc st = false ->
  Forall digit ds -> decimal_value ds < 2 ^ 31 -> Forall printable text ->
  Z.of_nat (length ds + length text) + 5 < MAX_TOKEN_LENGTH ->
  urlExtractor_reading (world st) (_currentScreen st) (out st) = false ->
  text <> [chr "?"] ->
  (decimal_value ds =? ProfileChange (world st))
    && startsWith (codes "CursorShape=") text = false ->
  exists st',
    receiveChars receiveChars_depth st
      (ESC :: chr "]" :: ds ++ chr ";" :: text ++ [0x07]) = Some st'
    /\ out st' = out st ++ [sessionAttributesUpdateTimer_start 20]
    /\ _pendingSessionAttributesUpdates st'
       = <[decimal_value ds := text]> (_pendingSessionAttributesUpdates st)
    /\ tokenBufferPos st' = 0
    /\ _currentModes st' = _currentModes st
    /\ _currentScreen st' = _currentScreen st
    /\ world st' = world st.
Proof.
  intros Ha Hosc Hds Hmax Htext Hlen Hurl Hq Hshape.
  destruct (OSC_request_received st ds text Ha Hosc Hds Htext Hlen)
    as (st3 & Hrun & Hholds & Hfr).
  destruct (read_session_attribute st3 ds text 0x07 Hholds Hds Hmax)
    as (Hscan & Hsemi & Hvalue & Hterm).
  eexists. split; [exact Hrun|].
  unfold processSessionAttributeRequest. cbv zeta.
  rewrite Hscan, Hsemi, Hvalue.
  unfold only_tokenizer_differs in Hfr.
  assert (W : world st3 = world st) by (rewrite Hfr; reflexivity).
  assert (C : _currentScreen st3 = _currentScreen st) by (rewrite Hfr; reflexivity).
  assert (O : out st3 = out st) by (rewrite Hfr; reflexivity).
  assert (P : _pendingSessionAttributesUpdates st3
              = _pendingSessionAttributesUpdates st) by (rewrite Hfr; reflexivity).
  assert (M : _currentModes st3 = _currentModes st) by (rewrite Hfr; reflexivity).
  rewrite W, C, O, Hurl, Hshape, Z.eqb_refl. cbn [negb].
  rewrite bool_decide_eq_false_2 by exact Hq.
  cbn [out tokenBufferPos _pendingSessionAttributesUpdates resetTokenizer emit
       set_pending set_tokenizer _currentModes _currentScreen world].
  rewrite O, P, M, C, W. repeat split.
Qed.

Lemma OSC_query_request st ds :
  getMode MODE_Ansi st = true -> osc st = false ->
  Forall digit ds -> decimal_value ds < 2 ^ 31 ->
  Z.of_nat (length ds) + 6 < MAX_TOKEN_LENGTH ->
  urlExtractor_reading (world st) (_currentScreen st) (out st) = false ->
  exists st',
    receiveChars receiveChars_depth st
      (ESC :: chr "]" :: ds ++ chr ";" :: [chr "?"; 0x07]) = Some st'
    /\ out st' = out st ++ [sessionAttributeRequest (decimal_value ds) 0x07]
    /\ _pendingSessionAttributesUpdates st' = _pendingSessionAttributesUpdates st
    /\ tokenBufferPos st' = 0.
Proof.
  intros Ha Hosc Hds Hmax Hlen Hurl.
  destruct (OSC_request_received st ds [chr "?"] Ha Hosc Hds)
    as (st3 & Hrun & Hholds & Hfr).
  { apply List.Forall_cons; [|apply List.Forall_nil].
    unfold printable, DEL. change (chr "?") with 63. lia. }
  { cbn [length]. lia. }
  destruct (read_session_attribute st3 ds [chr "?"] 0x07 Hholds Hds Hmax)
    as (Hscan & Hsemi & Hvalue & Hterm).
  eexists. split; [exact Hrun|].
  unfold processSessionAttributeRequest. cbv zeta.
  rewrite Hscan, Hsemi, Hvalue, Hterm.
  unfold only_tokenizer_differs in Hfr.
  assert (W : world st3 = world st) by (rewrite Hfr; reflexivity).
  assert (C : _currentScreen st3 = _currentScreen st) by (rewrite Hfr; reflexivity).
  assert (O : out st3 = out st) by (rewrite Hfr; reflexivity).
  assert (P : _pendingSessionAttributesUpdates st3
              = _pendingSessionAttributesUpdates st) by (rewrite Hfr; reflexivity).
  rewrite W, C, O, Hurl, Z.eqb_refl. cbn [negb].
  rewrite bool_decide_eq_true_2 by reflexivity.
  cbn [out tokenBufferPos _pendingSessionAttributesUpdates resetTokenizer emit
       set_tokenizer].
  rewrite O, P. repeat split.
Qed.

(** X24: [ESC \] number ; text BEL] records [text] as the pending value of the
    session attribute [number] and starts the 20 ms timer, without any other
    output; with the text "?" it emits the request for the attribute's value
    instead and leaves the pending values alone.  (No URL is being read, and
    the request is not a cursor shape change of the profile.) *)
Theorem OSC_sets_or_queries_a_session_attribute :
  (forall st ds text,
     getMode MODE_Ansi st = true -> osc st = false ->
     Forall digit ds -> decimal_value ds < 2 ^ 31 -> Forall printable text ->
     Z.of_nat (length ds + length text) + 5 < MAX_TOKEN_LENGTH ->
     urlExtractor_reading (world st) (_currentScreen st) (out st) = false ->
     text <> [chr "?"] ->
     (decimal_value ds =? ProfileChange (world st))
       && startsWith (codes "CursorShape=") text = false ->
     exists st',
       receiveChars receiveChars_depth st
         (ESC :: chr "]" :: ds ++ chr ";" :: text ++ [0x07]) = Some st'
       /\ out st' = out st ++ [sessionAttributesUpdateTimer_start 20]
       /\ _pendingSessionAttributesUpdates st'
          = <[decimal_value ds := text]> (_pendingSessionAttributesUpdates st)
       /\ tokenBufferPos st' = 0)
  /\ (forall st ds,
        getMode MODE_Ansi st = true -> osc st = false ->
        Forall digit ds -> decimal_value ds < 2 ^ 31 ->
        Z.of_nat (length ds) + 6 < MAX_TOKEN_LENGTH ->
        urlExtractor_reading (world st) (_currentScreen st) (out st) = false ->
        exists st',
          receiveChars receiveChars_depth st
            (ESC :: chr "]" :: ds ++ chr ";" :: [chr "?"; 0x07]) = Some st'
          /\ out st' = out st ++ [sessionAttributeRequest (decimal_value ds) 0x07]
          /\ _pendingSessionAttributesUpdates st' = _pendingSessionAttributesUpdates st
          /\ tokenBufferPos st' = 0).
Proof.
  split.
  - intros st ds text Ha Hosc Hds Hmax Htext Hlen Hurl Hq Hshape.
    destruct (OSC_set_request st ds text Ha Hosc Hds Hmax Htext Hlen Hurl Hq Hshape)
      as (st' & Hrun & O & P & T & _).
    exists st'. repeat split; assumption.
  - exact OSC_query_request.
Qed.

Lemma OSC_sets_or_queries_a_session_attribute_witness :
  getMode MODE_Ansi example_start = true
  /\ osc example_start = false
  /\ Forall digit (codes "2")
  /\ Forall printable (codes "vi notes.txt")
  /\ (exists st',
        receiveChars receiveChars_depth example_start
          (ESC :: chr "]" :: codes "2" ++ chr ";" :: codes "vi notes.txt" ++ [0x07])
        = Some st'
        /\ _pendingSessionAttributesUpdates st'
           = <[2 := codes "vi notes.txt"]> (_pendingSessionAttributesUpdates example_start))
  /\ (exists st',
        receiveChars receiveChars_depth example_start
          (ESC :: chr "]" :: codes "2" ++ chr ";" :: [chr "?"; 0x07]) = Some st'
        /\ out st' = out example_start ++ [sessionAttributeRequest 2 0x07]).
Proof.
  assert (D : Forall digit (codes "2")).
  { apply List.Forall_cons; [split; apply Z.leb_le; reflexivity|]. apply List.Forall_nil. }
  assert (T : Forall printable (codes "vi notes.txt")).
  { repeat (apply List.Forall_cons;
            [split; [apply Z.leb_le; reflexivity | discriminate]|]).
    apply List.Forall_nil. }
  split; [vm_compute; reflexivity|]. split; [vm_compute; reflexivity|].
  split; [exact D|]. split; [exact T|]. split.
  - destruct (proj1 OSC_sets_or_queries_a_session_attribute example_start
                (codes "2") (codes "vi notes.txt")
                ltac:(vm_compute; reflexivity) ltac:(vm_compute; reflexivity) D
                ltac:(vm_compute; reflexivity) T ltac:(vm_compute; reflexivity)
                ltac:(vm_compute; reflexivity) ltac:(discriminate)
                ltac:(vm_compute; reflexivity))
      as (st' & Hrun & _ & Hpending & _).
    exists st'. split; [exact Hrun | exact Hpending].
  - destruct (proj2 OSC_sets_or_queries_a_session_attribute example_start (codes "2")
                ltac:(vm_compute; reflexivity) ltac:(vm_compute; reflexivity) D
                ltac:(vm_compute; reflexivity) ltac:(vm_compute; reflexivity)
                ltac:(vm_compute; reflexivity))
      as (st' & Hrun & Hout & _).
    exists st'. split; [exact Hrun | exact Hout].
Defined.

Lemma sole_key keys (n : Z) :
  NoDup keys -> (forall k, k ∈ keys <-> k = n) -> keys = [n].
Proof.
  intros Hnd Hk. destruct keys as [|a keys].
  - exfalso. apply (not_elem_of_nil n), Hk. reflexivity.
  - assert (a = n) as -> by (apply Hk; left).
    apply NoDup_cons in Hnd as [Hnotin Hnd].
    destruct keys as [|b keys]; [reflexivity|].
    exfalso. assert (b = n) as -> by (apply Hk; right; left).
    apply Hnotin. left.
Qed.

(** X25: two updates of the same session attribute received before the timer
    fires are announced by [updateSessionAttributes] as one change, carrying
    the later text, and nothing stays pending. *)
Theorem repeated_attribute_updates_are_coalesced st ds text1 text2 :
  getMode MODE_Ansi st = true -> osc st = false ->
  Forall digit ds -> decimal_value ds < 2 ^ 31 ->
  Forall printable text1 -> Forall printable text2 ->
  Z.of_nat (length ds + length text1) + 5 < MAX_TOKEN_LENGTH ->
  Z.of_nat (length ds + length text2) + 5 < MAX_TOKEN_LENGTH ->
  (forall log, urlExtractor_reading (world st) (_currentScreen st) log = false) ->
  text1 <> [chr "?"] -> text2 <> [chr "?"] ->
  (decimal_value ds =? ProfileChange (world st))
    && startsWith (codes "CursorShape=") text1 = false ->
  (decimal_value ds =? ProfileChange (world st))
    && startsWith (codes "CursorShape=") text2 = false ->
  _pendingSessionAttributesUpdates st = ∅ ->
  exists st',
    receiveChars receiveChars_depth st
      ((ESC :: chr "]" :: ds ++ chr ";" :: text1 ++ [0x07])
       ++ (ESC :: chr "]" :: ds ++ chr ";" :: text2 ++ [0x07])) = Some st'
    /\ _pendingSessionAttributesUpdates st' = <[decimal_value ds := text2]> ∅
    /\ forall keys,
         NoDup keys ->
         (forall k, k ∈ keys
                    <-> is_Some ((<[decimal_value ds := text2]> ∅ : gmap Z (list Z)) !! k)) ->
         out (updateSessionAttributes keys st')
         = out st ++ [sessionAttributesUpdateTimer_start 20;
                      sessionAttributesUpdateTimer_start 20;
                      sessionAttributeChanged (decimal_value ds) text2]
         /\ _pendingSessionAttributesUpdates (updateSessionAttributes keys st') = ∅.
Proof.
  intros Ha Hosc Hds Hmax Ht1 Ht2 Hl1 Hl2 Hurl Hq1 Hq2 Hs1 Hs2 Hempty.
  destruct (OSC_set_request st ds text1 Ha Hosc Hds Hmax Ht1 Hl1 (Hurl _) Hq1 Hs1)
    as (st1 & Hrun1 & O1 & P1 & T1 & M1 & C1 & W1).
  assert (Ha1 : getMode MODE_Ansi st1 = true) by (unfold getMode; rewrite M1; exact Ha).
  assert (Hosc1 : osc st1 = false) by (unfold osc; rewrite T1; reflexivity).
  destruct (OSC_set_request st1 ds text2 Ha1 Hosc1 Hds Hmax Ht2 Hl2)
    as (st2 & Hrun2 & O2 & P2 & T2 & M2 & C2 & W2);
    [rewrite W1, C1; apply Hurl | exact Hq2 | rewrite W1; exact Hs2 |].
  assert (P : _pendingSessionAttributesUpdates st2 = <[decimal_value ds := text2]> ∅).
  { rewrite P2, P1, Hempty. apply insert_insert_eq. }
  exists st2. split; [|split; [exact P|]].
  - unfold receiveChars_depth in *. rewrite receiveChars_S in *.
    rewrite feed_app, Hrun1. exact Hrun2.
  - intros keys Hnd Hkeys.
    assert (keys = [decimal_value ds]) as ->.
    { apply sole_key; [exact Hnd|]. intros k. rewrite Hkeys.
      rewrite lookup_insert_is_Some, lookup_empty.
      split; [intros [E|[_ [x Hx]]]; [symmetry; exact E|discriminate]
             | intros ->; left; reflexivity]. }
    unfold updateSessionAttributes. cbn [fold_left].
    cbn [out _pendingSessionAttributesUpdates emit set_pending].
    rewrite P, lookup_insert_eq.
    rewrite O2, O1, <- !app_assoc. split; reflexivity.
Qed.

Lemma repeated_attribute_updates_are_coalesced_witness :
  getMode MODE_Ansi example_start = true
  /\ osc example_start = false
  /\ Forall digit (codes "2")
  /\ Forall printable (codes "make") /\ Forall printable (codes "make: done")
  /\ _pendingSessionAttributesUpdates example_start = ∅
  /\ NoDup [2]
  /\ exists st',
       receiveChars receiveChars_depth example_start
         ((ESC :: chr "]" :: codes "2" ++ chr ";" :: codes "make" ++ [0x07])
          ++ (ESC :: chr "]" :: codes "2" ++ chr ";" :: codes "make: done" ++ [0x07]))
       = Some st'
       /\ out (updateSessionAttributes [2] st')
          = out example_start ++ [sessionAttributesUpdateTimer_start 20;
                                  sessionAttributesUpdateTimer_start 20;
                                  sessionAttributeChanged 2 (codes "make: done")].
Proof.
  assert (D : Forall digit (codes "2")).
  { apply List.Forall_cons; [split; apply Z.leb_le; reflexivity|]. apply List.Forall_nil. }
  assert (T1 : Forall printable (codes "make")).
  { repeat (apply List.Forall_cons;
            [split; [apply Z.leb_le; reflexivity | discriminate]|]).
    apply List.Forall_nil. }
  assert (T2 : Forall printable (codes "make: done")).
  { repeat (apply List.Forall_cons;
            [split; [apply Z.leb_le; reflexivity | discriminate]|]).
    apply List.Forall_nil. }
  assert (N : NoDup [2]).
  { apply NoDup_cons. split; [apply not_elem_of_nil | apply NoDup_nil_2]. }
  split; [vm_compute; reflexivity|]. split; [vm_compute; reflexivity|].
  split; [exact D|]. split; [exact T1|]. split; [exact T2|].
  split; [reflexivity|]. split; [exact N|].
  destruct (repeated_attribute_updates_are_coalesced example_start
              (codes "2") (codes "make") (codes "make: done")
              ltac:(vm_compute; reflexivity) ltac:(vm_compute; reflexivity) D
              ltac:(vm_compute; reflexivity) T1 T2
              ltac:(vm_compute; reflexivity) ltac:(vm_compute; reflexivity)
              ltac:(intros log; reflexivity) ltac:(discriminate) ltac:(discriminate)
              ltac:(vm_compute; reflexivity) ltac:(vm_compute; reflexivity)
              ltac:(reflexivity))
    as (st' & Hrun & _ & Hkeys).
  exists st'. split; [exact Hrun|].
  apply Hkeys; [exact N|].
  intros k. change (decimal_value (codes "2")) with 2.
  rewrite lookup_insert_is_Some, lookup_empty, list_elem_of_singleton.
  split; [intros ->; left; reflexivity
         | intros [E|[_ [x Hx]]]; [symmetry; exact E | discriminate]].
Defined.

(** ** Lists of parameters *)

Lemma final_byte_classes cc :
  64 <= cc <= 126 -> has_class cc DIG = false /\ has_class cc INT = false.
Proof.
  intros H.
  assert (Hall : forallb (fun c => negb (has_class c DIG) && negb (has_class c INT))
                   (seqZ 64 63) = true) by (vm_compute; reflexivity).
  rewrite forallb_forall in Hall.
  specialize (Hall cc ltac:(apply list_elem_of_In, elem_of_seqZ; lia)).
  apply andb_true_iff in Hall as [H1 H2].
  rewrite negb_true_iff in H1, H2. split; assumption.
Qed.

Lemma after_CSI_private st chars :
  getMode MODE_Ansi st = true -> osc st = false ->
  exists st1,
    receiveChars receiveChars_depth st (ESC :: chr "[" :: chr "?" :: chars)
    = receiveChars receiveChars_depth st1 chars
    /\ in_parameters st1
    /\ only_tokenizer_differs st st1
    /\ tokenBufferPos st1 = 3
    /\ rd (tokenBuffer st1) 2 = chr "?"
    /\ argc st1 = 0
    /\ rd (argv st1) 0 = 0.
Proof.
  intros Ha Hosc.
  exists (addToCurrentToken (chr "?")
            (addToCurrentToken (chr "[") (addToCurrentToken ESC (resetTokenizer st)))).
  split.
  - rewrite (receiveChars_ESC st _ Hosc Ha).
    unfold receiveChars_depth. rewrite !receiveChars_S. cbn [feed].
    replace (receiveChar (receiveChars 2) (addToCurrentToken ESC (resetTokenizer st))
               (chr "["))
      with (Some (addToCurrentToken (chr "[")
                    (addToCurrentToken ESC (resetTokenizer st)))).
    2:{ clear Hosc. open_state st. unfold getMode in Ha. cbn in Ha. subst.
        vm_compute. reflexivity. }
    replace (receiveChar (receiveChars 2)
               (addToCurrentToken (chr "[") (addToCurrentToken ESC (resetTokenizer st)))
               (chr "?"))
      with (Some (addToCurrentToken (chr "?")
                    (addToCurrentToken (chr "[")
                       (addToCurrentToken ESC (resetTokenizer st))))); [reflexivity|].
    clear Hosc. open_state st. unfold getMode in Ha. cbn in Ha. subst.
    vm_compute. reflexivity.
  - split.
    + unfold in_parameters.
      change (getMode MODE_Ansi
                (addToCurrentToken (chr "?")
                   (addToCurrentToken (chr "[") (addToCurrentToken ESC (resetTokenizer st)))))
        with (getMode MODE_Ansi st).
      split; [exact Ha|].
      change (tokenBufferPos
                (addToCurrentToken (chr "?")
                   (addToCurrentToken (chr "[") (addToCurrentToken ESC (resetTokenizer st)))))
        with 3.
      unfold MAX_TOKEN_LENGTH.
      repeat match goal with |- _ /\ _ => split end; try lia; try reflexivity;
        try discriminate.
      intros _. split; discriminate.
    + split; [destruct st; reflexivity|].
      repeat match goal with |- _ /\ _ => split end; reflexivity.
Qed.

(** The final character of a private sequence [CSI ? parameters]: the loop
    over the parameters. *)
Lemma final_private again st cc :
  in_parameters st -> 3 <= tokenBufferPos st ->
  rd (tokenBuffer st) 2 = chr "?" ->
  (forall j, 3 <= j < tokenBufferPos st ->
     digit (rd (tokenBuffer st) j) \/ rd (tokenBuffer st) j = chr ";") ->
  tokenBufferPos st + 1 < MAX_TOKEN_LENGTH ->
  64 <= cc <= 126 ->
  receiveChar again st cc
  = Some (resetTokenizer
            (dispatch_parameters (Z.to_nat (argc st + 1)) (tokenBufferPos st + 1)
               cc 0 (addToCurrentToken cc st))).
Proof.
  intros Hin Hp Hq Hcells Hroom Hcc.
  destruct (final_byte_classes cc Hcc) as [Hdig Hint].
  rewrite (receiveChar_in_parameters again st cc Hin);
    [|unfold DEL; lia|apply ces_printable; lia].
  f_equal.
  destruct Hin as (Ha & Hpos & H0 & H1 & H2 & H3).
  unfold addToCurrentToken. cbv zeta. rewrite Z.min_l by lia.
  unfold scan_ansi, osc, lec, lun, les, dcs, eps, epe, esp, epsp, ees, eec. cbv zeta.
  cbn [tokenBuffer tokenBufferPos argv argc set_tokenizer].
  replace (tokenBufferPos st + 1 - 2) with (tokenBufferPos st - 1) by lia.
  rewrite Hdig, Hint.
  assert (R1 : rd (wr (tokenBuffer st) (tokenBufferPos st) cc) 1 = chr "[").
  { unfold rd, wr. rewrite (proj2 (Z.eqb_neq 1 (tokenBufferPos st))) by lia. exact H1. }
  assert (R2 : rd (wr (tokenBuffer st) (tokenBufferPos st) cc) 2 = chr "?").
  { unfold rd, wr. rewrite (proj2 (Z.eqb_neq 2 (tokenBufferPos st))) by lia. exact Hq. }
  assert (R3 : (rd (wr (tokenBuffer st) (tokenBufferPos st) cc) 3 =? SP) = false).
  { apply Z.eqb_neq. unfold rd, wr.
    destruct (Z.eqb_spec 3 (tokenBufferPos st)) as [E|E].
    - unfold SP. lia.
    - destruct (class_of_parameter_cell _ (Hcells 3 ltac:(lia)))
        as (_ & _ & _ & _ & Hs & _). exact Hs. }
  assert (R4 : (rd (wr (tokenBuffer st) (tokenBufferPos st) cc) (tokenBufferPos st - 1)
                =? chr "*") = false).
  { apply Z.eqb_neq.
    replace (rd (wr (tokenBuffer st) (tokenBufferPos st) cc) (tokenBufferPos st - 1))
      with (rd (tokenBuffer st) (tokenBufferPos st - 1))
      by (unfold rd, wr;
          rewrite (proj2 (Z.eqb_neq (tokenBufferPos st - 1) (tokenBufferPos st))) by lia;
          reflexivity).
    destruct (Z.eq_dec (tokenBufferPos st) 3) as [E|E].
    - rewrite E. change (3 - 1) with 2. rewrite Hq. discriminate.
    - destruct (Hcells (tokenBufferPos st - 1) ltac:(lia)) as [Hd|Hs].
      + unfold digit in Hd. change (chr "0") with 48 in Hd.
        change (chr "9") with 57 in Hd. change (chr "*") with 42. lia.
      + rewrite Hs. discriminate. }
  rewrite R1, R2, R3, R4.
  change (chr "[") with 91. change (chr "]") with 93. change (chr "P") with 80.
  change (chr "?") with 63 in *. change (chr "!") with 33 in *.
  change (chr "=") with 61 in *. change (chr ">") with 62 in *.
  change (chr ";") with 59 in *. change (chr "#") with 35 in *.
  unfold SP, ESC in *.
  rewrite ?andb_false_r.
  settle_comparisons. cbn [andb negb]. rewrite ?andb_false_r. reflexivity.
Qed.

(** The loop over the parameters of a private sequence dispatches one token
    per argument, in order. *)
Lemma dispatch_private rounds : forall i st p cc,
  epp p (tokenBuffer st) = true -> 0 <= i ->
  argc st + 1 - i <= Z.of_nat rounds ->
  dispatch_parameters rounds p cc i st
  = dispatch_each (token_csi_pr cc) (map (rd (argv st)) (seqZ i (argc st + 1 - i))) st.
Proof.
  induction rounds as [|rounds IH]; intros i st p cc Hepp Hi Hr.
  - rewrite seqZ_nil by lia. reflexivity.
  - cbn [dispatch_parameters].
    destruct (Z.leb_spec i (argc st)) as [Hle|Hgt].
    + rewrite Hepp.
      destruct (parameter_token_keeps_tokenizer
                  (token_csi_pr cc (rd (argv st) i)) 0 0 st (parameter_token_pr _ _))
        as (E1 & E2 & E3 & E4).
      rewrite IH; [|rewrite E1; exact Hepp|lia|rewrite E3; lia].
      rewrite E3, E4.
      rewrite (seqZ_cons i (argc st + 1 - i)) by lia. cbn [map].
      unfold dispatch_each. cbn [fold_left].
      replace (Z.pred (argc st + 1 - i)) with (argc st + 1 - (i + 1)) by lia.
      reflexivity.
    + rewrite seqZ_nil by lia. reflexivity.
Qed.

(** The same for a sequence without a prefix, away from the extended
    colours of SGR. *)
Lemma dispatch_plain rounds : forall i st p cc,
  epp p (tokenBuffer st) = false -> eeq p (tokenBuffer st) = false ->
  egt p (tokenBuffer st) = false ->
  has_class (rd (tokenBuffer st) (p - 2)) INT = false ->
  (cc = chr "m" -> forall j, i <= j <= argc st ->
     rd (argv st) j <> 38 /\ rd (argv st) j <> 48) ->
  0 <= i -> argc st + 1 - i <= Z.of_nat rounds ->
  dispatch_parameters rounds p cc i st
  = dispatch_each (token_csi_ps cc) (map (rd (argv st)) (seqZ i (argc st + 1 - i))) st.
Proof.
  induction rounds as [|rounds IH]; intros i st p cc Hepp Heeq Hegt Hint Hm Hi Hr.
  - rewrite seqZ_nil by lia. reflexivity.
  - cbn [dispatch_parameters].
    destruct (Z.leb_spec i (argc st)) as [Hle|Hgt].
    + rewrite Hepp, Heeq, Hegt, Hint.
      assert (Hcol : (cc =? chr "m")
                     && ((rd (argv st) i =? 38) || (rd (argv st) i =? 48)) = false).
      { destruct (Z.eqb_spec cc (chr "m")) as [E|E]; [|reflexivity].
        destruct (Hm E i ltac:(lia)) as [N1 N2].
        rewrite (proj2 (Z.eqb_neq _ _) N1), (proj2 (Z.eqb_neq _ _) N2). reflexivity. }
      replace ((cc =? chr "m") && (4 <=? argc st - i)
               && ((rd (argv st) i =? 38) || (rd (argv st) i =? 48))
               && (rd (argv st) (i + 1) =? 2)) with false
        by (destruct (cc =? chr "m"), (4 <=? argc st - i); cbn [andb] in *;
            try reflexivity; rewrite Hcol; reflexivity).
      replace ((cc =? chr "m") && (2 <=? argc st - i)
               && ((rd (argv st) i =? 38) || (rd (argv st) i =? 48))
               && (rd (argv st) (i + 1) =? 5)) with false
        by (destruct (cc =? chr "m"), (2 <=? argc st - i); cbn [andb] in *;
            try reflexivity; rewrite Hcol; reflexivity).
      rewrite orb_true_r.
      destruct (parameter_token_keeps_tokenizer
                  (token_csi_ps cc (rd (argv st) i)) 0 0 st (parameter_token_ps _ _))
        as (E1 & E2 & E3 & E4).
      rewrite IH; try (rewrite E1; assumption); [|rewrite E3, E4; intros E j Hj; apply Hm;
                                                   [exact E|lia]|lia|rewrite E3; lia].
      rewrite E3, E4.
      rewrite (seqZ_cons i (argc st + 1 - i)) by lia. cbn [map].
      unfold dispatch_each. cbn [fold_left].
      replace (Z.pred (argc st + 1 - i)) with (argc st + 1 - (i + 1)) by lia.
      reflexivity.
    + rewrite seqZ_nil by lia. reflexivity.
Qed.

Lemma last_of_lookup (A : Type) (l : list A) (x d : A) :
  l !! Nat.pred (length l) = Some x -> List.last l d = x.
Proof.
  induction l as [|y l IH]; intros H; [discriminate H|].
  destruct l as [|z l].
  - injection H as <-. reflexivity.
  - rewrite last_cons_cons. apply IH. exact H.
Qed.

Lemma map_rd_cells (A : Type) (a : array) (f : A -> Z) (l : list A) :
  (forall k x, l !! k = Some x -> rd a (Z.of_nat k) = f x) ->
  map (rd a) (seqZ 0 (Z.of_nat (length l))) = map f l.
Proof.
  intros H. rewrite <- (length_map f l). apply map_rd_seqZ.
  intros k c Hk. change (map f l) with (f <$> l) in Hk.
  rewrite list_lookup_fmap in Hk.
  destruct (l !! k) as [x|] eqn:Hx; [|discriminate Hk].
  injection Hk as <-. rewrite Z.add_0_l. apply H. exact Hx.
Qed.

(** The argument array after a parameter list, read as the loop reads
    it. *)
Lemma kept_arguments_read (a : array) (n : Z) first others :
  n = Z.min (Z.of_nat (length others)) (MAXARGS - 1) ->
  (forall k ds, (first :: others) !! k = Some ds -> Z.of_nat k < MAXARGS - 1 ->
     rd a (Z.of_nat k) = capped ds) ->
  rd a n = capped (List.last (first :: others) []) ->
  map (rd a) (seqZ 0 (n + 1)) = kept_arguments (first :: others).
Proof.
  intros Hn Hcells Hlast. unfold kept_arguments.
  change (Z.to_nat MAXARGS) with 15%nat. change (Z.to_nat (MAXARGS - 1)) with 14%nat.
  unfold MAXARGS in *.
  destruct (Nat.leb_spec (length (first :: others)) 15) as [Hle|Hgt].
  - cbn [length] in Hle. rewrite Z.min_l in Hn by lia.
    replace (n + 1) with (Z.of_nat (length (first :: others))) by (cbn [length]; lia).
    apply map_rd_cells. intros k ds Hk.
    pose proof (lookup_lt_Some _ _ _ Hk) as Hlen. cbn [length] in Hlen.
    destruct (Z.ltb_spec (Z.of_nat k) (15 - 1)) as [Hlt|Hge].
    + apply Hcells; assumption.
    + assert (Ek : k = length others) by lia.
      replace (Z.of_nat k) with n by lia. rewrite Hlast. f_equal.
      apply last_of_lookup. cbn [length Nat.pred]. rewrite <- Ek. exact Hk.
  - cbn [length] in Hgt. rewrite Z.min_r in Hn by lia. subst n.
    change (15 - 1 + 1) with (Z.of_nat 14 + 1).
    rewrite seqZ_app by lia. rewrite map_app. f_equal.
    + rewrite <- (map_rd_cells _ a capped (take 14 (first :: others))).
      * rewrite length_take. cbn [length]. do 2 f_equal. lia.
      * intros k ds Hk. apply lookup_take_Some in Hk as [Hk Hlt].
        apply Hcells; [exact Hk | lia].
    + rewrite <- Hlast. reflexivity.
Qed.

Lemma tokenizer_after_addToCurrentToken cc st :
  only_tokenizer_differs st (addToCurrentToken cc st).
Proof. destruct st; reflexivity. Qed.

(** X28: a private sequence [CSI ? parameters final] acts as one token per
    parameter, in the order written: [token_csi_pr(final, value)] with the
    parameter's decimal value capped at [MAX_ARGUMENT] (an empty parameter
    counts as 0), and then clears the tokenizer.  When more than [MAXARGS]
    parameters are given, the first [MAXARGS - 1] and the last one are the
    ones that act. *)
Theorem private_parameters_act_in_order st first others cc :
  getMode MODE_Ansi st = true -> osc st = false ->
  Forall digit first -> Forall (Forall digit) others ->
  Z.of_nat (length (parameter_string first others)) + 5 < MAX_TOKEN_LENGTH ->
  64 <= cc <= 126 ->
  exists st0,
    only_tokenizer_differs st st0
    /\ receiveChars receiveChars_depth st
         (ESC :: chr "[" :: chr "?" :: parameter_string first others ++ [cc])
       = Some (resetTokenizer
                 (dispatch_each (token_csi_pr cc) (kept_arguments (first :: others)) st0)).
Proof.
  intros Ha Hosc Hf Ho Hlen Hcc.
  destruct (after_CSI_private st (parameter_string first others ++ [cc]) Ha Hosc)
    as (st1 & Hrun1 & Hin1 & Hfr1 & Hpos1 & Hq1 & Hargc1 & Hz1).
  rewrite Hrun1. clear Hrun1.
  unfold receiveChars_depth. rewrite receiveChars_S, feed_app.
  destruct (feed_parameter_list (receiveChars 2) others first st1 Hin1 Hf Ho)
    as (st2 & Hrun2 & Hin2 & Hfr2 & Hpos2 & Hargc2 & Hargv2 & Hlast2 & _ & Hold2 & Hnew2).
  { rewrite Hpos1. lia. }
  { rewrite Hargc1. exact Hz1. }
  { rewrite Hargc1. unfold MAXARGS. lia. }
  rewrite Hrun2. cbn [feed].
  assert (Hq2 : rd (tokenBuffer st2) 2 = chr "?").
  { rewrite Hold2 by lia. exact Hq1. }
  rewrite (final_private (receiveChars 2) st2 cc Hin2);
    [|lia|exact Hq2|intros j Hj; apply Hnew2; lia|lia|exact Hcc].
  exists (addToCurrentToken cc st2). split.
  { eapply only_tokenizer_differs_trans; [exact Hfr1|].
    eapply only_tokenizer_differs_trans; [exact Hfr2|].
    apply tokenizer_after_addToCurrentToken. }
  do 2 f_equal.
  assert (Hc0 : 0 <= argc st2) by (rewrite Hargc2, Hargc1; unfold MAXARGS; lia).
  rewrite dispatch_private.
  - change (argv (addToCurrentToken cc st2)) with (argv st2).
    change (argc (addToCurrentToken cc st2)) with (argc st2).
    rewrite Z.sub_0_r. f_equal.
    apply kept_arguments_read.
    + rewrite Hargc2, Hargc1. reflexivity.
    + intros k ds Hk Hlt. rewrite <- (Hargv2 k ds Hk); rewrite Hargc1; [reflexivity|lia].
    + exact Hlast2.
  - unfold epp, addToCurrentToken. cbn [tokenBuffer set_tokenizer].
    rewrite Z.min_l by lia. unfold rd, wr.
    rewrite (proj2 (Z.eqb_neq 2 (tokenBufferPos st2))) by lia.
    unfold rd in Hq2. rewrite Hq2.
    rewrite (proj2 (Z.leb_le 3 _)) by lia. reflexivity.
  - lia.
  - change (argc (addToCurrentToken cc st2)) with (argc st2). lia.
Qed.

Lemma plain_sequence_cells st cc :
  in_numeric_parameters st -> 64 <= cc <= 126 ->
  rd (wr (tokenBuffer st) (tokenBufferPos st) cc) 1 = chr "["
  /\ (rd (wr (tokenBuffer st) (tokenBufferPos st) cc) 2 =? chr "?") = false
  /\ (rd (wr (tokenBuffer st) (tokenBufferPos st) cc) 2 =? chr "=") = false
  /\ (rd (wr (tokenBuffer st) (tokenBufferPos st) cc) 2 =? chr ">") = false
  /\ (rd (wr (tokenBuffer st) (tokenBufferPos st) cc) 2 =? chr "!") = false
  /\ (rd (wr (tokenBuffer st) (tokenBufferPos st) cc) 2 =? SP) = false
  /\ (3 <= tokenBufferPos st ->
      (rd (wr (tokenBuffer st) (tokenBufferPos st) cc) 3 =? SP) = false)
  /\ (rd (wr (tokenBuffer st) (tokenBufferPos st) cc) (tokenBufferPos st - 1)
      =? chr "*") = false
  /\ has_class (rd (wr (tokenBuffer st) (tokenBufferPos st) cc) (tokenBufferPos st - 1))
       INT = false.
Proof.
  intros [Hin Hcells] Hcc.
  destruct Hin as (Ha & Hpos & H0 & H1 & H2 & H3).
  assert (C2 : forall v, v < 64 ->
               (forall c, digit c \/ c = chr ";" -> c <> v) ->
               (rd (wr (tokenBuffer st) (tokenBufferPos st) cc) 2 =? v) = false).
  { intros v Hv Hne. apply Z.eqb_neq. unfold rd, wr.
    destruct (Z.eqb_spec 2 (tokenBufferPos st)) as [E|E]; [lia|].
    apply Hne, Hcells. lia. }
  split.
  { unfold rd, wr. rewrite (proj2 (Z.eqb_neq 1 (tokenBufferPos st))) by lia. exact H1. }
  split; [apply C2; [reflexivity|intros c Hc; apply (class_of_parameter_cell c Hc)]|].
  split; [apply C2; [reflexivity|intros c Hc; apply (class_of_parameter_cell c Hc)]|].
  split; [apply C2; [reflexivity|intros c Hc; apply (class_of_parameter_cell c Hc)]|].
  split; [apply C2; [reflexivity|intros c Hc; apply (class_of_parameter_cell c Hc)]|].
  split; [apply C2; [reflexivity|intros c Hc; apply (class_of_parameter_cell c Hc)]|].
  split.
  { intros Hp3. apply Z.eqb_neq. unfold rd, wr.
    destruct (Z.eqb_spec 3 (tokenBufferPos st)) as [E|E]; [unfold SP; lia|].
    apply (class_of_parameter_cell _ (Hcells 3 ltac:(lia))). }
  replace (rd (wr (tokenBuffer st) (tokenBufferPos st) cc) (tokenBufferPos st - 1))
    with (rd (tokenBuffer st) (tokenBufferPos st - 1))
    by (unfold rd, wr;
        rewrite (proj2 (Z.eqb_neq (tokenBufferPos st - 1) (tokenBufferPos st))) by lia;
        reflexivity).
  destruct (Z.eq_dec (tokenBufferPos st) 2) as [E|E].
  - rewrite E. change (2 - 1) with 1. rewrite H1. split; reflexivity.
  - pose proof (Hcells (tokenBufferPos st - 1) ltac:(lia)) as Hc.
    split; [|apply (class_of_parameter_cell _ Hc)].
    apply Z.eqb_neq. destruct Hc as [Hd|Hs].
    + unfold digit in Hd. change (chr "0") with 48 in Hd.
      change (chr "9") with 57 in Hd. change (chr "*") with 42. lia.
    + rewrite Hs. discriminate.
Qed.

(** The final character of a sequence [CSI parameters] that is neither of
    class CPN nor of class CPS: the loop over the parameters. *)
Lemma final_plain again st cc :
  in_numeric_parameters st ->
  tokenBufferPos st + 1 < MAX_TOKEN_LENGTH ->
  64 <= cc <= 126 -> has_class cc CPN = false -> has_class cc CPS = false ->
  receiveChar again st cc
  = Some (resetTokenizer
            (dispatch_parameters (Z.to_nat (argc st + 1)) (tokenBufferPos st + 1)
               cc 0 (addToCurrentToken cc st))).
Proof.
  intros Hnum Hroom Hcc Hcpn Hcps.
  destruct (final_byte_classes cc Hcc) as [Hdig Hint].
  destruct (plain_sequence_cells st cc Hnum Hcc)
    as (R1 & Q1 & Q2 & Q3 & Q4 & Q5 & Q6 & Q7 & _).
  destruct Hnum as [Hin Hcells].
  rewrite (receiveChar_in_parameters again st cc Hin);
    [|unfold DEL; lia|apply ces_printable; lia].
  f_equal.
  destruct Hin as (Ha & Hpos & H0 & H1 & H2 & H3).
  unfold addToCurrentToken. cbv zeta. rewrite Z.min_l by lia.
  unfold scan_ansi, osc, lec, lun, les, dcs, eps, epe, esp, epsp, ees, eec. cbv zeta.
  cbn [tokenBuffer tokenBufferPos argv argc set_tokenizer].
  replace (tokenBufferPos st + 1 - 2) with (tokenBufferPos st - 1) by lia.
  rewrite Hdig, Hint, Hcpn, Hcps, R1, Q1, Q2, Q3, Q4, Q5, Q7.
  change (has_class (chr "[") SCS) with false.
  change (chr "[" =? chr "]") with false. change (chr "[" =? chr "P") with false.
  change (chr "[" =? chr "#") with false.
  rewrite ?andb_false_r. cbn [andb negb].
  assert (G1 : (tokenBufferPos st + 1 =? 4)
               && (rd (wr (tokenBuffer st) (tokenBufferPos st) cc) 3 =? SP) = false).
  { destruct (Z.eqb_spec (tokenBufferPos st + 1) 4) as [E|E]; [|reflexivity].
    rewrite Q6 by lia. reflexivity. }
  assert (G2 : (5 <=? tokenBufferPos st + 1)
               && (rd (wr (tokenBuffer st) (tokenBufferPos st) cc) 3 =? SP) = false).
  { destruct (Z.leb_spec 5 (tokenBufferPos st + 1)) as [E|E]; [|reflexivity].
    rewrite Q6 by lia. reflexivity. }
  rewrite G1, G2.
  change (chr ";") with 59. unfold ESC.
  settle_comparisons. cbn [andb negb]. rewrite ?andb_false_r. reflexivity.
Qed.

(** X29: a sequence [CSI parameters final] whose final character takes a
    list (it is neither of class CPN nor of class CPS, as 'm', 'h', 'l', 'J'
    or 'K') acts as one token per parameter, in the order written:
    [token_csi_ps(final, value)] with the parameter's decimal value capped at
    [MAX_ARGUMENT] (an empty parameter counts as 0), and then clears the
    tokenizer.  For 'm' this holds when no parameter is 38 or 48, which
    introduce an extended colour.  When more than [MAXARGS] parameters are
    given, the first [MAXARGS - 1] and the last one are the ones that act. *)
Theorem listed_parameters_act_in_order st first others cc :
  getMode MODE_Ansi st = true -> osc st = false ->
  Forall digit first -> Forall (Forall digit) others ->
  Z.of_nat (length (parameter_string first others)) + 4 < MAX_TOKEN_LENGTH ->
  64 <= cc <= 126 -> has_class cc CPN = false -> has_class cc CPS = false ->
  (cc = chr "m" ->
   Forall (fun v => v <> 38 /\ v <> 48) (kept_arguments (first :: others))) ->
  exists st0,
    only_tokenizer_differs st st0
    /\ receiveChars receiveChars_depth st
         (ESC :: chr "[" :: parameter_string first others ++ [cc])
       = Some (resetTokenizer
                 (dispatch_each (token_csi_ps cc) (kept_arguments (first :: others)) st0)).
Proof.
  intros Ha Hosc Hf Ho Hlen Hcc Hcpn Hcps Hm.
  destruct (after_CSI st (parameter_string first others ++ [cc]) Ha Hosc)
    as (st1 & Hrun1 & [Hin1 Hcells1] & Hfr1 & Hpos1 & Hargc1 & Hz1 & _).
  rewrite Hrun1. clear Hrun1.
  unfold receiveChars_depth. rewrite receiveChars_S, feed_app.
  destruct (feed_parameter_list (receiveChars 2) others first st1 Hin1 Hf Ho)
    as (st2 & Hrun2 & Hin2 & Hfr2 & Hpos2 & Hargc2 & Hargv2 & Hlast2 & _ & Hold2 & Hnew2).
  { rewrite Hpos1. lia. }
  { rewrite Hargc1. exact Hz1. }
  { rewrite Hargc1. unfold MAXARGS. lia. }
  rewrite Hrun2. cbn [feed].
  assert (Hnum2 : in_numeric_parameters st2).
  { split; [exact Hin2|]. intros j Hj. apply Hnew2. lia. }
  rewrite (final_plain (receiveChars 2) st2 cc Hnum2 ltac:(lia) Hcc Hcpn Hcps).
  exists (addToCurrentToken cc st2). split.
  { eapply only_tokenizer_differs_trans; [exact Hfr1|].
    eapply only_tokenizer_differs_trans; [exact Hfr2|].
    apply tokenizer_after_addToCurrentToken. }
  do 2 f_equal.
  assert (Hc0 : 0 <= argc st2) by (rewrite Hargc2, Hargc1; unfold MAXARGS; lia).
  assert (Hvals : map (rd (argv st2)) (seqZ 0 (argc st2 + 1))
                  = kept_arguments (first :: others)).
  { apply kept_arguments_read.
    + rewrite Hargc2, Hargc1. reflexivity.
    + intros k ds Hk Hlt. rewrite <- (Hargv2 k ds Hk); rewrite Hargc1; [reflexivity|lia].
    + exact Hlast2. }
  destruct (plain_sequence_cells st2 cc Hnum2 Hcc)
    as (R1 & Q1 & Q2 & Q3 & Q4 & Q5 & Q6 & Q7 & Q8).
  assert (Hbuf : tokenBuffer (addToCurrentToken cc st2)
                 = wr (tokenBuffer st2) (tokenBufferPos st2) cc).
  { unfold addToCurrentToken. cbn [tokenBuffer set_tokenizer].
    rewrite Z.min_l by lia. reflexivity. }
  rewrite dispatch_plain.
  - change (argv (addToCurrentToken cc st2)) with (argv st2).
    change (argc (addToCurrentToken cc st2)) with (argc st2).
    rewrite Z.sub_0_r, Hvals. reflexivity.
  - unfold epp. rewrite Hbuf, Q1. apply andb_false_r.
  - unfold eeq. rewrite Hbuf, Q2. apply andb_false_r.
  - unfold egt. rewrite Hbuf, Q3. apply andb_false_r.
  - rewrite Hbuf. replace (tokenBufferPos st2 + 1 - 2) with (tokenBufferPos st2 - 1) by lia.
    exact Q8.
  - intros E j Hj.
    change (argv (addToCurrentToken cc st2)) with (argv st2).
    change (argc (addToCurrentToken cc st2)) with (argc st2) in Hj.
    specialize (Hm E). rewrite <- Hvals in Hm.
    rewrite List.Forall_forall in Hm. apply Hm.
    apply in_map. apply list_elem_of_In, elem_of_seqZ. lia.
  - lia.
  - change (argc (addToCurrentToken cc st2)) with (argc st2). lia.
Qed.

Lemma private_parameters_act_in_order_witness :
  getMode MODE_Ansi example_start = true
  /\ osc example_start = false
  /\ Forall digit (codes "1000")
  /\ Forall (Forall digit) [codes "1006"]
  /\ exists st0,
       only_tokenizer_differs example_start st0
       /\ receiveChars receiveChars_depth example_start
            (ESC :: chr "[" :: chr "?"
               :: parameter_string (codes "1000") [codes "1006"] ++ [chr "h"])
          = Some (resetTokenizer
                    (dispatch_each (token_csi_pr (chr "h"))
                       (kept_arguments [codes "1000"; codes "1006"]) st0)).
Proof.
  assert (D1 : Forall digit (codes "1000")).
  { repeat (apply List.Forall_cons; [split; apply Z.leb_le; reflexivity|]).
    apply List.Forall_nil. }
  assert (D2 : Forall (Forall digit) [codes "1006"]).
  { apply List.Forall_cons; [|apply List.Forall_nil].
    repeat (apply List.Forall_cons; [split; apply Z.leb_le; reflexivity|]).
    apply List.Forall_nil. }
  split; [vm_compute; reflexivity|]. split; [vm_compute; reflexivity|].
  split; [exact D1|]. split; [exact D2|].
  apply (private_parameters_act_in_order example_start (codes "1000") [codes "1006"]
           (chr "h") ltac:(vm_compute; reflexivity) ltac:(vm_compute; reflexivity)
           D1 D2 ltac:(vm_compute; reflexivity)).
  split; apply Z.leb_le; reflexivity.
Defined.

Lemma listed_parameters_act_in_order_witness :
  getMode MODE_Ansi example_start = true
  /\ osc example_start = false
  /\ Forall digit (codes "1")
  /\ Forall (Forall digit) [codes "4"; codes "31"]
  /\ exists st0,
       only_tokenizer_differs example_start st0
       /\ receiveChars receiveChars_depth example_start
            (ESC :: chr "["
               :: parameter_string (codes "1") [codes "4"; codes "31"] ++ [chr "m"])
          = Some (resetTokenizer
                    (dispatch_each (token_csi_ps (chr "m"))
                       (kept_arguments [codes "1"; codes "4"; codes "31"]) st0)).
Proof.
  assert (D1 : Forall digit (codes "1")).
  { repeat (apply List.Forall_cons; [split; apply Z.leb_le; reflexivity|]).
    apply List.Forall_nil. }
  assert (D2 : Forall (Forall digit) [codes "4"; codes "31"]).
  { repeat (apply List.Forall_cons;
            [repeat (apply List.Forall_cons; [split; apply Z.leb_le; reflexivity|]);
             apply List.Forall_nil|]).
    apply List.Forall_nil. }
  split; [vm_compute; reflexivity|]. split; [vm_compute; reflexivity|].
  split; [exact D1|]. split; [exact D2|].
  apply (listed_parameters_act_in_order example_start (codes "1")
           [codes "4"; codes "31"] (chr "m")
           ltac:(vm_compute; reflexivity) ltac:(vm_compute; reflexivity)
           D1 D2 ltac:(vm_compute; reflexivity)).
  - split; apply Z.leb_le; reflexivity.
  - reflexivity.
  - reflexivity.
  - intros _.
    change (kept_arguments [codes "1"; codes "4"; codes "31"]) with [1; 4; 31].
    repeat (apply List.Forall_cons; [split; discriminate|]).
    apply List.Forall_nil.
Defined.

(** ** Device control strings *)

Lemma DCS_step again st cc :
  in_DCS st -> 32 <= cc ->
  exists st',
    receiveChar again st cc = Some st'
    /\ in_DCS st' /\ only_tokenizer_differs st st'.
Proof.
  intros (Ha & Hp & H0 & H1) Hcc.
  unfold receiveChar.
  destruct (Z.eqb_spec cc DEL) as [Hdel|Hdel].
  { exists st. split; [reflexivity|].
    split; [repeat split; assumption | apply only_tokenizer_differs_refl]. }
  rewrite (ces_printable cc Hcc).
  exists (addToCurrentToken cc st).
  assert (Hinv : in_DCS (addToCurrentToken cc st)).
  { unfold in_DCS, addToCurrentToken.
    change (getMode MODE_Ansi (set_tokenizer _ _ _ _ st)) with (getMode MODE_Ansi st).
    cbn [tokenBuffer tokenBufferPos set_tokenizer]. unfold rd, wr in *.
    unfold MAX_TOKEN_LENGTH.
    rewrite (proj2 (Z.eqb_neq 0 _)) by lia. rewrite (proj2 (Z.eqb_neq 1 _)) by lia.
    repeat split; try assumption. lia. }
  split; [|split; [exact Hinv | destruct st; reflexivity]].
  destruct Hinv as (Ha' & Hp' & H0' & H1').
  assert (Hp3 : 3 <= tokenBufferPos (addToCurrentToken cc st)).
  { unfold addToCurrentToken. cbn [tokenBufferPos set_tokenizer].
    unfold MAX_TOKEN_LENGTH. lia. }
  unfold advance. cbv zeta. rewrite Ha'.
  unfold scan_ansi, osc, lec, lun, les, dcs. cbv zeta.
  set (st1 := addToCurrentToken cc st) in *.
  rewrite H0', H1'.
  change (chr "P" =? chr "]") with false. change (chr "P" =? chr "P") with true.
  change (ESC =? ESC + 128) with false. change (ESC =? ESC) with true.
  rewrite (proj2 (Z.eqb_neq (tokenBufferPos st1) 1)) by lia.
  rewrite (proj2 (Z.eqb_neq (tokenBufferPos st1) 2)) by lia.
  rewrite (proj2 (Z.leb_le 2 (tokenBufferPos st1))) by lia.
  rewrite ?andb_false_r. cbn [andb].
  repeat match goal with
         | |- context [if ?c then _ else _] => destruct c
         end; reflexivity.
Qed.

Lemma feed_DCS again text : forall st,
  in_DCS st -> Forall (fun c => 32 <= c) text ->
  exists st',
    feed (receiveChar again) st text = Some st'
    /\ in_DCS st' /\ only_tokenizer_differs st st'.
Proof.
  induction text as [|cc text IH]; intros st Hin Ht.
  - exists st. split; [reflexivity|]. split; [exact Hin|].
    apply only_tokenizer_differs_refl.
  - apply Forall_cons in Ht as [Hc Ht].
    destruct (DCS_step again st cc Hin Hc) as (st1 & Hstep & Hin1 & Hfr1).
    destruct (IH st1 Hin1 Ht) as (st' & Hrun & Hin' & Hfr).
    exists st'. cbn [feed]. rewrite Hstep.
    split; [exact Hrun|]. split; [exact Hin'|].
    eapply only_tokenizer_differs_trans; eassumption.
Qed.

Lemma after_DCS_introducer st chars :
  getMode MODE_Ansi st = true -> osc st = false ->
  exists st1,
    receiveChars receiveChars_depth st (ESC :: chr "P" :: chars)
    = receiveChars receiveChars_depth st1 chars
    /\ in_DCS st1 /\ only_tokenizer_differs st st1.
Proof.
  intros Ha Hosc.
  exists (addToCurrentToken (chr "P") (addToCurrentToken ESC (resetTokenizer st))).
  split.
  - rewrite (receiveChars_ESC st _ Hosc Ha).
    unfold receiveChars_depth. rewrite !receiveChars_S. cbn [feed].
    replace (receiveChar (receiveChars 2) (addToCurrentToken ESC (resetTokenizer st))
               (chr "P"))
      with (Some (addToCurrentToken (chr "P")
                    (addToCurrentToken ESC (resetTokenizer st)))); [reflexivity|].
    clear Hosc. open_state st. unfold getMode in Ha. cbn in Ha. subst.
    vm_compute. reflexivity.
  - split.
    + unfold in_DCS.
      change (getMode MODE_Ansi
                (addToCurrentToken (chr "P") (addToCurrentToken ESC (resetTokenizer st))))
        with (getMode MODE_Ansi st).
      split; [exact Ha|].
      change (tokenBufferPos
                (addToCurrentToken (chr "P") (addToCurrentToken ESC (resetTokenizer st))))
        with 2.
      repeat match goal with |- _ /\ _ => split end; try lia; reflexivity.
    + destruct st; reflexivity.
Qed.

(** X30: a device control string is swallowed.  After [ESC P], characters from
    32 up, however many, are neither displayed nor interpreted: they change
    the tokenizer's variables only. *)
Theorem device_control_strings_are_swallowed st text :
  getMode MODE_Ansi st = true -> osc st = false ->
  Forall (fun c => 32 <= c) text ->
  exists st',
    receiveChars receiveChars_depth st (ESC :: chr "P" :: text) = Some st'
    /\ only_tokenizer_differs st st'
    /\ out st' = out st.
Proof.
  intros Ha Hosc Ht.
  destruct (after_DCS_introducer st text Ha Hosc) as (st1 & Hrun1 & Hin1 & Hfr1).
  rewrite Hrun1. unfold receiveChars_depth. rewrite receiveChars_S.
  destruct (feed_DCS (receiveChars 2) text st1 Hin1 Ht) as (st' & Hrun & _ & Hfr).
  exists st'. split; [exact Hrun|].
  assert (Hall : only_tokenizer_differs st st')
    by (eapply only_tokenizer_differs_trans; eassumption).
  split; [exact Hall|].
  apply (only_tokenizer_differs_fields _ _ Hall).
Qed.

Lemma device_control_strings_are_swallowed_witness :
  getMode MODE_Ansi example_start = true
  /\ osc example_start = false
  /\ Forall (fun c => 32 <= c) (codes "1$r0m")
  /\ exists st',
       receiveChars receiveChars_depth example_start
         (ESC :: chr "P" :: codes "1$r0m") = Some st'
       /\ only_tokenizer_differs example_start st'
       /\ out st' = out example_start.
Proof.
  assert (Ht : Forall (fun c => 32 <= c) (codes "1$r0m")).
  { repeat (apply List.Forall_cons; [apply Z.leb_le; reflexivity|]).
    apply List.Forall_nil. }
  split; [vm_compute; reflexivity|]. split; [vm_compute; reflexivity|].
  split; [exact Ht|].
  exact (device_control_strings_are_swallowed example_start (codes "1$r0m")
           ltac:(vm_compute; reflexivity) ltac:(vm_compute; reflexivity) Ht).
Defined.

(** ** Reports *)

(** X26: the cursor position report, the size report and the checksum reply are
    never truncated by the buffers they are formatted in, whatever [int]
    values the screen returns; a build without DECRQCRA always answers a
    checksum request with checksum 0000, and an enabled one with no reply or
    a reply carrying exactly four hexadecimal digits. *)
Theorem reports_fit_their_buffers :
  (forall st y x,
     y = getCursorY (world st) (_currentScreen st) (out st) + 1
         - (if Screen_getMode (world st) (_currentScreen st) (out st) MODE_Origin
            then topMargin (world st) (_currentScreen st) (out st) else 0) ->
     x = getCursorX (world st) (_currentScreen st) (out st) + 1 ->
     - 2 ^ 31 <= y < 2 ^ 31 -> - 2 ^ 31 <= x < 2 ^ 31 ->
     reportCursorPosition st
     = sendString ([ESC; chr "["] ++ fmt_d y ++ [chr ";"] ++ fmt_d x ++ [chr "R"]) st)
  /\ (forall st lines columns,
        lines = getLines (world st) (_currentScreen st) (out st) ->
        columns = getColumns (world st) (_currentScreen st) (out st) ->
        - 2 ^ 31 <= lines < 2 ^ 31 -> - 2 ^ 31 <= columns < 2 ^ 31 ->
        reportSize st
        = sendString ([ESC; chr "["; chr "8"; chr ";"] ++ fmt_d lines ++ [chr ";"]
                      ++ fmt_d columns ++ [chr "t"]) st)
  /\ (forall st,
        - 2 ^ 31 <= rd (argv st) 0 < 2 ^ 31 ->
        ENABLE_DECRQCRA (world st) = false ->
        processChecksumRequest st
        = sendString ([ESC; chr "P"] ++ fmt_d (rd (argv st) 0)
                      ++ codes "!~0000" ++ [ESC; backslash]) st)
  /\ (forall st,
        - 2 ^ 31 <= rd (argv st) 0 < 2 ^ 31 ->
        processChecksumRequest st = st
        \/ exists checksum,
             0 <= checksum <= 0xffff
             /\ length (fmt_04x true checksum) = 4%nat
             /\ processChecksumRequest st
                = sendString ([ESC; chr "P"] ++ fmt_d (rd (argv st) 0) ++ [chr "!"; chr "~"]
                              ++ fmt_04x true checksum ++ [ESC; backslash]) st).
Proof.
  assert (Hreply : forall st sum,
            - 2 ^ 31 <= rd (argv st) 0 < 2 ^ 31 ->
            0 <= Z.land (to_int (- sum)) 0xffff <= 0xffff
            /\ length (fmt_04x true (Z.land (to_int (- sum)) 0xffff)) = 4%nat
            /\ sendString (snprintf 30 ([ESC; chr "P"] ++ fmt_d (rd (argv st) 0)
                             ++ codes "!~"
                             ++ fmt_04x true (Z.land (to_int (- sum)) 0xffff)
                             ++ [ESC; backslash])) st
               = sendString ([ESC; chr "P"] ++ fmt_d (rd (argv st) 0)
                             ++ [chr "!"; chr "~"]
                             ++ fmt_04x true (Z.land (to_int (- sum)) 0xffff)
                             ++ [ESC; backslash]) st).
  { intros st sum Hid. destruct (fmt_d_int _ Hid) as [Li Ni].
    assert (Hr : 0 <= Z.land (to_int (- sum)) 0xffff <= 0xffff).
    { change 0xffff with (Z.ones 16). rewrite Z.land_ones by lia.
      pose proof (Z.mod_pos_bound (to_int (- sum)) (2 ^ 16) ltac:(lia)).
      change (Z.ones 16) with (2 ^ 16 - 1). lia. }
    destruct (fmt_04X_word _ Hr) as [L4 N4].
    split; [exact Hr|]. split; [exact L4|].
    f_equal. change (codes "!~") with [chr "!"; chr "~"].
    apply snprintf_complete.
    - repeat (rewrite ?length_app; cbn [length]). rewrite L4. lia.
    - rewrite !Forall_app.
      repeat match goal with |- _ /\ _ => split end; try assumption;
        repeat (apply List.Forall_cons; [discriminate|]); apply List.Forall_nil. }
  split; [|split; [|split]].
  - intros st y x Ey Ex Hy Hx.
    destruct (fmt_d_int y Hy) as [Ly Ny]. destruct (fmt_d_int x Hx) as [Lx Nx].
    unfold reportCursorPosition. cbv zeta.
    replace (if Screen_getMode (world st) (_currentScreen st) (out st) MODE_Origin
             then getCursorY (world st) (_currentScreen st) (out st) + 1
                  - topMargin (world st) (_currentScreen st) (out st)
             else getCursorY (world st) (_currentScreen st) (out st) + 1) with y
      by (rewrite Ey; destruct (Screen_getMode _ _ _ _); lia).
    rewrite <- Ex. f_equal. apply snprintf_complete.
    + repeat (rewrite ?length_app; cbn [length]). lia.
    + rewrite !Forall_app.
      repeat match goal with |- _ /\ _ => split end; try assumption;
        repeat (apply List.Forall_cons; [discriminate|]); apply List.Forall_nil.
  - intros st lines columns El Ec Hl Hc.
    destruct (fmt_d_int lines Hl) as [Ll Nl]. destruct (fmt_d_int columns Hc) as [Lc Nc].
    unfold reportSize. cbv zeta. rewrite <- El, <- Ec. f_equal.
    change ([ESC] ++ codes "[8;" ++ fmt_d lines ++ [chr ";"] ++ fmt_d columns ++ [chr "t"])
      with ([ESC; chr "["; chr "8"; chr ";"] ++ fmt_d lines ++ [chr ";"]
            ++ fmt_d columns ++ [chr "t"]).
    apply snprintf_complete.
    + repeat (rewrite ?length_app; cbn [length]). lia.
    + rewrite !Forall_app.
      repeat match goal with |- _ /\ _ => split end; try assumption;
        repeat (apply List.Forall_cons; [discriminate|]); apply List.Forall_nil.
  - intros st Hid Hoff.
    destruct (Hreply st 0 Hid) as (_ & _ & E).
    unfold processChecksumRequest. cbv zeta. rewrite Hoff. exact E.
  - intros st Hid.
    unfold processChecksumRequest. cbv zeta.
    destruct (ENABLE_DECRQCRA (world st)).
    + match goal with
      | |- context [if ?c then st else _] => destruct c
      end; [left; reflexivity|].
      right.
      match goal with
      | |- context [to_int (- ?s)] => destruct (Hreply st s Hid) as (H1 & H3 & H4)
      end.
      eexists. split; [exact H1|]. split; [exact H3|exact H4].
    + right. destruct (Hreply st 0 Hid) as (H1 & H3 & H4).
      eexists. split; [exact H1|]. split; [exact H3|exact H4].
Qed.

Lemma reports_fit_their_buffers_witness :
  reportCursorPosition example_start
  = sendString ([ESC; chr "["] ++ fmt_d 1 ++ [chr ";"] ++ fmt_d 1 ++ [chr "R"])
      example_start
  /\ reportSize example_start
     = sendString ([ESC; chr "["; chr "8"; chr ";"] ++ fmt_d 24 ++ [chr ";"]
                   ++ fmt_d 80 ++ [chr "t"]) example_start
  /\ ENABLE_DECRQCRA (world example_start) = false
  /\ processChecksumRequest example_start
     = sendString ([ESC; chr "P"] ++ fmt_d (rd (argv example_start) 0)
                   ++ codes "!~0000" ++ [ESC; backslash]) example_start.
Proof.
  split; [|split; [|split]].
  - apply (proj1 reports_fit_their_buffers example_start 1 1);
      first [vm_compute; reflexivity | lia].
  - apply (proj1 (proj2 reports_fit_their_buffers) example_start 24 80);
      first [vm_compute; reflexivity | lia].
  - vm_compute. reflexivity.
  - apply (proj1 (proj2 (proj2 reports_fit_their_buffers)) example_start);
      [change (rd (argv example_start) 0) with 0; lia | vm_compute; reflexivity].
Defined.
